(** * kivy.uix.gridlayout: GridLayout and RecycleGridLayout

    A shallow embedding of [kivy/uix/gridlayout.py] and the properties of
    its layout pass.

    Numbers.  Kivy's numeric properties hold Python numbers; they are
    modelled by the canonical rationals [Qc], on which [=] is Leibniz
    equality, with [/] the true division of Python 3 (exact: the rounding of
    floats is not part of the model).

    Effects.  Every method runs in a state-and-exception monad over the
    object's attributes.  An exception keeps the attribute values written
    before it was raised, as in Python.  A local variable that aliases a
    list attribute ([cols = self._cols]) is modelled by running the loop on
    the attribute itself ([zoom]). *)

From Stdlib Require Import QArith Qcanon Qround ZArith Lia Lqa.
From stdpp Require Import base gmap list numbers sorting.

Open Scope Qc_scope.

(** ** Python values and exceptions *)

Inductive exn :=
| GridLayoutException
| TypeError
| AttributeError
| IndexError
| ZeroDivisionError
| ValueError.

Inductive Res (A : Type) :=
| Val (a : A)
| Exc (e : exn).
Arguments Val {A} a.
Arguments Exc {A} e.

(** [M S A]: a computation over a state [S] that returns an [A] or raises. *)
Definition M (S A : Type) : Type := S -> Res A * S.

Definition ret {S A} (a : A) : M S A := fun s => (Val a, s).
Definition raise {S A} (e : exn) : M S A := fun s => (Exc e, s).
Definition bind {S A B} (m : M S A) (k : A -> M S B) : M S B :=
  fun s => match m s with
           | (Val a, s') => k a s'
           | (Exc e, s') => (Exc e, s')
           end.
Definition get {S} : M S S := fun s => (Val s, s).
Definition modify {S} (f : S -> S) : M S unit := fun s => (Val tt, f s).

Notation "x <- m ;; k" := (bind m (fun x => k))
  (at level 20, m at level 99, k at level 200, only parsing).
Notation "' pat <- m ;; k" :=
  (bind m (fun x => match x with pat => k end))
  (at level 20, pat pattern, m at level 99, k at level 200, only parsing).

(** Run [m] on the part of the state selected by [getf]/[setf]. *)
Definition zoom {S L A} (getf : S -> L) (setf : L -> S -> S) (m : M L A)
  : M S A :=
  fun s => let '(r, l) := m (getf s) in (r, setf l s).

Definition lift_res {S A} (r : Res A) : M S A :=
  match r with Val a => ret a | Exc e => raise e end.

Fixpoint for_each {S A} (l : list A) (body : A -> M S unit) : M S unit :=
  match l with
  | [] => ret tt
  | a :: l' => _ <- body a ;; for_each l' body
  end.

(** A number from an integer literal. *)
Definition num (z : Z) : Qc := Q2Qc (inject_Z z).

(** [max(a, b)]: the first argument wins a tie. *)
Definition py_max (a b : Qc) : Qc := if bool_decide (a < b) then b else a.

(** [sum(l)]. *)
Definition py_sum (l : list Qc) : Qc := foldl Qcplus 0 l.

(** [a / b]. *)
Definition py_div (a b : Qc) : Res Qc :=
  if bool_decide (b = 0) then Exc ZeroDivisionError else Val (a / b).

(** Truth value of an optional number: [None] and [0] are false. *)
Definition truthy (o : option Qc) : bool :=
  match o with
  | Some v => negb (bool_decide (v = 0))
  | None => false
  end.

(** Truth value of an optional count ([cols], [rows], [smax]). *)
Definition truthy_count (o : option nat) : bool :=
  match o with
  | Some (S _) => true
  | _ => false
  end.

(** [nmax]: [max] over the arguments that are not [None]. *)
Definition nmax (args : list (option Qc)) : Res Qc :=
  match omap id args with
  | [] => Exc ValueError
  | v :: vs => Val (foldl py_max v vs)
  end.

(** A variable that holds a list or [None]. *)
Definition pylist (A : Type) : Type := option (list A).

Definition as_list {S A} (o : pylist A) : M S (list A) :=
  match o with
  | Some l => ret l
  | None => raise TypeError
  end.

(** Reading an attribute that [__init__] does not create. *)
Definition getattr {S A} (o : option A) : M S A :=
  match o with
  | Some v => ret v
  | None => raise AttributeError
  end.

(** Position addressed by a Python index in a list of length [n]. *)
Definition py_index (n : nat) (index : Z) : option nat :=
  if bool_decide (0 <= index < Z.of_nat n)%Z then Some (Z.to_nat index)
  else if bool_decide (- Z.of_nat n <= index < 0)%Z
       then Some (Z.to_nat (Z.of_nat n + index))
       else None.

(** [l[index]] on a list that is only read. *)
Definition lookup_item {S A} (l : list A) (index : Z) : M S A :=
  match py_index (length l) index with
  | Some k => match l !! k with
              | Some v => ret v
              | None => raise IndexError
              end
  | None => raise IndexError
  end.

(** [l[index]] *)
Definition getitem {A} (index : Z) : M (pylist A) A :=
  o <- get ;;
  l <- as_list o ;;
  lookup_item l index.

(** [l[index] = value] *)
Definition setitem {A} (index : Z) (value : A) : M (pylist A) unit :=
  o <- get ;;
  l <- as_list o ;;
  match py_index (length l) index with
  | Some k => modify (fun _ => Some (<[k := value]> l))
  | None => raise IndexError
  end.

(** [enumerate(l, start)] *)
Fixpoint enumerate_from {A} (start : nat) (l : list A) : list (nat * A) :=
  match l with
  | [] => []
  | a :: l' => (start, a) :: enumerate_from (S start) l'
  end.
Definition enumerate {A} (l : list A) : list (nat * A) := enumerate_from 0 l.

(** [divmod(i, n)] on naturals. *)
Definition py_divmod {S} (i n : nat) : M S (nat * nat) :=
  match n with
  | O => raise ZeroDivisionError
  | _ => ret (i / n, i mod n)%nat
  end.

(** [range(start, stop)] *)
Definition py_range (start stop : Z) : list Z := seqZ start (stop - start).

(** [range(start, stop, step)] for a step above 0: [start], [start + step],
    ... below [stop]. *)
Definition py_range_step (start stop step : Z) : list Z :=
  (fun i => start + i * step)%Z
    <$> seqZ 0 ((stop - start + step - 1) `div` step).

(** [int(ceil(count / float(d)))] *)
Definition ceil_div {S} (count d : nat) : M S nat :=
  match d with
  | O => raise ZeroDivisionError
  | _ => ret (Z.to_nat (Qceiling (inject_Z (Z.of_nat count)
                                  / inject_Z (Z.of_nat d))%Q))
  end.

(** ** Widgets *)

Module Widget.
Record t := mk {
  pos : Qc * Qc;
  size : Qc * Qc;
  size_hint : option Qc * option Qc
}.
Definition set_pos (p : Qc * Qc) (c : t) : t :=
  mk p (size c) (size_hint c).
Definition set_size (sz : Qc * Qc) (c : t) : t :=
  mk (pos c) sz (size_hint c).
Definition set_width (w : Qc) (c : t) : t :=
  mk (pos c) (w, snd (size c)) (size_hint c).
Definition set_height (h : Qc) (c : t) : t :=
  mk (pos c) (fst (size c), h) (size_hint c).
End Widget.

(** An element produced by [_iterate_layout]: [i, (x, y), (w, h)]. *)
Definition cell : Type := Z * (Qc * Qc) * (Qc * Qc).

(** ** GridLayout *)

Module GridLayout.

(** The attributes of a [GridLayout] that the layout code reads or
    writes.  [cols] and [rows] are bounded below by 0, hence naturals;
    [cols_minimum] and [rows_minimum] list the dict's items in iteration
    order.  [_cols] and [_rows] start as [None]; [_cols_sh] and
    [_rows_sh] do not exist before the first [_init_rows_cols_sizes]
    ([None] here: reading them raises [AttributeError]).  [children]
    holds the most recently added widget first. *)
Record t := mk {
  spacing : Qc * Qc;
  padding : Qc * Qc * Qc * Qc;
  cols : option nat;
  rows : option nat;
  col_default_width : Qc;
  row_default_height : Qc;
  col_force_default : bool;
  row_force_default : bool;
  cols_minimum : list (Z * Qc);
  rows_minimum : list (Z * Qc);
  minimum_width : Qc;
  minimum_height : Qc;
  x : Qc;
  y : Qc;
  width : Qc;
  height : Qc;
  children : list Widget.t;
  _cols : pylist Qc;
  _rows : pylist Qc;
  _cols_sh : pylist (option Qc);
  _rows_sh : pylist (option Qc)
}.

Definition set_children (v : list Widget.t) (self : t) : t :=
  mk (spacing self) (padding self) (cols self) (rows self)
     (col_default_width self) (row_default_height self)
     (col_force_default self) (row_force_default self) (cols_minimum self)
     (rows_minimum self) (minimum_width self) (minimum_height self)
     (x self) (y self) (width self) (height self) v (_cols self)
     (_rows self) (_cols_sh self) (_rows_sh self).

Definition set__cols (v : pylist Qc) (self : t) : t :=
  mk (spacing self) (padding self) (cols self) (rows self)
     (col_default_width self) (row_default_height self)
     (col_force_default self) (row_force_default self) (cols_minimum self)
     (rows_minimum self) (minimum_width self) (minimum_height self)
     (x self) (y self) (width self) (height self) (children self) v
     (_rows self) (_cols_sh self) (_rows_sh self).

Definition set__rows (v : pylist Qc) (self : t) : t :=
  mk (spacing self) (padding self) (cols self) (rows self)
     (col_default_width self) (row_default_height self)
     (col_force_default self) (row_force_default self) (cols_minimum self)
     (rows_minimum self) (minimum_width self) (minimum_height self)
     (x self) (y self) (width self) (height self) (children self)
     (_cols self) v (_cols_sh self) (_rows_sh self).

Definition set__cols_sh (v : pylist (option Qc)) (self : t) : t :=
  mk (spacing self) (padding self) (cols self) (rows self)
     (col_default_width self) (row_default_height self)
     (col_force_default self) (row_force_default self) (cols_minimum self)
     (rows_minimum self) (minimum_width self) (minimum_height self)
     (x self) (y self) (width self) (height self) (children self)
     (_cols self) (_rows self) v (_rows_sh self).

Definition set__rows_sh (v : pylist (option Qc)) (self : t) : t :=
  mk (spacing self) (padding self) (cols self) (rows self)
     (col_default_width self) (row_default_height self)
     (col_force_default self) (row_force_default self) (cols_minimum self)
     (rows_minimum self) (minimum_width self) (minimum_height self)
     (x self) (y self) (width self) (height self) (children self)
     (_cols self) (_rows self) (_cols_sh self) v.

Definition set_minimum_size (v : Qc * Qc) (self : t) : t :=
  mk (spacing self) (padding self) (cols self) (rows self)
     (col_default_width self) (row_default_height self)
     (col_force_default self) (row_force_default self) (cols_minimum self)
     (rows_minimum self) (fst v) (snd v) (x self) (y self) (width self)
     (height self) (children self) (_cols self) (_rows self)
     (_cols_sh self) (_rows_sh self).

(** [Widget.top]: the top edge, [y + height] (as [compute_layout] below
    writes it out). *)
Definition top (self : t) : Qc := y self + height self.

Definition get_max_widgets (self : t) : option nat :=
  if truthy_count (cols self) && truthy_count (rows self)
  then match rows self, cols self with
       | Some r, Some c => Some (r * c)%nat
       | _, _ => None
       end
  else None.

(** [on_children(self, instance, value)]: the observer of the [children]
    property; [value] is the list the property now holds. *)
Definition on_children (value : list Widget.t) : M t unit :=
  self <- get ;;
  let smax := get_max_widgets self in
  if truthy_count smax
     && bool_decide (default 0%nat smax < length value)%nat
  then raise GridLayoutException
  else ret tt.

(** The column and row counts [_init_rows_cols_sizes] settles on;
    [None] when neither [cols] nor [rows] is set. *)
Definition resolve_counts (count : nat) : M t (option (nat * nat)) :=
  self <- get ;;
  let current_cols := cols self in
  let current_rows := rows self in
  if negb (truthy_count current_cols) && negb (truthy_count current_rows)
  then ret None
  else
    ' (current_cols, current_rows) <-
      match current_cols, current_rows with
      | None, Some r => c <- ceil_div count r ;; ret (c, r)
      | None, None => raise TypeError
      | Some c, None => r <- ceil_div count c ;; ret (c, r)
      | Some c, Some r => ret (c, r)
      end ;;
    ret (Some (Nat.max 1 current_cols, Nat.max 1 current_rows)).

(** [for index, value in minimum.items(): l[index] = value] *)
Definition set_minimums (minimum : list (Z * Qc)) : M (pylist Qc) unit :=
  for_each minimum (fun '(index, value) => setitem index value).

(** Returns [True], or [None] (here [false]) when the grid has neither
    [cols] nor [rows]. *)
Definition _init_rows_cols_sizes (count : nat) : M t bool :=
  counts <- resolve_counts count ;;
  match counts with
  | None => ret false
  | Some (current_cols, current_rows) =>
      self <- get ;;
      _ <- modify (set__cols
                     (Some (replicate current_cols (col_default_width self)))) ;;
      _ <- modify (set__cols_sh (Some (replicate current_cols None))) ;;
      _ <- modify (set__rows
                     (Some (replicate current_rows (row_default_height self)))) ;;
      _ <- modify (set__rows_sh (Some (replicate current_rows None))) ;;
      _ <- zoom _cols set__cols (set_minimums (cols_minimum self)) ;;
      _ <- zoom _rows set__rows (set_minimums (rows_minimum self)) ;;
      ret true
  end.

(** [l[k] = nmax(l[k], v)] on a list of sizes. *)
Definition raise_size (k : nat) (v : Qc) : M (pylist Qc) unit :=
  cur <- getitem (Z.of_nat k) ;;
  m <- lift_res (nmax [Some cur; Some v]) ;;
  setitem (Z.of_nat k) m.

(** [l[k] = nmax(l[k], sh)] on a list of stretch hints. *)
Definition raise_hint (k : nat) (sh : Qc) : M (pylist (option Qc)) unit :=
  cur <- getitem (Z.of_nat k) ;;
  m <- lift_res (nmax [cur; Some sh]) ;;
  setitem (Z.of_nat k) (Some m).

(** The body of the loop of [_fill_rows_cols_sizes] after [divmod]:
    "compute minimum size / maximum stretch needed". *)
Definition fill_cell (row col : nat) (size_hint : option Qc * option Qc)
    (size : Qc * Qc) : M t unit :=
  let '(shw, shh) := size_hint in
  let '(w, h) := size in
  _ <- match shw with
       | None => zoom _cols set__cols (raise_size col w)
       | Some shw => zoom _cols_sh set__cols_sh (raise_hint col shw)
       end ;;
  match shh with
  | None => zoom _rows set__rows (raise_size row h)
  | Some shh => zoom _rows_sh set__rows_sh (raise_hint row shh)
  end.

Definition _fill_rows_cols_sizes : M t unit :=
  self <- get ;;
  _ <- getattr (_cols_sh self) ;;
  _ <- getattr (_rows_sh self) ;;
  cols_l <- as_list (_cols self) ;;
  let n_cols := length cols_l in
  for_each (enumerate (rev (children self)))
    (fun '(i, child) =>
       ' (row, col) <- py_divmod i n_cols ;;
       fill_cell row col (Widget.size_hint child) (Widget.size child)).

Definition _update_minimum_size : M t unit :=
  self <- get ;;
  let '(l, t, r, b) := padding self in
  let '(spacing_x, spacing_y) := spacing self in
  cols_l <- as_list (_cols self) ;;
  rows_l <- as_list (_rows self) ;;
  let width := l + r + spacing_x * num (Z.of_nat (length cols_l) - 1) in
  let height := t + b + spacing_y * num (Z.of_nat (length rows_l) - 1) in
  let width := width + py_sum cols_l in
  let height := height + py_sum rows_l in
  modify (set_minimum_size (width, height)).

(** [sum([x for x in sh if x])] *)
Definition stretch_weight (sh : list (option Qc)) : Qc :=
  py_sum (omap (fun x => if truthy x then x else None) sh).

(** [l[index] += strech * stretch / weigth] *)
Definition add_stretch (index : nat) (strech stretch weigth : Qc)
  : M (pylist Qc) unit :=
  cur <- getitem (Z.of_nat index) ;;
  share <- lift_res (py_div (strech * stretch) weigth) ;;
  setitem (Z.of_nat index) (cur + share).

(** The body of the stretch loops: a slot without stretch information is
    skipped. *)
Definition stretch_slot (index : nat) (stretch : option Qc)
    (strech weigth : Qc) : M (pylist Qc) unit :=
  match stretch with
  | Some v => if truthy stretch then add_stretch index strech v weigth
              else ret tt
  | None => ret tt
  end.

(** The force-default branch: a new list, stored only once it is filled. *)
Definition forced_sizes (n : nat) (default : Qc) (minimum : list (Z * Qc))
  : Res (list Qc) :=
  match set_minimums minimum (Some (replicate n default)) with
  | (Val _, Some l) => Val l
  | (Val _, None) => Exc TypeError
  | (Exc e, _) => Exc e
  end.

Definition finalize_cols : M t unit :=
  self <- get ;;
  let selfw := width self in
  if col_force_default self then
    cols_l <- as_list (_cols self) ;;
    cols <- lift_res (forced_sizes (length cols_l)
                        (col_default_width self) (cols_minimum self)) ;;
    modify (set__cols (Some cols))
  else
    cols_sh <- getattr (_cols_sh self) ;;
    let cols_weigth := stretch_weight cols_sh in
    let strech_w := py_max 0 (selfw - minimum_width self) in
    zoom _cols set__cols
      (for_each (enumerate cols_sh) (fun '(index, col_stretch) =>
         stretch_slot index col_stretch strech_w cols_weigth)).

Definition finalize_rows : M t unit :=
  self <- get ;;
  let selfh := height self in
  if row_force_default self then
    rows_l <- as_list (_rows self) ;;
    rows <- lift_res (forced_sizes (length rows_l)
                        (row_default_height self) (rows_minimum self)) ;;
    modify (set__rows (Some rows))
  else
    rows_sh <- getattr (_rows_sh self) ;;
    let rows_weigth := stretch_weight rows_sh in
    let strech_h := py_max 0 (selfh - minimum_height self) in
    rows_l <- as_list (_rows self) ;;
    zoom _rows set__rows
      (for_each (seq 0 (length rows_l)) (fun index =>
         row_stretch <- lookup_item rows_sh (Z.of_nat index) ;;
         stretch_slot index row_stretch strech_h rows_weigth)).

(** "resolve size for each column", then "same algo for rows". *)
Definition _finalize_rows_cols_sizes : M t unit :=
  _ <- finalize_cols ;;
  finalize_rows.

(** The inner loop of [_iterate_layout] over the columns of one row;
    returns the cells yielded and the value of [i] after the loop. *)
Fixpoint iterate_cols (cols : list Qc) (i : Z) (x y row_height spacing_x : Qc)
  : list cell * Z :=
  match cols with
  | [] => ([], i)
  | col_width :: cols' =>
      if bool_decide (i < 0)%Z then ([], i)
      else
        let '(cells, i') :=
          iterate_cols cols' (i - 1)%Z (x + col_width + spacing_x) y
            row_height spacing_x in
        ((i, (x, y - row_height), (col_width, row_height)) :: cells, i')
  end.

Fixpoint iterate_rows (rows : list Qc) (cols : pylist Qc) (i : Z)
    (x0 y spacing_x spacing_y : Qc) : Res (list cell) :=
  match rows with
  | [] => Val []
  | row_height :: rows' =>
      match cols with
      | None => Exc TypeError
      | Some cols_l =>
          let '(cells, i') :=
            iterate_cols cols_l i x0 y row_height spacing_x in
          match iterate_rows rows' cols i' x0
                  (y - (row_height + spacing_y)) spacing_x spacing_y with
          | Val rest => Val (cells ++ rest)
          | Exc e => Exc e
          end
      end
  end.

(** The elements of the generator [_iterate_layout(count)], in order.  The
    consumers below change neither [_cols] nor [_rows] while they iterate,
    so that running the generator first yields the same elements. *)
Definition _iterate_layout (count : nat) : M t (list cell) :=
  self <- get ;;
  let selfx := x self in
  let '(padding_left, padding_top, _, _) := padding self in
  let '(spacing_x, spacing_y) := spacing self in
  let i := (Z.of_nat count - 1)%Z in
  let y := top self - padding_top in
  rows_l <- as_list (_rows self) ;;
  lift_res (iterate_rows rows_l (_cols self) i (selfx + padding_left) y
              spacing_x spacing_y).

(** The body of the loop of [do_layout] on the widget [c]. *)
Definition place (pos : Qc * Qc) (w h : Qc) (c : Widget.t) : Widget.t :=
  let c := Widget.set_pos pos c in
  let '(shw, shh) := Widget.size_hint c in
  match shw, shh with
  | None, None => c
  | None, Some _ => Widget.set_height h c
  | Some _, None => Widget.set_width w c
  | Some _, Some _ => Widget.set_size (w, h) c
  end.

Definition place_cell (ce : cell) : M (list Widget.t) unit :=
  let '(i, pos, (w, h)) := ce in
  children <- get ;;
  c <- lookup_item children i ;;
  modify (fun children =>
            match py_index (length children) i with
            | Some k => <[k := place pos w h c]> children
            | None => children
            end).

Definition do_layout : M t unit :=
  self <- get ;;
  let children_l := children self in
  failed <- match children_l with
            | [] => ret true
            | _ => ok <- _init_rows_cols_sizes (length children_l) ;;
                   ret (negb ok)
            end ;;
  _ <- (if (failed : bool) then
          let '(l, t, r, b) := padding self in
          modify (set_minimum_size (l + r, t + b))
        else ret tt) ;;
  _ <- _fill_rows_cols_sizes ;;
  _ <- _update_minimum_size ;;
  _ <- _finalize_rows_cols_sizes ;;
  cells <- _iterate_layout (length children_l) ;;
  zoom children set_children (for_each cells place_cell).

End GridLayout.

(** ** RecycleGridLayout *)

Module RecycleGridLayout.

(** An entry of [view_opts]: the dict of one view, with the keys the grid
    uses.  ['pos'] holds [None] until the view is first placed. *)
Record ViewOpt := mk_opt {
  opt_size_hint : option Qc * option Qc;
  opt_size : Qc * Qc;
  opt_pos : option (Qc * Qc)
}.

(** An entry of [_changed_views], without the two fields that
    [_update_rows_cols_sizes] ignores:
    [index, widget, (w, h), (wn, hn), sh, shn].  A widget is known by a
    handle. *)
Record Changed := mk_changed {
  ch_index : nat;
  ch_widget : nat;
  ch_size : Qc * Qc;
  ch_new_size : Qc * Qc;
  ch_sh : option Qc * option Qc;
  ch_shn : option Qc * option Qc
}.

(** Calls of methods that [RecycleLayout] defines outside this file. *)
Inductive call :=
| clear_layout
| remove_view (widget index : nat).

(** The attributes of a [RecycleGridLayout]: those of [GridLayout]
    ([grid]), [view_opts] and [_changed_views] as
    [RecycleLayout.compute_layout] leaves them, the histograms
    [_cols_count] and [_rows_count] (created by the first
    [_fill_rows_cols_sizes]: [None] before), the boundaries [_cols_pos]
    and [_rows_pos], and the calls made so far, latest first. *)
Record t := mk {
  grid : GridLayout.t;
  view_opts : list ViewOpt;
  _changed_views : pylist Changed;
  _cols_count : pylist (gmap Qc Z);
  _rows_count : pylist (gmap Qc Z);
  _cols_pos : pylist (option Qc);
  _rows_pos : pylist (option Qc);
  calls : list call
}.

Definition set_grid (v : GridLayout.t) (self : t) : t :=
  mk v (view_opts self) (_changed_views self) (_cols_count self)
     (_rows_count self) (_cols_pos self) (_rows_pos self) (calls self).

Definition set_view_opts (v : list ViewOpt) (self : t) : t :=
  mk (grid self) v (_changed_views self) (_cols_count self)
     (_rows_count self) (_cols_pos self) (_rows_pos self) (calls self).

Definition set__cols_count (v : pylist (gmap Qc Z)) (self : t) : t :=
  mk (grid self) (view_opts self) (_changed_views self) v
     (_rows_count self) (_cols_pos self) (_rows_pos self) (calls self).

Definition set__rows_count (v : pylist (gmap Qc Z)) (self : t) : t :=
  mk (grid self) (view_opts self) (_changed_views self) (_cols_count self)
     v (_cols_pos self) (_rows_pos self) (calls self).

Definition set__cols_pos (v : pylist (option Qc)) (self : t) : t :=
  mk (grid self) (view_opts self) (_changed_views self) (_cols_count self)
     (_rows_count self) v (_rows_pos self) (calls self).

Definition set__rows_pos (v : pylist (option Qc)) (self : t) : t :=
  mk (grid self) (view_opts self) (_changed_views self) (_cols_count self)
     (_rows_count self) (_cols_pos self) v (calls self).

Definition log (c : call) (self : t) : t :=
  mk (grid self) (view_opts self) (_changed_views self) (_cols_count self)
     (_rows_count self) (_cols_pos self) (_rows_pos self) (c :: calls self).

(** An inherited method runs on the inherited attributes. *)
Definition super {A} (m : M GridLayout.t A) : M t A := zoom grid set_grid m.

(** [on_children] is overridden by [pass]. *)
Definition on_children (value : list Widget.t) : M t unit := ret tt.

(** [hist[k][v] += delta] on a list of [defaultdict(int)]. *)
Definition hist_add (k : nat) (v : Qc) (delta : Z)
  : M (pylist (gmap Qc Z)) unit :=
  d <- getitem (Z.of_nat k) ;;
  setitem (Z.of_nat k) (<[v := (default 0%Z (d !! v) + delta)%Z]> d).

(** [hist[k][v]] *)
Definition hist_get (k : nat) (v : Qc) : M (pylist (gmap Qc Z)) Z :=
  d <- getitem (Z.of_nat k) ;;
  ret (default 0%Z (d !! v)).

(** [del hist[k][v]], for a key that is present. *)
Definition hist_del (k : nat) (v : Qc) : M (pylist (gmap Qc Z)) unit :=
  d <- getitem (Z.of_nat k) ;;
  setitem (Z.of_nat k) (delete v d).

Definition _fill_rows_cols_sizes : M t unit :=
  self <- get ;;
  _ <- getattr (GridLayout._cols_sh (grid self)) ;;
  _ <- getattr (GridLayout._rows_sh (grid self)) ;;
  cols_l <- as_list (GridLayout._cols (grid self)) ;;
  _ <- modify (set__cols_count (Some (replicate (length cols_l) ∅))) ;;
  rows_l <- as_list (GridLayout._rows (grid self)) ;;
  _ <- modify (set__rows_count (Some (replicate (length rows_l) ∅))) ;;
  let n_cols := length cols_l in
  for_each (enumerate (view_opts self))
    (fun '(i, opt) =>
       let '(shw, shh) := opt_size_hint opt in
       let '(w, h) := opt_size opt in
       ' (row, col) <- py_divmod i n_cols ;;
       _ <- match shw with
            | None => zoom _cols_count set__cols_count (hist_add col w 1)
            | Some _ => ret tt
            end ;;
       _ <- match shh with
            | None => zoom _rows_count set__rows_count (hist_add row h 1)
            | Some _ => ret tt
            end ;;
       super (GridLayout.fill_cell row col (shw, shh) (w, h))).

(** One axis of the [else] branch of [_update_rows_cols_sizes], for a
    length that changed from [w] to [wn] in slot [col]: returns [true]
    where the source returns [True]. *)
Definition update_axis (sizes : pylist Qc) (col : nat) (w wn : Qc)
  : M (pylist (gmap Qc Z)) bool :=
  sizes_l <- as_list sizes ;;
  col_w <- lookup_item sizes_l (Z.of_nat col) ;;
  _ <- hist_add col w (-1) ;;
  _ <- hist_add col wn 1 ;;
  c <- hist_get col w ;;
  let was_last_w := bool_decide (c <= 0)%Z in
  if was_last_w && bool_decide (col_w = w) || bool_decide (col_w < wn)
  then ret true
  else if was_last_w then _ <- hist_del col w ;; ret false
       else ret false.

(** The body of the loop of [_update_rows_cols_sizes]: returns [true]
    where the source returns [True] from inside the loop. *)
Definition update_item (n_cols : nat) (ch : Changed) : M t bool :=
  let index := ch_index ch in
  let widget := ch_widget ch in
  let '(w, h) := ch_size ch in
  let '(wn, hn) := ch_new_size ch in
  let sh := ch_sh ch in
  let shn := ch_shn ch in
  if negb (bool_decide (sh = shn)) then ret true
  else if bool_decide (is_Some (fst sh)) && negb (bool_decide (w = wn))
          || bool_decide (is_Some (snd sh)) && negb (bool_decide (h = hn))
  then _ <- modify (log (remove_view widget index)) ;; ret false
  else
    ' (row, col) <- py_divmod index n_cols ;;
    self <- get ;;
    stop <- (if negb (bool_decide (w = wn))
             then zoom _cols_count set__cols_count
                    (update_axis (GridLayout._cols (grid self)) col w wn)
             else ret false) ;;
    if (stop : bool) then ret true
    else if negb (bool_decide (h = hn))
         then zoom _rows_count set__rows_count
                (update_axis (GridLayout._rows (grid self)) row h hn)
         else ret false.

Fixpoint update_loop (n_cols : nat) (changed : list Changed) : M t bool :=
  match changed with
  | [] => ret false
  | ch :: changed' =>
      stop <- update_item n_cols ch ;;
      if (stop : bool) then ret true else update_loop n_cols changed'
  end.

Definition _update_rows_cols_sizes (changed : list Changed) : M t bool :=
  self <- get ;;
  cols_count <- getattr (_cols_count self) ;;
  _ <- getattr (_rows_count self) ;;
  update_loop (length cols_count) changed.

(** The body of the loop of [compute_layout] on the dict [opt]. *)
Definition place_opt (p : Qc * Qc) (w h : Qc) (opt : ViewOpt) : ViewOpt :=
  let '(shw, shh) := opt_size_hint opt in
  let '(wo, ho) := opt_size opt in
  mk_opt (opt_size_hint opt)
    (match shw with None => wo | Some _ => w end,
     match shh with None => ho | Some _ => h end)
    (Some p).

Definition place_view (n : nat) (ce : cell) : M (list ViewOpt) unit :=
  let '(widget, p, (w, h)) := ce in
  view_opts <- get ;;
  let k := (Z.of_nat n - widget - 1)%Z in
  opt <- lookup_item view_opts k ;;
  modify (fun view_opts =>
            match py_index (length view_opts) k with
            | Some j => <[j := place_opt p w h opt]> view_opts
            | None => view_opts
            end).

(** [for i, val in enumerate(cols[1:], 1): cols_pos[i] = last; ...] *)
Fixpoint cols_pos_loop (tail : list (nat * Qc)) (last spacing_x : Qc)
  : M (pylist (option Qc)) unit :=
  match tail with
  | [] => ret tt
  | (i, val) :: tail' =>
      _ <- setitem (Z.of_nat i) (Some last) ;;
      cols_pos_loop tail' (last + (val + spacing_x)) spacing_x
  end.

(** [for i, val in enumerate(rows[1:], 1): last -= ...; rows_pos[n-1-i] = last] *)
Fixpoint rows_pos_loop (n : nat) (tail : list (nat * Qc))
    (last spacing_y : Qc) : M (pylist (option Qc)) unit :=
  match tail with
  | [] => ret tt
  | (i, val) :: tail' =>
      let last := last - (spacing_y + val) in
      _ <- setitem (Z.of_nat n - 1 - Z.of_nat i)%Z (Some last) ;;
      rows_pos_loop n tail' last spacing_y
  end.

(** The end of [compute_layout]: the boundaries of the columns and rows. *)
Definition set_boundaries : M t unit :=
  self <- get ;;
  let g := grid self in
  let '(spacing_x, spacing_y) := GridLayout.spacing g in
  let '(padding_left, padding_top, _, _) := GridLayout.padding g in
  cols <- as_list (GridLayout._cols g) ;;
  _ <- modify (set__cols_pos (Some (replicate (length cols) None))) ;;
  rows <- as_list (GridLayout._rows g) ;;
  _ <- modify (set__rows_pos (Some (replicate (length rows) None))) ;;
  _ <- zoom _cols_pos set__cols_pos (setitem 0 (Some (GridLayout.x g))) ;;
  cols_0 <- lookup_item cols 0 ;;
  let last := GridLayout.x g + padding_left + cols_0 + spacing_x / num 2 in
  _ <- zoom _cols_pos set__cols_pos
         (cols_pos_loop (enumerate_from 1 (drop 1 cols)) last spacing_x) ;;
  rows_0 <- lookup_item rows 0 ;;
  let last := GridLayout.y g + GridLayout.height g - padding_top - rows_0
              - spacing_y / num 2 in
  _ <- zoom _rows_pos set__rows_pos (setitem (-1) (Some last)) ;;
  let n := length rows in
  zoom _rows_pos set__rows_pos
    (rows_pos_loop n (enumerate_from 1 (drop 1 rows)) last spacing_y).

(** [compute_layout] from [self.clear_layout()] on: the full pass. *)
Definition full_pass (n : nat) : M t unit :=
  _ <- modify (log clear_layout) ;;
  ok <- super (GridLayout._init_rows_cols_sizes n) ;;
  if negb ok then
    _ <- super (modify (GridLayout.set__cols None)) ;;
    self <- get ;;
    let '(l, t, r, b) := GridLayout.padding (grid self) in
    super (modify (GridLayout.set_minimum_size (l + r, t + b)))
  else
    _ <- _fill_rows_cols_sizes ;;
    _ <- super GridLayout._update_minimum_size ;;
    _ <- super GridLayout._finalize_rows_cols_sizes ;;
    cells <- super (GridLayout._iterate_layout n) ;;
    _ <- zoom view_opts set_view_opts (for_each cells (place_view n)) ;;
    set_boundaries.

(** [compute_layout(data, flags)], after the call of
    [RecycleLayout.compute_layout] (outside this file) that opens it. *)
Definition compute_layout {Data Flags : Type} (data : list Data)
    (flags : Flags) : M t unit :=
  let n := length data in
  self <- get ;;
  let smax := GridLayout.get_max_widgets (grid self) in
  if truthy_count smax && bool_decide (default 0%nat smax < n)%nat
  then raise GridLayoutException
  else
    skip <- match _changed_views self with
            | None => ret true
            | Some [] => ret false
            | Some changed =>
                redo <- _update_rows_cols_sizes changed ;;
                ret (negb redo)
            end ;;
    if (skip : bool) then ret tt else full_pass n.

(** [for val in pos: if x < val: break; ix += 1], from [ix]. *)
Fixpoint scan {S} (x : Qc) (pos : list (option Qc)) (ix : Z) : M S Z :=
  match pos with
  | [] => ret ix
  | None :: _ => raise TypeError
  | Some val :: pos' =>
      if bool_decide (x < val) then ret ix else scan x pos' (ix + 1)%Z
  end.

(** One axis of [get_view_index_at]. *)
Definition axis_index {S} (x : Qc) (pos : list (option Qc))
    (sizes : pylist Qc) : M S Z :=
  bound <- lookup_item pos (-1) ;;
  match bound with
  | None => raise TypeError
  | Some bound =>
      if bool_decide (bound <= x)
      then sizes_l <- as_list sizes ;; ret (Z.of_nat (length sizes_l) - 1)%Z
      else scan x (drop 1 pos) 0%Z
  end.

Definition get_view_index_at (pos : Qc * Qc) : M t Z :=
  self <- get ;;
  match _cols_pos self with
  | None => ret 0%Z
  | Some col_pos =>
      let '(x, y) := pos in
      let row_pos := _rows_pos self in
      let cols := GridLayout._cols (grid self) in
      let rows := GridLayout._rows (grid self) in
      match col_pos, row_pos with
      | [], _ | _, None | _, Some [] => ret 0%Z
      | _, Some row_pos =>
          ix <- axis_index x col_pos cols ;;
          iy <- axis_index y row_pos rows ;;
          rows_l <- as_list rows ;;
          let iy := (Z.of_nat (length rows_l) - iy - 1)%Z in
          cols_l <- as_list cols ;;
          ret (iy * Z.of_nat (length cols_l) + ix)%Z
      end
  end.

(** [compute_visible_views(data, viewport)]: the indices of the views that
    the viewport [(x, y, w, h)] shows. *)
Definition compute_visible_views {Data : Type} (data : list Data)
    (viewport : Qc * Qc * Qc * Qc) : M t (list Z) :=
  self <- get ;;
  match _cols_pos self with
  | None => ret []
  | Some _ =>
      let '(x, y, w, h) := viewport in
      bl <- get_view_index_at (x, y) ;;
      br <- get_view_index_at (x + w, y) ;;
      tl <- get_view_index_at (x, y + h) ;;
      let n := Z.of_nat (length data) in
      cols_l <- as_list (GridLayout._cols (grid self)) ;;
      let row := Z.of_nat (length cols_l) in
      if bool_decide (row = 0)%Z then ret []
      else
        let x_slice := (br - bl + 1)%Z in
        ret (concat ((fun s => py_range (Z.min s n) (Z.min n (s + x_slice)))
                       <$> py_range_step tl (bl + 1) row))
  end.

End RecycleGridLayout.

(** ** Decidable equality, to check runs on given inputs by computation *)

Global Instance exn_eq_dec : EqDecision exn.
Proof. solve_decision. Defined.
Global Instance Res_eq_dec {A} `{EqDecision A} : EqDecision (Res A).
Proof. solve_decision. Defined.
Global Instance Widget_eq_dec : EqDecision Widget.t.
Proof. solve_decision. Defined.
Global Instance GridLayout_eq_dec : EqDecision GridLayout.t.
Proof. solve_decision. Defined.
Global Instance ViewOpt_eq_dec : EqDecision RecycleGridLayout.ViewOpt.
Proof. solve_decision. Defined.
Global Instance Changed_eq_dec : EqDecision RecycleGridLayout.Changed.
Proof. solve_decision. Defined.
Global Instance call_eq_dec : EqDecision RecycleGridLayout.call.
Proof. solve_decision. Defined.
Global Instance RecycleGridLayout_eq_dec : EqDecision RecycleGridLayout.t.
Proof. solve_decision. Defined.

(** Proves an equation between closed terms by evaluating both sides. *)
Ltac by_run := apply (bool_decide_unpack _); vm_compute; exact I.


(** * Properties *)

(** ** Running the monad *)

Ltac munfold :=
  unfold bind, ret, raise, get, modify, zoom, lift_res, as_list, getattr in *.

Lemma for_each_app {S A} (l1 l2 : list A) (body : A -> M S unit) (s : S) :
  for_each (l1 ++ l2) body s =
  match for_each l1 body s with
  | (Val _, s') => for_each l2 body s'
  | (Exc e, s') => (Exc e, s')
  end.
Proof.
  revert s. induction l1 as [|a l1 IH]; intros s; simpl; [done|].
  unfold bind. destruct (body a s) as [[[]|e] s']; [apply IH|done].
Qed.

(** ** Numbers *)

Lemma foldl_Qcplus (acc : Qc) (l : list Qc) :
  foldl Qcplus acc l = acc + foldl Qcplus 0 l.
Proof.
  revert acc. induction l as [|a l IH]; intros acc; simpl; [ring|].
  rewrite IH, (IH (0 + a)). ring.
Qed.

Lemma py_sum_cons (v : Qc) (l : list Qc) : py_sum (v :: l) = v + py_sum l.
Proof. unfold py_sum. simpl. rewrite foldl_Qcplus. ring. Qed.

Lemma py_sum_app (l1 l2 : list Qc) : py_sum (l1 ++ l2) = py_sum l1 + py_sum l2.
Proof.
  induction l1 as [|a l1 IH]; simpl.
  - unfold py_sum at 2. simpl. ring.
  - rewrite !py_sum_cons, IH. ring.
Qed.

Lemma py_index_nat (n k : nat) :
  py_index n (Z.of_nat k) = if bool_decide (k < n)%nat then Some k else None.
Proof.
  unfold py_index. repeat case_bool_decide; try lia.
  - by rewrite Nat2Z.id.
  - done.
Qed.

(** [int(ceil(n / float(c)))] is the least [r] with [n <= c * r]. *)
Lemma Qceiling_div (n c : Z) :
  (0 < c)%Z -> Qceiling (inject_Z n / inject_Z c)%Q = (- ((- n) / c))%Z.
Proof.
  intros Hc. destruct c as [|p|p]; try lia.
  unfold Qceiling, Qfloor, Qdiv, Qinv, Qmult, Qopp, inject_Z. simpl.
  rewrite Z.mul_1_r. done.
Qed.

Lemma ceil_div_spec {St} (n c : nat) (s : St) :
  (1 <= c)%nat ->
  exists r, ceil_div n c s = (Val r, s)
    /\ Z.of_nat r = Qceiling (inject_Z (Z.of_nat n) / inject_Z (Z.of_nat c))%Q
    /\ (n <= c * r)%nat
    /\ (1 <= n -> 1 <= r /\ c * (r - 1) < n)%nat.
Proof.
  intros Hc. unfold ceil_div. destruct c as [|c']; [lia|].
  set (c := S c') in *. unfold ret.
  eexists; split; [reflexivity|].
  rewrite Qceiling_div by lia.
  pose proof (Z.div_mod (- Z.of_nat n) (Z.of_nat c) ltac:(lia)) as Hdm.
  pose proof (Z.mod_pos_bound (- Z.of_nat n) (Z.of_nat c) ltac:(lia)) as Hm.
  set (q := (- Z.of_nat n / Z.of_nat c)%Z) in *.
  set (m := (- Z.of_nat n `mod` Z.of_nat c)%Z) in *.
  assert (q <= 0)%Z by nia.
  assert (Z.of_nat (Z.to_nat (- q)) = - q)%Z as Hq by lia.
  split; [done|]. split; [nia|]. intros Hn. split; nia.
Qed.
(** ** Lists addressed by Python indices *)

Lemma setitem_Some {A} (index : Z) (v : A) (l : list A) :
  setitem index v (Some l) =
  match py_index (length l) index with
  | Some k => (Val tt, Some (<[k := v]> l))
  | None => (Exc IndexError, Some l)
  end.
Proof. unfold setitem. munfold. simpl. by destruct (py_index _ _). Qed.

Lemma py_index_lt (n : nat) (index : Z) (k : nat) :
  py_index n index = Some k -> (k < n)%nat.
Proof.
  unfold py_index. repeat case_bool_decide; intros; simplify_eq; lia.
Qed.

Lemma py_index_in_range (n : nat) (index : Z) :
  (- Z.of_nat n <= index < Z.of_nat n)%Z -> is_Some (py_index n index).
Proof. unfold py_index. repeat case_bool_decide; eauto; lia. Qed.

(** The slot that the items of a minimum dict leave in position [k] of a
    list of length [n]: the value of the last item that addresses [k]. *)
Fixpoint override (n : nat) (minimum : list (Z * Qc)) (k : nat) : option Qc :=
  match minimum with
  | [] => None
  | (index, value) :: minimum' =>
      match override n minimum' k with
      | Some v => Some v
      | None => if bool_decide (py_index n index = Some k) then Some value
                else None
      end
  end.

(** Every key is an index of a list of length [n]. *)
Definition keys_in_range (n : nat) (minimum : list (Z * Qc)) : Prop :=
  Forall (fun item => - Z.of_nat n <= fst item < Z.of_nat n)%Z minimum.

Lemma set_minimums_length (minimum : list (Z * Qc)) (l : list Qc) r o :
  GridLayout.set_minimums minimum (Some l) = (r, o) ->
  exists l', o = Some l' /\ length l' = length l.
Proof.
  unfold GridLayout.set_minimums. revert l.
  induction minimum as [|[i v] m IH]; intros l; simpl.
  - munfold. intros [= <- <-]. eauto.
  - unfold bind. rewrite setitem_Some.
    destruct (py_index _ _) as [k|].
    + intros H. apply IH in H as (l' & -> & Hl).
      rewrite length_insert in Hl. eauto.
    + intros [= <- <-]. eauto.
Qed.

Lemma set_minimums_Val (minimum : list (Z * Qc)) (l : list Qc) :
  keys_in_range (length l) minimum ->
  exists l', GridLayout.set_minimums minimum (Some l) = (Val tt, Some l')
             /\ length l' = length l.
Proof.
  unfold GridLayout.set_minimums, keys_in_range. revert l.
  induction minimum as [|[i v] m IH]; intros l Hr; simpl.
  - munfold. eauto.
  - inversion Hr as [|? ? Hi Hm]; subst. simpl in Hi.
    unfold bind. rewrite setitem_Some.
    destruct (py_index_in_range _ _ Hi) as [k ->].
    destruct (IH (<[k := v]> l)) as (l' & -> & Hl).
    + by rewrite length_insert.
    + rewrite length_insert in Hl. eauto.
Qed.

Lemma set_minimums_lookup (minimum : list (Z * Qc)) (l l' : list Qc) (k : nat) :
  GridLayout.set_minimums minimum (Some l) = (Val tt, Some l') ->
  l' !! k = match override (length l) minimum k with
            | Some v => if bool_decide (k < length l)%nat then Some v else None
            | None => l !! k
            end.
Proof.
  unfold GridLayout.set_minimums. revert l.
  induction minimum as [|[i v] m IH]; intros l; simpl.
  - munfold. by intros [= <-].
  - unfold bind. rewrite setitem_Some.
    destruct (py_index (length l) i) as [j|] eqn:Hj; [|done].
    intros H. apply IH in H. rewrite length_insert in H. rewrite H.
    destruct (override (length l) m k) as [v'|]; [done|].
    case_bool_decide as Hk.
    + simplify_eq. apply py_index_lt in Hj as Hlt.
      rewrite list_lookup_insert_eq by done. by rewrite bool_decide_true.
    + rewrite list_lookup_insert_ne; [done|]. congruence.
Qed.

(** ** The shape of the grid *)

Lemma resolve_counts_state (count : nat) (self s : GridLayout.t) r :
  GridLayout.resolve_counts count self = (r, s) -> s = self.
Proof.
  unfold GridLayout.resolve_counts, ceil_div. munfold.
  destruct (_ && _); [by intros [= _ <-]|].
  destruct (GridLayout.cols self) as [[|c]|], (GridLayout.rows self) as [[|r']|];
    by intros [= _ <-].
Qed.

Lemma resolve_counts_floor (count : nat) (self s : GridLayout.t) (c r : nat) :
  GridLayout.resolve_counts count self = (Val (Some (c, r)), s) ->
  (1 <= c /\ 1 <= r)%nat.
Proof.
  unfold GridLayout.resolve_counts, ceil_div. munfold.
  destruct (_ && _); [done|].
  destruct (GridLayout.cols self) as [[|c']|], (GridLayout.rows self) as [[|r']|];
    intros [= <- <- _]; lia.
Qed.

(** What [_init_rows_cols_sizes] leaves behind when it returns [True]:
    lists of the resolved lengths. *)
Lemma init_Val (count : nat) (self self' : GridLayout.t) :
  GridLayout._init_rows_cols_sizes count self = (Val true, self') ->
  exists c r cs rs,
    GridLayout.resolve_counts count self = (Val (Some (c, r)), self)
    /\ GridLayout.set_minimums (GridLayout.cols_minimum self)
         (Some (replicate c (GridLayout.col_default_width self)))
       = (Val tt, Some cs)
    /\ GridLayout.set_minimums (GridLayout.rows_minimum self)
         (Some (replicate r (GridLayout.row_default_height self)))
       = (Val tt, Some rs)
    /\ self' = GridLayout.set__rows (Some rs)
                 (GridLayout.set__cols (Some cs)
                    (GridLayout.set__rows_sh (Some (replicate r None))
                       (GridLayout.set__cols_sh (Some (replicate c None))
                          self))).
Proof.
  unfold GridLayout._init_rows_cols_sizes. unfold bind at 1.
  destruct (GridLayout.resolve_counts count self) as [[[[c r]|]|e] s] eqn:Hres;
    [|by munfold|done].
  apply resolve_counts_state in Hres as Hs. subst s.
  munfold. simpl.
  destruct (GridLayout.set_minimums (GridLayout.cols_minimum self) _)
    as [[[]|e] o] eqn:Hc; [|done].
  apply set_minimums_length in Hc as Hc'. destruct Hc' as (cs & -> & Hcs).
  simpl.
  destruct (GridLayout.set_minimums (GridLayout.rows_minimum self) _)
    as [[[]|e] o] eqn:Hr; [|done].
  apply set_minimums_length in Hr as Hr'. destruct Hr' as (rs & -> & Hrs).
  intros [= <-]. exists c, r, cs, rs. done.
Qed.

(** C4: for every item count [n >= 1], a grid with [cols = k >= 1] and
    [rows] unset resolves to [ceil(n / k)] rows, the least [r] with
    [n <= k * r]; a grid with [rows = k >= 1] and [cols] unset resolves to
    [ceil(n / k)] columns; whatever the configuration, the resolved counts
    are at least 1; and the lists [_cols] and [_rows] that
    [_init_rows_cols_sizes] creates have the resolved lengths. *)
Theorem C4_resolved_counts (self : GridLayout.t) (n k : nat) :
  (1 <= n)%nat -> (1 <= k)%nat ->
  (GridLayout.cols self = Some k -> GridLayout.rows self = None ->
   exists r,
     GridLayout.resolve_counts n self = (Val (Some (k, r)), self)
     /\ Z.of_nat r
        = Qceiling (inject_Z (Z.of_nat n) / inject_Z (Z.of_nat k))%Q
     /\ (k * (r - 1) < n <= k * r)%nat)
  /\ (GridLayout.rows self = Some k -> GridLayout.cols self = None ->
      exists c,
        GridLayout.resolve_counts n self = (Val (Some (c, k)), self)
        /\ Z.of_nat c
           = Qceiling (inject_Z (Z.of_nat n) / inject_Z (Z.of_nat k))%Q
        /\ (k * (c - 1) < n <= k * c)%nat)
  /\ (forall c r s,
        GridLayout.resolve_counts n self = (Val (Some (c, r)), s) ->
        (1 <= c /\ 1 <= r)%nat)
  /\ (forall self',
        GridLayout._init_rows_cols_sizes n self = (Val true, self') ->
        exists c r cs rs,
          GridLayout.resolve_counts n self = (Val (Some (c, r)), self)
          /\ GridLayout._cols self' = Some cs /\ length cs = c
          /\ GridLayout._rows self' = Some rs /\ length rs = r).
Proof.
  intros Hn Hk. split; [|split; [|split]].
  - intros Hc Hr. unfold GridLayout.resolve_counts. munfold.
    rewrite Hc, Hr. destruct k as [|k']; [lia|].
    cbn [truthy_count negb andb].
    destruct (ceil_div_spec (St := GridLayout.t) n (S k') self Hk)
      as (r & -> & Hq & Hle & Hlt).
    destruct (Hlt Hn) as [H1 H2].
    exists r. rewrite !Nat.max_r by lia. auto.
  - intros Hr Hc. unfold GridLayout.resolve_counts. munfold.
    rewrite Hc, Hr. destruct k as [|k']; [lia|].
    cbn [truthy_count negb andb].
    destruct (ceil_div_spec (St := GridLayout.t) n (S k') self Hk)
      as (c & -> & Hq & Hle & Hlt).
    destruct (Hlt Hn) as [H1 H2].
    exists c. rewrite !Nat.max_r by lia. auto.
  - intros c r s. apply resolve_counts_floor.
  - intros self' H. apply init_Val in H as (c & r & cs & rs & Hres & Hc & Hr & ->).
    apply set_minimums_length in Hc as (? & [= <-] & Hc).
    apply set_minimums_length in Hr as (? & [= <-] & Hr).
    rewrite length_replicate in Hc, Hr.
    exists c, r, cs, rs. done.
Qed.

Definition C4_grid : GridLayout.t :=
  GridLayout.mk (0, 0) (0, 0, 0, 0) (Some 2%nat) None 0 0 false false [] []
    0 0 0 0 (num 200) (num 100) [] None None None None.

(** Five items in two columns: three rows. *)
Lemma C4_resolved_counts_witness :
  exists r,
    GridLayout.resolve_counts 5 C4_grid = (Val (Some (2%nat, r)), C4_grid)
    /\ Z.of_nat r = Qceiling (inject_Z 5 / inject_Z 2)%Q
    /\ (2 * (r - 1) < 5 <= 2 * r)%nat.
Proof.
  destruct (C4_resolved_counts C4_grid 5 2 ltac:(lia) ltac:(lia)) as [H _].
  apply H; reflexivity.
Defined.

(** ** Stretch distribution *)

Lemma lookup_item_nat {St A} (l : list A) (k : nat) (s : St) :
  lookup_item l (Z.of_nat k) s =
  match l !! k with
  | Some v => (Val v, s)
  | None => (Exc IndexError, s)
  end.
Proof.
  unfold lookup_item. rewrite py_index_nat. case_bool_decide as Hk.
  - by destruct (l !! k).
  - rewrite lookup_ge_None_2 by lia. done.
Qed.

Lemma getitem_Some {A} (k : nat) (l : list A) :
  getitem (Z.of_nat k) (Some l) =
  match l !! k with
  | Some v => (Val v, Some l)
  | None => (Exc IndexError, Some l)
  end.
Proof. unfold getitem. munfold. simpl. apply lookup_item_nat. Qed.

Lemma setitem_nat {A} (k : nat) (v : A) (l : list A) :
  (k < length l)%nat ->
  setitem (Z.of_nat k) v (Some l) = (Val tt, Some (<[k := v]> l)).
Proof.
  intros Hk. rewrite setitem_Some, py_index_nat. by rewrite bool_decide_true.
Qed.

Lemma insert_middle {A} (pre cur : list A) (c v : A) :
  <[length pre := v]> (pre ++ c :: cur) = pre ++ v :: cur.
Proof. rewrite insert_app_r_alt by lia. by rewrite Nat.sub_diag. Qed.

(** What the stretch loop adds to a slot with the stretch hint [stretch]:
    nothing when the hint is [None] or [0]. *)
Definition share (slack weight : Qc) (stretch : option Qc) : option Qc :=
  match stretch with
  | Some v => if truthy stretch then Some (slack * v / weight) else None
  | None => None
  end.

(** The sizes after the stretch loop. *)
Definition stretched (slack weight : Qc) (sizes : list Qc)
    (sh : list (option Qc)) : list Qc :=
  zip_with (fun c s => match share slack weight s with
                       | Some a => c + a
                       | None => c
                       end) sizes sh.

(** The amounts added to the slots that carry a stretch weight. *)
Definition shares (slack weight : Qc) (sh : list (option Qc)) : list Qc :=
  omap (share slack weight) sh.

Lemma stretch_slot_run (slack weight : Qc) (s : option Qc) (c : Qc)
    (pre cur : list Qc) :
  (truthy s = true -> weight <> 0) ->
  GridLayout.stretch_slot (length pre) s slack weight (Some (pre ++ c :: cur))
  = (Val tt, Some (pre ++ match share slack weight s with
                          | Some a => c + a
                          | None => c
                          end :: cur)).
Proof.
  intros Hw. unfold GridLayout.stretch_slot, share.
  destruct s as [v|]; [|done].
  destruct (truthy (Some v)) eqn:Ht; [|done].
  unfold GridLayout.add_stretch. unfold bind at 1.
  rewrite getitem_Some, list_lookup_middle by done.
  unfold bind at 1. unfold py_div.
  rewrite bool_decide_false by auto. simpl.
  rewrite setitem_nat by (rewrite length_app; simpl; lia).
  rewrite insert_middle. done.
Qed.

Lemma stretch_cols_loop (slack weight : Qc) (sh : list (option Qc))
    (pre cur : list Qc) :
  length cur = length sh ->
  (Exists (fun s => truthy s = true) sh -> weight <> 0) ->
  for_each (enumerate_from (length pre) sh)
    (fun '(index, s) => GridLayout.stretch_slot index s slack weight)
    (Some (pre ++ cur))
  = (Val tt, Some (pre ++ stretched slack weight cur sh)).
Proof.
  revert pre cur. induction sh as [|s sh IH]; intros pre cur Hlen Hw.
  - destruct cur; [|done]. done.
  - destruct cur as [|c cur]; [done|]. simpl in Hlen.
    cbn [enumerate_from for_each]. unfold bind.
    rewrite stretch_slot_run by (intros; apply Hw; by left).
    specialize (IH (pre ++ [match share slack weight s with
                             | Some a => c + a | None => c end]) cur).
    rewrite length_app, Nat.add_1_r in IH. rewrite <- !app_assoc in IH.
    simpl in IH. rewrite IH; [done|lia|]. intros; apply Hw; by right.
Qed.

Lemma stretch_rows_loop (slack weight : Qc) (sh_pre sh : list (option Qc))
    (pre cur : list Qc) :
  length cur = length sh -> length sh_pre = length pre ->
  (Exists (fun s => truthy s = true) sh -> weight <> 0) ->
  for_each (seq (length pre) (length cur))
    (fun index =>
       row_stretch <- lookup_item (sh_pre ++ sh) (Z.of_nat index) ;;
       GridLayout.stretch_slot index row_stretch slack weight)
    (Some (pre ++ cur))
  = (Val tt, Some (pre ++ stretched slack weight cur sh)).
Proof.
  revert sh_pre pre cur.
  induction sh as [|s sh IH]; intros sh_pre pre cur Hlen Hpre Hw.
  - destruct cur; [|done]. done.
  - destruct cur as [|c cur]; [done|]. simpl in Hlen.
    cbn [length seq for_each]. unfold bind at 1. unfold bind at 1.
    rewrite lookup_item_nat, <- Hpre, list_lookup_middle by done.
    rewrite Hpre.
    rewrite stretch_slot_run by (intros; apply Hw; by left).
    specialize (IH (sh_pre ++ [s])
                  (pre ++ [match share slack weight s with
                           | Some a => c + a | None => c end]) cur).
    rewrite !length_app in IH. simpl in IH. rewrite !Nat.add_1_r in IH.
    rewrite <- !app_assoc in IH. simpl in IH.
    rewrite IH; [done|lia|lia|].
    intros; apply Hw; by right.
Qed.

Lemma stretch_weight_cons (s : option Qc) (sh : list (option Qc)) :
  GridLayout.stretch_weight (s :: sh)
  = match s with
    | Some v => if truthy s then v + GridLayout.stretch_weight sh
                else GridLayout.stretch_weight sh
    | None => GridLayout.stretch_weight sh
    end.
Proof.
  unfold GridLayout.stretch_weight. simpl.
  destruct s as [v|]; [|done].
  destruct (truthy (Some v)); [|done]. simpl. apply py_sum_cons.
Qed.

(** The added amounts sum to the part of the slack that the weights of
    the list take of [weight]. *)
Lemma shares_sum (slack weight : Qc) (sh : list (option Qc)) :
  weight <> 0 ->
  py_sum (shares slack weight sh)
  = slack * GridLayout.stretch_weight sh / weight.
Proof.
  intros Hw. induction sh as [|s sh IH].
  - unfold GridLayout.stretch_weight, py_sum. simpl. field. done.
  - rewrite stretch_weight_cons.
    change (shares slack weight (s :: sh))
      with (match share slack weight s with
            | Some a => a :: shares slack weight sh
            | None => shares slack weight sh
            end).
    unfold share. destruct s as [v|]; [|done].
    destruct (truthy (Some v)); [|done].
    rewrite py_sum_cons, IH. field. done.
Qed.

Lemma stretch_weight_falsy (sh : list (option Qc)) :
  Forall (fun s => truthy s = false) sh ->
  GridLayout.stretch_weight sh = 0
  /\ forall slack weight sizes,
       length sizes = length sh -> stretched slack weight sizes sh = sizes.
Proof.
  induction 1 as [|s sh Hs _ [IH1 IH2]].
  - split; [done|]. by intros ? ? [|? ?].
  - split.
    + rewrite stretch_weight_cons. destruct s; [|done]. by rewrite Hs.
    + intros slack weight [|c sizes] Hlen; [done|]. simpl in *.
      unfold stretched in *. simpl. rewrite IH2 by lia.
      unfold share. destruct s; [|done]. by rewrite Hs.
Qed.

(** The amounts by which the slots that carry a stretch weight grew
    between [before] and [after]. *)
Fixpoint added (before after : list Qc) (sh : list (option Qc)) : list Qc :=
  match before, after, sh with
  | b :: before', a :: after', s :: sh' =>
      if truthy s then (a - b) :: added before' after' sh'
      else added before' after' sh'
  | _, _, _ => []
  end.

Lemma added_stretched (slack weight : Qc) (sizes : list Qc)
    (sh : list (option Qc)) :
  length sizes = length sh ->
  added sizes (stretched slack weight sizes sh) sh = shares slack weight sh.
Proof.
  revert sizes. induction sh as [|s sh IH]; intros [|c sizes] Hlen;
    try done.
  simpl in Hlen. unfold stretched, shares in *. simpl.
  rewrite IH by lia. unfold share.
  destruct s as [v|]; [|done]. destruct (truthy (Some v)); [|done].
  f_equal. ring.
Qed.

Lemma stretched_lookup (slack weight : Qc) (sizes : list Qc)
    (sh : list (option Qc)) (i : nat) (c : Qc) (s : option Qc) :
  sizes !! i = Some c -> sh !! i = Some s ->
  stretched slack weight sizes sh !! i
  = Some (if truthy s then c + slack * default 0 s / weight else c).
Proof.
  intros Hc Hs. unfold stretched. rewrite lookup_zip_with, Hc. simpl.
  rewrite Hs. simpl. unfold share. destruct s as [v|]; [|done].
  by destruct (truthy (Some v)).
Qed.

(** The stretch branch of one axis, as the theorem below states it for
    the columns and for the rows: the sizes [sizes'] after the loop, for
    the sizes [sizes] and hints [sh] before it. *)
Definition stretch_result (slack : Qc) (sizes sizes' : list Qc)
    (sh : list (option Qc)) : Prop :=
  let weight := GridLayout.stretch_weight sh in
  (forall i c s,
     sizes !! i = Some c -> sh !! i = Some s ->
     sizes' !! i
     = Some (if truthy s then c + slack * default 0 s / weight else c))
  /\ (weight <> 0 -> py_sum (added sizes sizes' sh) = slack)
  /\ (Forall (fun s => truthy s = false) sh ->
      sizes' = sizes /\ py_sum (added sizes sizes' sh) = 0).

Lemma stretched_result (slack : Qc) (sizes : list Qc)
    (sh : list (option Qc)) :
  length sizes = length sh ->
  stretch_result slack sizes
    (stretched slack (GridLayout.stretch_weight sh) sizes sh) sh.
Proof.
  intros Hlen. split; [|split].
  - intros i c s. apply stretched_lookup.
  - intros Hw. rewrite added_stretched, shares_sum by done. field. done.
  - intros Hf. destruct (stretch_weight_falsy sh Hf) as [Hw Hs].
    rewrite Hs by done. split; [done|].
    clear Hw Hs. revert sizes Hlen.
    induction Hf as [|s sh Hs _ IH]; intros [|c sizes] Hlen; try done.
    simpl. rewrite Hs. apply IH. simpl in Hlen. lia.
Qed.

Lemma weight_or_falsy (sh : list (option Qc)) :
  GridLayout.stretch_weight sh <> 0 \/ Forall (fun s => truthy s = false) sh ->
  Exists (fun s => truthy s = true) sh -> GridLayout.stretch_weight sh <> 0.
Proof.
  intros [H|H] Hex; [done|].
  apply Exists_exists in Hex as (s & Hin & Ht).
  rewrite Forall_forall in H. apply H in Hin. congruence.
Qed.

Lemma finalize_cols_stretch (self : GridLayout.t) (cols : list Qc)
    (sh : list (option Qc)) :
  GridLayout.col_force_default self = false ->
  GridLayout._cols self = Some cols ->
  GridLayout._cols_sh self = Some sh ->
  length cols = length sh ->
  GridLayout.stretch_weight sh <> 0 \/ Forall (fun s => truthy s = false) sh ->
  GridLayout.finalize_cols self
  = (Val tt,
     GridLayout.set__cols
       (Some (stretched
                (py_max 0 (GridLayout.width self
                           - GridLayout.minimum_width self))
                (GridLayout.stretch_weight sh) cols sh)) self).
Proof.
  intros Hf Hc Hsh Hlen Hw. unfold GridLayout.finalize_cols.
  munfold. rewrite Hf, Hsh. munfold. cbv beta iota. rewrite Hc.
  unfold enumerate.
  pose proof (stretch_cols_loop
                (py_max 0 (GridLayout.width self
                           - GridLayout.minimum_width self))
                (GridLayout.stretch_weight sh) sh [] cols Hlen
                (weight_or_falsy sh Hw)) as Hloop.
  simpl in Hloop. by rewrite Hloop.
Qed.

Lemma finalize_rows_stretch (self : GridLayout.t) (rows : list Qc)
    (sh : list (option Qc)) :
  GridLayout.row_force_default self = false ->
  GridLayout._rows self = Some rows ->
  GridLayout._rows_sh self = Some sh ->
  length rows = length sh ->
  GridLayout.stretch_weight sh <> 0 \/ Forall (fun s => truthy s = false) sh ->
  GridLayout.finalize_rows self
  = (Val tt,
     GridLayout.set__rows
       (Some (stretched
                (py_max 0 (GridLayout.height self
                           - GridLayout.minimum_height self))
                (GridLayout.stretch_weight sh) rows sh)) self).
Proof.
  intros Hf Hr Hsh Hlen Hw.
  pose proof (stretch_rows_loop
                (py_max 0 (GridLayout.height self
                           - GridLayout.minimum_height self))
                (GridLayout.stretch_weight sh) [] sh [] rows Hlen eq_refl
                (weight_or_falsy sh Hw)) as Hloop.
  simpl in Hloop. unfold GridLayout.finalize_rows.
  munfold. rewrite Hf, Hsh. munfold. cbv beta iota. rewrite Hr.
  munfold. cbv beta iota. rewrite Hr. by rewrite Hloop.
Qed.

(** C2 (as amended): in the stretch branch of [_finalize_rows_cols_sizes]
    (no force-default), with [slack_w = max(0, width - minimum_width)] and
    [weight] the sum of the nonzero stretch weights of the columns:
    every column with a nonzero stretch weight [s] grows by
    [slack_w * s / weight] and every other column keeps its size; if
    [weight] is not 0 the amounts added to the stretch columns sum to
    [slack_w]; if no column carries a nonzero stretch weight nothing is
    added, whatever [slack_w] is.  The same holds for the rows with
    [slack_h = max(0, height - minimum_height)]. *)
Theorem C2_stretch_distribution (self : GridLayout.t) :
  (forall cols sh,
     GridLayout.col_force_default self = false ->
     GridLayout._cols self = Some cols ->
     GridLayout._cols_sh self = Some sh ->
     length cols = length sh ->
     GridLayout.stretch_weight sh <> 0
     \/ Forall (fun s => truthy s = false) sh ->
     exists cols',
       GridLayout.finalize_cols self
       = (Val tt, GridLayout.set__cols (Some cols') self)
       /\ stretch_result
            (py_max 0 (GridLayout.width self - GridLayout.minimum_width self))
            cols cols' sh)
  /\ (forall rows sh,
        GridLayout.row_force_default self = false ->
        GridLayout._rows self = Some rows ->
        GridLayout._rows_sh self = Some sh ->
        length rows = length sh ->
        GridLayout.stretch_weight sh <> 0
        \/ Forall (fun s => truthy s = false) sh ->
        exists rows',
          GridLayout.finalize_rows self
          = (Val tt, GridLayout.set__rows (Some rows') self)
          /\ stretch_result
               (py_max 0 (GridLayout.height self
                          - GridLayout.minimum_height self))
               rows rows' sh).
Proof.
  split.
  - intros cols sh Hf Hc Hsh Hlen Hw. eexists. split.
    + by apply finalize_cols_stretch.
    + by apply stretched_result.
  - intros rows sh Hf Hr Hsh Hlen Hw. eexists. split.
    + by apply finalize_rows_stretch.
    + by apply stretched_result.
Qed.

(** The state before the finalize phase of a one-column grid, 200 wide,
    whose only child has the fixed width 100: no column carries a stretch
    weight. *)
Definition C2_fixed_grid : GridLayout.t :=
  GridLayout.mk (0, 0) (0, 0, 0, 0) (Some 1%nat) None 0 0 false false [] []
    (num 100) (num 50) 0 0 (num 200) (num 100)
    [Widget.mk (0, 0) (num 100, num 50) (None, None)]
    (Some [num 100]) (Some [num 50]) (Some [None]) (Some [None]).

(** C2, as stated, fails: without a stretch column the amounts added sum
    to 0 while [slack_w] is 100. *)
Lemma C2_counterexample :
  GridLayout.col_force_default C2_fixed_grid = false
  /\ GridLayout.finalize_cols C2_fixed_grid
     = (Val tt, GridLayout.set__cols (Some [num 100]) C2_fixed_grid)
  /\ py_max 0 (GridLayout.width C2_fixed_grid
               - GridLayout.minimum_width C2_fixed_grid) = num 100
  /\ py_sum (added [num 100] [num 100] [None]) = 0
  /\ py_sum (added [num 100] [num 100] [None])
     <> py_max 0 (GridLayout.width C2_fixed_grid
                  - GridLayout.minimum_width C2_fixed_grid).
Proof. repeat split; by_run. Qed.

(** The state before the finalize phase of a grid of two columns and one
    row, 300 wide, with the stretch hints 1 and 2. *)
Definition C2_stretch_grid : GridLayout.t :=
  GridLayout.mk (0, 0) (0, 0, 0, 0) (Some 2%nat) None 0 0 false false [] []
    0 0 0 0 (num 300) (num 100)
    [Widget.mk (0, 0) (0, 0) (Some (num 2), Some (num 1));
     Widget.mk (0, 0) (0, 0) (Some (num 1), Some (num 1))]
    (Some [0; 0]) (Some [0]) (Some [Some (num 1); Some (num 2)])
    (Some [Some (num 1)]).

(** The stretch hints 1 and 2 share a slack of 300. *)
Lemma C2_stretch_distribution_witness :
  exists cols',
    GridLayout.finalize_cols C2_stretch_grid
    = (Val tt, GridLayout.set__cols (Some cols') C2_stretch_grid)
    /\ stretch_result
         (py_max 0 (GridLayout.width C2_stretch_grid
                    - GridLayout.minimum_width C2_stretch_grid))
         [0; 0] cols' [Some (num 1); Some (num 2)].
Proof.
  destruct (C2_stretch_distribution C2_stretch_grid) as [H _].
  apply H; try reflexivity. left. by_run.
Defined.

(** ** Runs of [do_layout] on given grids *)

(** A widget with the stretch hints [(1, 1)]. *)
Definition stretchy (pos size : Qc * Qc) : Widget.t :=
  Widget.mk pos size (Some (num 1), Some (num 1)).

(** A grid as [GridLayout()] creates it, with neither [cols] nor [rows],
    the padding [1, 2, 3, 4], the size (400, 100), and one child. *)
Definition new_grid : GridLayout.t :=
  GridLayout.mk (0, 0) (num 1, num 2, num 3, num 4) None None 0 0
    false false [] [] 0 0 0 0 (num 400) (num 100)
    [stretchy (num 7, num 8) (num 100, num 100)]
    None None None None.

(** The same grid after a pass that was made while [cols] was 1 and the
    width 100: the lists of that pass are still there. *)
Definition stale_grid : GridLayout.t :=
  GridLayout.mk (0, 0) (num 1, num 2, num 3, num 4) None None 0 0
    false false [] [] 0 0 0 0 (num 400) (num 100)
    [stretchy (num 7, num 8) (num 100, num 100)]
    (Some [num 100]) (Some [num 100]) (Some [Some (num 1)])
    (Some [Some (num 1)]).

(** C1 (the code departs from the claim): on a grid with neither [cols]
    nor [rows], [do_layout] sets [minimum_size] to the padding sums and
    then goes on, as it has no [return] there.  On a new grid the pass
    raises [AttributeError]; on a grid that was laid out before, it lays
    the child out with the lists of the earlier pass and overwrites
    [minimum_size]. *)
Lemma C1_unconfigured_pass :
  GridLayout.do_layout new_grid
  = (Exc AttributeError,
     GridLayout.set_minimum_size (num 4, num 6) new_grid)
  /\ fst (GridLayout.do_layout stale_grid) = Val tt
  /\ GridLayout.children (snd (GridLayout.do_layout stale_grid))
     = [stretchy (num 1, num (-2)) (num 396, num 100)]
  /\ (GridLayout.minimum_width (snd (GridLayout.do_layout stale_grid)),
      GridLayout.minimum_height (snd (GridLayout.do_layout stale_grid)))
     = (num 104, num 106).
Proof. repeat split; by_run. Qed.

(** C8 (the code departs from the claim): on the grid above, which has
    lost its [cols] since it was laid out, a second pass right after the
    first leaves another [minimum_size] than the first. *)
Lemma C8_second_pass_differs :
  let first := GridLayout.do_layout stale_grid in
  let second := GridLayout.do_layout (snd first) in
  fst first = Val tt /\ fst second = Val tt
  /\ GridLayout.minimum_width (snd first) = num 104
  /\ GridLayout.minimum_width (snd second) = num 400
  /\ GridLayout.minimum_width (snd second)
     <> GridLayout.minimum_width (snd first).
Proof. repeat split; by_run. Qed.

(** A grid of two columns with one child and a minimum width for the
    column 2, which does not exist. *)
Definition C6_grid (cols_minimum : list (Z * Qc)) : GridLayout.t :=
  GridLayout.mk (0, 0) (0, 0, 0, 0) (Some 2%nat) None 0 0 false false
    cols_minimum [] 0 0 0 0 (num 200) (num 100)
    [stretchy (0, 0) (num 100, num 100)]
    None None None None.

(** C6, as stated, fails: a key of [cols_minimum] beyond the last column
    makes [_init_rows_cols_sizes], and with it the pass, raise
    [IndexError]; a negative key counts from the end, so that the key -1
    sets the size of the last column. *)
Lemma C6_counterexample :
  fst (GridLayout._init_rows_cols_sizes 1 (C6_grid [(2%Z, num 50)]))
  = Exc IndexError
  /\ fst (GridLayout.do_layout (C6_grid [(2%Z, num 50)])) = Exc IndexError
  /\ fst (GridLayout.do_layout (C6_grid [])) = Val tt
  /\ GridLayout._cols
       (snd (GridLayout._init_rows_cols_sizes 1 (C6_grid [((-1)%Z, num 50)])))
     = Some [0; num 50]
  /\ GridLayout._cols (snd (GridLayout._init_rows_cols_sizes 1 (C6_grid [])))
     = Some [0; 0].
Proof. repeat split; by_run. Qed.

(** C3: a grid with [cols=2] at the origin, of size (200, 100), without
    padding or spacing, and four children with the size hints (1, 1),
    whatever their sizes and positions before the pass and whatever an
    earlier pass left: after [do_layout] the children, in the order in
    which they were added, are at (0, 50), (100, 50), (0, 0), (100, 0),
    and each has the size (100, 50). *)
Theorem C3_two_by_two (x0 y0 x1 y1 x2 y2 x3 y3 w0 h0 w1 h1 w2 h2 w3 h3 : Qc)
    (minimum_width minimum_height : Qc) (_cols _rows : pylist Qc)
    (_cols_sh _rows_sh : pylist (option Qc)) :
  let self :=
    GridLayout.mk (0, 0) (0, 0, 0, 0) (Some 2%nat) None 0 0 false false
      [] [] minimum_width minimum_height 0 0 (num 200) (num 100)
      [stretchy (x3, y3) (w3, h3); stretchy (x2, y2) (w2, h2);
       stretchy (x1, y1) (w1, h1); stretchy (x0, y0) (w0, h0)]
      _cols _rows _cols_sh _rows_sh in
  fst (GridLayout.do_layout self) = Val tt
  /\ rev (GridLayout.children (snd (GridLayout.do_layout self)))
     = [stretchy (num 0, num 50) (num 100, num 50);
        stretchy (num 100, num 50) (num 100, num 50);
        stretchy (num 0, num 0) (num 100, num 50);
        stretchy (num 100, num 0) (num 100, num 50)]
  /\ GridLayout._cols (snd (GridLayout.do_layout self))
     = Some [num 100; num 100]
  /\ GridLayout._rows (snd (GridLayout.do_layout self))
     = Some [num 50; num 50].
Proof. repeat split; by_run. Qed.

(** ** What a method leaves alone *)

(** [m] keeps the part [f] of the state, whether it returns or raises,
    and never raises [GridLayoutException]. *)
Definition tame {St A X} (f : St -> X) (m : M St A) : Prop :=
  forall s, f (snd (m s)) = f s /\ fst (m s) <> Exc GridLayoutException.

Lemma tame_ret {St A X} (f : St -> X) (a : A) : tame f (ret a).
Proof. by intros s. Qed.

Lemma tame_raise {St A X} (f : St -> X) (e : exn) :
  e <> GridLayoutException -> tame f (raise (A := A) e).
Proof. intros He s. split; [done|]. simpl. congruence. Qed.

Lemma tame_get {St X} (f : St -> X) : tame f get.
Proof. by intros s. Qed.

Lemma tame_modify {St X} (f : St -> X) (g : St -> St) :
  (forall s, f (g s) = f s) -> tame f (modify g).
Proof. intros Hg s. split; [apply Hg|done]. Qed.

Lemma tame_bind {St A B X} (f : St -> X) (m : M St A) (k : A -> M St B) :
  tame f m -> (forall a, tame f (k a)) -> tame f (bind m k).
Proof.
  intros Hm Hk s. unfold bind. destruct (Hm s) as [H1 H2].
  destruct (m s) as [[a|e] s1]; simpl in *.
  - destruct (Hk a s1) as [H3 H4]. split; [congruence|done].
  - split; [done|]. intros [= ->]. by apply H2.
Qed.

Lemma tame_zoom {St L A X} (f : St -> X) (getf : St -> L)
    (setf : L -> St -> St) (m : M L A) :
  (forall l s, f (setf l s) = f s) -> tame (fun _ => tt) m ->
  tame f (zoom getf setf m).
Proof.
  intros Hset Hm s. unfold zoom. destruct (Hm (getf s)) as [_ H].
  destruct (m (getf s)) as [r l]. split; [apply Hset|done].
Qed.

Lemma tame_for_each {St A X} (f : St -> X) (l : list A)
    (body : A -> M St unit) :
  (forall a, tame f (body a)) -> tame f (for_each l body).
Proof.
  intros Hb. induction l as [|a l IH]; simpl.
  - apply tame_ret.
  - apply tame_bind; [apply Hb|by intros _].
Qed.

Lemma tame_lift_res {St A X} (f : St -> X) (r : Res A) :
  r <> Exc GridLayoutException -> tame f (lift_res (S := St) r).
Proof.
  intros Hr. destruct r as [a|e]; simpl.
  - apply tame_ret.
  - apply tame_raise. congruence.
Qed.

Lemma tame_state {St A X} (f : St -> X) (m : M St A) (s s' : St) r :
  tame f m -> m s = (r, s') -> f s' = f s.
Proof. intros Hm H. destruct (Hm s) as [Hf _]. by rewrite H in Hf. Qed.

Lemma tame_exn {St A X} (f : St -> X) (m : M St A) (s s' : St) e :
  tame f m -> m s = (Exc e, s') -> e <> GridLayoutException.
Proof.
  intros Hm H. destruct (Hm s) as [_ He]. rewrite H in He. simpl in He.
  congruence.
Qed.

Lemma nmax_tame (args : list (option Qc)) :
  nmax args <> Exc GridLayoutException.
Proof. unfold nmax. by destruct (omap id args). Qed.

Lemma py_div_tame (a b : Qc) : py_div a b <> Exc GridLayoutException.
Proof. unfold py_div. by case_bool_decide. Qed.

(** Splits a goal [tame f m] along the structure of [m]. *)
Ltac tame_step :=
  lazymatch goal with
  | |- tame _ (ret _) => apply tame_ret
  | |- tame _ get => apply tame_get
  | |- tame _ (raise _) => apply tame_raise; discriminate
  | |- tame _ (modify _) => apply tame_modify; intros; reflexivity
  | |- tame _ (bind _ _) => apply tame_bind; [|intros ?]
  | |- tame _ (zoom _ _ _) => apply tame_zoom; [intros; reflexivity|]
  | |- tame _ (for_each _ _) => apply tame_for_each; intros ?
  | |- tame _ (lift_res _) =>
      apply tame_lift_res; try first [apply nmax_tame | apply py_div_tame]
  | |- tame _ (match ?d with _ => _ end) => destruct d
  | |- tame _ (let _ := _ in _) => cbv zeta
  end.

Ltac tame_auto := repeat tame_step.

Lemma as_list_tame {St A X} (f : St -> X) (o : pylist A) :
  tame f (as_list (S := St) o).
Proof. unfold as_list. tame_auto. Qed.

Lemma getattr_tame {St A X} (f : St -> X) (o : option A) :
  tame f (getattr (S := St) o).
Proof. unfold getattr. tame_auto. Qed.

Lemma lookup_item_tame {St A X} (f : St -> X) (l : list A) (index : Z) :
  tame f (lookup_item (S := St) l index).
Proof. unfold lookup_item. tame_auto. Qed.

Lemma py_divmod_tame {St X} (f : St -> X) (i n : nat) :
  tame f (py_divmod (S := St) i n).
Proof. unfold py_divmod. tame_auto. Qed.

Lemma ceil_div_tame {St X} (f : St -> X) (count d : nat) :
  tame f (ceil_div (S := St) count d).
Proof. unfold ceil_div. tame_auto. Qed.

Lemma getitem_tame {A} (index : Z) :
  tame (fun _ => tt) (getitem (A := A) index).
Proof.
  unfold getitem. tame_auto; [apply as_list_tame|apply lookup_item_tame].
Qed.

Lemma setitem_tame {A} (index : Z) (v : A) :
  tame (fun _ => tt) (setitem index v).
Proof. unfold setitem. tame_auto. apply as_list_tame. Qed.

Ltac tame_lib :=
  lazymatch goal with
  | |- tame _ (as_list _) => apply as_list_tame
  | |- tame _ (getattr _) => apply getattr_tame
  | |- tame _ (lookup_item _ _) => apply lookup_item_tame
  | |- tame _ (py_divmod _ _) => apply py_divmod_tame
  | |- tame _ (ceil_div _ _) => apply ceil_div_tame
  | |- tame _ (getitem _) => apply getitem_tame
  | |- tame _ (setitem _ _) => apply setitem_tame
  end.

Ltac tame_all := repeat first [tame_lib | tame_step].

(** The configuration of a grid and its place: what no layout method
    assigns. *)
Definition config (self : GridLayout.t) :=
  (GridLayout.spacing self, GridLayout.padding self, GridLayout.cols self,
   GridLayout.rows self, GridLayout.col_default_width self,
   GridLayout.row_default_height self, GridLayout.col_force_default self,
   GridLayout.row_force_default self, GridLayout.cols_minimum self,
   GridLayout.rows_minimum self, GridLayout.x self, GridLayout.y self,
   GridLayout.width self, GridLayout.height self).

Lemma set_minimums_tame (minimum : list (Z * Qc)) :
  tame (fun _ => tt) (GridLayout.set_minimums minimum).
Proof. unfold GridLayout.set_minimums. tame_all. Qed.

Lemma resolve_counts_tame {X} (f : GridLayout.t -> X) (count : nat) :
  tame f (GridLayout.resolve_counts count).
Proof. unfold GridLayout.resolve_counts. tame_all. Qed.

Lemma init_tame (count : nat) :
  tame (fun s => (config s, GridLayout.children s))
    (GridLayout._init_rows_cols_sizes count).
Proof.
  unfold GridLayout._init_rows_cols_sizes. tame_all;
    first [apply resolve_counts_tame | apply set_minimums_tame].
Qed.

Lemma fill_cell_tame (row col : nat) (size_hint : option Qc * option Qc)
    (size : Qc * Qc) :
  tame (fun s => (config s, GridLayout.children s))
    (GridLayout.fill_cell row col size_hint size).
Proof.
  unfold GridLayout.fill_cell, GridLayout.raise_size, GridLayout.raise_hint.
  destruct size_hint as [shw shh], size as [w h]. tame_all.
Qed.

Lemma fill_tame :
  tame (fun s => (config s, GridLayout.children s))
    GridLayout._fill_rows_cols_sizes.
Proof.
  unfold GridLayout._fill_rows_cols_sizes. tame_all. apply fill_cell_tame.
Qed.

Lemma update_minimum_size_tame :
  tame (fun s => (config s, GridLayout.children s, GridLayout._cols s,
                  GridLayout._rows s, GridLayout._cols_sh s,
                  GridLayout._rows_sh s))
    GridLayout._update_minimum_size.
Proof. unfold GridLayout._update_minimum_size. tame_all. Qed.

Lemma stretch_slot_tame (index : nat) (stretch : option Qc)
    (strech weigth : Qc) :
  tame (fun _ => tt) (GridLayout.stretch_slot index stretch strech weigth).
Proof.
  unfold GridLayout.stretch_slot, GridLayout.add_stretch. tame_all.
Qed.

Lemma forced_sizes_tame (n : nat) (d : Qc) (minimum : list (Z * Qc)) :
  GridLayout.forced_sizes n d minimum <> Exc GridLayoutException.
Proof.
  unfold GridLayout.forced_sizes.
  destruct (set_minimums_tame minimum (Some (replicate n d)))
    as [_ H].
  destruct (GridLayout.set_minimums _ _) as [[[]|e] [l|]]; try done.
  all: simpl in H; congruence.
Qed.

Lemma finalize_cols_tame :
  tame (fun s => (config s, GridLayout.children s, GridLayout._rows s,
                  GridLayout._cols_sh s, GridLayout._rows_sh s,
                  GridLayout.minimum_width s, GridLayout.minimum_height s))
    GridLayout.finalize_cols.
Proof.
  unfold GridLayout.finalize_cols. tame_all;
    first [apply forced_sizes_tame | apply stretch_slot_tame].
Qed.

Lemma finalize_rows_tame :
  tame (fun s => (config s, GridLayout.children s, GridLayout._cols s,
                  GridLayout._cols_sh s, GridLayout._rows_sh s,
                  GridLayout.minimum_width s, GridLayout.minimum_height s))
    GridLayout.finalize_rows.
Proof.
  unfold GridLayout.finalize_rows. tame_all;
    first [apply forced_sizes_tame | apply stretch_slot_tame].
Qed.

Lemma iterate_rows_tame (rows : list Qc) (cols : pylist Qc) (i : Z)
    (x0 y spacing_x spacing_y : Qc) :
  GridLayout.iterate_rows rows cols i x0 y spacing_x spacing_y
  <> Exc GridLayoutException.
Proof.
  revert i y. induction rows as [|r rows IH]; intros i y; simpl; [done|].
  destruct cols as [cols_l|]; [|done].
  destruct (GridLayout.iterate_cols _ _ _ _ _ _) as [cells i'].
  specialize (IH i' (y - (r + spacing_y))).
  destruct (GridLayout.iterate_rows _ _ _ _ _ _ _); [done|congruence].
Qed.

Lemma iterate_layout_tame (count : nat) :
  tame (fun s => s) (GridLayout._iterate_layout count).
Proof.
  unfold GridLayout._iterate_layout. tame_all. apply iterate_rows_tame.
Qed.

Lemma place_cell_tame (ce : cell) :
  tame (fun _ => tt) (GridLayout.place_cell ce).
Proof.
  unfold GridLayout.place_cell. destruct ce as [[i pos] [w h]]. tame_all.
Qed.

Lemma tame_weaken {St A X Y} (f : St -> X) (g : St -> Y) (m : M St A) :
  tame f m -> (forall s s', f s' = f s -> g s' = g s) -> tame g m.
Proof. intros Hm Hfg s. destruct (Hm s) as [H1 H2]. auto. Qed.

Lemma bind_Val {St A B} (m : M St A) (k : A -> M St B) (s s' : St) (b : B) :
  bind m k s = (Val b, s') ->
  exists a s1, m s = (Val a, s1) /\ k a s1 = (Val b, s').
Proof.
  unfold bind. destruct (m s) as [[a|e] s1]; [eauto|done].
Qed.

(** Uses what is known of the methods of [GridLayout], for any part of
    the state that they keep. *)
Ltac tame_known :=
  lazymatch goal with
  | |- tame _ (GridLayout._init_rows_cols_sizes _) =>
      eapply tame_weaken; [apply init_tame|]
  | |- tame _ GridLayout._fill_rows_cols_sizes =>
      eapply tame_weaken; [apply fill_tame|]
  | |- tame _ GridLayout._update_minimum_size =>
      eapply tame_weaken; [apply update_minimum_size_tame|]
  | |- tame _ GridLayout.finalize_cols =>
      eapply tame_weaken; [apply finalize_cols_tame|]
  | |- tame _ GridLayout.finalize_rows =>
      eapply tame_weaken; [apply finalize_rows_tame|]
  | |- tame _ (GridLayout._iterate_layout _) =>
      eapply tame_weaken; [apply iterate_layout_tame|]
  | |- tame _ (GridLayout.place_cell _) => apply place_cell_tame
  end;
  try (intros ? ? ?; unfold config in *; simpl in *; congruence).

Ltac tame_solve := repeat first [tame_known | tame_lib | tame_step].

Lemma finalize_tame :
  tame (fun s => (config s, GridLayout.children s))
    GridLayout._finalize_rows_cols_sizes.
Proof. unfold GridLayout._finalize_rows_cols_sizes. tame_solve. Qed.

(** No layout method assigns the configuration, and [do_layout] never
    raises [GridLayoutException]. *)
Lemma do_layout_tame : tame config GridLayout.do_layout.
Proof.
  unfold GridLayout.do_layout, GridLayout._finalize_rows_cols_sizes.
  tame_solve.
Qed.

(** ** Forced default sizes *)

Lemma forced_sizes_spec (n : nat) (d : Qc) (minimum : list (Z * Qc))
    (l : list Qc) :
  GridLayout.forced_sizes n d minimum = Val l ->
  length l = n
  /\ forall k, (k < n)%nat ->
       l !! k = Some (default d (override n minimum k)).
Proof.
  unfold GridLayout.forced_sizes.
  destruct (GridLayout.set_minimums _ _) as [[[]|e] [l'|]] eqn:H;
    intros [= <-].
  pose proof (set_minimums_length _ _ _ _ H) as (? & [= <-] & Hlen).
  rewrite length_replicate in Hlen. split; [done|].
  intros k Hk. rewrite (set_minimums_lookup _ _ _ k H).
  rewrite length_replicate.
  destruct (override n minimum k); simpl.
  - by rewrite bool_decide_true.
  - by apply lookup_replicate_2.
Qed.

Lemma forced_sizes_Val (n : nat) (d : Qc) (minimum : list (Z * Qc)) :
  keys_in_range n minimum ->
  exists l, GridLayout.forced_sizes n d minimum = Val l.
Proof.
  intros Hr. unfold GridLayout.forced_sizes.
  destruct (set_minimums_Val minimum (replicate n d)) as (l & -> & _).
  - by rewrite length_replicate.
  - eauto.
Qed.

Lemma finalize_cols_forced (self s : GridLayout.t) :
  GridLayout.col_force_default self = true ->
  GridLayout.finalize_cols self = (Val tt, s) ->
  exists cols0 l,
    GridLayout._cols self = Some cols0
    /\ GridLayout.forced_sizes (length cols0)
         (GridLayout.col_default_width self) (GridLayout.cols_minimum self)
       = Val l
    /\ s = GridLayout.set__cols (Some l) self.
Proof.
  intros Hf. unfold GridLayout.finalize_cols. munfold. rewrite Hf.
  destruct (GridLayout._cols self) as [cols0|]; [|done]. simpl.
  destruct (GridLayout.forced_sizes _ _ _) as [l|e] eqn:Hl; [|done].
  simpl. intros [= <-]. by exists cols0, l.
Qed.

(** A pass that returns went through the finalize phase: [_cols] is as
    [finalize_cols] left it, and the configuration did not change. *)
Lemma do_layout_cols (self self' : GridLayout.t) :
  GridLayout.do_layout self = (Val tt, self') ->
  exists s s',
    config s = config self
    /\ GridLayout.finalize_cols s = (Val tt, s')
    /\ GridLayout._cols self' = GridLayout._cols s'.
Proof.
  unfold GridLayout.do_layout, GridLayout._finalize_rows_cols_sizes.
  intros H.
  apply bind_Val in H as (? & ? & [= <- <-] & H).
  apply bind_Val in H as (failed & s1 & H1 & H).
  apply bind_Val in H as ([] & s2 & H2 & H).
  apply bind_Val in H as ([] & s3 & H3 & H).
  apply bind_Val in H as ([] & s4 & H4 & H).
  apply bind_Val in H as ([] & s6 & H5 & H).
  apply bind_Val in H5 as ([] & s5 & H5 & H6).
  apply bind_Val in H as (cells & s7 & H7 & H).
  exists s4, s5. split; [|split; [done|]].
  - apply (tame_state config) in H1; [|tame_solve].
    apply (tame_state config) in H2; [|tame_solve].
    apply (tame_state config) in H3; [|tame_solve].
    apply (tame_state config) in H4; [|tame_solve].
    congruence.
  - apply (tame_state GridLayout._cols) in H6; [|tame_solve].
    apply (tame_state GridLayout._cols) in H7; [|tame_solve].
    apply (tame_state GridLayout._cols) in H; [|tame_solve].
    congruence.
Qed.

(** C9: with [col_force_default] set, the column sizes that a pass leaves
    do not depend on the children.  Two grids with the same
    [col_default_width] and [cols_minimum] whose passes return with the
    same number of columns have the same [_cols], and each column has the
    default width, or the value of the last item of [cols_minimum] that
    addresses it.  The force-default branch itself returns whenever the
    keys of [cols_minimum] are indices of the list. *)
Theorem C9_forced_columns (self1 self2 self1' self2' : GridLayout.t)
    (cols1 cols2 : list Qc) :
  GridLayout.col_force_default self1 = true ->
  GridLayout.col_force_default self2 = true ->
  GridLayout.col_default_width self1 = GridLayout.col_default_width self2 ->
  GridLayout.cols_minimum self1 = GridLayout.cols_minimum self2 ->
  GridLayout.do_layout self1 = (Val tt, self1') ->
  GridLayout.do_layout self2 = (Val tt, self2') ->
  GridLayout._cols self1' = Some cols1 ->
  GridLayout._cols self2' = Some cols2 ->
  length cols1 = length cols2 ->
  cols1 = cols2
  /\ (forall k, (k < length cols1)%nat ->
        cols1 !! k
        = Some (default (GridLayout.col_default_width self1)
                  (override (length cols1) (GridLayout.cols_minimum self1) k)))
  /\ (forall cols0,
        GridLayout._cols self1 = Some cols0 ->
        keys_in_range (length cols0) (GridLayout.cols_minimum self1) ->
        exists l,
          GridLayout.finalize_cols self1
          = (Val tt, GridLayout.set__cols (Some l) self1)).
Proof.
  intros Hf1 Hf2 Hd Hm H1 H2 Hc1 Hc2 Hlen.
  assert (forall self self' cols,
            GridLayout.col_force_default self = true ->
            GridLayout.do_layout self = (Val tt, self') ->
            GridLayout._cols self' = Some cols ->
            GridLayout.forced_sizes (length cols)
              (GridLayout.col_default_width self)
              (GridLayout.cols_minimum self) = Val cols) as Hforced.
  { intros self self' cols Hf H Hc.
    apply do_layout_cols in H as (s & s' & Hcfg & Hfin & Hcols).
    assert (GridLayout.col_force_default s = true) as Hfs
      by (unfold config in Hcfg; congruence).
    apply finalize_cols_forced in Hfin as (cols0 & l & H0 & Hl & ->); [|done].
    simpl in Hcols. rewrite Hc in Hcols. injection Hcols as ->.
    apply forced_sizes_spec in Hl as Hl'. destruct Hl' as [Hlenl _].
    rewrite Hlenl. unfold config in Hcfg. congruence. }
  pose proof (Hforced _ _ _ Hf1 H1 Hc1) as E1.
  pose proof (Hforced _ _ _ Hf2 H2 Hc2) as E2.
  split; [|split].
  - rewrite <- Hlen, <- Hd, <- Hm in E2. congruence.
  - apply forced_sizes_spec in E1 as [_ E1]. done.
  - intros cols0 H0 Hr. unfold GridLayout.finalize_cols. munfold.
    rewrite Hf1, H0. simpl.
    destruct (forced_sizes_Val (length cols0)
                (GridLayout.col_default_width self1) _ Hr) as [l ->].
    simpl. eauto.
Qed.

Definition C9_grid (children : list Widget.t) : GridLayout.t :=
  GridLayout.mk (0, 0) (0, 0, 0, 0) (Some 2%nat) None (num 30) 0 true false
    [(1%Z, num 50)] [] 0 0 0 0 (num 200) (num 100) children
    None None None None.

Definition C9_children1 : list Widget.t :=
  [Widget.mk (0, 0) (num 100, num 100) (None, None)].

Definition C9_children2 : list Widget.t :=
  [stretchy (0, 0) (num 10, num 10);
   Widget.mk (0, 0) (num 70, num 20) (None, Some (num 1))].

(** Two collections of children in the same forced grid. *)
Lemma C9_forced_columns_witness :
  [num 30; num 50] = [num 30; num 50]
  /\ (forall k, (k < 2)%nat ->
        [num 30; num 50] !! k
        = Some (default (num 30) (override 2 [(1%Z, num 50)] k)))
  /\ (forall cols0,
        GridLayout._cols (C9_grid C9_children1) = Some cols0 ->
        keys_in_range (length cols0)
          (GridLayout.cols_minimum (C9_grid C9_children1)) ->
        exists l,
          GridLayout.finalize_cols (C9_grid C9_children1)
          = (Val tt, GridLayout.set__cols (Some l) (C9_grid C9_children1))).
Proof.
  apply (C9_forced_columns (C9_grid C9_children1) (C9_grid C9_children2)
           (snd (GridLayout.do_layout (C9_grid C9_children1)))
           (snd (GridLayout.do_layout (C9_grid C9_children2)))
           [num 30; num 50] [num 30; num 50]); by_run.
Defined.

(** ** The capacity check *)

Lemma capacity_exceeded (self : GridLayout.t) (c r n : nat) :
  GridLayout.cols self = Some c -> GridLayout.rows self = Some r ->
  (1 <= c)%nat -> (1 <= r)%nat -> (r * c < n)%nat ->
  truthy_count (GridLayout.get_max_widgets self)
  && bool_decide (default 0%nat (GridLayout.get_max_widgets self) < n)%nat
  = true.
Proof.
  intros Hc Hr H1 H2 Hn. unfold GridLayout.get_max_widgets.
  rewrite Hc, Hr. destruct c as [|c]; [lia|]. destruct r as [|r]; [lia|].
  simpl. by rewrite bool_decide_true by (simpl in Hn; lia).
Qed.

Lemma capacity_checked (self : GridLayout.t) (n : nat) :
  truthy_count (GridLayout.get_max_widgets self)
  && bool_decide (default 0%nat (GridLayout.get_max_widgets self) < n)%nat
  = true ->
  exists c r,
    GridLayout.cols self = Some c /\ GridLayout.rows self = Some r
    /\ (1 <= c)%nat /\ (1 <= r)%nat /\ (r * c < n)%nat.
Proof.
  unfold GridLayout.get_max_widgets.
  destruct (GridLayout.cols self) as [[|c]|], (GridLayout.rows self) as [[|r]|];
    try done.
  cbn [truthy_count andb]. intros H%andb_prop. destruct H as [_ H].
  apply bool_decide_eq_true in H. exists (S c), (S r).
  repeat split; try lia. exact H.
Qed.

(** A grid of two columns and two rows. *)
Definition C5_grid : GridLayout.t :=
  GridLayout.mk (0, 0) (0, 0, 0, 0) (Some 2%nat) (Some 2%nat) 0 0
    false false [] [] 0 0 0 0 (num 200) (num 100) [] None None None None.

Definition C5_recycle_grid : RecycleGridLayout.t :=
  RecycleGridLayout.mk C5_grid [] (Some []) None None None None [].

(** C5, as stated, fails: in a [RecycleGridLayout] of two columns and two
    rows, [on_children] accepts five items; it is the layout pass,
    [compute_layout], that raises for five data items. *)
Lemma C5_counterexample :
  RecycleGridLayout.on_children
    (replicate 5 (stretchy (0, 0) (0, 0))) C5_recycle_grid
  = (Val tt, C5_recycle_grid)
  /\ RecycleGridLayout.compute_layout (replicate 5 tt) tt C5_recycle_grid
     = (Exc GridLayoutException, C5_recycle_grid).
Proof. split; by_run. Qed.

(** C5 (as amended): in a [GridLayout] whose [cols] and [rows] are both
    set and not 0, [on_children], the observer of the [children]
    property, raises [GridLayoutException] when the list it is given has
    more than [rows * cols] items, and in no other case; it changes
    nothing, and [do_layout] makes no such check.  In a
    [RecycleGridLayout], [on_children] never raises, and the check is
    made in the layout pass: [compute_layout] raises for more than
    [rows * cols] data items, before it changes anything. *)
Theorem C5_capacity_check :
  (forall (self : GridLayout.t) value c r,
     GridLayout.cols self = Some c -> GridLayout.rows self = Some r ->
     (1 <= c)%nat -> (1 <= r)%nat -> (r * c < length value)%nat ->
     GridLayout.on_children value self = (Exc GridLayoutException, self))
  /\ (forall (self : GridLayout.t) value,
        GridLayout.on_children value self = (Val tt, self)
        \/ (GridLayout.on_children value self
            = (Exc GridLayoutException, self)
            /\ exists c r,
                 GridLayout.cols self = Some c
                 /\ GridLayout.rows self = Some r
                 /\ (1 <= c)%nat /\ (1 <= r)%nat
                 /\ (r * c < length value)%nat))
  /\ (forall (self s : GridLayout.t) e,
        GridLayout.do_layout self = (Exc e, s) -> e <> GridLayoutException)
  /\ (forall (self : RecycleGridLayout.t) value,
        RecycleGridLayout.on_children value self = (Val tt, self))
  /\ (forall (self : RecycleGridLayout.t) (data : list unit) (flags : unit)
             c r,
        GridLayout.cols (RecycleGridLayout.grid self) = Some c ->
        GridLayout.rows (RecycleGridLayout.grid self) = Some r ->
        (1 <= c)%nat -> (1 <= r)%nat -> (r * c < length data)%nat ->
        RecycleGridLayout.compute_layout data flags self
        = (Exc GridLayoutException, self)).
Proof.
  split; [|split; [|split; [|split]]].
  - intros self value c r Hc Hr H1 H2 Hn.
    unfold GridLayout.on_children. munfold.
    by rewrite (capacity_exceeded self c r (length value)).
  - intros self value. unfold GridLayout.on_children. munfold.
    destruct (_ && _) eqn:H; [right|by left].
    split; [done|]. by apply capacity_checked.
  - intros self s e H. by apply (tame_exn _ _ _ _ _ do_layout_tame H).
  - done.
  - intros self data flags c r Hc Hr H1 H2 Hn.
    unfold RecycleGridLayout.compute_layout. munfold.
    by rewrite (capacity_exceeded _ c r (length data)).
Qed.

(** A fifth child in a grid of two columns and two rows. *)
Lemma C5_capacity_check_witness :
  GridLayout.on_children (replicate 5 (stretchy (0, 0) (0, 0))) C5_grid
  = (Exc GridLayoutException, C5_grid).
Proof.
  destruct C5_capacity_check as [H _].
  apply (H C5_grid (replicate 5 (stretchy (0, 0) (0, 0))) 2%nat 2%nat);
    first [reflexivity | simpl; lia].
Defined.

(** ** The incremental update *)

(** The number of items that claim the length [v] in a histogram. *)
Definition count (hist : gmap Qc Z) (v : Qc) : Z := default 0%Z (hist !! v).

(** The changed item is the last one that claimed the length [old]. *)
Definition last_claim (hist : gmap Qc Z) (old : Qc) : bool :=
  bool_decide (count hist old - 1 <= 0)%Z.

(** A fixed length that changed from [old] to [new], in a slot of the
    size [size], asks for a full recompute. *)
Definition axis_triggers (size : Qc) (hist : gmap Qc Z) (old new : Qc)
  : bool :=
  last_claim hist old && bool_decide (size = old) || bool_decide (size < new).

(** The histogram of the slot after the change: one claim less for [old],
    one more for [new]; an entry that has no claim left is removed. *)
Definition axis_patch (hist : gmap Qc Z) (old new : Qc) : gmap Qc Z :=
  let patched :=
    <[new := (count hist new + 1)%Z]> (<[old := (count hist old - 1)%Z]> hist)
  in
  if last_claim hist old then delete old patched else patched.

(** The histograms of an axis after a length of the slot [slot] changed;
    [None] when the change asks for a full recompute, or when there is no
    such slot. *)
Definition slot_patch (sizes : list Qc) (hists : list (gmap Qc Z))
    (slot : nat) (old new : Qc) : option (list (gmap Qc Z)) :=
  size ← sizes !! slot;
  hist ← hists !! slot;
  if axis_triggers size hist old new then None
  else Some (<[slot := axis_patch hist old new]> hists).

(** What an item of the batch does to the histograms of the columns and
    of the rows and to the views, when it does not ask for a full
    recompute. *)
Definition item_patch (cols rows : list Qc) (ch : RecycleGridLayout.Changed)
    (st : list (gmap Qc Z) * list (gmap Qc Z) * list RecycleGridLayout.call)
  : option (list (gmap Qc Z) * list (gmap Qc Z)
            * list RecycleGridLayout.call) :=
  let '(cc, rc, calls) := st in
  let '(w, h) := RecycleGridLayout.ch_size ch in
  let '(wn, hn) := RecycleGridLayout.ch_new_size ch in
  let sh := RecycleGridLayout.ch_sh ch in
  if bool_decide (sh <> RecycleGridLayout.ch_shn ch) then None
  else if bool_decide (is_Some (fst sh) /\ w <> wn
                       \/ is_Some (snd sh) /\ h <> hn)
  then Some (cc, rc,
             RecycleGridLayout.remove_view (RecycleGridLayout.ch_widget ch)
               (RecycleGridLayout.ch_index ch) :: calls)
  else
    let n_cols := length cc in
    if bool_decide (n_cols = 0%nat) then None
    else
      let row := (RecycleGridLayout.ch_index ch / n_cols)%nat in
      let col := (RecycleGridLayout.ch_index ch mod n_cols)%nat in
      cc' ← (if bool_decide (w = wn) then Some cc
             else slot_patch cols cc col w wn);
      rc' ← (if bool_decide (h = hn) then Some rc
             else slot_patch rows rc row h hn);
      Some (cc', rc', calls).

Fixpoint batch_patch (cols rows : list Qc)
    (changed : list RecycleGridLayout.Changed)
    (st : list (gmap Qc Z) * list (gmap Qc Z) * list RecycleGridLayout.call)
  : option (list (gmap Qc Z) * list (gmap Qc Z)
            * list RecycleGridLayout.call) :=
  match changed with
  | [] => Some st
  | ch :: changed' =>
      st' ← item_patch cols rows ch st;
      batch_patch cols rows changed' st'
  end.

(** The grid with other histograms and calls. *)
Definition with_counts (self : RecycleGridLayout.t)
    (st : list (gmap Qc Z) * list (gmap Qc Z) * list RecycleGridLayout.call)
  : RecycleGridLayout.t :=
  let '(cc, rc, calls) := st in
  RecycleGridLayout.mk (RecycleGridLayout.grid self)
    (RecycleGridLayout.view_opts self) (RecycleGridLayout._changed_views self)
    (Some cc) (Some rc) (RecycleGridLayout._cols_pos self)
    (RecycleGridLayout._rows_pos self) calls.

Lemma slot_patch_length sizes hists slot old new hists' :
  slot_patch sizes hists slot old new = Some hists' ->
  length hists' = length hists.
Proof.
  unfold slot_patch. destruct (sizes !! slot); [|done]. simpl.
  destruct (hists !! slot); [|done]. simpl.
  destruct (axis_triggers _ _ _ _); [done|].
  intros [= <-]. apply length_insert.
Qed.

Lemma update_axis_patch (sizes : list Qc) (hists hists' : list (gmap Qc Z))
    (slot : nat) (old new : Qc) :
  old <> new ->
  slot_patch sizes hists slot old new = Some hists' ->
  RecycleGridLayout.update_axis (Some sizes) slot old new (Some hists)
  = (Val false, Some hists').
Proof.
  intros Hne. unfold slot_patch.
  destruct (sizes !! slot) as [size|] eqn:Hsize; [|done]. simpl.
  destruct (hists !! slot) as [hist|] eqn:Hhist; [|done]. simpl.
  destruct (axis_triggers size hist old new) eqn:Htr; [done|].
  intros [= <-].
  assert (slot < length hists)%nat as Hlt by (by eapply lookup_lt_Some).
  unfold RecycleGridLayout.update_axis.
  unfold bind at 1. unfold as_list, ret.
  unfold bind at 1. rewrite lookup_item_nat, Hsize.
  unfold RecycleGridLayout.hist_add, RecycleGridLayout.hist_get,
    RecycleGridLayout.hist_del.
  unfold bind at 1. unfold bind at 1. rewrite getitem_Some, Hhist.
  rewrite setitem_nat by done.
  unfold bind at 1. unfold bind at 1.
  rewrite getitem_Some, list_lookup_insert_eq by done.
  rewrite setitem_nat by (by rewrite length_insert).
  rewrite list_insert_insert_eq.
  unfold bind at 1. unfold bind at 1.
  rewrite getitem_Some, list_lookup_insert_eq by done.
  unfold ret.
  rewrite lookup_insert_ne by done. rewrite lookup_insert_eq.
  rewrite (lookup_insert_ne _ old new) by done. simpl.
  fold (count hist old). fold (count hist new).
  change (count hist old + -1)%Z with (count hist old - 1)%Z.
  unfold axis_triggers, last_claim in Htr. rewrite Htr.
  unfold axis_patch, last_claim.
  destruct (bool_decide (count hist old - 1 <= 0)%Z); [|done].
  unfold bind. rewrite getitem_Some, list_lookup_insert_eq by done.
  rewrite setitem_nat by (by rewrite length_insert).
  by rewrite list_insert_insert_eq.
Qed.

Lemma update_item_patch (self : RecycleGridLayout.t) (cols rows : list Qc)
    (ch : RecycleGridLayout.Changed) st st' :
  GridLayout._cols (RecycleGridLayout.grid self) = Some cols ->
  GridLayout._rows (RecycleGridLayout.grid self) = Some rows ->
  item_patch cols rows ch st = Some st' ->
  RecycleGridLayout.update_item (length (fst (fst st))) ch
    (with_counts self st)
  = (Val false, with_counts self st')
  /\ length (fst (fst st')) = length (fst (fst st)).
Proof.
  intros Hcols Hrows. destruct st as [[cc rc] calls].
  unfold item_patch, RecycleGridLayout.update_item.
  destruct ch as [index widget [w h] [wn hn] sh shn].
  cbn [RecycleGridLayout.ch_index RecycleGridLayout.ch_widget
       RecycleGridLayout.ch_size RecycleGridLayout.ch_new_size
       RecycleGridLayout.ch_sh RecycleGridLayout.ch_shn fst snd].
  rewrite bool_decide_not.
  destruct (bool_decide (sh = shn)); simpl; [|done].
  rewrite bool_decide_or, !bool_decide_and, !bool_decide_not.
  destruct (_ || _).
  { intros [= <-]. done. }
  case_bool_decide as Hn; [done|].
  unfold bind at 1. unfold py_divmod.
  destruct (length cc) as [|n'] eqn:Hlen; [done|]. rewrite <- Hlen.
  unfold ret at 1. unfold bind at 1. unfold get.
  cbn [with_counts RecycleGridLayout.grid]. rewrite Hcols, Hrows.
  unfold bind at 1.
  destruct (bool_decide (w = wn)) eqn:Hw; simpl.
  - unfold ret at 1.
    destruct (bool_decide (h = hn)) eqn:Hh; simpl.
    + intros [= <-]. done.
    + destruct (slot_patch rows rc _ h hn) as [rc'|] eqn:Hrc; [|done].
      simpl. intros [= <-]. unfold zoom. simpl.
      apply bool_decide_eq_false in Hh.
      rewrite (update_axis_patch _ _ _ _ _ _ Hh Hrc). done.
  - destruct (slot_patch cols cc _ w wn) as [cc'|] eqn:Hcc; [|done].
    simpl. unfold zoom at 1. simpl.
    apply bool_decide_eq_false in Hw.
    rewrite (update_axis_patch _ _ _ _ _ _ Hw Hcc).
    apply slot_patch_length in Hcc as Hcc'.
    destruct (bool_decide (h = hn)) eqn:Hh; simpl.
    + intros [= <-]. done.
    + destruct (slot_patch rows rc _ h hn) as [rc'|] eqn:Hrc; [|done].
      simpl. intros [= <-]. unfold zoom. simpl.
      apply bool_decide_eq_false in Hh.
      rewrite (update_axis_patch _ _ _ _ _ _ Hh Hrc). done.
Qed.

Lemma update_loop_patch (self : RecycleGridLayout.t) (cols rows : list Qc)
    (changed : list RecycleGridLayout.Changed) st st' :
  GridLayout._cols (RecycleGridLayout.grid self) = Some cols ->
  GridLayout._rows (RecycleGridLayout.grid self) = Some rows ->
  batch_patch cols rows changed st = Some st' ->
  RecycleGridLayout.update_loop (length (fst (fst st))) changed
    (with_counts self st)
  = (Val false, with_counts self st').
Proof.
  intros Hcols Hrows. revert st.
  induction changed as [|ch changed IH]; intros st; simpl.
  - by intros [= <-].
  - destruct (item_patch cols rows ch st) as [st1|] eqn:H1; [|done]. simpl.
    intros H. unfold bind.
    destruct (update_item_patch self cols rows ch st st1 Hcols Hrows H1)
      as [-> Hlen].
    rewrite <- Hlen. by apply IH.
Qed.

(** Whatever it returns, [_update_rows_cols_sizes] changes the histograms
    and removes views, and nothing else. *)
Lemma update_tame (changed : list RecycleGridLayout.Changed) :
  tame (fun s => (RecycleGridLayout.grid s, RecycleGridLayout.view_opts s,
                  RecycleGridLayout._changed_views s,
                  RecycleGridLayout._cols_pos s,
                  RecycleGridLayout._rows_pos s))
    (RecycleGridLayout._update_rows_cols_sizes changed).
Proof.
  unfold RecycleGridLayout._update_rows_cols_sizes. tame_all.
  induction changed as [|ch changed IH]; simpl; tame_all; [|done].
  unfold RecycleGridLayout.update_item.
  destruct (RecycleGridLayout.ch_size ch), (RecycleGridLayout.ch_new_size ch).
  unfold RecycleGridLayout.update_axis, RecycleGridLayout.hist_add,
    RecycleGridLayout.hist_get, RecycleGridLayout.hist_del.
  tame_all.
Qed.

Lemma count_insert (hist : gmap Qc Z) (k v : Qc) (c : Z) :
  count (<[k := c]> hist) v = if bool_decide (k = v) then c else count hist v.
Proof.
  unfold count. case_bool_decide as H.
  - subst. by rewrite lookup_insert_eq.
  - by rewrite lookup_insert_ne.
Qed.

Lemma count_delete (hist : gmap Qc Z) (k v : Qc) :
  count (delete k hist) v = if bool_decide (k = v) then 0%Z else count hist v.
Proof.
  unfold count. case_bool_decide as H.
  - subst. by rewrite lookup_delete_eq.
  - by rewrite lookup_delete_ne.
Qed.

(** In a histogram where [old] is claimed, the patch takes one claim from
    [old], gives one to [new], and leaves the other lengths alone. *)
Lemma axis_patch_count (hist : gmap Qc Z) (old new v : Qc) :
  old <> new -> (1 <= count hist old)%Z ->
  count (axis_patch hist old new) v
  = (count hist v - (if bool_decide (v = old) then 1 else 0)
     + (if bool_decide (v = new) then 1 else 0))%Z.
Proof.
  intros Hne Hold. unfold axis_patch, last_claim.
  case_bool_decide as Hlast.
  - rewrite count_delete, !count_insert.
    repeat case_bool_decide; simplify_eq; lia.
  - rewrite !count_insert. repeat case_bool_decide; simplify_eq; lia.
Qed.

(** C7 (as amended): for a batch in which no item asks for a full
    recompute, that is: no item changed its stretch hints (in presence or
    in value), and for every fixed length that changed on an item neither
    of whose stretched lengths changed, the old length was not both the
    size of its slot and the last claim of that value in the histogram,
    and the new length does not exceed the size of the slot,
    [_update_rows_cols_sizes] returns [False]; it has then removed the
    views of the items one of whose stretched lengths changed, and for
    the other items taken one claim from the old length and given one to
    the new length in the histogram of the slot.  Whatever it returns, it
    leaves [_cols], [_rows], [_cols_sh], [_rows_sh] and all that is not a
    histogram or a view as they were. *)
Theorem C7_incremental_update (self : RecycleGridLayout.t)
    (changed : list RecycleGridLayout.Changed) (cols rows : list Qc)
    (cc rc cc' rc' : list (gmap Qc Z))
    (calls' : list RecycleGridLayout.call) :
  GridLayout._cols (RecycleGridLayout.grid self) = Some cols ->
  GridLayout._rows (RecycleGridLayout.grid self) = Some rows ->
  RecycleGridLayout._cols_count self = Some cc ->
  RecycleGridLayout._rows_count self = Some rc ->
  batch_patch cols rows changed (cc, rc, RecycleGridLayout.calls self)
  = Some (cc', rc', calls') ->
  RecycleGridLayout._update_rows_cols_sizes changed self
  = (Val false, with_counts self (cc', rc', calls'))
  /\ (forall changed0 r s,
        RecycleGridLayout._update_rows_cols_sizes changed0 self = (r, s) ->
        RecycleGridLayout.grid s = RecycleGridLayout.grid self
        /\ RecycleGridLayout.view_opts s = RecycleGridLayout.view_opts self
        /\ RecycleGridLayout._cols_pos s = RecycleGridLayout._cols_pos self
        /\ RecycleGridLayout._rows_pos s = RecycleGridLayout._rows_pos self)
  /\ (forall hist old new v,
        old <> new -> (1 <= count hist old)%Z ->
        count (axis_patch hist old new) v
        = (count hist v - (if bool_decide (v = old) then 1 else 0)
           + (if bool_decide (v = new) then 1 else 0))%Z).
Proof.
  intros Hcols Hrows Hcc Hrc Hpatch. split; [|split].
  - unfold RecycleGridLayout._update_rows_cols_sizes. munfold.
    rewrite Hcc, Hrc.
    pose proof (update_loop_patch self cols rows changed _ _ Hcols Hrows
                  Hpatch) as Hloop.
    cbn [fst] in Hloop. munfold. cbv beta iota. rewrite <- Hloop. f_equal.
    destruct self; simpl in *; by subst.
  - intros changed0 r s H.
    apply (tame_state _ _ _ _ _ (update_tame changed0)) in H.
    by simplify_eq.
  - apply axis_patch_count.
Qed.

(** A grid of two columns after a pass over three views of fixed sizes:
    the widths 30 and 30 in the column 0, the width 40 in the column 1. *)
Definition C7_grid : RecycleGridLayout.t :=
  RecycleGridLayout.mk
    (GridLayout.mk (0, 0) (0, 0, 0, 0) (Some 2%nat) None 0 0 false false
       [] [] (num 70) (num 20) 0 0 (num 200) (num 100) []
       (Some [num 30; num 40]) (Some [num 10; num 10])
       (Some [None; None]) (Some [None; None]))
    [RecycleGridLayout.mk_opt (None, None) (num 30, num 10)
       (Some (num 0, num 90));
     RecycleGridLayout.mk_opt (None, None) (num 40, num 10)
       (Some (num 30, num 90));
     RecycleGridLayout.mk_opt (None, None) (num 30, num 10)
       (Some (num 0, num 80))]
    None
    (Some [{[num 30 := 2%Z]}; {[num 40 := 1%Z]}])
    (Some [{[num 10 := 2%Z]}; {[num 10 := 1%Z]}])
    (Some [Some (num 0); Some (num 30)])
    (Some [Some (num 80); Some (num 90)])
    [].

(** The view 0 shrinks from the width 30 to the width 20. *)
Definition C7_batch : list RecycleGridLayout.Changed :=
  [RecycleGridLayout.mk_changed 0 0 (num 30, num 10) (num 20, num 10)
     (None, None) (None, None)].

(** The width 30 is still claimed by the view 2: no full pass. *)
Lemma C7_incremental_update_witness :
  RecycleGridLayout._update_rows_cols_sizes C7_batch C7_grid
  = (Val false,
     with_counts C7_grid
       ([<[num 20 := 1%Z]> {[num 30 := 1%Z]}; {[num 40 := 1%Z]}],
        [{[num 10 := 2%Z]}; {[num 10 := 1%Z]}], [])).
Proof.
  apply (C7_incremental_update C7_grid C7_batch [num 30; num 40]
           [num 10; num 10] [{[num 30 := 2%Z]}; {[num 40 := 1%Z]}]
           [{[num 10 := 2%Z]}; {[num 10 := 1%Z]}]); by_run.
Defined.

(** C7, as stated, fails: an item whose stretch hint changes from 1 to 2
    keeps its hints present and changes no length, and yet
    [_update_rows_cols_sizes] asks for the full pass. *)
Lemma C7_counterexample :
  let ch :=
    RecycleGridLayout.mk_changed 0 0 (num 30, num 10) (num 30, num 10)
      (Some (num 1), Some (num 1)) (Some (num 2), Some (num 1)) in
  is_Some (fst (RecycleGridLayout.ch_sh ch))
  /\ is_Some (fst (RecycleGridLayout.ch_shn ch))
  /\ is_Some (snd (RecycleGridLayout.ch_sh ch))
  /\ is_Some (snd (RecycleGridLayout.ch_shn ch))
  /\ RecycleGridLayout.ch_size ch = RecycleGridLayout.ch_new_size ch
  /\ RecycleGridLayout._update_rows_cols_sizes [ch] C7_grid
     = (Val true, C7_grid).
Proof. repeat split; by_run. Qed.

(** ** The boundaries and the index under a point *)

Lemma insert_at {A} (k : nat) (pre cur : list A) (c v : A) :
  length pre = k -> <[k := v]> (pre ++ c :: cur) = pre ++ v :: cur.
Proof. intros <-. apply insert_middle. Qed.

Lemma cols_pos_loop_run (tail : list Qc) (pre : list Qc) (last sp : Qc) :
  exists new,
    RecycleGridLayout.cols_pos_loop (enumerate_from (length pre) tail) last sp
      (Some ((Some <$> pre) ++ replicate (length tail) None))
    = (Val tt, Some (Some <$> (pre ++ new)))
    /\ length new = length tail.
Proof.
  revert pre last. induction tail as [|v tail IH]; intros pre last.
  - exists []. simpl. by rewrite !app_nil_r.
  - cbn [enumerate_from RecycleGridLayout.cols_pos_loop length replicate].
    unfold bind. rewrite setitem_nat
      by (rewrite length_app, length_fmap; simpl; lia).
    rewrite insert_at by apply length_fmap.
    destruct (IH (pre ++ [last]) (last + (v + sp))) as (new & Hrun & Hlen).
    rewrite length_app, Nat.add_1_r, fmap_app in Hrun.
    rewrite <- app_assoc in Hrun. simpl in Hrun.
    rewrite Hrun. exists (last :: new).
    rewrite <- app_assoc. simpl. split; [done|]. by rewrite Hlen.
Qed.

Lemma rows_pos_loop_run (n : nat) (tail : list Qc) (suf : list Qc)
    (last sp : Qc) :
  n = (length tail + length suf)%nat ->
  exists new,
    RecycleGridLayout.rows_pos_loop n (enumerate_from (length suf) tail)
      last sp
      (Some (replicate (length tail) None ++ (Some <$> suf)))
    = (Val tt, Some (Some <$> (new ++ suf)))
    /\ length new = length tail.
Proof.
  revert suf last. induction tail as [|v tail IH]; intros suf last Hn.
  - exists []. done.
  - cbn [enumerate_from RecycleGridLayout.rows_pos_loop length].
    unfold bind.
    replace (Z.of_nat n - 1 - Z.of_nat (length suf))%Z
      with (Z.of_nat (length tail)) by (simpl in Hn; lia).
    rewrite setitem_nat
      by (rewrite length_app, length_replicate; simpl; lia).
    rewrite replicate_S_end, <- app_assoc. simpl.
    rewrite insert_at by apply length_replicate.
    destruct (IH (last - (sp + v) :: suf) (last - (sp + v)))
      as (new & Hrun & Hlen); [simpl in *; lia|].
    cbn [length] in Hrun. rewrite fmap_cons in Hrun.
    rewrite Hrun. exists (new ++ [last - (sp + v)]).
    rewrite <- app_assoc. split; [done|].
    rewrite length_app. simpl. lia.
Qed.

(** What [_cols_pos] and [_rows_pos] are after the boundaries were set:
    a number for each column and for each row. *)
Definition has_boundaries (self : RecycleGridLayout.t) : Prop :=
  exists cols rows cp rp,
    GridLayout._cols (RecycleGridLayout.grid self) = Some cols
    /\ GridLayout._rows (RecycleGridLayout.grid self) = Some rows
    /\ RecycleGridLayout._cols_pos self = Some (Some <$> cp)
    /\ RecycleGridLayout._rows_pos self = Some (Some <$> rp)
    /\ length cp = length cols /\ length rp = length rows
    /\ (1 <= length cols)%nat /\ (1 <= length rows)%nat.

Lemma lookup_item_0 {St A} (a : A) (l : list A) (s : St) :
  lookup_item (a :: l) 0 s = (Val a, s).
Proof. by rewrite (lookup_item_nat (a :: l) 0). Qed.

Lemma setitem_0 {A} (v a : A) (l : list A) :
  setitem 0 v (Some (a :: l)) = (Val tt, Some (v :: l)).
Proof. by rewrite (setitem_nat 0) by (simpl; lia). Qed.

Lemma setitem_last {A} (v a : A) (pre : list A) :
  setitem (-1) v (Some (pre ++ [a])) = (Val tt, Some (pre ++ [v])).
Proof.
  rewrite setitem_Some.
  assert (py_index (length (pre ++ [a])) (-1) = Some (length pre)) as ->.
  { unfold py_index. rewrite length_app. cbn [length].
    rewrite bool_decide_false by lia. rewrite bool_decide_true by lia.
    f_equal. lia. }
  by rewrite insert_middle.
Qed.

Lemma set_boundaries_Val (s s' : RecycleGridLayout.t) :
  RecycleGridLayout.set_boundaries s = (Val tt, s') -> has_boundaries s'.
Proof.
  unfold RecycleGridLayout.set_boundaries. unfold bind at 1. unfold get.
  destruct (GridLayout.spacing (RecycleGridLayout.grid s))
    as [spacing_x spacing_y].
  destruct (GridLayout.padding (RecycleGridLayout.grid s))
    as [[[padding_left padding_top] ?] ?].
  destruct (GridLayout._cols (RecycleGridLayout.grid s)) as [cols|] eqn:Hc;
    [|done].
  destruct (GridLayout._rows (RecycleGridLayout.grid s)) as [rows|] eqn:Hr;
    [|done].
  munfold.
  cbn -[RecycleGridLayout.cols_pos_loop RecycleGridLayout.rows_pos_loop
        enumerate_from replicate Z.of_nat Z.sub setitem lookup_item drop
        length].
  destruct cols as [|c0 cols].
  { rewrite setitem_Some. by simpl. }
  destruct rows as [|r0 rows].
  { cbn [length replicate]. rewrite setitem_0, lookup_item_0.
    cbn [RecycleGridLayout._cols_pos RecycleGridLayout.set__cols_pos
         RecycleGridLayout.set__rows_pos].
    destruct (RecycleGridLayout.cols_pos_loop _ _ _ _) as [[[]|e] l];
      [|done].
    unfold lookup_item. by simpl. }
  cbn [length]. rewrite replicate_S, (replicate_S_end (length rows)).
  rewrite setitem_0, !lookup_item_0.
  cbn [RecycleGridLayout._cols_pos RecycleGridLayout.set__cols_pos
       RecycleGridLayout.set__rows_pos RecycleGridLayout._rows_pos drop].
  rewrite !drop_0.
  set (x0 := GridLayout.x (RecycleGridLayout.grid s)).
  destruct (cols_pos_loop_run cols [x0]
              (x0 + padding_left + c0 + spacing_x / num 2) spacing_x)
    as (cp & Hcp & Hlcp).
  change (RecycleGridLayout.cols_pos_loop (enumerate_from 1 cols)
            (x0 + padding_left + c0 + spacing_x / num 2) spacing_x
            (Some (Some x0 :: replicate (length cols) None))
          = (Val (), Some (Some <$> x0 :: cp))) in Hcp.
  rewrite Hcp.
  cbn [RecycleGridLayout._cols_pos RecycleGridLayout.set__cols_pos
       RecycleGridLayout.set__rows_pos RecycleGridLayout._rows_pos].
  rewrite lookup_item_0.
  cbn [RecycleGridLayout._cols_pos RecycleGridLayout.set__cols_pos
       RecycleGridLayout.set__rows_pos RecycleGridLayout._rows_pos].
  rewrite setitem_last.
  set (last := GridLayout.y (RecycleGridLayout.grid s)
               + GridLayout.height (RecycleGridLayout.grid s) - padding_top
               - r0 - spacing_y / num 2).
  destruct (rows_pos_loop_run (S (length rows)) rows [last] last spacing_y)
    as (rp & Hrp & Hlrp); [simpl; lia|].
  cbn [RecycleGridLayout._cols_pos RecycleGridLayout.set__cols_pos
       RecycleGridLayout.set__rows_pos RecycleGridLayout._rows_pos].
  change (RecycleGridLayout.rows_pos_loop (S (length rows))
            (enumerate_from 1 rows) last spacing_y
            (Some (replicate (length rows) None ++ [Some last]))
          = (Val (), Some (Some <$> rp ++ [last]))) in Hrp.
  rewrite Hrp. intros [= <-].
  exists (c0 :: cols), (r0 :: rows), (x0 :: cp), (rp ++ [last]).
  cbn [RecycleGridLayout._cols_pos RecycleGridLayout.set__cols_pos
       RecycleGridLayout.set__rows_pos RecycleGridLayout._rows_pos
       RecycleGridLayout.grid].
  rewrite Hc, Hr, length_app. simpl.
  repeat split; try done; lia.
Qed.

Lemma scan_bounds {St} (x : Qc) (p : list Qc) (ix : Z) (s : St) :
  exists k, RecycleGridLayout.scan x (Some <$> p) ix s = (Val k, s)
            /\ (ix <= k <= ix + Z.of_nat (length p))%Z.
Proof.
  revert ix. induction p as [|v p IH]; intros ix.
  - exists ix. split; [done|simpl; lia].
  - rewrite fmap_cons. cbn [RecycleGridLayout.scan length]. case_bool_decide.
    + exists ix. split; [done|lia].
    + destruct (IH (ix + 1)%Z) as (k & -> & Hk). exists k. split; [done|lia].
Qed.

Lemma axis_index_bounds {St} (x : Qc) (p sizes : list Qc) (s : St) :
  length p = length sizes -> (1 <= length p)%nat ->
  exists k, RecycleGridLayout.axis_index x (Some <$> p) (Some sizes) s = (Val k, s)
            /\ (0 <= k < Z.of_nat (length sizes))%Z.
Proof.
  intros Hlen Hp. unfold RecycleGridLayout.axis_index. unfold bind at 1.
  destruct (decide (p = [])) as [->|Hne]; [simpl in Hp; lia|].
  destruct (exists_last Hne) as (pre & v & ->).
  unfold lookup_item. rewrite length_fmap.
  assert (py_index (length (pre ++ [v])) (-1) = Some (length pre)) as ->.
  { unfold py_index. rewrite length_app. cbn [length].
    rewrite bool_decide_false by lia. rewrite bool_decide_true by lia.
    f_equal. lia. }
  rewrite fmap_app, lookup_app_r by (by rewrite length_fmap).
  rewrite length_fmap, Nat.sub_diag. simpl.
  rewrite length_app in Hlen. simpl in Hlen.
  case_bool_decide.
  - unfold bind, ret. simpl. eexists. split; [done|]. lia.
  - destruct (scan_bounds x (drop 1 (pre ++ [v])) 0 s) as (k & Hk & Hb).
    rewrite fmap_drop, fmap_app in Hk. simpl in Hk. rewrite Hk.
    exists k. split; [done|].
    rewrite length_drop, length_app in Hb. simpl in Hb. lia.
Qed.

(** Once the boundaries are set, the index under a point is an index of
    the grid. *)
Lemma get_view_index_at_bounds (self : RecycleGridLayout.t) (cols rows : list Qc)
    (pos : Qc * Qc) :
  has_boundaries self ->
  GridLayout._cols (RecycleGridLayout.grid self) = Some cols ->
  GridLayout._rows (RecycleGridLayout.grid self) = Some rows ->
  exists k,
    RecycleGridLayout.get_view_index_at pos self = (Val k, self)
    /\ (0 <= k < Z.of_nat (length rows * length cols))%Z.
Proof.
  intros (cols' & rows' & cp & rp & Hc & Hr & Hcp & Hrp & Hlc & Hlr & H1c
          & H1r) Hcols Hrows.
  rewrite Hcols in Hc. rewrite Hrows in Hr. simplify_eq.
  unfold RecycleGridLayout.get_view_index_at. unfold bind at 1. unfold get.
  rewrite Hcp, Hrp. destruct pos as [x y].
  destruct cp as [|c0 cp]; [simpl in *; lia|].
  destruct rp as [|r0 rp]; [simpl in *; lia|].
  rewrite !fmap_cons. rewrite <- !fmap_cons. rewrite Hcols, Hrows.
  destruct (axis_index_bounds (St := RecycleGridLayout.t) x (c0 :: cp) cols'
              self Hlc ltac:(simpl; lia)) as (ix & Hix & Hbx).
  destruct (axis_index_bounds (St := RecycleGridLayout.t) y (r0 :: rp) rows'
              self Hlr ltac:(simpl; lia)) as (iy & Hiy & Hby).
  unfold bind. rewrite Hix, Hiy. simpl.
  eexists. split; [reflexivity|]. nia.
Qed.

Lemma full_pass_boundaries (n : nat) (self self' : RecycleGridLayout.t)
    (cols : list Qc) :
  RecycleGridLayout.full_pass n self = (Val tt, self') ->
  GridLayout._cols (RecycleGridLayout.grid self') = Some cols ->
  has_boundaries self'.
Proof.
  unfold RecycleGridLayout.full_pass. intros H Hcols.
  apply bind_Val in H as ([] & s0 & _ & H).
  apply bind_Val in H as (ok & s1 & _ & H).
  destruct ok; simpl in H.
  - apply bind_Val in H as ([] & s2 & _ & H).
    apply bind_Val in H as ([] & s3 & _ & H).
    apply bind_Val in H as ([] & s4 & _ & H).
    apply bind_Val in H as (cells & s5 & _ & H).
    apply bind_Val in H as ([] & s6 & _ & H).
    by apply set_boundaries_Val in H.
  - apply bind_Val in H as ([] & s2 & H2 & H).
    apply bind_Val in H as (? & ? & [= <- <-] & H).
    destruct (GridLayout.padding _) as [[[l t] r] b].
    unfold RecycleGridLayout.super, zoom, modify in *.
    injection H2 as <-. injection H as <-. simpl in Hcols. done.
Qed.

(** A grid of two columns, 200 by 100, with three views. *)
Definition C10_grid : RecycleGridLayout.t :=
  RecycleGridLayout.mk
    (GridLayout.mk (0, 0) (0, 0, 0, 0) (Some 2%nat) None 0 0 false false
       [] [] 0 0 0 0 (num 200) (num 100) [] None None None None)
    (replicate 3
       (RecycleGridLayout.mk_opt (Some (num 1), Some (num 1)) (0, 0) None))
    (Some []) None None None None [].

(** C10: after a full pass of [compute_layout] that left [r] rows and [c]
    columns, [get_view_index_at] returns for every point an index [k]
    with [0 <= k < r * c].  The bound is the shape of the grid, not the
    number of items: in a grid of two columns with three items, the point
    (150, 10) of the empty last cell has the index 3. *)
Theorem C10_view_index_in_grid :
  (forall (n : nat) (self self' : RecycleGridLayout.t) (cols rows : list Qc)
          (pos : Qc * Qc),
     RecycleGridLayout.full_pass n self = (Val tt, self') ->
     GridLayout._cols (RecycleGridLayout.grid self') = Some cols ->
     GridLayout._rows (RecycleGridLayout.grid self') = Some rows ->
     exists k,
       RecycleGridLayout.get_view_index_at pos self' = (Val k, self')
       /\ (0 <= k < Z.of_nat (length rows * length cols))%Z)
  /\ (let data := replicate 3 tt in
      let pass := RecycleGridLayout.compute_layout data tt C10_grid in
      pass = RecycleGridLayout.full_pass (length data) C10_grid
      /\ fst pass = Val tt
      /\ fst (RecycleGridLayout.get_view_index_at (num 150, num 10)
                (snd pass)) = Val 3%Z
      /\ (Z.of_nat (length data) <= 3)%Z).
Proof.
  split.
  - intros n self self' cols rows pos H Hcols Hrows.
    apply get_view_index_at_bounds; [|done..].
    by eapply full_pass_boundaries.
  - repeat split; by_run.
Qed.

(** The point (150, 10) in the grid of two columns and two rows. *)
Lemma C10_view_index_in_grid_witness :
  exists k,
    RecycleGridLayout.get_view_index_at (num 150, num 10)
      (snd (RecycleGridLayout.full_pass 3 C10_grid))
    = (Val k, snd (RecycleGridLayout.full_pass 3 C10_grid))
    /\ (0 <= k < Z.of_nat (length [num 50; num 50]
                           * length [num 100; num 100]))%Z.
Proof.
  destruct C10_view_index_in_grid as [H _].
  apply (H 3%nat C10_grid); by_run.
Defined.

(** ** A second pass of a configured grid *)

(** What the pass reads of a child: its size hints, and its length on an
    axis without stretch hint. *)
Definition view (c : Widget.t)
  : option Qc * option Qc * option Qc * option Qc :=
  (fst (Widget.size_hint c), snd (Widget.size_hint c),
   match fst (Widget.size_hint c) with
   | None => Some (fst (Widget.size c))
   | Some _ => None
   end,
   match snd (Widget.size_hint c) with
   | None => Some (snd (Widget.size c))
   | Some _ => None
   end).

(** The lists of sizes and stretch hints of the columns and rows. *)
Definition arrays (s : GridLayout.t) :=
  (GridLayout._cols s, GridLayout._rows s, GridLayout._cols_sh s,
   GridLayout._rows_sh s).

Definition minimum (s : GridLayout.t) :=
  (GridLayout.minimum_width s, GridLayout.minimum_height s).

(** Turns the equations between tuples of attributes of two grids into
    equations between the attributes, and uses them from left to right. *)
Ltac attrs :=
  unfold config, arrays, minimum in *;
  repeat match goal with
         | H : (_, _) = (_, _) |- _ => injection H as ? ?
         end.

Ltac sync :=
  attrs;
  repeat match goal with
         | H : ?f ?s1 = ?f ?s2 |- _ =>
             is_var s1; is_var s2; rewrite ?H; revert H
         end;
  intros.

Lemma resolve_counts_agree (count : nat) (s1 s2 : GridLayout.t) :
  config s1 = config s2 ->
  fst (GridLayout.resolve_counts count s1)
  = fst (GridLayout.resolve_counts count s2).
Proof.
  intros Hc. unfold GridLayout.resolve_counts, ceil_div. munfold. sync.
  destruct (_ && _); [done|].
  by destruct (GridLayout.cols s2) as [[|c]|], (GridLayout.rows s2) as [[|r]|].
Qed.

Lemma init_agree (count : nat) (s1 s2 : GridLayout.t) :
  config s1 = config s2 ->
  fst (GridLayout._init_rows_cols_sizes count s1)
  = fst (GridLayout._init_rows_cols_sizes count s2)
  /\ (fst (GridLayout._init_rows_cols_sizes count s1) = Val true ->
      arrays (snd (GridLayout._init_rows_cols_sizes count s1))
      = arrays (snd (GridLayout._init_rows_cols_sizes count s2))).
Proof.
  intros Hc. pose proof (resolve_counts_agree count s1 s2 Hc) as Hres.
  unfold GridLayout._init_rows_cols_sizes. munfold.
  destruct (GridLayout.resolve_counts count s1) as [r1 t1] eqn:H1.
  destruct (GridLayout.resolve_counts count s2) as [r2 t2] eqn:H2.
  apply resolve_counts_state in H1 as ->. apply resolve_counts_state in H2 as ->.
  simpl in Hres. subst r2. destruct r1 as [[[c r]|]|e]; [|done..].
  simpl. sync.
  destruct (GridLayout.set_minimums (GridLayout.cols_minimum s2) _)
    as [[[]|e] o]; [|done].
  simpl.
  destruct (GridLayout.set_minimums (GridLayout.rows_minimum s2) _)
    as [[[]|e] o']; done.
Qed.

Ltac agree_done :=
  simpl in *; attrs; first [done | split; congruence | congruence].

Lemma fill_cell_agree (row col : nat) (hint : option Qc * option Qc)
    (size1 size2 : Qc * Qc) (s1 s2 : GridLayout.t) :
  arrays s1 = arrays s2 ->
  (fst hint = None -> fst size1 = fst size2) ->
  (snd hint = None -> snd size1 = snd size2) ->
  fst (GridLayout.fill_cell row col hint size1 s1)
  = fst (GridLayout.fill_cell row col hint size2 s2)
  /\ arrays (snd (GridLayout.fill_cell row col hint size1 s1))
     = arrays (snd (GridLayout.fill_cell row col hint size2 s2)).
Proof.
  intros Ha Hw Hh. unfold GridLayout.fill_cell.
  destruct hint as [shw shh], size1 as [w1 h1], size2 as [w2 h2].
  simpl in Hw, Hh. munfold.
  destruct shw as [shw|], shh as [shh|];
    try (rewrite (Hw eq_refl)); try (rewrite (Hh eq_refl)); simpl; sync.
  - destruct (GridLayout.raise_hint col shw _) as [[[]|e] o]; [|agree_done].
    simpl. sync.
    destruct (GridLayout.raise_hint row shh _) as [[[]|e] o']; agree_done.
  - destruct (GridLayout.raise_hint col shw _) as [[[]|e] o]; [|agree_done].
    simpl. sync.
    destruct (GridLayout.raise_size row h2 _) as [[[]|e] o']; agree_done.
  - destruct (GridLayout.raise_size col w2 _) as [[[]|e] o]; [|agree_done].
    simpl. sync.
    destruct (GridLayout.raise_hint row shh _) as [[[]|e] o']; agree_done.
  - destruct (GridLayout.raise_size col w2 _) as [[[]|e] o]; [|agree_done].
    simpl. sync.
    destruct (GridLayout.raise_size row h2 _) as [[[]|e] o']; agree_done.
Qed.

Lemma fmap_rev {A B} (f : A -> B) (l : list A) :
  f <$> rev l = rev (f <$> l).
Proof.
  induction l as [|a l IH]; [done|].
  simpl. by rewrite fmap_app, IH.
Qed.

Lemma view_eq (c1 c2 : Widget.t) :
  view c1 = view c2 ->
  Widget.size_hint c1 = Widget.size_hint c2
  /\ (fst (Widget.size_hint c2) = None ->
      fst (Widget.size c1) = fst (Widget.size c2))
  /\ (snd (Widget.size_hint c2) = None ->
      snd (Widget.size c1) = snd (Widget.size c2)).
Proof.
  destruct c1 as [p1 [w1 h1] [shw1 shh1]], c2 as [p2 [w2 h2] [shw2 shh2]].
  unfold view. simpl. intros [= -> -> Hw Hh].
  split; [done|]. split; intros ->; congruence.
Qed.

(** The body of the loop of [_fill_rows_cols_sizes]. *)
Definition fill_body (n : nat) (item : nat * Widget.t) : M GridLayout.t unit :=
  let '(i, child) := item in
  ' (row, col) <- py_divmod i n ;;
  GridLayout.fill_cell row col (Widget.size_hint child) (Widget.size child).

Lemma fill_loop_agree (n : nat) (l1 l2 : list Widget.t) (k : nat)
    (s1 s2 : GridLayout.t) :
  view <$> l1 = view <$> l2 -> arrays s1 = arrays s2 ->
  fst (for_each (enumerate_from k l1) (fill_body n) s1)
  = fst (for_each (enumerate_from k l2) (fill_body n) s2)
  /\ arrays (snd (for_each (enumerate_from k l1) (fill_body n) s1))
     = arrays (snd (for_each (enumerate_from k l2) (fill_body n) s2)).
Proof.
  revert l2 k s1 s2.
  induction l1 as [|c1 l1 IH]; intros [|c2 l2] k s1 s2 Hv Ha; try done.
  rewrite !fmap_cons in Hv.
  assert (view c1 = view c2 /\ view <$> l1 = view <$> l2) as [Hc Hv']
    by (split; congruence).
  apply view_eq in Hc as (Hh & Hcw & Hch).
  cbn [enumerate_from for_each]. unfold bind. unfold fill_body at 1 3 5 7.
  unfold py_divmod, bind. destruct n as [|n']; [done|]. unfold ret.
  destruct (fill_cell_agree (k / S n') (k mod S n') (Widget.size_hint c2)
              (Widget.size c1) (Widget.size c2) s1 s2 Ha) as [H1 H2].
  { done. }
  { done. }
  rewrite Hh.
  destruct (GridLayout.fill_cell _ _ _ (Widget.size c1) s1) as [r1 t1].
  destruct (GridLayout.fill_cell _ _ _ (Widget.size c2) s2) as [r2 t2].
  simpl in H1, H2. subst r2. destruct r1 as [[]|e]; [|done].
  by apply IH.
Qed.

Lemma fill_agree (s1 s2 : GridLayout.t) :
  arrays s1 = arrays s2 ->
  view <$> GridLayout.children s1 = view <$> GridLayout.children s2 ->
  fst (GridLayout._fill_rows_cols_sizes s1)
  = fst (GridLayout._fill_rows_cols_sizes s2)
  /\ arrays (snd (GridLayout._fill_rows_cols_sizes s1))
     = arrays (snd (GridLayout._fill_rows_cols_sizes s2)).
Proof.
  intros Ha Hv.
  assert (forall s, GridLayout._fill_rows_cols_sizes s
          = match GridLayout._cols_sh s, GridLayout._rows_sh s,
                  GridLayout._cols s with
            | Some _, Some _, Some cols_l =>
                for_each (enumerate (rev (GridLayout.children s)))
                  (fill_body (length cols_l)) s
            | Some _, Some _, None => (Exc TypeError, s)
            | _, _, _ => (Exc AttributeError, s)
            end) as Hrun.
  { intros s. unfold GridLayout._fill_rows_cols_sizes. munfold.
    destruct (GridLayout._cols_sh s); [|done].
    destruct (GridLayout._rows_sh s); [|done].
    by destruct (GridLayout._cols s). }
  rewrite !Hrun. sync.
  destruct (GridLayout._cols_sh s2) eqn:E1; [|agree_done].
  destruct (GridLayout._rows_sh s2) eqn:E2; [|agree_done].
  destruct (GridLayout._cols s2) eqn:E3; [|agree_done].
  apply fill_loop_agree; [by rewrite !fmap_rev, Hv|].
  unfold arrays. congruence.
Qed.

Ltac mrun := repeat (progress (munfold; simpl)).

Lemma update_agree (s1 s2 : GridLayout.t) :
  config s1 = config s2 -> arrays s1 = arrays s2 ->
  fst (GridLayout._update_minimum_size s1)
  = fst (GridLayout._update_minimum_size s2)
  /\ (fst (GridLayout._update_minimum_size s1) = Val tt ->
      minimum (snd (GridLayout._update_minimum_size s1))
      = minimum (snd (GridLayout._update_minimum_size s2))).
Proof.
  intros Hc Ha. unfold GridLayout._update_minimum_size. munfold. sync.
  destruct (GridLayout.padding s2) as [[[l t] r] b].
  destruct (GridLayout.spacing s2) as [spacing_x spacing_y].
  destruct (GridLayout._cols s2); [|done].
  destruct (GridLayout._rows s2); done.
Qed.

Lemma finalize_cols_agree (s1 s2 : GridLayout.t) :
  config s1 = config s2 -> arrays s1 = arrays s2 ->
  minimum s1 = minimum s2 ->
  fst (GridLayout.finalize_cols s1) = fst (GridLayout.finalize_cols s2)
  /\ arrays (snd (GridLayout.finalize_cols s1))
     = arrays (snd (GridLayout.finalize_cols s2)).
Proof.
  intros Hc Ha Hm. unfold GridLayout.finalize_cols. mrun. sync.
  destruct (GridLayout.col_force_default s2).
  - destruct (GridLayout._cols s2) eqn:E; [|agree_done].
    mrun. repeat case_match; agree_done.
  - destruct (GridLayout._cols_sh s2) eqn:E; [|agree_done].
    mrun. repeat case_match; agree_done.
Qed.

Lemma finalize_rows_agree (s1 s2 : GridLayout.t) :
  config s1 = config s2 -> arrays s1 = arrays s2 ->
  minimum s1 = minimum s2 ->
  fst (GridLayout.finalize_rows s1) = fst (GridLayout.finalize_rows s2)
  /\ arrays (snd (GridLayout.finalize_rows s1))
     = arrays (snd (GridLayout.finalize_rows s2)).
Proof.
  intros Hc Ha Hm. unfold GridLayout.finalize_rows. mrun. sync.
  destruct (GridLayout.row_force_default s2).
  - destruct (GridLayout._rows s2) eqn:E; [|agree_done].
    mrun. repeat case_match; agree_done.
  - destruct (GridLayout._rows_sh s2) eqn:E; [|agree_done].
    destruct (GridLayout._rows s2) eqn:E'; [|agree_done].
    mrun. repeat case_match; agree_done.
Qed.

Lemma iterate_agree (count : nat) (s1 s2 : GridLayout.t) :
  config s1 = config s2 -> arrays s1 = arrays s2 ->
  fst (GridLayout._iterate_layout count s1)
  = fst (GridLayout._iterate_layout count s2).
Proof.
  intros Hc Ha. unfold GridLayout._iterate_layout, GridLayout.top.
  munfold. sync.
  destruct (GridLayout.padding s2) as [[[l t] r] b].
  destruct (GridLayout.spacing s2) as [spacing_x spacing_y].
  destruct (GridLayout._rows s2); [|done].
  mrun. repeat case_match; agree_done.
Qed.

(** *** Placing twice *)

(** The last cell of [cells] that addresses the child [k]. *)
Fixpoint last_cell (n : nat) (cells : list cell) (k : nat) : option cell :=
  match cells with
  | [] => None
  | ce :: cells' =>
      match last_cell n cells' k with
      | Some ce' => Some ce'
      | None => if bool_decide (py_index n (fst (fst ce)) = Some k)
                then Some ce else None
      end
  end.

Definition place_at (ce : cell) (c : Widget.t) : Widget.t :=
  GridLayout.place (snd (fst ce)) (fst (snd ce)) (snd (snd ce)) c.

Lemma place_at_twice (ce ce' : cell) (c : Widget.t) :
  place_at ce (place_at ce' c) = place_at ce c.
Proof.
  unfold place_at, GridLayout.place.
  destruct c as [p [w h] [[shw|] [shh|]]]; done.
Qed.

Lemma place_cell_run (ce : cell) (l : list Widget.t) :
  GridLayout.place_cell ce l
  = match py_index (length l) (fst (fst ce)) with
    | Some k => match l !! k with
                | Some c => (Val tt, <[k := place_at ce c]> l)
                | None => (Exc IndexError, l)
                end
    | None => (Exc IndexError, l)
    end.
Proof.
  unfold GridLayout.place_cell, place_at, lookup_item.
  destruct ce as [[i pos] [w h]]. mrun.
  destruct (py_index (length l) i) as [k|] eqn:Hk; mrun; [|done].
  destruct (l !! k); mrun; [|done]. by rewrite Hk.
Qed.

Lemma place_cells_run (cells : list cell) (l l1 : list Widget.t) :
  for_each cells GridLayout.place_cell l = (Val tt, l1) ->
  length l1 = length l
  /\ Forall (fun ce => is_Some (py_index (length l) (fst (fst ce)))) cells
  /\ forall k, l1 !! k = match last_cell (length l) cells k with
                         | Some ce => place_at ce <$> l !! k
                         | None => l !! k
                         end.
Proof.
  revert l. induction cells as [|ce cells IH]; intros l; simpl.
  - munfold. intros [= <-]. done.
  - unfold bind. rewrite place_cell_run.
    destruct (py_index (length l) ce.1.1) as [k0|] eqn:Hk0; [|done].
    destruct (l !! k0) as [c0|] eqn:Hc0; [|done].
    intros H. apply IH in H as (Hlen & Hall & Hlook).
    rewrite length_insert in Hlen, Hall, Hlook.
    split; [done|]. split; [constructor; [rewrite Hk0; eauto|done]|].
    intros k. rewrite Hlook.
    destruct (decide (k = k0)) as [->|Hne].
    + rewrite list_lookup_insert_eq by (by eapply lookup_lt_Some).
      rewrite Hc0. rewrite bool_decide_true by done.
      destruct (last_cell (length l) cells k0); simpl; [|done].
      by rewrite place_at_twice.
    + rewrite list_lookup_insert_ne by done.
      rewrite bool_decide_false by congruence.
      by destruct (last_cell (length l) cells k).
Qed.

Lemma place_cells_Val (cells : list cell) (l : list Widget.t) :
  Forall (fun ce => is_Some (py_index (length l) (fst (fst ce)))) cells ->
  exists l1, for_each cells GridLayout.place_cell l = (Val tt, l1).
Proof.
  revert l. induction cells as [|ce cells IH]; intros l Hall; simpl.
  - by eexists.
  - inversion Hall as [|? ? [k0 Hk0] Hall']; subst.
    unfold bind. rewrite place_cell_run, Hk0.
    apply py_index_lt in Hk0 as Hlt.
    destruct (lookup_lt_is_Some_2 l k0 Hlt) as [c0 ->].
    apply IH. by rewrite length_insert.
Qed.

(** Placing the cells again changes nothing. *)
Lemma place_cells_twice (cells : list cell) (l l1 : list Widget.t) :
  for_each cells GridLayout.place_cell l = (Val tt, l1) ->
  for_each cells GridLayout.place_cell l1 = (Val tt, l1)
  /\ view <$> l1 = view <$> l.
Proof.
  intros H. apply place_cells_run in H as (Hlen & Hall & Hlook).
  split.
  - destruct (place_cells_Val cells l1) as [l2 H2]; [by rewrite Hlen|].
    rewrite H2. f_equal.
    apply place_cells_run in H2 as (Hlen2 & _ & Hlook2).
    apply list_eq. intros k. rewrite Hlook2, Hlen, !Hlook.
    destruct (last_cell (length l) cells k); [|done].
    destruct (l !! k); simpl; [|done]. by rewrite place_at_twice.
  - apply list_eq. intros k. rewrite !list_lookup_fmap, Hlook.
    destruct (last_cell (length l) cells k) as [ce|]; [|done].
    destruct (l !! k) as [c|]; simpl; [|done]. f_equal.
    unfold place_at, GridLayout.place, view.
    by destruct c as [p [w h] [[shw|] [shh|]]].
Qed.

(** *** The passes of a configured grid *)

Lemma init_configured (count : nat) (self s : GridLayout.t) (ok : bool) :
  truthy_count (GridLayout.cols self) || truthy_count (GridLayout.rows self)
  = true ->
  GridLayout._init_rows_cols_sizes count self = (Val ok, s) -> ok = true.
Proof.
  intros Hcfg. unfold GridLayout._init_rows_cols_sizes. unfold bind at 1.
  destruct (GridLayout.resolve_counts count self) as [[[[c r]|]|e] t] eqn:Hres;
    [| |done].
  - mrun. repeat case_match; by intros [= <- <-].
  - exfalso. revert Hres. unfold GridLayout.resolve_counts, ceil_div. mrun.
    destruct (GridLayout.cols self) as [[|c]|],
      (GridLayout.rows self) as [[|r]|]; done.
Qed.

(** The steps of a pass that returns, for a grid with children and with
    [cols] or [rows]. *)
Definition pass_steps (self s1 s3 s4 s5 s6 : GridLayout.t)
    (cells : list cell) (children' : list Widget.t) : Prop :=
  GridLayout._init_rows_cols_sizes (length (GridLayout.children self)) self
  = (Val true, s1)
  /\ GridLayout._fill_rows_cols_sizes s1 = (Val tt, s3)
  /\ GridLayout._update_minimum_size s3 = (Val tt, s4)
  /\ GridLayout.finalize_cols s4 = (Val tt, s5)
  /\ GridLayout.finalize_rows s5 = (Val tt, s6)
  /\ GridLayout._iterate_layout (length (GridLayout.children self)) s6
     = (Val cells, s6)
  /\ for_each cells GridLayout.place_cell (GridLayout.children s6)
     = (Val tt, children').

Lemma do_layout_steps (self self' : GridLayout.t) :
  GridLayout.children self <> [] ->
  truthy_count (GridLayout.cols self) || truthy_count (GridLayout.rows self)
  = true ->
  GridLayout.do_layout self = (Val tt, self') ->
  exists s1 s3 s4 s5 s6 cells children',
    pass_steps self s1 s3 s4 s5 s6 cells children'
    /\ self' = GridLayout.set_children children' s6.
Proof.
  intros Hch Hcfg H.
  unfold GridLayout.do_layout, GridLayout._finalize_rows_cols_sizes in H.
  apply bind_Val in H as (? & ? & [= <- <-] & H).
  destruct (GridLayout.children self) as [|c0 ch0] eqn:Hch0; [done|].
  apply bind_Val in H as (failed & s1 & H1 & H).
  apply bind_Val in H1 as (ok & s1' & H1 & [= <- <-]).
  pose proof (init_configured _ _ _ _ Hcfg H1) as ->.
  apply bind_Val in H as ([] & s2 & [= <-] & H).
  apply bind_Val in H as ([] & s3 & H3 & H).
  apply bind_Val in H as ([] & s4 & H4 & H).
  apply bind_Val in H as ([] & s6 & H5 & H).
  apply bind_Val in H5 as ([] & s5 & H5 & H6).
  apply bind_Val in H as (cells & s7 & H7 & H).
  pose proof (tame_state (fun s => s) _ _ _ _ (iterate_layout_tame _) H7)
    as E7.
  simpl in E7. subst s7. unfold zoom in H.
  destruct (for_each cells GridLayout.place_cell (GridLayout.children s6))
    as [r children'] eqn:Hp.
  injection H as -> <-.
  exists s1', s3, s4, s5, s6, cells, children'.
  unfold pass_steps. by rewrite Hch0.
Qed.

Lemma do_layout_run (self s1 s3 s4 s5 s6 : GridLayout.t) (cells : list cell)
    (children' : list Widget.t) :
  GridLayout.children self <> [] ->
  pass_steps self s1 s3 s4 s5 s6 cells children' ->
  GridLayout.do_layout self
  = (Val tt, GridLayout.set_children children' s6).
Proof.
  intros Hch (H1 & H3 & H4 & H5 & H6 & H7 & Hp).
  unfold GridLayout.do_layout, GridLayout._finalize_rows_cols_sizes.
  destruct (GridLayout.children self) as [|c0 ch0] eqn:Hch0; [done|].
  unfold bind, get, zoom. rewrite Hch0, H1. unfold ret.
  change (negb true) with false. cbv beta iota.
  rewrite H3. cbv beta iota. rewrite H4. cbv beta iota.
  rewrite H5. cbv beta iota. rewrite H6. cbv beta iota.
  rewrite H7. cbv beta iota. by rewrite Hp.
Qed.

(** A grid with children and with [cols] or [rows] builds its lists anew
    in every pass: a second pass right after a pass that returned
    returns as well, and changes nothing. *)
Ltac eqs := unfold config, arrays, minimum in *; simpl in *; congruence.

(** A grid is its configuration, its lists, its minimum size and its
    children. *)
Lemma grid_ext (s t : GridLayout.t) :
  config s = config t -> arrays s = arrays t -> minimum s = minimum t ->
  GridLayout.children s = GridLayout.children t -> s = t.
Proof.
  destruct s, t. unfold config, arrays, minimum. simpl.
  intros Hc Ha Hm Hch. by simplify_eq.
Qed.

Lemma do_layout_idempotent (self self' : GridLayout.t) :
  GridLayout.children self <> [] ->
  truthy_count (GridLayout.cols self) || truthy_count (GridLayout.rows self)
  = true ->
  GridLayout.do_layout self = (Val tt, self') ->
  GridLayout.do_layout self' = (Val tt, self').
Proof.
  intros Hch Hcfg H.
  apply do_layout_steps in H
    as (s1 & s3 & s4 & s5 & s6 & cells & ch1 & Hsteps & ->); [|done..].
  destruct Hsteps as (H1 & H3 & H4 & H5 & H6 & H7 & Hp).
  set (n := length (GridLayout.children self)) in *.
  set (g := GridLayout.set_children ch1 s6).
  (* what the first pass kept *)
  pose proof (tame_state _ _ _ _ _ (init_tame n) H1) as K1.
  pose proof (tame_state _ _ _ _ _ fill_tame H3) as K3.
  pose proof (tame_state _ _ _ _ _ update_minimum_size_tame H4) as K4.
  pose proof (tame_state _ _ _ _ _ finalize_cols_tame H5) as K5.
  pose proof (tame_state _ _ _ _ _ finalize_rows_tame H6) as K6.
  simpl in K1, K3, K4, K5, K6.
  destruct (place_cells_twice _ _ _ Hp) as [Hp2 Hview].
  assert (length ch1 = n) as Hn.
  { apply (f_equal length) in Hview. rewrite !length_fmap in Hview.
    unfold n. congruence. }
  assert (config g = config self) as Cg by (unfold g; eqs).
  (* the second pass, step by step *)
  destruct (init_agree n self g (eq_sym Cg)) as [E1 A1].
  rewrite H1 in E1, A1. simpl in E1, A1. specialize (A1 eq_refl).
  destruct (GridLayout._init_rows_cols_sizes n g) as [r1 t1] eqn:G1.
  simpl in E1, A1. subst r1.
  pose proof (tame_state _ _ _ _ _ (init_tame n) G1) as L1. simpl in L1.
  destruct (fill_agree s1 t1 A1) as [E3 A3].
  { unfold g in L1. simpl in L1. clear - L1 K1 K3 K4 K5 K6 Hview. eqs. }
  rewrite H3 in E3, A3. simpl in E3, A3.
  destruct (GridLayout._fill_rows_cols_sizes t1) as [r3 t3] eqn:G3.
  simpl in E3, A3. subst r3.
  pose proof (tame_state _ _ _ _ _ fill_tame G3) as L3. simpl in L3.
  destruct (update_agree s3 t3) as [E4 M4]; [eqs|done|].
  rewrite H4 in E4, M4. simpl in E4, M4. specialize (M4 eq_refl).
  destruct (GridLayout._update_minimum_size t3) as [r4 t4] eqn:G4.
  simpl in E4, M4. subst r4.
  pose proof (tame_state _ _ _ _ _ update_minimum_size_tame G4) as L4.
  simpl in L4.
  destruct (finalize_cols_agree s4 t4) as [E5 A5]; [eqs|eqs|done|].
  rewrite H5 in E5, A5. simpl in E5, A5.
  destruct (GridLayout.finalize_cols t4) as [r5 t5] eqn:G5.
  simpl in E5, A5. subst r5.
  pose proof (tame_state _ _ _ _ _ finalize_cols_tame G5) as L5.
  simpl in L5.
  destruct (finalize_rows_agree s5 t5) as [E6 A6]; [eqs|done|eqs|].
  rewrite H6 in E6, A6. simpl in E6, A6.
  destruct (GridLayout.finalize_rows t5) as [r6 t6] eqn:G6.
  simpl in E6, A6. subst r6.
  pose proof (tame_state _ _ _ _ _ finalize_rows_tame G6) as L6.
  simpl in L6.
  pose proof (iterate_agree n s6 t6 ltac:(eqs) A6) as E7.
  rewrite H7 in E7. simpl in E7.
  destruct (GridLayout._iterate_layout n t6) as [r7 t7] eqn:G7.
  pose proof (tame_state (fun s => s) _ _ _ _ (iterate_layout_tame _) G7)
    as E7'.
  simpl in E7, E7'. subst t7 r7.
  assert (GridLayout.children t6 = ch1) as Hch6
    by (unfold g in L1; clear - L1 L3 L4 L5 L6; eqs).
  assert (GridLayout.children g <> []) as Hg.
  { unfold g. simpl. destruct ch1; [|done].
    destruct (GridLayout.children self); done. }
  rewrite (do_layout_run g t1 t3 t4 t5 t6 cells ch1 Hg).
  - f_equal. unfold g.
    assert (minimum s6 = minimum t6) as M6 by eqs.
    assert (config s6 = config t6) as C6 by eqs.
    by apply grid_ext.
  - unfold pass_steps. unfold g at 1 2. simpl GridLayout.children.
    rewrite Hn, Hch6. done.
Qed.

(** *** The unconfigured grid in [compute_layout] *)

Lemma init_unconfigured (count : nat) (self : GridLayout.t) :
  truthy_count (GridLayout.cols self) || truthy_count (GridLayout.rows self)
  = false ->
  GridLayout._init_rows_cols_sizes count self = (Val false, self).
Proof.
  intros Hcfg. apply orb_false_elim in Hcfg as [Hc Hr].
  unfold GridLayout._init_rows_cols_sizes, GridLayout.resolve_counts.
  mrun. by rewrite Hc, Hr.
Qed.

(** With neither [cols] nor [rows], the full pass of [compute_layout]
    sets [minimum_size] to the padding sums and [_cols] to [None], and
    returns: it places no view.  This is the branch that [do_layout] does
    not leave. *)
Lemma full_pass_unconfigured (n : nat) (self : RecycleGridLayout.t) :
  truthy_count (GridLayout.cols (RecycleGridLayout.grid self))
  || truthy_count (GridLayout.rows (RecycleGridLayout.grid self)) = false ->
  RecycleGridLayout.full_pass n self
  = (Val tt,
     RecycleGridLayout.set_grid
       (GridLayout.set_minimum_size
          (fst (fst (fst (GridLayout.padding (RecycleGridLayout.grid self))))
           + snd (fst (GridLayout.padding (RecycleGridLayout.grid self))),
           snd (fst (fst (GridLayout.padding (RecycleGridLayout.grid self))))
           + snd (GridLayout.padding (RecycleGridLayout.grid self)))
          (GridLayout.set__cols None (RecycleGridLayout.grid self)))
       (RecycleGridLayout.log RecycleGridLayout.clear_layout self)).
Proof.
  intros Hcfg. unfold RecycleGridLayout.full_pass, RecycleGridLayout.super.
  unfold bind at 1. unfold modify at 1. unfold bind at 1. unfold zoom at 1.
  cbn [RecycleGridLayout.grid RecycleGridLayout.log].
  rewrite (init_unconfigured n _ Hcfg). cbn [negb].
  destruct (GridLayout.padding (RecycleGridLayout.grid self))
    as [[[l t] r] b] eqn:Hp.
  mrun. by rewrite Hp.
Qed.

(** ** Minimum sizes with keys out of range *)

Lemma py_index_range (n : nat) (index : Z) (k : nat) :
  py_index n index = Some k -> (- Z.of_nat n <= index < Z.of_nat n)%Z.
Proof.
  unfold py_index. repeat case_bool_decide; intros; simplify_eq; lia.
Qed.

Lemma set_minimums_Exc (minimum : list (Z * Qc)) (l : list Qc) :
  ~ keys_in_range (length l) minimum ->
  fst (GridLayout.set_minimums minimum (Some l)) = Exc IndexError.
Proof.
  unfold GridLayout.set_minimums, keys_in_range. revert l.
  induction minimum as [|[i v] m IH]; intros l Hr.
  - destruct Hr. constructor.
  - cbn [for_each]. unfold bind. rewrite setitem_Some.
    destruct (py_index (length l) i) as [k|] eqn:Hk; [|done].
    apply IH. rewrite length_insert. intros Hm. apply Hr.
    constructor; [|done]. simpl. by eapply py_index_range.
Qed.

Lemma init_run (count : nat) (self : GridLayout.t) (c r : nat) :
  GridLayout.resolve_counts count self = (Val (Some (c, r)), self) ->
  GridLayout._init_rows_cols_sizes count self
  = match GridLayout.set_minimums (GridLayout.cols_minimum self)
            (Some (replicate c (GridLayout.col_default_width self))) with
    | (Val _, cs) =>
        match GridLayout.set_minimums (GridLayout.rows_minimum self)
                (Some (replicate r (GridLayout.row_default_height self)))
        with
        | (res, rs) =>
            (match res with Val _ => Val true | Exc e => Exc e end,
             GridLayout.set__rows rs
               (GridLayout.set__cols cs
                  (GridLayout.set__rows_sh (Some (replicate r None))
                     (GridLayout.set__cols_sh (Some (replicate c None))
                        self))))
        end
    | (Exc e, cs) =>
        (Exc e,
         GridLayout.set__cols cs
           (GridLayout.set__rows_sh (Some (replicate r None))
              (GridLayout.set__rows
                 (Some (replicate r (GridLayout.row_default_height self)))
                 (GridLayout.set__cols_sh (Some (replicate c None)) self))))
    end.
Proof.
  intros Hres. unfold GridLayout._init_rows_cols_sizes. unfold bind at 1.
  rewrite Hres. mrun.
  destruct (GridLayout.set_minimums (GridLayout.cols_minimum self) _)
    as [[[]|e] cs]; [|done].
  mrun.
  by destruct (GridLayout.set_minimums (GridLayout.rows_minimum self) _)
    as [[[]|e] rs].
Qed.

Lemma do_layout_init_Exc (self : GridLayout.t) (e : exn) :
  GridLayout.children self <> [] ->
  fst (GridLayout._init_rows_cols_sizes (length (GridLayout.children self))
         self) = Exc e ->
  fst (GridLayout.do_layout self) = Exc e.
Proof.
  intros Hch. unfold GridLayout.do_layout. unfold bind at 1. unfold get.
  destruct (GridLayout.children self) as [|c0 ch0]; [done|].
  unfold bind.
  by destruct (GridLayout._init_rows_cols_sizes _ self) as [[ok|e'] s];
    intros [= ->].
Qed.

(** C6 (as amended): the items of [cols_minimum] and [rows_minimum] are
    written with [cols[index] = value], so that a key is a Python index
    of the list of the resolved length: when every key is such an index
    (from minus the length to the length minus 1),
    [_init_rows_cols_sizes] returns and every column and row has its
    default size, or the value of the last item that addresses it (a
    negative key counts from the end); when some key is not,
    [_init_rows_cols_sizes] raises [IndexError], and so does the pass;
    and so does the force-default branch of [_finalize_rows_cols_sizes]. *)
Theorem C6_overrides (self : GridLayout.t) (count c r : nat) :
  GridLayout.resolve_counts count self = (Val (Some (c, r)), self) ->
  (keys_in_range c (GridLayout.cols_minimum self) ->
   keys_in_range r (GridLayout.rows_minimum self) ->
   exists self' cs rs,
     GridLayout._init_rows_cols_sizes count self = (Val true, self')
     /\ GridLayout._cols self' = Some cs /\ GridLayout._rows self' = Some rs
     /\ (forall k, (k < c)%nat ->
           cs !! k
           = Some (default (GridLayout.col_default_width self)
                     (override c (GridLayout.cols_minimum self) k)))
     /\ (forall k, (k < r)%nat ->
           rs !! k
           = Some (default (GridLayout.row_default_height self)
                     (override r (GridLayout.rows_minimum self) k))))
  /\ (~ keys_in_range c (GridLayout.cols_minimum self)
      \/ ~ keys_in_range r (GridLayout.rows_minimum self) ->
      fst (GridLayout._init_rows_cols_sizes count self) = Exc IndexError
      /\ (GridLayout.children self <> [] ->
          count = length (GridLayout.children self) ->
          fst (GridLayout.do_layout self) = Exc IndexError))
  /\ (forall n d minimum,
        ~ keys_in_range n minimum ->
        GridLayout.forced_sizes n d minimum = Exc IndexError).
Proof.
  intros Hres. split; [|split].
  - intros Hc Hr.
    destruct (forced_sizes_Val c (GridLayout.col_default_width self) _ Hc)
      as [cs Hcs].
    destruct (forced_sizes_Val r (GridLayout.row_default_height self) _ Hr)
      as [rs Hrs].
    pose proof (forced_sizes_spec _ _ _ _ Hcs) as [_ Hcl].
    pose proof (forced_sizes_spec _ _ _ _ Hrs) as [_ Hrl].
    rewrite (init_run _ _ _ _ Hres).
    unfold GridLayout.forced_sizes in Hcs, Hrs.
    destruct (GridLayout.set_minimums (GridLayout.cols_minimum self) _)
      as [[[]|e] [cs'|]]; try done.
    destruct (GridLayout.set_minimums (GridLayout.rows_minimum self) _)
      as [[[]|e] [rs'|]]; try done.
    simplify_eq. eexists _, cs, rs. done.
  - intros Hbad.
    assert (fst (GridLayout._init_rows_cols_sizes count self)
            = Exc IndexError) as Hinit.
    { rewrite (init_run _ _ _ _ Hres).
      destruct (decide (keys_in_range c (GridLayout.cols_minimum self)))
        as [Hc|Hc].
      - destruct Hbad as [Hbad|Hbad]; [done|].
        destruct (set_minimums_Val _ (replicate c
                    (GridLayout.col_default_width self))
                    ltac:(by rewrite length_replicate)) as (cs & -> & _).
        pose proof (set_minimums_Exc (GridLayout.rows_minimum self)
                      (replicate r (GridLayout.row_default_height self))
                      ltac:(by rewrite length_replicate)) as Hr.
        destruct (GridLayout.set_minimums (GridLayout.rows_minimum self) _)
          as [res rs]. simpl in Hr. by subst.
      - pose proof (set_minimums_Exc (GridLayout.cols_minimum self)
                      (replicate c (GridLayout.col_default_width self))
                      ltac:(by rewrite length_replicate)) as Hc'.
        destruct (GridLayout.set_minimums (GridLayout.cols_minimum self) _)
          as [res cs]. simpl in Hc'. by subst. }
    split; [done|]. intros Hch ->. by apply do_layout_init_Exc.
  - intros n d minimum Hbad. unfold GridLayout.forced_sizes.
    pose proof (set_minimums_Exc minimum (replicate n d)
                  ltac:(by rewrite length_replicate)) as H.
    destruct (GridLayout.set_minimums minimum _) as [res o].
    simpl in H. by subst.
Qed.

(** The key 1 in a grid of two columns. *)
Lemma C6_overrides_witness :
  exists self' cs rs,
    GridLayout._init_rows_cols_sizes 1 (C6_grid [(1%Z, num 50)])
    = (Val true, self')
    /\ GridLayout._cols self' = Some cs /\ GridLayout._rows self' = Some rs
    /\ (forall k, (k < 2)%nat ->
          cs !! k = Some (default 0 (override 2 [(1%Z, num 50)] k)))
    /\ (forall k, (k < 1)%nat -> rs !! k = Some (default 0 (override 1 [] k))).
Proof.
  destruct (C6_overrides (C6_grid [(1%Z, num 50)]) 1 2 1 ltac:(by_run))
    as [H _].
  apply H.
  - repeat constructor; simpl; lia.
  - constructor.
Defined.

(** * Further properties *)

(** ** [nmax] *)

Lemma py_max_le (a b : Qc) : a <= py_max a b /\ b <= py_max a b.
Proof.
  unfold py_max. case_bool_decide as H.
  - split; [by apply Qclt_le_weak|apply Qcle_refl].
  - split; [apply Qcle_refl|by apply Qcnot_lt_le].
Qed.

Lemma py_max_cases (a b : Qc) : py_max a b = a \/ py_max a b = b.
Proof. unfold py_max. case_bool_decide; auto. Qed.

Lemma foldl_py_max (v : Qc) (vs : list Qc) :
  foldl py_max v vs ∈ v :: vs
  /\ forall u, u ∈ v :: vs -> u <= foldl py_max v vs.
Proof.
  revert v. induction vs as [|w vs IH]; intros v; simpl.
  - split; [apply list_elem_of_here|]. intros u Hu.
    apply list_elem_of_singleton in Hu as ->. apply Qcle_refl.
  - destruct (IH (py_max v w)) as [Hin Hle].
    destruct (py_max_le v w) as [Hv Hw]. split.
    + apply elem_of_cons in Hin as [->|Hin].
      * destruct (py_max_cases v w) as [->| ->];
          [apply list_elem_of_here|].
        apply list_elem_of_further, list_elem_of_here.
      * by do 2 apply list_elem_of_further.
    + intros u Hu.
      assert (py_max v w <= foldl py_max (py_max v w) vs) as Hm
        by apply Hle, list_elem_of_here.
      apply elem_of_cons in Hu as [->|Hu];
        [by eapply Qcle_trans|].
      apply elem_of_cons in Hu as [->|Hu];
        [by eapply Qcle_trans|].
      by apply Hle, list_elem_of_further.
Qed.

(** X1: [nmax] returns the greatest of its arguments that are not [None]:
    the value returned is one of the arguments and no argument is above
    it.  It raises [ValueError] ([max] of an empty list) exactly when every
    argument is [None], in particular when there is no argument. *)
Theorem nmax_greatest (args : list (option Qc)) :
  match nmax args with
  | Val m => Some m ∈ args /\ forall v, Some v ∈ args -> v <= m
  | Exc e => e = ValueError /\ forall a, a ∈ args -> a = None
  end.
Proof.
  unfold nmax. destruct (omap id args) as [|v vs] eqn:Hom.
  - split; [done|]. intros [u|] Hu; [|done].
    assert (u ∈ omap id args) as Hin
      by (apply list_elem_of_omap; by exists (Some u)).
    rewrite Hom in Hin. by apply elem_of_nil in Hin.
  - destruct (foldl_py_max v vs) as [Hin Hle]. split.
    + rewrite <- Hom in Hin.
      apply list_elem_of_omap in Hin as (y & Hy & Hid).
      simpl in Hid. by subst y.
    + intros u Hu. apply Hle. rewrite <- Hom.
      apply list_elem_of_omap. by exists (Some u).
Qed.

(** ** What a pass does to the children *)

(** [keeps R m]: whatever [m] returns or raises, the state it leaves is
    related by [R] to the state it started from. *)
Definition keeps {St A} (R : St -> St -> Prop) (m : M St A) : Prop :=
  forall s, R s (snd (m s)).

Lemma keeps_bind {St A B} (R : St -> St -> Prop) `{!Transitive R}
    (m : M St A) (k : A -> M St B) :
  keeps R m -> (forall a, keeps R (k a)) -> keeps R (bind m k).
Proof.
  intros Hm Hk s. unfold bind. specialize (Hm s).
  destruct (m s) as [[a|e] s1]; simpl in *; [|done].
  by etrans; [|apply Hk].
Qed.

Lemma keeps_tame {St A X} (R : St -> St -> Prop) (f : St -> X)
    (m : M St A) :
  tame f m -> (forall s s', f s' = f s -> R s s') -> keeps R m.
Proof. intros Hm HR s. apply HR. by destruct (Hm s). Qed.

(** The children of two states of a grid are the same widgets as far as
    the layout does not own them: as many, with the same size hints, and
    the same length on every axis without a stretch hint. *)
Definition same_views (s s' : GridLayout.t) : Prop :=
  view <$> GridLayout.children s' = view <$> GridLayout.children s.

Global Instance same_views_trans : Transitive same_views.
Proof. unfold same_views. intros s1 s2 s3 H1 H2. congruence. Qed.

Lemma place_at_view (ce : cell) (c : Widget.t) : view (place_at ce c) = view c.
Proof.
  unfold place_at, GridLayout.place, view.
  by destruct c as [p [w h] [[shw|] [shh|]]].
Qed.

Lemma place_cells_view (cells : list cell) (l : list Widget.t) :
  view <$> snd (for_each cells GridLayout.place_cell l) = view <$> l.
Proof.
  revert l. induction cells as [|ce cells IH]; intros l; simpl; [done|].
  unfold bind. rewrite place_cell_run.
  destruct (py_index (length l) ce.1.1) as [k|]; [|done].
  destruct (l !! k) as [c|] eqn:Hc; [|done].
  rewrite IH, list_fmap_insert, place_at_view.
  apply list_insert_id. by rewrite list_lookup_fmap, Hc.
Qed.

Lemma do_layout_views : keeps same_views GridLayout.do_layout.
Proof.
  assert (forall A (m : M GridLayout.t A),
            tame GridLayout.children m -> keeps same_views m) as Htame.
  { intros A m Hm. apply (keeps_tame _ _ _ Hm).
    intros s s' H. unfold same_views. by rewrite H. }
  unfold GridLayout.do_layout, GridLayout._finalize_rows_cols_sizes.
  repeat lazymatch goal with
         | |- keeps _ (bind _ _) => apply keeps_bind; [apply _| |intros ?]
         | |- keeps _ (let _ := _ in _) => cbv zeta
         | |- keeps _ (zoom GridLayout.children _ _) => fail
         | |- keeps _ _ => apply Htame; tame_solve
         end.
  intros s. unfold zoom, same_views.
  lazymatch goal with
  | |- context [for_each ?cells _ _] =>
      pose proof (place_cells_view cells (GridLayout.children s)) as Hv
  end.
  by destruct (for_each _ _ _) as [r l].
Qed.

(** X2: whatever it returns or raises, [do_layout] leaves as many children
    as it found, in the same order and with the same size hints, and a
    child keeps its width when its [size_hint_x] is [None] and its height
    when its [size_hint_y] is [None]. *)
Theorem do_layout_keeps_fixed_lengths (self : GridLayout.t) :
  let self' := snd (GridLayout.do_layout self) in
  length (GridLayout.children self') = length (GridLayout.children self)
  /\ forall (k : nat) (c : Widget.t),
       GridLayout.children self !! k = Some c ->
       exists c',
         GridLayout.children self' !! k = Some c'
         /\ Widget.size_hint c' = Widget.size_hint c
         /\ (fst (Widget.size_hint c) = None ->
             fst (Widget.size c') = fst (Widget.size c))
         /\ (snd (Widget.size_hint c) = None ->
             snd (Widget.size c') = snd (Widget.size c)).
Proof.
  pose proof (do_layout_views self) as Hv. unfold same_views in Hv.
  simpl. split.
  - apply (f_equal length) in Hv. by rewrite !length_fmap in Hv.
  - intros k c Hc.
    apply (f_equal (fun l => l !! k)) in Hv.
    rewrite !list_lookup_fmap, Hc in Hv. simpl in Hv.
    destruct (GridLayout.children _ !! k) as [c'|]; [|done].
    assert (view c' = view c) as Hv' by (by apply (inj Some)).
    exists c'. split; [done|]. by apply view_eq in Hv'.
Qed.

(** ** The fill phase *)

(** [l[k] = nmax(l[k], v)] on a list of sizes, and on a list of stretch
    hints. *)
Definition raised (k : nat) (v : Qc) (l : list Qc) : list Qc :=
  alter (fun cur => py_max cur v) k l.

Definition raised_hint (k : nat) (sh : Qc) (l : list (option Qc))
  : list (option Qc) :=
  alter (fun cur => Some (from_option (fun c => py_max c sh) sh cur)) k l.

Lemma insert_as_alter {A} (f : A -> A) (k : nat) (cur : A) (l : list A) :
  l !! k = Some cur -> <[k := f cur]> l = alter f k l.
Proof.
  intros Hk. apply list_eq. intros j. rewrite list_lookup_alter.
  destruct (decide (k = j)) as [->|Hne].
  - rewrite list_lookup_insert_eq by (by eapply lookup_lt_Some).
    by rewrite Hk.
  - by rewrite list_lookup_insert_ne.
Qed.

Lemma raise_size_run (k : nat) (v : Qc) (l : list Qc) :
  GridLayout.raise_size k v (Some l)
  = if bool_decide (k < length l)%nat then (Val tt, Some (raised k v l))
    else (Exc IndexError, Some l).
Proof.
  unfold GridLayout.raise_size. unfold bind at 1. rewrite getitem_Some.
  case_bool_decide as Hk.
  - destruct (lookup_lt_is_Some_2 l k Hk) as [cur Hcur]. rewrite Hcur.
    unfold bind, lift_res, nmax, ret. simpl.
    rewrite setitem_nat by done.
    unfold raised. by rewrite (insert_as_alter (fun cur => py_max cur v)).
  - by rewrite lookup_ge_None_2 by lia.
Qed.

Lemma raise_hint_run (k : nat) (sh : Qc) (l : list (option Qc)) :
  GridLayout.raise_hint k sh (Some l)
  = if bool_decide (k < length l)%nat then (Val tt, Some (raised_hint k sh l))
    else (Exc IndexError, Some l).
Proof.
  unfold GridLayout.raise_hint. unfold bind at 1. rewrite getitem_Some.
  case_bool_decide as Hk.
  - destruct (lookup_lt_is_Some_2 l k Hk) as [cur Hcur]. rewrite Hcur.
    unfold bind, lift_res, ret.
    assert (nmax [cur; Some sh]
            = Val (from_option (fun c => py_max c sh) sh cur)) as ->
      by (by destruct cur).
    rewrite setitem_nat by done.
    unfold raised_hint.
    by rewrite (insert_as_alter
                  (fun cur => Some (from_option (fun c => py_max c sh) sh cur))).
  - by rewrite lookup_ge_None_2 by lia.
Qed.

(** A grid whose four lists have [c] columns and [r] rows, as
    [_init_rows_cols_sizes] leaves them. *)
Definition shaped (c r : nat) (s : GridLayout.t) : Prop :=
  length <$> GridLayout._cols s = Some c
  /\ length <$> GridLayout._rows s = Some r
  /\ length <$> GridLayout._cols_sh s = Some c
  /\ length <$> GridLayout._rows_sh s = Some r.

(** The lists after the body of the loop of [_fill_rows_cols_sizes] ran
    for the cell [(row, col)]. *)
Definition fill_spec (row col : nat) (size_hint : option Qc * option Qc)
    (size : Qc * Qc) (s : GridLayout.t) : GridLayout.t :=
  let s1 := match fst size_hint with
            | None => GridLayout.set__cols
                        (raised col (fst size) <$> GridLayout._cols s) s
            | Some shw => GridLayout.set__cols_sh
                            (raised_hint col shw <$> GridLayout._cols_sh s) s
            end in
  match snd size_hint with
  | None => GridLayout.set__rows
              (raised row (snd size) <$> GridLayout._rows s1) s1
  | Some shh => GridLayout.set__rows_sh
                  (raised_hint row shh <$> GridLayout._rows_sh s1) s1
  end.

Lemma fill_spec_shaped (c r row col : nat) hint size (s : GridLayout.t) :
  shaped c r s -> shaped c r (fill_spec row col hint size s).
Proof.
  unfold shaped, fill_spec, raised, raised_hint.
  intros (H1 & H2 & H3 & H4).
  destruct hint as [[shw|] [shh|]]; simpl;
    destruct (GridLayout._cols s), (GridLayout._rows s),
      (GridLayout._cols_sh s), (GridLayout._rows_sh s);
    simpl in *; rewrite ?length_alter; done.
Qed.

Lemma fill_cell_run (c r row col : nat) hint size (s : GridLayout.t) :
  shaped c r s -> (col < c)%nat ->
  GridLayout.fill_cell row col hint size s
  = if bool_decide (row < r)%nat
    then (Val tt, fill_spec row col hint size s)
    else (Exc IndexError, snd (GridLayout.fill_cell row col hint size s)).
Proof.
  intros (H1 & H2 & H3 & H4) Hcol.
  unfold GridLayout.fill_cell, fill_spec.
  destruct hint as [shw shh], size as [w h].
  destruct (GridLayout._cols s) as [cs|] eqn:E1; [|done].
  destruct (GridLayout._rows s) as [rs|] eqn:E2; [|done].
  destruct (GridLayout._cols_sh s) as [csh|] eqn:E3; [|done].
  destruct (GridLayout._rows_sh s) as [rsh|] eqn:E4; [|done].
  simpl in H1, H2, H3, H4.
  injection H1 as H1. injection H2 as H2. injection H3 as H3.
  injection H4 as H4.
  unfold bind, zoom.
  destruct shw as [shw|], shh as [shh|]; simpl;
    rewrite ?E1, ?E2, ?E3, ?E4, ?raise_size_run, ?raise_hint_run;
    rewrite ?H1, ?H3, (bool_decide_true (col < c)%nat) by done;
    simpl; rewrite ?E1, ?E2, ?E3, ?E4, ?raise_size_run, ?raise_hint_run;
    rewrite ?H2, ?H4; by case_bool_decide.
Qed.

(** The lists after the loop of [_fill_rows_cols_sizes] ran for the
    children [l], the first of which has the index [k], in [n] columns. *)
Fixpoint fill_all (n k : nat) (l : list Widget.t) (s : GridLayout.t)
  : GridLayout.t :=
  match l with
  | [] => s
  | child :: l' =>
      fill_all n (S k) l'
        (fill_spec (k / n) (k mod n) (Widget.size_hint child)
           (Widget.size child) s)
  end.

Lemma fill_all_shaped (c r k : nat) (l : list Widget.t) (s : GridLayout.t) :
  shaped c r s -> shaped c r (fill_all c k l s).
Proof.
  revert k s. induction l as [|child l IH]; intros k s Hs; [done|].
  simpl. by apply IH, fill_spec_shaped.
Qed.

(** The loop returns when the grid has a cell for every child, and raises
    [IndexError] when it has not. *)
Lemma fill_loop_run (c r k : nat) (l : list Widget.t) (s : GridLayout.t) :
  shaped c r s -> (1 <= c)%nat ->
  ((k + length l <= r * c)%nat ->
   for_each (enumerate_from k l) (fill_body c) s
   = (Val tt, fill_all c k l s))
  /\ (l <> [] -> (r * c < k + length l)%nat ->
      fst (for_each (enumerate_from k l) (fill_body c) s) = Exc IndexError).
Proof.
  intros Hs Hc. revert k s Hs.
  induction l as [|child l IH]; intros k s Hs; [done|].
  cbn [enumerate_from for_each fill_all length]. unfold bind.
  unfold fill_body at 1 3. unfold py_divmod.
  destruct c as [|c']; [lia|]. set (c := S c') in *.
  unfold bind, ret.
  assert (k mod c < c)%nat as Hcol by (apply Nat.mod_upper_bound; lia).
  rewrite (fill_cell_run c r) by done.
  case_bool_decide as Hrow.
  - destruct (IH (S k) _ (fill_spec_shaped c r (k / c) (k mod c)
                            (Widget.size_hint child) (Widget.size child) s Hs))
      as [IH1 IH2].
    split.
    + intros Hk. apply IH1. lia.
    + intros _ Hk. destruct l as [|child' l'].
      * exfalso. simpl in Hk.
        pose proof (Nat.mul_succ_div_gt k c ltac:(lia)). nia.
      * apply IH2; [done|simpl in *; lia].
  - split; [|done]. intros Hk. exfalso. apply Hrow.
    apply Nat.Div0.div_lt_upper_bound. simpl in Hk. lia.
Qed.

Lemma fill_run (c r : nat) (s : GridLayout.t) :
  shaped c r s ->
  GridLayout._fill_rows_cols_sizes s
  = for_each (enumerate (rev (GridLayout.children s))) (fill_body c) s.
Proof.
  intros (H1 & H2 & H3 & H4). unfold GridLayout._fill_rows_cols_sizes.
  munfold.
  destruct (GridLayout._cols_sh s); [|done].
  destruct (GridLayout._rows_sh s); [|done].
  destruct (GridLayout._cols s); [|done].
  simpl in H1. by injection H1 as <-.
Qed.

(** The size of a column or row, and the stretch hint of a column or row
    ([None] when the list or the slot does not exist). *)
Definition slot {A} (o : pylist A) (k : nat) : option A :=
  match o with
  | Some l => l !! k
  | None => None
  end.

(** The order on stretch hints: [None] is below every hint. *)
Definition hint_le (a b : option Qc) : Prop :=
  match a, b with
  | None, _ => True
  | Some x, Some y => x <= y
  | Some _, None => False
  end.

(** No slot of [o'] is below the slot of [o] in its place. *)
Definition slots_le {A} (le : A -> A -> Prop) (o o' : pylist A) : Prop :=
  forall k v, slot o k = Some v -> exists v', slot o' k = Some v' /\ le v v'.

(** No column or row of [s'] is smaller, or has a lower stretch hint,
    than in [s]. *)
Definition grows (s s' : GridLayout.t) : Prop :=
  slots_le Qcle (GridLayout._cols s) (GridLayout._cols s')
  /\ slots_le Qcle (GridLayout._rows s) (GridLayout._rows s')
  /\ slots_le hint_le (GridLayout._cols_sh s) (GridLayout._cols_sh s')
  /\ slots_le hint_le (GridLayout._rows_sh s) (GridLayout._rows_sh s').

Lemma hint_le_refl (a : option Qc) : hint_le a a.
Proof. destruct a; simpl; [apply Qcle_refl|done]. Qed.

Lemma hint_le_trans (a b c : option Qc) :
  hint_le a b -> hint_le b c -> hint_le a c.
Proof.
  destruct a, b, c; simpl; try done. apply Qcle_trans.
Qed.

Lemma slots_le_refl {A} (le : A -> A -> Prop) (o : pylist A) :
  (forall a, le a a) -> slots_le le o o.
Proof. intros Hr k v Hk. eauto. Qed.

Lemma slots_le_trans {A} (le : A -> A -> Prop) (o1 o2 o3 : pylist A) :
  (forall a b c, le a b -> le b c -> le a c) ->
  slots_le le o1 o2 -> slots_le le o2 o3 -> slots_le le o1 o3.
Proof.
  intros Ht H1 H2 k v Hk.
  destruct (H1 k v Hk) as (v' & Hk' & Hle).
  destruct (H2 k v' Hk') as (v'' & Hk'' & Hle'). eauto.
Qed.

Lemma grows_refl (s : GridLayout.t) : grows s s.
Proof.
  repeat split; apply slots_le_refl;
    first [apply Qcle_refl | apply hint_le_refl].
Qed.

Lemma grows_trans (s1 s2 s3 : GridLayout.t) :
  grows s1 s2 -> grows s2 s3 -> grows s1 s3.
Proof.
  intros (A1 & A2 & A3 & A4) (B1 & B2 & B3 & B4).
  repeat split; eapply slots_le_trans; eauto;
    first [apply Qcle_trans | apply hint_le_trans].
Qed.

Lemma slot_raised (o : pylist Qc) (k j : nat) (v : Qc) :
  slot (raised k v <$> o) j
  = if decide (k = j) then (fun cur => py_max cur v) <$> slot o k
    else slot o j.
Proof.
  unfold slot, raised. destruct o as [l|]; simpl; [|by case_decide].
  apply list_lookup_alter.
Qed.

Lemma slot_raised_hint (o : pylist (option Qc)) (k j : nat) (sh : Qc) :
  slot (raised_hint k sh <$> o) j
  = if decide (k = j)
    then (fun cur => Some (from_option (fun c => py_max c sh) sh cur))
           <$> slot o k
    else slot o j.
Proof.
  unfold slot, raised_hint. destruct o as [l|]; simpl; [|by case_decide].
  apply list_lookup_alter.
Qed.

Lemma slots_le_raised (o : pylist Qc) (k : nat) (v : Qc) :
  slots_le Qcle o (raised k v <$> o).
Proof.
  intros j u Hj. rewrite slot_raised. case_decide as Hk.
  - subst j. rewrite Hj. simpl. eexists. split; [done|].
    apply py_max_le.
  - exists u. split; [done|apply Qcle_refl].
Qed.

Lemma slots_le_raised_hint (o : pylist (option Qc)) (k : nat) (sh : Qc) :
  slots_le hint_le o (raised_hint k sh <$> o).
Proof.
  intros j u Hj. rewrite slot_raised_hint. case_decide as Hk.
  - subst j. rewrite Hj. simpl. eexists. split; [done|].
    destruct u as [u|]; simpl; [apply py_max_le|done].
  - exists u. split; [done|apply hint_le_refl].
Qed.

Lemma fill_spec_grows (row col : nat) hint size (s : GridLayout.t) :
  grows s (fill_spec row col hint size s).
Proof.
  unfold grows, fill_spec. destruct hint as [[shw|] [shh|]]; simpl;
    repeat split;
    first [apply slots_le_raised | apply slots_le_raised_hint
          | apply slots_le_refl; first [apply Qcle_refl | apply hint_le_refl]].
Qed.

Lemma fill_all_grows (n k : nat) (l : list Widget.t) (s : GridLayout.t) :
  grows s (fill_all n k l s).
Proof.
  revert k s. induction l as [|child l IH]; intros k s; simpl.
  - apply grows_refl.
  - eapply grows_trans; [apply fill_spec_grows|apply IH].
Qed.

(** The cell [(row, col)] has room for a child: on each axis, the slot is
    at least as long as the child when the child has no stretch hint, and
    has a stretch hint at least as high as the child's when it has one. *)
Definition fits (row col : nat) (size_hint : option Qc * option Qc)
    (size : Qc * Qc) (s : GridLayout.t) : Prop :=
  match fst size_hint with
  | None => exists v, slot (GridLayout._cols s) col = Some v /\ fst size <= v
  | Some shw =>
      exists v, slot (GridLayout._cols_sh s) col = Some (Some v) /\ shw <= v
  end
  /\ match snd size_hint with
     | None => exists v, slot (GridLayout._rows s) row = Some v /\ snd size <= v
     | Some shh =>
         exists v, slot (GridLayout._rows_sh s) row = Some (Some v) /\ shh <= v
     end.

Lemma fits_grows (row col : nat) hint size (s s' : GridLayout.t) :
  fits row col hint size s -> grows s s' -> fits row col hint size s'.
Proof.
  unfold fits. intros [Hc Hr] (G1 & G2 & G3 & G4).
  split.
  - destruct (fst hint) as [shw|]; destruct Hc as (v & Hv & Hle).
    + destruct (G3 _ _ Hv) as ([v'|] & Hv' & Hle'); [|done].
      exists v'. split; [done|]. by eapply Qcle_trans.
    + destruct (G1 _ _ Hv) as (v' & Hv' & Hle').
      exists v'. split; [done|]. by eapply Qcle_trans.
  - destruct (snd hint) as [shh|]; destruct Hr as (v & Hv & Hle).
    + destruct (G4 _ _ Hv) as ([v'|] & Hv' & Hle'); [|done].
      exists v'. split; [done|]. by eapply Qcle_trans.
    + destruct (G2 _ _ Hv) as (v' & Hv' & Hle').
      exists v'. split; [done|]. by eapply Qcle_trans.
Qed.

Lemma slot_is_Some {A} (o : pylist A) (n k : nat) :
  length <$> o = Some n -> (k < n)%nat -> is_Some (slot o k).
Proof.
  destruct o as [l|]; [|done]. simpl. intros [= <-] Hk.
  by apply lookup_lt_is_Some_2.
Qed.

Lemma fill_spec_fits (c r row col : nat) hint size (s : GridLayout.t) :
  shaped c r s -> (col < c)%nat -> (row < r)%nat ->
  fits row col hint size (fill_spec row col hint size s).
Proof.
  intros (H1 & H2 & H3 & H4) Hcol Hrow.
  destruct (slot_is_Some _ _ _ H1 Hcol) as [v1 E1].
  destruct (slot_is_Some _ _ _ H2 Hrow) as [v2 E2].
  destruct (slot_is_Some _ _ _ H3 Hcol) as [v3 E3].
  destruct (slot_is_Some _ _ _ H4 Hrow) as [v4 E4].
  unfold fits, fill_spec. destruct hint as [[shw|] [shh|]]; simpl;
    rewrite ?slot_raised, ?slot_raised_hint, ?decide_True by done;
    rewrite ?E1, ?E2, ?E3, ?E4; simpl; split; eexists; (split; [done|]);
    try apply py_max_le.
  all: destruct v3, v4; simpl; first [apply py_max_le | apply Qcle_refl].
Qed.

Lemma fill_all_fits (c r k : nat) (l : list Widget.t) (s : GridLayout.t) :
  shaped c r s -> (1 <= c)%nat -> (k + length l <= r * c)%nat ->
  forall j child,
    l !! j = Some child ->
    fits ((k + j) / c) ((k + j) mod c) (Widget.size_hint child)
      (Widget.size child) (fill_all c k l s).
Proof.
  intros Hs Hc. revert k s Hs.
  induction l as [|child0 l IH]; intros k s Hs Hk j child Hj; [done|].
  simpl in Hk. destruct j as [|j]; simpl in Hj.
  - injection Hj as ->. rewrite Nat.add_0_r. simpl.
    eapply fits_grows; [|apply fill_all_grows].
    apply (fill_spec_fits c r); [done| |].
    + apply Nat.mod_upper_bound. lia.
    + apply Nat.Div0.div_lt_upper_bound. lia.
  - simpl. replace (k + S j)%nat with (S k + j)%nat by lia.
    apply IH; [by apply fill_spec_shaped|lia|done].
Qed.

(** A grid of two columns and one row, as [_init_rows_cols_sizes] leaves
    it, with a child 70 wide and 20 high and a child that stretches. *)
Definition fill_grid : GridLayout.t :=
  GridLayout.mk (0, 0) (0, 0, 0, 0) (Some 2%nat) None 0 0 false false [] []
    0 0 0 0 (num 200) (num 100)
    [stretchy (0, 0) (num 10, num 10);
     Widget.mk (0, 0) (num 70, num 20) (None, None)]
    (Some [0; 0]) (Some [0]) (Some [None; None]) (Some [None]).

(** X3: when [_fill_rows_cols_sizes] returns on a grid whose lists have
    [c] columns and [r] rows, every cell has room for its child, the
    [i]-th child in the order of addition being in the row [i / c] and the
    column [i mod c]: the column is at least as wide as a child whose
    [size_hint_x] is [None], and has a stretch hint at least as high as
    the child's otherwise; the same goes for the row, the height and
    [size_hint_y].  No column or row gets smaller, and no stretch hint
    lower, than it was before. *)
Theorem fill_gives_room (self self' : GridLayout.t) (c r : nat) :
  shaped c r self ->
  GridLayout._fill_rows_cols_sizes self = (Val tt, self') ->
  grows self self'
  /\ forall (i : nat) (child : Widget.t),
       rev (GridLayout.children self) !! i = Some child ->
       fits (i / c) (i mod c) (Widget.size_hint child) (Widget.size child)
         self'.
Proof.
  intros Hs H. rewrite (fill_run c r) in H by done. unfold enumerate in H.
  destruct (rev (GridLayout.children self)) as [|child0 l] eqn:Hrev.
  { injection H as <-. split; [apply grows_refl|done]. }
  destruct c as [|c']; [done|]. set (c := S c') in *.
  destruct (fill_loop_run c r 0 (child0 :: l) self Hs ltac:(lia))
    as [Hrun Hexc].
  destruct (decide (length (child0 :: l) <= r * c)%nat) as [Hn|Hn].
  - rewrite (Hrun Hn) in H.
    assert (self' = fill_all c 0 (child0 :: l) self) as -> by congruence.
    split; [apply fill_all_grows|]. intros i child Hi.
    by apply (fill_all_fits c r 0 (child0 :: l) self Hs ltac:(lia) Hn i).
  - rewrite (surjective_pairing (for_each _ _ _)) in H.
    rewrite Hexc in H; [done|done|lia].
Qed.

(** The child 70 wide and 20 high, first in the order of addition, in the
    first column. *)
Lemma fill_gives_room_witness :
  grows fill_grid (snd (GridLayout._fill_rows_cols_sizes fill_grid))
  /\ forall (i : nat) (child : Widget.t),
       rev (GridLayout.children fill_grid) !! i = Some child ->
       fits (i / 2) (i mod 2) (Widget.size_hint child) (Widget.size child)
         (snd (GridLayout._fill_rows_cols_sizes fill_grid)).
Proof.
  apply (fill_gives_room fill_grid _ 2 1).
  - repeat split.
  - by_run.
Defined.

(** ** The cells of [_iterate_layout] *)

(** The distance from the start of the first slot to the start of the
    slot [k]: the slots before it, each followed by the spacing. *)
Fixpoint offset (sp : Qc) (l : list Qc) (k : nat) : Qc :=
  match k, l with
  | S k', v :: l' => v + sp + offset sp l' k'
  | _, _ => 0
  end.

Lemma iterate_cols_run (cols : list Qc) (i : Z) (x y rh sp : Qc) :
  (-1 <= i)%Z ->
  let m := Nat.min (length cols) (Z.to_nat (i + 1)) in
  exists cells,
    GridLayout.iterate_cols cols i x y rh sp = (cells, (i - Z.of_nat m)%Z)
    /\ length cells = m
    /\ forall k w,
         (k < m)%nat -> cols !! k = Some w ->
         cells !! k
         = Some ((i - Z.of_nat k)%Z, (x + offset sp cols k, y - rh), (w, rh)).
Proof.
  revert i x. induction cols as [|w0 cols IH]; intros i x Hi m.
  - exists []. subst m. simpl. split; [f_equal; lia|]. split; [done|].
    intros k w Hk. lia.
  - cbn [GridLayout.iterate_cols]. case_bool_decide as Hneg.
    + exists []. subst m. replace (Z.to_nat (i + 1)) with 0%nat by lia.
      rewrite Nat.min_0_r. split; [f_equal; lia|]. split; [done|].
      intros k w Hk. lia.
    + destruct (IH (i - 1)%Z (x + w0 + sp) ltac:(lia))
        as (cells & Hrun & Hlen & Hcells).
      rewrite Hrun.
      exists ((i, (x, y - rh), (w0, rh)) :: cells).
      assert (m = S (Nat.min (length cols) (Z.to_nat (i - 1 + 1)))) as Hm
        by (subst m; cbn [length]; lia).
      split; [f_equal; lia|]. split; [simpl; lia|].
      intros k w Hk Hw. destruct k as [|k]; simpl in Hw.
      * injection Hw as ->.
        change (Some (i, (x, y - rh), (w, rh))
                = Some ((i - 0)%Z, (x + 0, y - rh), (w, rh))).
        by rewrite Z.sub_0_r, Qcplus_0_r.
      * change (cells !! k
                = Some ((i - Z.of_nat (S k))%Z,
                        (x + (w0 + sp + offset sp cols k), y - rh), (w, rh))).
        rewrite (Hcells k w) by (done || lia).
        replace (i - 1 - Z.of_nat k)%Z with (i - Z.of_nat (S k))%Z by lia.
        by replace (x + w0 + sp + offset sp cols k)
          with (x + (w0 + sp + offset sp cols k)) by ring.
Qed.

Lemma iterate_rows_run (rows cols : list Qc) (i : Z) (x0 y sp_x sp_y : Qc) :
  (-1 <= i)%Z ->
  let nc := length cols in
  let m := Nat.min (Z.to_nat (i + 1)) (length rows * nc) in
  exists cells,
    GridLayout.iterate_rows rows (Some cols) i x0 y sp_x sp_y = Val cells
    /\ length cells = m
    /\ forall j w h,
         (j < m)%nat -> cols !! (j mod nc)%nat = Some w ->
         rows !! (j / nc)%nat = Some h ->
         cells !! j
         = Some ((i - Z.of_nat j)%Z,
                 (x0 + offset sp_x cols (j mod nc)%nat,
                  y - offset sp_y rows (j / nc)%nat - h),
                 (w, h)).
Proof.
  intros Hi nc. revert i y Hi.
  induction rows as [|h0 rows IH]; intros i y Hi m.
  - exists []. subst m. simpl. rewrite Nat.min_0_r.
    split; [done|]. split; [done|]. intros j w h Hj. lia.
  - cbn [GridLayout.iterate_rows].
    destruct (iterate_cols_run cols i x0 y h0 sp_x Hi)
      as (first & Hfirst & Hlen1 & Hcells1).
    fold nc in Hfirst, Hlen1, Hcells1.
    set (m0 := Nat.min nc (Z.to_nat (i + 1))) in *.
    rewrite Hfirst.
    destruct (IH (i - Z.of_nat m0)%Z (y - (h0 + sp_y)) ltac:(lia))
      as (rest & Hrest & Hlen2 & Hcells2).
    rewrite Hrest. exists (first ++ rest).
    set (m' := Nat.min (Z.to_nat (i - Z.of_nat m0 + 1)) (length rows * nc))
      in *.
    assert (m = (m0 + m')%nat) as Hm.
    { subst m m0 m'. cbn [length]. rewrite Nat.mul_succ_l.
      generalize (length rows * nc)%nat. intros p.
      clearbody nc. clear -Hi. lia. }
    split; [done|]. split; [rewrite length_app; lia|].
    intros j w h Hj Hw Hh. unfold cell in *.
    destruct (decide (j < m0)%nat) as [Hlt|Hge].
    + assert (j < nc)%nat as Hjn by lia.
      rewrite (Nat.mod_small j nc Hjn) in *.
      rewrite (Nat.div_small j nc Hjn) in *.
      simpl in Hh. injection Hh as ->.
      rewrite lookup_app_l by lia.
      rewrite (Hcells1 j w Hlt Hw).
      change (offset sp_y (h :: rows) 0) with 0.
      by replace (y - 0 - h) with (y - h) by ring.
    + assert (m0 = nc /\ 0 < length rows * nc)%nat as [Hm0 Hp].
      { revert Hj Hge. rewrite Hm. subst m0 m'.
        generalize (length rows * nc)%nat. intros p.
        clearbody nc. clear -Hi. lia. }
      assert (1 <= nc)%nat as Hnc by (clear -Hp; nia).
      rewrite lookup_app_r by lia. rewrite Hlen1, Hm0.
      set (j' := (j - nc)%nat).
      assert (j = j' + 1 * nc)%nat as Hjj by (subst j'; lia).
      assert (j mod nc = j' mod nc)%nat as Emod
        by (rewrite Hjj; apply Nat.Div0.mod_add).
      assert (j / nc = S (j' / nc))%nat as Ediv
        by (rewrite Hjj, Nat.div_add by lia; lia).
      rewrite Emod, Ediv in *. simpl in Hh.
      rewrite (Hcells2 j' w h) by (done || lia).
      change (offset sp_y (h0 :: rows) (S (j' / nc)))
        with (h0 + sp_y + offset sp_y rows (j' / nc)).
      replace (i - Z.of_nat m0 - Z.of_nat j')%Z with (i - Z.of_nat j)%Z
        by lia.
      by replace (y - (h0 + sp_y) - offset sp_y rows (j' / nc) - h)
        with (y - (h0 + sp_y + offset sp_y rows (j' / nc)) - h) by ring.
Qed.

(** The cell of the [j]-th child in the order of addition, of [count]
    children, in a grid with the columns [cols] and the rows [rows]: the
    index of the child in [children], the position of its bottom left
    corner and its size. *)
Definition grid_cell (self : GridLayout.t) (cols rows : list Qc)
    (count j : nat) : option cell :=
  let '(padding_left, padding_top, _, _) := GridLayout.padding self in
  let '(spacing_x, spacing_y) := GridLayout.spacing self in
  let col := (j mod length cols)%nat in
  let row := (j / length cols)%nat in
  match cols !! col, rows !! row with
  | Some w, Some h =>
      Some ((Z.of_nat count - 1 - Z.of_nat j)%Z,
            (GridLayout.x self + padding_left + offset spacing_x cols col,
             GridLayout.top self - padding_top - offset spacing_y rows row
             - h),
            (w, h))
  | _, _ => None
  end.

Lemma iterate_layout_run (self : GridLayout.t) (cols rows : list Qc)
    (count : nat) :
  GridLayout._cols self = Some cols ->
  GridLayout._rows self = Some rows ->
  exists cells,
    GridLayout._iterate_layout count self = (Val cells, self)
    /\ length cells = Nat.min count (length rows * length cols)
    /\ forall j, (j < length cells)%nat ->
         cells !! j = grid_cell self cols rows count j.
Proof.
  intros Hc Hr. unfold GridLayout._iterate_layout, grid_cell.
  unfold bind at 1. unfold get.
  destruct (GridLayout.padding self) as [[[pl pt] pr] pb].
  destruct (GridLayout.spacing self) as [sx sy].
  rewrite Hr, Hc. munfold. munfold. cbv beta iota.
  destruct (iterate_rows_run rows cols (Z.of_nat count - 1)
              (GridLayout.x self + pl) (GridLayout.top self - pt) sx sy
              ltac:(lia)) as (cells & -> & Hlen & Hcells).
  unfold ret.
  replace (Z.to_nat (Z.of_nat count - 1 + 1)) with count in * by lia.
  exists cells. split; [done|]. split; [done|].
  intros j Hj. rewrite Hlen in Hj.
  assert (1 <= length cols)%nat as Hnc by nia.
  destruct (lookup_lt_is_Some_2 cols (j mod length cols)) as [w Hw];
    [apply Nat.mod_upper_bound; lia|].
  destruct (lookup_lt_is_Some_2 rows (j / length cols)) as [h Hh];
    [apply Nat.Div0.div_lt_upper_bound; lia|].
  rewrite Hw, Hh. by apply Hcells.
Qed.

(** A grid 200 wide and 100 high at the origin whose lists hold two
    columns and two rows. *)
Definition cells_grid : GridLayout.t :=
  GridLayout.mk (0, 0) (0, 0, 0, 0) (Some 2%nat) None 0 0 false false [] []
    0 0 0 0 (num 200) (num 100) []
    (Some [num 100; num 100]) (Some [num 50; num 50]) None None.

(** X4: [_iterate_layout(count)] yields one cell for each of the first
    [min(count, rows * cols)] children in the order of addition, and
    nothing else.  The [j]-th cell carries the index [count - 1 - j] (the
    position in [children] of the [j]-th child added, never negative), lies
    in the row [j // cols] and the column [j % cols], has the width of its
    column and the height of its row, and its bottom left corner is at
    [x + padding_left] plus the columns before it and their spacings, and
    at [top - padding_top] minus the rows above it and their spacings,
    minus its own height. *)
Theorem iterate_layout_cells (self : GridLayout.t) (cols rows : list Qc)
    (count : nat) :
  GridLayout._cols self = Some cols ->
  GridLayout._rows self = Some rows ->
  exists cells,
    GridLayout._iterate_layout count self = (Val cells, self)
    /\ length cells = Nat.min count (length rows * length cols)
    /\ forall j, (j < length cells)%nat ->
         cells !! j = grid_cell self cols rows count j.
Proof. apply iterate_layout_run. Qed.

(** Three children in the grid of two columns and two rows. *)
Lemma iterate_layout_cells_witness :
  exists cells,
    GridLayout._iterate_layout 3 cells_grid = (Val cells, cells_grid)
    /\ length cells = Nat.min 3 (length [num 50; num 50]
                                 * length [num 100; num 100])
    /\ forall j, (j < length cells)%nat ->
         cells !! j
         = grid_cell cells_grid [num 100; num 100] [num 50; num 50] 3 j.
Proof.
  apply (iterate_layout_cells cells_grid [num 100; num 100]
           [num 50; num 50] 3); reflexivity.
Defined.

(** ** A pass that returns *)

Lemma init_shaped (count : nat) (self : GridLayout.t) (c r : nat) :
  GridLayout.resolve_counts count self = (Val (Some (c, r)), self) ->
  keys_in_range c (GridLayout.cols_minimum self) ->
  keys_in_range r (GridLayout.rows_minimum self) ->
  exists s1,
    GridLayout._init_rows_cols_sizes count self = (Val true, s1)
    /\ shaped c r s1
    /\ GridLayout._cols_sh s1 = Some (replicate c None)
    /\ GridLayout._rows_sh s1 = Some (replicate r None).
Proof.
  intros Hres Hc Hr. rewrite (init_run _ _ _ _ Hres).
  destruct (set_minimums_Val (GridLayout.cols_minimum self)
              (replicate c (GridLayout.col_default_width self)))
    as (cs & -> & Hcs); [by rewrite length_replicate|].
  destruct (set_minimums_Val (GridLayout.rows_minimum self)
              (replicate r (GridLayout.row_default_height self)))
    as (rs & -> & Hrs); [by rewrite length_replicate|].
  rewrite length_replicate in Hcs, Hrs.
  eexists. split; [done|]. unfold shaped. simpl.
  rewrite !length_replicate, Hcs, Hrs. done.
Qed.

Lemma init_bad_keys (count : nat) (self : GridLayout.t) (c r : nat) :
  GridLayout.resolve_counts count self = (Val (Some (c, r)), self) ->
  ~ keys_in_range c (GridLayout.cols_minimum self)
  \/ ~ keys_in_range r (GridLayout.rows_minimum self) ->
  fst (GridLayout._init_rows_cols_sizes count self) = Exc IndexError.
Proof.
  intros Hres Hbad. rewrite (init_run _ _ _ _ Hres).
  destruct (decide (keys_in_range c (GridLayout.cols_minimum self)))
    as [Hc|Hc].
  - destruct Hbad as [Hbad|Hbad]; [done|].
    destruct (set_minimums_Val _ (replicate c
                (GridLayout.col_default_width self))
                ltac:(by rewrite length_replicate)) as (cs & -> & _).
    pose proof (set_minimums_Exc (GridLayout.rows_minimum self)
                  (replicate r (GridLayout.row_default_height self))
                  ltac:(by rewrite length_replicate)) as Hr.
    destruct (GridLayout.set_minimums (GridLayout.rows_minimum self) _)
      as [res rs]. simpl in Hr. by subst.
  - pose proof (set_minimums_Exc (GridLayout.cols_minimum self)
                  (replicate c (GridLayout.col_default_width self))
                  ltac:(by rewrite length_replicate)) as Hc'.
    destruct (GridLayout.set_minimums (GridLayout.cols_minimum self) _)
      as [res cs]. simpl in Hc'. by subst.
Qed.

(** No stretch hint is below 0. *)
Definition nonneg_hints (o : pylist (option Qc)) : Prop :=
  forall k v, slot o k = Some (Some v) -> 0 <= v.

Definition nonneg_hint (h : option Qc) : Prop :=
  forall v, h = Some v -> 0 <= v.

Definition nonneg_child (child : Widget.t) : Prop :=
  nonneg_hint (fst (Widget.size_hint child))
  /\ nonneg_hint (snd (Widget.size_hint child)).

Lemma nonneg_hints_replicate (n : nat) :
  nonneg_hints (Some (replicate n None)).
Proof.
  intros k v Hk. simpl in Hk. apply lookup_replicate in Hk as [? _]. done.
Qed.

Lemma nonneg_hints_raised (o : pylist (option Qc)) (k : nat) (sh : Qc) :
  nonneg_hints o -> 0 <= sh -> nonneg_hints (raised_hint k sh <$> o).
Proof.
  intros Ho Hsh j v. rewrite slot_raised_hint. case_decide as Hk.
  - destruct (slot o k) as [[u|]|]; simpl; intros [= <-]; [|done].
    eapply Qcle_trans; [exact Hsh|apply py_max_le].
  - apply Ho.
Qed.

Lemma fill_spec_nonneg (row col : nat) hint size (s : GridLayout.t) :
  nonneg_hint (fst hint) -> nonneg_hint (snd hint) ->
  nonneg_hints (GridLayout._cols_sh s) ->
  nonneg_hints (GridLayout._rows_sh s) ->
  nonneg_hints (GridLayout._cols_sh (fill_spec row col hint size s))
  /\ nonneg_hints (GridLayout._rows_sh (fill_spec row col hint size s)).
Proof.
  intros Hw Hh Hc Hr. unfold fill_spec.
  destruct hint as [[shw|] [shh|]]; simpl in *; split;
    try done; apply nonneg_hints_raised; auto.
Qed.

Lemma fill_all_nonneg (n k : nat) (l : list Widget.t) (s : GridLayout.t) :
  Forall nonneg_child l ->
  nonneg_hints (GridLayout._cols_sh s) ->
  nonneg_hints (GridLayout._rows_sh s) ->
  nonneg_hints (GridLayout._cols_sh (fill_all n k l s))
  /\ nonneg_hints (GridLayout._rows_sh (fill_all n k l s)).
Proof.
  intros Hl. revert k s. induction Hl as [|child l [Hw Hh] _ IH];
    intros k s Hc Hr; [done|].
  simpl. apply IH; by apply fill_spec_nonneg.
Qed.

Lemma fill_all_frame (n k : nat) (l : list Widget.t) (s : GridLayout.t) :
  config (fill_all n k l s) = config s
  /\ GridLayout.children (fill_all n k l s) = GridLayout.children s
  /\ minimum (fill_all n k l s) = minimum s.
Proof.
  revert k s. induction l as [|child l IH]; intros k s; [done|].
  simpl. destruct (IH (S k) (fill_spec (k / n) (k mod n)
                               (Widget.size_hint child) (Widget.size child) s))
    as (-> & -> & ->).
  unfold fill_spec.
  by destruct (Widget.size_hint child) as [[shw|] [shh|]].
Qed.

(** With no hint below 0, the stretch weights sum to 0 only when there is
    none. *)
Lemma nonneg_weight (sh : list (option Qc)) :
  nonneg_hints (Some sh) ->
  0 <= GridLayout.stretch_weight sh
  /\ (GridLayout.stretch_weight sh <> 0
      \/ Forall (fun s => truthy s = false) sh).
Proof.
  induction sh as [|s sh IH]; intros Hn.
  - split; [by unfold GridLayout.stretch_weight|]. right. constructor.
  - destruct IH as [IH1 IH2].
    { intros k v Hk. apply (Hn (S k) v Hk). }
    rewrite stretch_weight_cons.
    destruct s as [v|]; [|split; [done|]].
    + destruct (truthy (Some v)) eqn:Ht.
      * assert (0 <= v) as Hv by (by apply (Hn 0%nat v)).
        assert (v <> 0) as Hv0.
        { simpl in Ht. apply negb_true_iff in Ht.
          by apply bool_decide_eq_false in Ht. }
        assert (0 < v) as Hpos.
        { apply Qcle_lt_or_eq in Hv as [Hlt|Heq]; [done|congruence]. }
        assert (0 < v + GridLayout.stretch_weight sh) as Hsum
          by (by apply Qcplus_pos_nonneg).
        split; [by apply Qclt_le_weak|]. left.
        intros Heq. rewrite Heq in Hsum.
        by apply (Qcle_not_lt 0 0 (Qcle_refl 0)).
      * split; [done|]. destruct IH2 as [IH2|IH2]; [by left|right].
        by constructor.
    + destruct IH2 as [IH2|IH2]; [by left|right]. by constructor.
Qed.

Lemma update_minimum_size_run (s : GridLayout.t) (cs rs : list Qc) :
  GridLayout._cols s = Some cs -> GridLayout._rows s = Some rs ->
  exists v,
    GridLayout._update_minimum_size s
    = (Val tt, GridLayout.set_minimum_size v s)
    /\ fst v
       = fst (fst (fst (GridLayout.padding s)))
         + snd (fst (GridLayout.padding s))
         + fst (GridLayout.spacing s) * num (Z.of_nat (length cs) - 1)
         + py_sum cs
    /\ snd v
       = snd (fst (fst (GridLayout.padding s)))
         + snd (GridLayout.padding s)
         + snd (GridLayout.spacing s) * num (Z.of_nat (length rs) - 1)
         + py_sum rs.
Proof.
  intros Hc Hr. unfold GridLayout._update_minimum_size. munfold.
  destruct (GridLayout.padding s) as [[[l t] r] b].
  destruct (GridLayout.spacing s) as [sx sy].
  rewrite Hc, Hr. munfold. simpl. eexists (_, _). split; done.
Qed.

(** The finalize phase keeps the number of columns and rows. *)
Definition same_length (o o' : pylist Qc) : Prop :=
  length <$> o' = length <$> o.

Global Instance same_length_trans : Transitive same_length.
Proof. unfold same_length. intros o1 o2 o3 H1 H2. congruence. Qed.

Lemma keeps_ret {St A} (R : St -> St -> Prop) `{!Reflexive R} (a : A) :
  keeps R (ret a).
Proof. intros s. simpl. reflexivity. Qed.

Lemma keeps_for_each {St A} (R : St -> St -> Prop) `{!Reflexive R}
    `{!Transitive R} (l : list A) (body : A -> M St unit) :
  (forall a, keeps R (body a)) -> keeps R (for_each l body).
Proof.
  intros Hb. induction l as [|a l IH]; simpl.
  - by apply keeps_ret.
  - apply keeps_bind; [done|apply Hb|by intros _].
Qed.

Global Instance same_length_refl : Reflexive same_length.
Proof. by intros o. Qed.

Lemma stretch_slot_length (index : nat) (stretch : option Qc)
    (strech weigth : Qc) :
  keeps same_length (GridLayout.stretch_slot index stretch strech weigth).
Proof.
  intros o. unfold GridLayout.stretch_slot, GridLayout.add_stretch.
  destruct stretch as [v|]; [|done].
  destruct (truthy (Some v)); [|done].
  destruct o as [l|]; [|done].
  unfold bind at 1. rewrite getitem_Some.
  destruct (l !! index) as [cur|]; [|done].
  unfold bind, lift_res. destruct (py_div _ _) as [share|e]; [|done].
  unfold ret. rewrite setitem_Some.
  destruct (py_index _ _) as [k|]; [|done].
  unfold same_length. simpl. by rewrite length_insert.
Qed.

Lemma finalize_cols_length (s s' : GridLayout.t) :
  GridLayout.finalize_cols s = (Val tt, s') ->
  length <$> GridLayout._cols s' = length <$> GridLayout._cols s.
Proof.
  destruct (GridLayout.col_force_default s) eqn:Hf.
  - intros H. apply finalize_cols_forced in H
      as (cols0 & l & H0 & Hl & ->); [|done].
    apply forced_sizes_spec in Hl as [Hl _]. rewrite H0. simpl.
    by rewrite Hl.
  - unfold GridLayout.finalize_cols. unfold bind at 1. unfold get.
    rewrite Hf. unfold bind, getattr.
    destruct (GridLayout._cols_sh s) as [sh|]; [|done]. unfold ret, zoom.
    pose proof (keeps_for_each same_length (enumerate sh)
                  (fun '(index, col_stretch) =>
                     GridLayout.stretch_slot index col_stretch
                       (py_max 0 (GridLayout.width s
                                  - GridLayout.minimum_width s))
                       (GridLayout.stretch_weight sh))) as Hk.
    specialize (Hk ltac:(intros [i st]; apply stretch_slot_length)
                   (GridLayout._cols s)).
    destruct (for_each _ _ _) as [res o]. intros [= _ <-]. exact Hk.
Qed.

Lemma finalize_rows_length (s s' : GridLayout.t) :
  GridLayout.finalize_rows s = (Val tt, s') ->
  length <$> GridLayout._rows s' = length <$> GridLayout._rows s.
Proof.
  destruct (GridLayout.row_force_default s) eqn:Hf.
  - unfold GridLayout.finalize_rows. munfold. rewrite Hf.
    destruct (GridLayout._rows s) as [rows0|]; [|done]. simpl.
    destruct (GridLayout.forced_sizes _ _ _) as [l|e] eqn:Hl; [|done].
    simpl. intros [= <-]. simpl.
    apply forced_sizes_spec in Hl as [Hl _]. by rewrite Hl.
  - unfold GridLayout.finalize_rows. unfold bind at 1. unfold get.
    rewrite Hf. unfold bind at 1. unfold getattr.
    destruct (GridLayout._rows_sh s) as [sh|]; [|done]. unfold ret.
    unfold bind, as_list.
    destruct (GridLayout._rows s) as [rows|] eqn:Hr; [|done].
    unfold ret, zoom. rewrite Hr.
    pose proof (keeps_for_each same_length (seq 0 (length rows))
                  (fun index =>
                     row_stretch <- lookup_item sh (Z.of_nat index) ;;
                     GridLayout.stretch_slot index row_stretch
                       (py_max 0 (GridLayout.height s
                                  - GridLayout.minimum_height s))
                       (GridLayout.stretch_weight sh))) as Hk.
    assert (forall a : nat,
              keeps same_length
                (row_stretch <- lookup_item sh (Z.of_nat a) ;;
                 GridLayout.stretch_slot a row_stretch
                   (py_max 0 (GridLayout.height s
                              - GridLayout.minimum_height s))
                   (GridLayout.stretch_weight sh))) as Hbody.
    { intros a. apply keeps_bind; [apply _| |intros ?;
                                             apply stretch_slot_length].
      intros o. unfold lookup_item.
      destruct (py_index _ _) as [k|]; [|done]. by destruct (sh !! k). }
    specialize (Hk Hbody (Some rows)).
    destruct (for_each _ _ _) as [res o]. intros [= _ <-]. exact Hk.
Qed.

Lemma finalize_cols_shaped (c r : nat) (s s' : GridLayout.t) :
  shaped c r s -> GridLayout.finalize_cols s = (Val tt, s') ->
  shaped c r s'.
Proof.
  intros (H1 & H2 & H3 & H4) H.
  pose proof (finalize_cols_length _ _ H) as Hl.
  pose proof (tame_state _ _ _ _ _ finalize_cols_tame H) as Hk.
  simpl in Hk. unfold shaped.
  assert (GridLayout._rows s' = GridLayout._rows s
          /\ GridLayout._cols_sh s' = GridLayout._cols_sh s
          /\ GridLayout._rows_sh s' = GridLayout._rows_sh s)
    as (-> & -> & ->) by (repeat split; congruence).
  by rewrite Hl.
Qed.

Lemma finalize_rows_shaped (c r : nat) (s s' : GridLayout.t) :
  shaped c r s -> GridLayout.finalize_rows s = (Val tt, s') ->
  shaped c r s'.
Proof.
  intros (H1 & H2 & H3 & H4) H.
  pose proof (finalize_rows_length _ _ H) as Hl.
  pose proof (tame_state _ _ _ _ _ finalize_rows_tame H) as Hk.
  simpl in Hk. unfold shaped.
  assert (GridLayout._cols s' = GridLayout._cols s
          /\ GridLayout._cols_sh s' = GridLayout._cols_sh s
          /\ GridLayout._rows_sh s' = GridLayout._rows_sh s)
    as (-> & -> & ->) by (repeat split; congruence).
  by rewrite Hl.
Qed.

Lemma shaped_arrays (c r : nat) (s s' : GridLayout.t) :
  arrays s' = arrays s -> shaped c r s -> shaped c r s'.
Proof. unfold arrays, shaped. intros [= -> -> -> ->]. done. Qed.

Lemma init_Val_shaped (count : nat) (self s1 : GridLayout.t) :
  GridLayout._init_rows_cols_sizes count self = (Val true, s1) ->
  exists c r,
    GridLayout.resolve_counts count self = (Val (Some (c, r)), self)
    /\ (1 <= c)%nat /\ (1 <= r)%nat /\ shaped c r s1
    /\ GridLayout._cols_sh s1 = Some (replicate c None)
    /\ GridLayout._rows_sh s1 = Some (replicate r None).
Proof.
  intros H. apply init_Val in H as (c & r & cs & rs & Hres & Hc & Hr & ->).
  apply set_minimums_length in Hc as (? & [= <-] & Hc).
  apply set_minimums_length in Hr as (? & [= <-] & Hr).
  rewrite length_replicate in Hc, Hr.
  destruct (resolve_counts_floor _ _ _ _ _ Hres) as [Hc1 Hr1].
  exists c, r. split; [done|]. split; [done|]. split; [done|].
  unfold shaped. simpl. rewrite !length_replicate, Hc, Hr. done.
Qed.

(** What a pass that returns went through, for a grid with children and
    with [cols] or [rows]: lists of [c] columns and [r] rows from the
    first step to the last, and a cell for every child. *)
Lemma pass_shape (self self' : GridLayout.t) :
  GridLayout.children self <> [] ->
  truthy_count (GridLayout.cols self) || truthy_count (GridLayout.rows self)
  = true ->
  GridLayout.do_layout self = (Val tt, self') ->
  exists c r s1 s3 s4 s5 s6 cells children',
    pass_steps self s1 s3 s4 s5 s6 cells children'
    /\ self' = GridLayout.set_children children' s6
    /\ GridLayout.resolve_counts (length (GridLayout.children self)) self
       = (Val (Some (c, r)), self)
    /\ (1 <= c)%nat /\ (1 <= r)%nat
    /\ shaped c r s1
    /\ (length (GridLayout.children self) <= r * c)%nat
    /\ s3 = fill_all c 0 (rev (GridLayout.children self)) s1
    /\ shaped c r s4 /\ shaped c r s6.
Proof.
  intros Hch Hcfg H.
  apply do_layout_steps in H
    as (s1 & s3 & s4 & s5 & s6 & cells & ch1 & Hsteps & ->); [|done..].
  pose proof Hsteps as (H1 & H3 & H4 & H5 & H6 & H7 & Hp).
  destruct (init_Val_shaped _ _ _ H1)
    as (c & r & Hres & Hc1 & Hr1 & Hs1 & _ & _).
  pose proof (tame_state _ _ _ _ _ (init_tame _) H1) as K1. simpl in K1.
  assert (GridLayout.children s1 = GridLayout.children self) as Hch1
    by congruence.
  rewrite (fill_run c r) in H3 by done. rewrite Hch1 in H3.
  unfold enumerate in H3.
  destruct (fill_loop_run c r 0 (rev (GridLayout.children self)) s1 Hs1 Hc1)
    as [Hrun Hexc].
  rewrite length_rev in Hrun, Hexc.
  assert (length (GridLayout.children self) <= r * c)%nat as Hn.
  { destruct (decide (length (GridLayout.children self) <= r * c)%nat)
      as [Hn|Hn]; [done|].
    rewrite (surjective_pairing (for_each _ _ _)) in H3.
    rewrite Hexc in H3; [done| |lia].
    intros Hnil. apply (f_equal length) in Hnil.
    rewrite length_rev in Hnil. simpl in Hnil.
    destruct (GridLayout.children self); [done|simpl in Hnil; lia]. }
  rewrite (Hrun Hn) in H3.
  assert (s3 = fill_all c 0 (rev (GridLayout.children self)) s1) as E3
    by congruence.
  assert (shaped c r s3) as Hs3 by (rewrite E3; by apply fill_all_shaped).
  pose proof (tame_state _ _ _ _ _ update_minimum_size_tame H4) as K4.
  simpl in K4.
  assert (shaped c r s4) as Hs4.
  { apply (shaped_arrays c r s3); [|done]. unfold arrays. congruence. }
  pose proof (finalize_cols_shaped c r _ _ Hs4 H5) as Hs5.
  pose proof (finalize_rows_shaped c r _ _ Hs5 H6) as Hs6.
  exists c, r, s1, s3, s4, s5, s6, cells, ch1. done.
Qed.

Lemma finalize_cols_returns (c r : nat) (s : GridLayout.t) :
  shaped c r s ->
  keys_in_range c (GridLayout.cols_minimum s) ->
  nonneg_hints (GridLayout._cols_sh s) ->
  exists s', GridLayout.finalize_cols s = (Val tt, s').
Proof.
  intros (H1 & H2 & H3 & H4) Hkeys Hn.
  destruct (GridLayout._cols s) as [cols|] eqn:Hc; [|done].
  destruct (GridLayout._cols_sh s) as [sh|] eqn:Hsh; [|done].
  simpl in H1, H3. injection H1 as H1. injection H3 as H3.
  destruct (GridLayout.col_force_default s) eqn:Hf.
  - unfold GridLayout.finalize_cols. munfold. rewrite Hf, Hc. simpl.
    rewrite H1.
    destruct (forced_sizes_Val c (GridLayout.col_default_width s) _ Hkeys)
      as [l ->].
    simpl. eauto.
  - eexists. apply (finalize_cols_stretch s cols sh); try done.
    + congruence.
    + by apply nonneg_weight.
Qed.

Lemma finalize_rows_returns (c r : nat) (s : GridLayout.t) :
  shaped c r s ->
  keys_in_range r (GridLayout.rows_minimum s) ->
  nonneg_hints (GridLayout._rows_sh s) ->
  exists s', GridLayout.finalize_rows s = (Val tt, s').
Proof.
  intros (H1 & H2 & H3 & H4) Hkeys Hn.
  destruct (GridLayout._rows s) as [rows|] eqn:Hr; [|done].
  destruct (GridLayout._rows_sh s) as [sh|] eqn:Hsh; [|done].
  simpl in H2, H4. injection H2 as H2. injection H4 as H4.
  destruct (GridLayout.row_force_default s) eqn:Hf.
  - unfold GridLayout.finalize_rows. munfold. rewrite Hf, Hr. simpl.
    rewrite H2.
    destruct (forced_sizes_Val r (GridLayout.row_default_height s) _ Hkeys)
      as [l ->].
    simpl. eauto.
  - eexists. apply (finalize_rows_stretch s rows sh); try done.
    + congruence.
    + by apply nonneg_weight.
Qed.

Lemma grid_cell_index (self : GridLayout.t) (cols rows : list Qc)
    (count j : nat) (ce : cell) :
  grid_cell self cols rows count j = Some ce ->
  fst (fst ce) = (Z.of_nat count - 1 - Z.of_nat j)%Z.
Proof.
  unfold grid_cell.
  destruct (GridLayout.padding self) as [[[pl pt] pr] pb].
  destruct (GridLayout.spacing self) as [sx sy].
  destruct (cols !! _); [|done]. destruct (rows !! _); [|done].
  by intros [= <-].
Qed.

(** Every cell of [_iterate_layout(count)] carries an index of a list of
    [count] children. *)
Lemma iterate_layout_indices (self : GridLayout.t) (cols rows : list Qc)
    (count : nat) :
  GridLayout._cols self = Some cols ->
  GridLayout._rows self = Some rows ->
  exists cells,
    GridLayout._iterate_layout count self = (Val cells, self)
    /\ Forall (fun ce => is_Some (py_index count (fst (fst ce)))) cells.
Proof.
  intros Hc Hr.
  destruct (iterate_layout_run self cols rows count Hc Hr)
    as (cells & Hrun & Hlen & Hcells).
  exists cells. split; [done|]. apply Forall_lookup. intros j ce Hj.
  assert (j < length cells)%nat as Hlt by (by eapply lookup_lt_Some).
  unfold cell in *.
  rewrite (Hcells j Hlt) in Hj. apply grid_cell_index in Hj as ->.
  apply py_index_in_range. lia.
Qed.

Lemma pass_returns (self : GridLayout.t) (c r : nat) :
  GridLayout.children self <> [] ->
  GridLayout.resolve_counts (length (GridLayout.children self)) self
  = (Val (Some (c, r)), self) ->
  keys_in_range c (GridLayout.cols_minimum self) ->
  keys_in_range r (GridLayout.rows_minimum self) ->
  (length (GridLayout.children self) <= r * c)%nat ->
  Forall nonneg_child (GridLayout.children self) ->
  exists s1 s3 s4 s5 s6 cells children',
    pass_steps self s1 s3 s4 s5 s6 cells children'.
Proof.
  intros Hch Hres Hkc Hkr Hn Hhints.
  destruct (resolve_counts_floor _ _ _ _ _ Hres) as [Hc1 Hr1].
  destruct (init_shaped _ _ _ _ Hres Hkc Hkr)
    as (s1 & H1 & Hs1 & Hcsh & Hrsh).
  pose proof (tame_state _ _ _ _ _ (init_tame _) H1) as K1. simpl in K1.
  assert (GridLayout.children s1 = GridLayout.children self) as Hch1
    by congruence.
  assert (config s1 = config self) as Hcf1 by congruence.
  (* fill *)
  set (s3 := fill_all c 0 (rev (GridLayout.children self)) s1).
  assert (GridLayout._fill_rows_cols_sizes s1 = (Val tt, s3)) as H3.
  { rewrite (fill_run c r) by done. rewrite Hch1. unfold enumerate.
    apply (fill_loop_run c r 0); [done..|]. rewrite length_rev. lia. }
  assert (shaped c r s3) as Hs3 by (by apply fill_all_shaped).
  destruct (fill_all_frame c 0 (rev (GridLayout.children self)) s1)
    as (Hcf3 & Hch3 & _). fold s3 in Hcf3, Hch3.
  destruct (fill_all_nonneg c 0 (rev (GridLayout.children self)) s1)
    as [Hn3c Hn3r].
  { by apply Forall_rev. }
  { rewrite Hcsh. apply nonneg_hints_replicate. }
  { rewrite Hrsh. apply nonneg_hints_replicate. }
  fold s3 in Hn3c, Hn3r.
  (* minimum size *)
  pose proof Hs3 as (A1 & A2 & A3 & A4).
  destruct (GridLayout._cols s3) as [cs|] eqn:Ec; [|done].
  destruct (GridLayout._rows s3) as [rs|] eqn:Er; [|done].
  destruct (update_minimum_size_run s3 cs rs Ec Er) as (v & H4 & _ & _).
  set (s4 := GridLayout.set_minimum_size v s3) in *.
  assert (shaped c r s4) as Hs4.
  { apply (shaped_arrays c r s3); [done|].
    unfold shaped. by rewrite Ec, Er. }
  (* finalize *)
  destruct (finalize_cols_returns c r s4 Hs4) as [s5 H5].
  { replace (GridLayout.cols_minimum s4) with (GridLayout.cols_minimum self);
      [done|]. unfold config in *. simpl. congruence. }
  { done. }
  pose proof (finalize_cols_shaped c r _ _ Hs4 H5) as Hs5.
  pose proof (tame_state _ _ _ _ _ finalize_cols_tame H5) as K5.
  simpl in K5.
  destruct (finalize_rows_returns c r s5 Hs5) as [s6 H6].
  { replace (GridLayout.rows_minimum s5) with (GridLayout.rows_minimum self);
      [done|]. unfold config in *. simpl in *. congruence. }
  { replace (GridLayout._rows_sh s5) with (GridLayout._rows_sh s3);
      [done|]. simpl in *. congruence. }
  pose proof (finalize_rows_shaped c r _ _ Hs5 H6) as Hs6.
  pose proof (tame_state _ _ _ _ _ finalize_rows_tame H6) as K6.
  simpl in K6.
  (* cells and placement *)
  pose proof Hs6 as (B1 & B2 & _ & _).
  destruct (GridLayout._cols s6) as [cs6|] eqn:Ec6; [|done].
  destruct (GridLayout._rows s6) as [rs6|] eqn:Er6; [|done].
  destruct (iterate_layout_indices s6 cs6 rs6
              (length (GridLayout.children self)) Ec6 Er6)
    as (cells & H7 & Hidx).
  assert (GridLayout.children s6 = GridLayout.children self) as Hch6.
  { simpl in *. congruence. }
  destruct (place_cells_Val cells (GridLayout.children s6)) as [ch' Hp].
  { by rewrite Hch6. }
  exists s1, s3, s4, s5, s6, cells, ch'. unfold pass_steps. done.
Qed.

(** X5: [do_layout] returns -- it raises nothing -- on every grid that has
    children, [cols] or [rows], keys of [cols_minimum] and [rows_minimum]
    that are indices of the columns and rows, a cell for every child
    ([rows * cols], as resolved, is not below the number of children; this
    always holds when only one of [cols] and [rows] is set) and no size
    hint below 0. *)
Theorem do_layout_returns (self : GridLayout.t) (c r : nat) :
  GridLayout.children self <> [] ->
  GridLayout.resolve_counts (length (GridLayout.children self)) self
  = (Val (Some (c, r)), self) ->
  keys_in_range c (GridLayout.cols_minimum self) ->
  keys_in_range r (GridLayout.rows_minimum self) ->
  (length (GridLayout.children self) <= r * c)%nat ->
  Forall nonneg_child (GridLayout.children self) ->
  exists self', GridLayout.do_layout self = (Val tt, self').
Proof.
  intros Hch Hres Hkc Hkr Hn Hhints.
  destruct (pass_returns self c r Hch Hres Hkc Hkr Hn Hhints)
    as (s1 & s3 & s4 & s5 & s6 & cells & ch' & Hsteps).
  eexists. by eapply do_layout_run.
Qed.

(** Three children that stretch, in two columns. *)
Definition three_in_two : GridLayout.t :=
  GridLayout.mk (0, 0) (0, 0, 0, 0) (Some 2%nat) None 0 0 false false [] []
    0 0 0 0 (num 200) (num 100)
    (replicate 3 (stretchy (0, 0) (0, 0))) None None None None.

Lemma do_layout_returns_witness :
  exists self', GridLayout.do_layout three_in_two = (Val tt, self').
Proof.
  apply (do_layout_returns three_in_two 2 2).
  - done.
  - reflexivity.
  - constructor.
  - constructor.
  - simpl. lia.
  - repeat constructor; intros v [= <-]; by_run.
Defined.

(** ** More children than cells *)

Lemma do_layout_fill_Exc (self s1 : GridLayout.t) (e : exn) :
  GridLayout.children self <> [] ->
  GridLayout._init_rows_cols_sizes (length (GridLayout.children self)) self
  = (Val true, s1) ->
  fst (GridLayout._fill_rows_cols_sizes s1) = Exc e ->
  fst (GridLayout.do_layout self) = Exc e.
Proof.
  intros Hch H1 H3. unfold GridLayout.do_layout. unfold bind at 1.
  unfold get. destruct (GridLayout.children self) as [|c0 ch0]; [done|].
  unfold bind. rewrite H1. unfold ret. simpl.
  by destruct (GridLayout._fill_rows_cols_sizes s1) as [[[]|e'] s3];
    simpl in H3; simplify_eq.
Qed.

(** X6: [do_layout] makes no capacity check of its own: on a grid with
    more children than [rows * cols] cells (both [cols] and [rows] are
    set, and [on_children] did not stop the insertion) it raises
    [IndexError], from [_fill_rows_cols_sizes] when the first child
    without a row is reached -- or from [_init_rows_cols_sizes] before,
    when a key of [cols_minimum] or [rows_minimum] is out of range. *)
Theorem do_layout_overflow (self : GridLayout.t) (c r : nat) :
  GridLayout.resolve_counts (length (GridLayout.children self)) self
  = (Val (Some (c, r)), self) ->
  (r * c < length (GridLayout.children self))%nat ->
  fst (GridLayout.do_layout self) = Exc IndexError.
Proof.
  intros Hres Hn.
  assert (GridLayout.children self <> []) as Hch.
  { intros Hnil. rewrite Hnil in Hn. simpl in Hn. lia. }
  destruct (resolve_counts_floor _ _ _ _ _ Hres) as [Hc1 Hr1].
  destruct (decide (keys_in_range c (GridLayout.cols_minimum self)))
    as [Hkc|Hkc];
    [destruct (decide (keys_in_range r (GridLayout.rows_minimum self)))
       as [Hkr|Hkr]|].
  - destruct (init_shaped _ _ _ _ Hres Hkc Hkr) as (s1 & H1 & Hs1 & _ & _).
    apply (do_layout_fill_Exc self s1); [done..|].
    pose proof (tame_state _ _ _ _ _ (init_tame _) H1) as K1. simpl in K1.
    rewrite (fill_run c r) by done. unfold enumerate.
    apply (fill_loop_run c r 0); [done..| |].
    + intros Hnil. apply (f_equal length) in Hnil.
      rewrite length_rev in Hnil. simpl in Hnil.
      assert (GridLayout.children s1 = GridLayout.children self) as E
        by congruence.
      rewrite E in Hnil. lia.
    + rewrite length_rev.
      assert (GridLayout.children s1 = GridLayout.children self) as ->
        by congruence.
      lia.
  - apply do_layout_init_Exc; [done|].
    apply (init_bad_keys _ _ c r); auto.
  - apply do_layout_init_Exc; [done|].
    apply (init_bad_keys _ _ c r); auto.
Qed.

(** Three children in a grid of one column and two rows. *)
Definition three_in_one_by_two : GridLayout.t :=
  GridLayout.mk (0, 0) (0, 0, 0, 0) (Some 1%nat) (Some 2%nat) 0 0 false
    false [] [] 0 0 0 0 (num 200) (num 100)
    (replicate 3 (stretchy (0, 0) (0, 0))) None None None None.

Lemma do_layout_overflow_witness :
  fst (GridLayout.do_layout three_in_one_by_two) = Exc IndexError.
Proof.
  apply (do_layout_overflow three_in_one_by_two 1 2).
  - reflexivity.
  - simpl. lia.
Defined.

(** ** Where a pass puts the children *)

(** In a list of cells whose indices count down from [t], the cell that
    addresses the child [k]. *)
Lemma last_cell_countdown (n t k : nat) (cells : list cell) :
  (t < n)%nat -> (length cells <= S t)%nat ->
  (forall j ce, cells !! j = Some ce ->
                fst (fst ce) = (Z.of_nat t - Z.of_nat j)%Z) ->
  last_cell n cells k
  = if bool_decide (k <= t /\ t < k + length cells)%nat
    then cells !! (t - k)%nat else None.
Proof.
  revert t. induction cells as [|ce cells IH]; intros t Ht Hlen Hidx.
  - simpl. case_bool_decide; [lia|done].
  - cbn [last_cell length] in *.
    assert (fst (fst ce) = Z.of_nat t) as Hce.
    { rewrite (Hidx 0%nat ce eq_refl). lia. }
    destruct cells as [|ce' cells'].
    + simpl. rewrite Hce, py_index_nat.
      rewrite (bool_decide_true (t < n)%nat) by lia.
      destruct (decide (k = t)) as [->|Hne].
      * rewrite !bool_decide_true by (done || lia). by rewrite Nat.sub_diag.
      * rewrite (bool_decide_false (Some t = Some k)) by congruence.
        by rewrite bool_decide_false by lia.
    + destruct t as [|t']; [simpl in Hlen; lia|].
      rewrite (IH t') by
        (first [lia | simpl in *; lia
               | intros j c Hj; rewrite (Hidx (S j) c Hj); lia]).
      set (rest := ce' :: cells') in *.
      destruct (decide (k <= t' < k + length rest)%nat) as [Hin|Hin].
      * rewrite (bool_decide_true _ Hin).
        rewrite (bool_decide_true (k <= S t' < k + S (length rest))%nat)
          by lia.
        destruct (lookup_lt_is_Some_2 rest (t' - k)%nat ltac:(lia))
          as [c Hc].
        rewrite Hc. replace (S t' - k)%nat with (S (t' - k)) by lia.
        done.
      * rewrite (bool_decide_false _ Hin).
        rewrite Hce, py_index_nat.
        rewrite (bool_decide_true (S t' < n)%nat) by lia.
        destruct (decide (k = S t')) as [->|Hne].
        -- rewrite !bool_decide_true by (done || simpl; lia).
           by rewrite Nat.sub_diag.
        -- rewrite (bool_decide_false (Some (S t') = Some k)) by congruence.
           by rewrite bool_decide_false by (simpl in *; lia).
Qed.

Lemma grid_cell_config (s s' : GridLayout.t) (cols rows : list Qc)
    (count j : nat) :
  config s = config s' ->
  grid_cell s cols rows count j = grid_cell s' cols rows count j.
Proof.
  intros Hc. unfold grid_cell, GridLayout.top. sync. done.
Qed.

Lemma rev_lookup {A} (l : list A) (j : nat) :
  (j < length l)%nat -> rev l !! j = l !! (length l - S j)%nat.
Proof. intros Hj. rewrite rev_alt. by apply reverse_lookup. Qed.

Lemma pass_places (self self' : GridLayout.t) (cols rows : list Qc) :
  GridLayout.children self <> [] ->
  truthy_count (GridLayout.cols self) || truthy_count (GridLayout.rows self)
  = true ->
  GridLayout.do_layout self = (Val tt, self') ->
  GridLayout._cols self' = Some cols ->
  GridLayout._rows self' = Some rows ->
  (length (GridLayout.children self) <= length rows * length cols)%nat
  /\ forall j child,
       rev (GridLayout.children self) !! j = Some child ->
       exists ce,
         grid_cell self cols rows (length (GridLayout.children self)) j
         = Some ce
         /\ rev (GridLayout.children self') !! j = Some (place_at ce child).
Proof.
  intros Hch Hcfg H Hcols Hrows.
  destruct (pass_shape _ _ Hch Hcfg H)
    as (c & r & s1 & s3 & s4 & s5 & s6 & cells & ch' & Hsteps & -> & Hres
        & Hc1 & Hr1 & Hs1 & Hn & E3 & Hs4 & Hs6).
  destruct Hsteps as (H1 & H3 & H4 & H5 & H6 & H7 & Hp).
  simpl in Hcols, Hrows.
  destruct Hs6 as (L1 & L2 & _ & _).
  rewrite Hcols in L1. rewrite Hrows in L2. simpl in L1, L2.
  injection L1 as L1. injection L2 as L2.
  assert (config s6 = config self /\
          GridLayout.children s6 = GridLayout.children self) as [Hcf Hch6].
  { pose proof (tame_state _ _ _ _ _ (init_tame _) H1) as K1.
    pose proof (tame_state _ _ _ _ _ fill_tame H3) as K3.
    pose proof (tame_state _ _ _ _ _ update_minimum_size_tame H4) as K4.
    pose proof (tame_state _ _ _ _ _ finalize_cols_tame H5) as K5.
    pose proof (tame_state _ _ _ _ _ finalize_rows_tame H6) as K6.
    simpl in *. split; congruence. }
  set (n := length (GridLayout.children self)) in *.
  split; [rewrite L1, L2; lia|].
  destruct (iterate_layout_run s6 cols rows n Hcols Hrows)
    as (cells' & H7' & Hlen & Hcells).
  rewrite H7 in H7'. injection H7' as <-.
  rewrite L1, L2, Nat.min_l in Hlen by lia.
  apply place_cells_run in Hp as (Hlen' & _ & Hlook).
  rewrite Hch6 in Hlen', Hlook. fold n in Hlen', Hlook.
  intros j child Hj.
  assert (j < n)%nat as Hjn.
  { apply lookup_lt_Some in Hj. by rewrite length_rev in Hj. }
  rewrite rev_lookup in Hj by done. fold n in Hj.
  destruct (lookup_lt_is_Some_2 cells j ltac:(unfold cell in *; lia))
    as [ce Hce].
  exists ce. split.
  - rewrite <- (grid_cell_config s6 self) by done.
    unfold cell in *. rewrite <- Hcells by lia. done.
  - simpl. rewrite rev_lookup by (rewrite Hlen'; done).
    rewrite Hlen', Hlook.
    rewrite (last_cell_countdown n (n - 1) (n - S j) cells).
    + rewrite bool_decide_true by (unfold cell in *; lia).
      replace (n - 1 - (n - S j))%nat with j by lia.
      unfold cell in *. rewrite Hce, Hj. done.
    + lia.
    + unfold cell in *. lia.
    + intros i ci Hi.
      assert (i < n)%nat as Hin
        by (apply lookup_lt_Some in Hi; unfold cell in *; lia).
      unfold cell in *. rewrite (Hcells i) in Hi by lia.
      apply grid_cell_index in Hi. lia.
Qed.

(** X7: a pass of [do_layout] that returns, on a grid with children and
    with [cols] or [rows], has a cell for every child, and gives the
    [j]-th child in the order of addition the cell of the row [j // cols]
    and the column [j % cols] of the final columns and rows: its [pos] is
    the bottom left corner of the cell, its width is the width of the
    column unless its [size_hint_x] is [None], and its height the height
    of the row unless its [size_hint_y] is [None]. *)
Theorem do_layout_places (self self' : GridLayout.t) (cols rows : list Qc) :
  GridLayout.children self <> [] ->
  truthy_count (GridLayout.cols self) || truthy_count (GridLayout.rows self)
  = true ->
  GridLayout.do_layout self = (Val tt, self') ->
  GridLayout._cols self' = Some cols ->
  GridLayout._rows self' = Some rows ->
  (length (GridLayout.children self) <= length rows * length cols)%nat
  /\ forall j child,
       rev (GridLayout.children self) !! j = Some child ->
       exists i pos w h,
         grid_cell self cols rows (length (GridLayout.children self)) j
         = Some (i, pos, (w, h))
         /\ rev (GridLayout.children self') !! j
            = Some (GridLayout.place pos w h child).
Proof.
  intros Hch Hcfg H Hcols Hrows.
  destruct (pass_places self self' cols rows Hch Hcfg H Hcols Hrows)
    as [Hn Hplace].
  split; [done|]. intros j child Hj.
  destruct (Hplace j child Hj) as ([[i pos] [w h]] & Hce & Hc).
  by exists i, pos, w, h.
Qed.

Lemma do_layout_places_witness :
  (length (GridLayout.children three_in_two)
   <= length [num 50; num 50] * length [num 100; num 100])%nat
  /\ forall j child,
       rev (GridLayout.children three_in_two) !! j = Some child ->
       exists i pos w h,
         grid_cell three_in_two [num 100; num 100] [num 50; num 50]
           (length (GridLayout.children three_in_two)) j
         = Some (i, pos, (w, h))
         /\ rev (GridLayout.children
                   (snd (GridLayout.do_layout three_in_two))) !! j
            = Some (GridLayout.place pos w h child).
Proof.
  apply (do_layout_places three_in_two
           (snd (GridLayout.do_layout three_in_two))); [done| |by_run..].
  reflexivity.
Defined.

(** ** The width that the columns take *)







(** ** The boundaries of the columns and rows *)

Lemma offset_0 (sp : Qc) (l : list Qc) : offset sp l 0 = 0.
Proof. by destruct l. Qed.

Lemma offset_S (sp : Qc) (l : list Qc) (k : nat) (v : Qc) :
  l !! k = Some v -> offset sp l (S k) = offset sp l k + (v + sp).
Proof.
  revert k. induction l as [|a l IH]; intros k Hk; [done|].
  destruct k as [|k]; simpl in Hk.
  - injection Hk as ->.
    change (offset sp (v :: l) 1) with (v + sp + offset sp l 0).
    change (offset sp (v :: l) 0) with 0. rewrite offset_0. ring.
  - change (offset sp (a :: l) (S (S k)))
      with (a + sp + offset sp l (S k)).
    rewrite (IH k Hk). cbn [offset]. ring.
Qed.

(** The boundaries that the loop over [cols[1:]] writes, from [last]. *)
Fixpoint col_bounds (last sp : Qc) (tail : list Qc) : list Qc :=
  match tail with
  | [] => []
  | v :: tail' => last :: col_bounds (last + (v + sp)) sp tail'
  end.

(** The boundaries that the loop over [rows[1:]] writes, in the order in
    which it writes them. *)
Fixpoint row_bounds (last sp : Qc) (tail : list Qc) : list Qc :=
  match tail with
  | [] => []
  | v :: tail' => (last - (sp + v)) :: row_bounds (last - (sp + v)) sp tail'
  end.

Lemma length_col_bounds (last sp : Qc) (tail : list Qc) :
  length (col_bounds last sp tail) = length tail.
Proof.
  revert last. induction tail as [|v tail IH]; intros last; simpl; [done|].
  by rewrite IH.
Qed.

Lemma length_row_bounds (last sp : Qc) (tail : list Qc) :
  length (row_bounds last sp tail) = length tail.
Proof.
  revert last. induction tail as [|v tail IH]; intros last; simpl; [done|].
  by rewrite IH.
Qed.

Lemma col_bounds_lookup (last sp : Qc) (tail : list Qc) (k : nat) :
  (k < length tail)%nat ->
  col_bounds last sp tail !! k = Some (last + offset sp tail k).
Proof.
  revert last k. induction tail as [|v tail IH]; intros last k Hk;
    [simpl in Hk; lia|].
  destruct k as [|k].
  - change (Some last = Some (last + 0)). f_equal. ring.
  - change (col_bounds (last + (v + sp)) sp tail !! k
            = Some (last + (v + sp + offset sp tail k))).
    rewrite IH by (simpl in Hk; lia). f_equal. ring.
Qed.

Lemma row_bounds_lookup (last sp : Qc) (tail : list Qc) (k : nat) :
  (k < length tail)%nat ->
  row_bounds last sp tail !! k = Some (last - offset sp tail (S k)).
Proof.
  revert last k. induction tail as [|v tail IH]; intros last k Hk;
    [simpl in Hk; lia|].
  destruct k as [|k].
  - change (Some (last - (sp + v))
            = Some (last - (v + sp + offset sp tail 0))).
    rewrite offset_0. f_equal. ring.
  - change (row_bounds (last - (sp + v)) sp tail !! k
            = Some (last - (v + sp + offset sp tail (S k)))).
    rewrite IH by (simpl in Hk; lia). f_equal. ring.
Qed.

Lemma cols_pos_loop_exact (tail : list Qc) (pre : list Qc) (last sp : Qc) :
  RecycleGridLayout.cols_pos_loop (enumerate_from (length pre) tail) last sp
    (Some ((Some <$> pre) ++ replicate (length tail) None))
  = (Val tt, Some (Some <$> (pre ++ col_bounds last sp tail))).
Proof.
  revert pre last. induction tail as [|v tail IH]; intros pre last.
  - simpl. by rewrite !app_nil_r.
  - cbn [enumerate_from RecycleGridLayout.cols_pos_loop length replicate
         col_bounds].
    unfold bind. rewrite setitem_nat
      by (rewrite length_app, length_fmap; simpl; lia).
    rewrite insert_at by apply length_fmap.
    specialize (IH (pre ++ [last]) (last + (v + sp))).
    rewrite length_app, Nat.add_1_r, fmap_app in IH.
    rewrite <- app_assoc in IH. simpl in IH.
    rewrite IH. by rewrite <- app_assoc.
Qed.

Lemma rows_pos_loop_exact (n : nat) (tail : list Qc) (suf : list Qc)
    (last sp : Qc) :
  n = (length tail + length suf)%nat ->
  RecycleGridLayout.rows_pos_loop n (enumerate_from (length suf) tail)
    last sp
    (Some (replicate (length tail) None ++ (Some <$> suf)))
  = (Val tt, Some (Some <$> (rev (row_bounds last sp tail) ++ suf))).
Proof.
  revert suf last. induction tail as [|v tail IH]; intros suf last Hn.
  - done.
  - cbn [enumerate_from RecycleGridLayout.rows_pos_loop length row_bounds].
    unfold bind.
    replace (Z.of_nat n - 1 - Z.of_nat (length suf))%Z
      with (Z.of_nat (length tail)) by (simpl in Hn; lia).
    rewrite setitem_nat
      by (rewrite length_app, length_replicate; simpl; lia).
    rewrite replicate_S_end, <- app_assoc. simpl.
    rewrite insert_at by apply length_replicate.
    specialize (IH (last - (sp + v) :: suf) (last - (sp + v))).
    cbn [length] in IH. rewrite fmap_cons in IH.
    rewrite IH by (simpl in *; lia).
    by rewrite <- app_assoc.
Qed.

(** The boundaries after [compute_layout]: the left edge of the grid,
    then, for every other column, the middle of the spacing before it;
    and for every row, the middle of the spacing under it, the row on top
    being the last of the list. *)
Definition bounded (self : RecycleGridLayout.t) (cols rows : list Qc)
  : Prop :=
  let g := RecycleGridLayout.grid self in
  let '(spacing_x, spacing_y) := GridLayout.spacing g in
  let '(padding_left, padding_top, _, _) := GridLayout.padding g in
  exists cp rp,
    RecycleGridLayout._cols_pos self = Some (Some <$> cp)
    /\ RecycleGridLayout._rows_pos self = Some (Some <$> rp)
    /\ length cp = length cols /\ length rp = length rows
    /\ cp !! 0%nat = Some (GridLayout.x g)
    /\ (forall k, (1 <= k < length cols)%nat ->
          cp !! k
          = Some (GridLayout.x g + padding_left + offset spacing_x cols k
                  - spacing_x / num 2))
    /\ (forall k h, rows !! k = Some h ->
          rp !! (length rows - 1 - k)%nat
          = Some (GridLayout.top g - padding_top - offset spacing_y rows k
                  - h - spacing_y / num 2)).

Lemma half_half (a : Qc) : a - a / num 2 = a / num 2.
Proof.
  assert (num 2 = 1 + 1) as -> by by_run.
  field. by_run.
Qed.

Lemma set_boundaries_exact (s s' : RecycleGridLayout.t)
    (cols rows : list Qc) :
  GridLayout._cols (RecycleGridLayout.grid s) = Some cols ->
  GridLayout._rows (RecycleGridLayout.grid s) = Some rows ->
  RecycleGridLayout.set_boundaries s = (Val tt, s') ->
  RecycleGridLayout.grid s' = RecycleGridLayout.grid s
  /\ RecycleGridLayout.view_opts s' = RecycleGridLayout.view_opts s
  /\ bounded s' cols rows.
Proof.
  intros Hc Hr.
  unfold RecycleGridLayout.set_boundaries, bounded.
  unfold bind at 1. unfold get.
  destruct (GridLayout.spacing (RecycleGridLayout.grid s))
    as [spacing_x spacing_y] eqn:Hsp.
  destruct (GridLayout.padding (RecycleGridLayout.grid s))
    as [[[padding_left padding_top] ?] ?] eqn:Hpad.
  rewrite Hc, Hr. munfold.
  cbn -[RecycleGridLayout.cols_pos_loop RecycleGridLayout.rows_pos_loop
        enumerate_from replicate Z.of_nat Z.sub setitem lookup_item drop
        length].
  destruct cols as [|c0 cols].
  { rewrite setitem_Some. by simpl. }
  destruct rows as [|r0 rows].
  { cbn [length replicate]. rewrite setitem_0, lookup_item_0.
    cbn [RecycleGridLayout._cols_pos RecycleGridLayout.set__cols_pos
         RecycleGridLayout.set__rows_pos].
    destruct (RecycleGridLayout.cols_pos_loop _ _ _ _) as [[[]|e] l];
      [|done].
    unfold lookup_item. by simpl. }
  cbn [length]. rewrite replicate_S, (replicate_S_end (length rows)).
  rewrite setitem_0, !lookup_item_0.
  cbn [RecycleGridLayout._cols_pos RecycleGridLayout.set__cols_pos
       RecycleGridLayout.set__rows_pos RecycleGridLayout._rows_pos drop].
  rewrite !drop_0.
  set (x0 := GridLayout.x (RecycleGridLayout.grid s)).
  set (lastc := x0 + padding_left + c0 + spacing_x / num 2).
  pose proof (cols_pos_loop_exact cols [x0] lastc spacing_x) as Hcp.
  change (RecycleGridLayout.cols_pos_loop (enumerate_from 1 cols)
            lastc spacing_x
            (Some (Some x0 :: replicate (length cols) None))
          = (Val (), Some (Some <$> x0 :: col_bounds lastc spacing_x cols)))
    in Hcp.
  rewrite Hcp.
  cbn [RecycleGridLayout._cols_pos RecycleGridLayout.set__cols_pos
       RecycleGridLayout.set__rows_pos RecycleGridLayout._rows_pos].
  rewrite lookup_item_0.
  cbn [RecycleGridLayout._cols_pos RecycleGridLayout.set__cols_pos
       RecycleGridLayout.set__rows_pos RecycleGridLayout._rows_pos].
  rewrite setitem_last.
  set (last := GridLayout.y (RecycleGridLayout.grid s)
               + GridLayout.height (RecycleGridLayout.grid s) - padding_top
               - r0 - spacing_y / num 2).
  pose proof (rows_pos_loop_exact (S (length rows)) rows [last] last
                spacing_y ltac:(simpl; lia)) as Hrp.
  cbn [RecycleGridLayout._cols_pos RecycleGridLayout.set__cols_pos
       RecycleGridLayout.set__rows_pos RecycleGridLayout._rows_pos].
  change (RecycleGridLayout.rows_pos_loop (S (length rows))
            (enumerate_from 1 rows) last spacing_y
            (Some (replicate (length rows) None ++ [Some last]))
          = (Val (), Some (Some <$> rev (row_bounds last spacing_y rows)
                                    ++ [last]))) in Hrp.
  rewrite Hrp. intros [= <-].
  cbn [RecycleGridLayout._cols_pos RecycleGridLayout.set__cols_pos
       RecycleGridLayout.set__rows_pos RecycleGridLayout._rows_pos
       RecycleGridLayout.grid RecycleGridLayout.view_opts].
  split; [done|]. split; [done|]. rewrite Hsp, Hpad.
  exists (x0 :: col_bounds lastc spacing_x cols),
    (rev (row_bounds last spacing_y rows) ++ [last]).
  split; [done|]. split; [done|].
  split; [simpl; by rewrite length_col_bounds|].
  split.
  { rewrite length_app, length_rev, length_row_bounds. simpl. lia. }
  split; [done|]. split.
  - intros k Hk. destruct k as [|k]; [lia|]. simpl in Hk.
    change ((x0 :: col_bounds lastc spacing_x cols) !! S k)
      with (col_bounds lastc spacing_x cols !! k).
    rewrite col_bounds_lookup by lia. f_equal.
    change (offset spacing_x (c0 :: cols) (S k))
      with (c0 + spacing_x + offset spacing_x cols k).
    unfold lastc, x0.
    transitivity (GridLayout.x (RecycleGridLayout.grid s) + padding_left
                  + c0 + (spacing_x - spacing_x / num 2)
                  + offset spacing_x cols k); [|ring].
    rewrite half_half. ring.
  - intros k h Hk. cbn [length].
    assert (k < S (length rows))%nat as Hlt
      by (apply lookup_lt_Some in Hk; simpl in Hk; lia).
    destruct k as [|k].
    + simpl in Hk. injection Hk as ->.
      rewrite lookup_app_r
        by (rewrite length_rev, length_row_bounds; lia).
      rewrite length_rev, length_row_bounds.
      replace (S (length rows) - 1 - 0 - length rows)%nat with 0%nat by lia.
      simpl. f_equal. unfold last, GridLayout.top. ring.
    + simpl in Hk.
      rewrite lookup_app_l
        by (rewrite length_rev, length_row_bounds; lia).
      rewrite rev_lookup by (rewrite length_row_bounds; lia).
      rewrite length_row_bounds.
      replace (length rows - S (S (length rows) - 1 - S k))%nat with k
        by lia.
      rewrite row_bounds_lookup by lia. f_equal.
      rewrite (offset_S _ _ _ _ Hk).
      change (offset spacing_y (r0 :: rows) (S k))
        with (r0 + spacing_y + offset spacing_y rows k).
      unfold last, GridLayout.top. ring.
Qed.

(** ** The index under a point *)

(** The value of [ix] after the loop
    [for val in pos: if x < val: break; ix += 1]. *)
Fixpoint scan_count (x : Qc) (q : list Qc) : nat :=
  match q with
  | [] => 0
  | v :: q' => if bool_decide (x < v) then 0 else S (scan_count x q')
  end.

Lemma scan_run {St} (x : Qc) (q : list Qc) (ix : Z) (s : St) :
  RecycleGridLayout.scan x (Some <$> q) ix s
  = (Val (ix + Z.of_nat (scan_count x q))%Z, s).
Proof.
  revert ix. induction q as [|v q IH]; intros ix.
  - simpl. unfold ret. do 2 f_equal. lia.
  - rewrite fmap_cons. cbn [RecycleGridLayout.scan scan_count].
    case_bool_decide.
    + unfold ret. do 2 f_equal. lia.
    + rewrite IH. do 2 f_equal. lia.
Qed.

Lemma scan_count_le (x : Qc) (q : list Qc) :
  (scan_count x q <= length q)%nat.
Proof.
  induction q as [|v q IH]; simpl; [lia|]. case_bool_decide; lia.
Qed.

Lemma scan_count_mono (x x' : Qc) (q : list Qc) :
  x <= x' -> (scan_count x q <= scan_count x' q)%nat.
Proof.
  intros Hx. induction q as [|v q IH]; simpl; [lia|].
  repeat case_bool_decide; try lia.
  exfalso. match goal with H : ~ x < v |- _ => apply H end.
  by eapply Qcle_lt_trans.
Qed.


Lemma last_lookup_item {St A} (p : list A) (b : A) (s : St) :
  p !! (length p - 1)%nat = Some b ->
  lookup_item p (-1) s = (Val b, s).
Proof.
  intros Hb. unfold lookup_item.
  assert (1 <= length p)%nat as Hp
    by (apply lookup_lt_Some in Hb; lia).
  assert (py_index (length p) (-1) = Some (length p - 1)%nat) as ->.
  { unfold py_index. rewrite bool_decide_false by lia.
    rewrite bool_decide_true by lia. f_equal. lia. }
  by rewrite Hb.
Qed.

Lemma axis_index_run {St} (x b : Qc) (p sizes : list Qc) (s : St) :
  p !! (length p - 1)%nat = Some b ->
  RecycleGridLayout.axis_index x (Some <$> p) (Some sizes) s
  = (Val (if bool_decide (b <= x) then (Z.of_nat (length sizes) - 1)%Z
          else Z.of_nat (scan_count x (drop 1 p))), s).
Proof.
  intros Hb. unfold RecycleGridLayout.axis_index. unfold bind at 1.
  rewrite (last_lookup_item (Some <$> p) (Some b))
    by (by rewrite length_fmap, list_lookup_fmap, Hb).
  case_bool_decide.
  - done.
  - rewrite <- fmap_drop, scan_run. by rewrite Z.add_0_l.
Qed.


Lemma axis_index_mono {St} (x x' : Qc) (p sizes : list Qc) (s : St) :
  length p = length sizes -> (1 <= length p)%nat -> x <= x' ->
  exists k k',
    RecycleGridLayout.axis_index x (Some <$> p) (Some sizes) s = (Val k, s)
    /\ RecycleGridLayout.axis_index x' (Some <$> p) (Some sizes) s
       = (Val k', s)
    /\ (0 <= k <= k')%Z /\ (k' < Z.of_nat (length sizes))%Z.
Proof.
  intros Hlen Hp Hx.
  destruct (lookup_lt_is_Some_2 p (length p - 1)%nat ltac:(lia)) as [b Hb].
  rewrite !(axis_index_run _ b p sizes s Hb).
  eexists _, _. split; [done|]. split; [done|].
  pose proof (scan_count_mono x x' (drop 1 p) Hx) as Hm.
  pose proof (scan_count_le x (drop 1 p)) as H1.
  pose proof (scan_count_le x' (drop 1 p)) as H2.
  rewrite length_drop in H1, H2.
  repeat case_bool_decide; try lia.
  exfalso. match goal with H : ~ b <= x' |- _ => apply H end.
  by eapply Qcle_trans.
Qed.

Lemma cols_pos_loop_tame (tail : list (nat * Qc)) (last sp : Qc) :
  tame (fun _ => tt) (RecycleGridLayout.cols_pos_loop tail last sp).
Proof.
  revert last. induction tail as [|[i v] tail IH]; intros last; simpl.
  - apply tame_ret.
  - apply tame_bind; [apply setitem_tame|intros _; apply IH].
Qed.

Lemma rows_pos_loop_tame (n : nat) (tail : list (nat * Qc)) (last sp : Qc) :
  tame (fun _ => tt) (RecycleGridLayout.rows_pos_loop n tail last sp).
Proof.
  revert last. induction tail as [|[i v] tail IH]; intros last; simpl.
  - apply tame_ret.
  - apply tame_bind; [apply setitem_tame|intros _; apply IH].
Qed.

Lemma set_boundaries_tame :
  tame (fun s => (RecycleGridLayout.grid s, RecycleGridLayout.view_opts s))
    RecycleGridLayout.set_boundaries.
Proof.
  unfold RecycleGridLayout.set_boundaries. tame_all;
    first [apply cols_pos_loop_tame | apply rows_pos_loop_tame].
Qed.

(** A full pass of [compute_layout] that leaves lists of columns and rows
    went through the layout and left their boundaries. *)
Lemma full_pass_bounded (n : nat) (self self' : RecycleGridLayout.t)
    (cols rows : list Qc) :
  RecycleGridLayout.full_pass n self = (Val tt, self') ->
  GridLayout._cols (RecycleGridLayout.grid self') = Some cols ->
  GridLayout._rows (RecycleGridLayout.grid self') = Some rows ->
  bounded self' cols rows /\ (1 <= length cols)%nat
  /\ (1 <= length rows)%nat.
Proof.
  unfold RecycleGridLayout.full_pass. intros H Hcols Hrows.
  apply bind_Val in H as ([] & s0 & _ & H).
  apply bind_Val in H as (ok & s1 & _ & H).
  destruct ok; simpl in H.
  - apply bind_Val in H as ([] & s2 & _ & H).
    apply bind_Val in H as ([] & s3 & _ & H).
    apply bind_Val in H as ([] & s4 & _ & H).
    apply bind_Val in H as (cells & s5 & _ & H).
    apply bind_Val in H as ([] & s6 & _ & H).
    pose proof (tame_state _ _ _ _ _ set_boundaries_tame H) as K.
    simpl in K. injection K as Kg Kv.
    rewrite Kg in Hcols, Hrows.
    destruct (set_boundaries_exact s6 self' cols rows Hcols Hrows H)
      as (_ & _ & Hb).
    apply set_boundaries_Val in H
      as (cols' & rows' & cp & rp & Hc & Hr & _ & _ & _ & _ & H1c & H1r).
    rewrite Kg, Hcols in Hc. rewrite Kg, Hrows in Hr. by simplify_eq.
  - apply bind_Val in H as ([] & s2 & H2 & H).
    apply bind_Val in H as (? & ? & [= <- <-] & H).
    destruct (GridLayout.padding _) as [[[l t] r] b].
    unfold RecycleGridLayout.super, zoom, modify in *.
    injection H2 as <-. injection H as <-. simpl in Hcols. done.
Qed.

Lemma get_view_index_at_run (self : RecycleGridLayout.t)
    (cols rows cp rp : list Qc) (x y : Qc) (ix iy : Z) :
  GridLayout._cols (RecycleGridLayout.grid self) = Some cols ->
  GridLayout._rows (RecycleGridLayout.grid self) = Some rows ->
  RecycleGridLayout._cols_pos self = Some (Some <$> cp) ->
  RecycleGridLayout._rows_pos self = Some (Some <$> rp) ->
  (1 <= length cp)%nat -> (1 <= length rp)%nat ->
  RecycleGridLayout.axis_index x (Some <$> cp) (Some cols) self
  = (Val ix, self) ->
  RecycleGridLayout.axis_index y (Some <$> rp) (Some rows) self
  = (Val iy, self) ->
  RecycleGridLayout.get_view_index_at (x, y) self
  = (Val ((Z.of_nat (length rows) - iy - 1) * Z.of_nat (length cols) + ix)%Z,
     self).
Proof.
  intros Hc Hr Hcp Hrp H1 H2 Hix Hiy.
  unfold RecycleGridLayout.get_view_index_at. unfold bind at 1. unfold get.
  rewrite Hcp, Hrp.
  destruct cp as [|c0 cp]; [simpl in *; lia|].
  destruct rp as [|r0 rp]; [simpl in *; lia|].
  rewrite !fmap_cons. rewrite <- !fmap_cons. rewrite Hc, Hr.
  unfold bind. rewrite Hix, Hiy. done.
Qed.

Lemma bounded_lengths (self : RecycleGridLayout.t) (cols rows : list Qc) :
  bounded self cols rows ->
  exists cp rp,
    RecycleGridLayout._cols_pos self = Some (Some <$> cp)
    /\ RecycleGridLayout._rows_pos self = Some (Some <$> rp)
    /\ length cp = length cols /\ length rp = length rows.
Proof.
  unfold bounded.
  destruct (GridLayout.spacing _) as [sx sy].
  destruct (GridLayout.padding _) as [[[pl pt] pr] pb].
  intros (cp & rp & H1 & H2 & H3 & H4 & _). by exists cp, rp.
Qed.

Lemma view_index_mono (self : RecycleGridLayout.t) (cols rows : list Qc)
    (x y x' y' : Qc) :
  GridLayout._cols (RecycleGridLayout.grid self) = Some cols ->
  GridLayout._rows (RecycleGridLayout.grid self) = Some rows ->
  bounded self cols rows ->
  (1 <= length cols)%nat -> (1 <= length rows)%nat ->
  x <= x' -> y' <= y ->
  exists k k',
    RecycleGridLayout.get_view_index_at (x, y) self = (Val k, self)
    /\ RecycleGridLayout.get_view_index_at (x', y') self = (Val k', self)
    /\ (k <= k')%Z.
Proof.
  intros Hc Hr Hb H1c H1r Hx Hy.
  destruct (bounded_lengths _ _ _ Hb) as (cp & rp & Hcp & Hrp & Lc & Lr).
  destruct (axis_index_mono (St := RecycleGridLayout.t) x x' cp cols self
              Lc ltac:(lia) Hx) as (ix & ix' & Hix & Hix' & Bx & Bx').
  destruct (axis_index_mono (St := RecycleGridLayout.t) y' y rp rows self
              Lr ltac:(lia) Hy) as (iy' & iy & Hiy' & Hiy & By & By').
  rewrite (get_view_index_at_run self cols rows cp rp x y ix iy)
    by (done || lia).
  rewrite (get_view_index_at_run self cols rows cp rp x' y' ix' iy')
    by (done || lia).
  eexists _, _. split; [done|]. split; [done|]. nia.
Qed.

(** X9: after a full pass of [compute_layout], [get_view_index_at] is
    monotone: a point further to the right, or further down, never gets
    a smaller index (the grid counts from left to right, top to
    down). *)
Theorem view_index_monotone (n : nat) (self self' : RecycleGridLayout.t)
    (cols rows : list Qc) (x y x' y' : Qc) :
  RecycleGridLayout.full_pass n self = (Val tt, self') ->
  GridLayout._cols (RecycleGridLayout.grid self') = Some cols ->
  GridLayout._rows (RecycleGridLayout.grid self') = Some rows ->
  x <= x' -> y' <= y ->
  exists k k',
    RecycleGridLayout.get_view_index_at (x, y) self' = (Val k, self')
    /\ RecycleGridLayout.get_view_index_at (x', y') self' = (Val k', self')
    /\ (k <= k')%Z.
Proof.
  intros H Hc Hr Hx Hy.
  destruct (full_pass_bounded n self self' cols rows H Hc Hr)
    as (Hb & H1c & H1r).
  by apply (view_index_mono self' cols rows).
Qed.

(** A recycle grid of two columns, 300 wide and 120 high at (10, 20), with
    a spacing of 4 and 6 and paddings of 1, 2, 3 and 4, with five views
    that stretch. *)
Definition five_views : RecycleGridLayout.t :=
  RecycleGridLayout.mk
    (GridLayout.mk (num 4, num 6) (num 1, num 2, num 3, num 4)
       (Some 2%nat) None 0 0 false false [] [] 0 0 (num 10) (num 20)
       (num 300) (num 120) [] None None None None)
    (replicate 5
       (RecycleGridLayout.mk_opt (Some (num 1), Some (num 1)) (0, 0) None))
    (Some []) None None None None [].

(** What the full pass leaves of it. *)
Definition five_views_laid_out : RecycleGridLayout.t :=
  Eval vm_compute in snd (RecycleGridLayout.full_pass 5 five_views).

(** The points (50, 60) and (250, 30) of that grid. *)
Lemma view_index_monotone_witness :
  exists k k',
    RecycleGridLayout.get_view_index_at (num 50, num 60) five_views_laid_out
    = (Val k, five_views_laid_out)
    /\ RecycleGridLayout.get_view_index_at (num 250, num 30)
         five_views_laid_out
       = (Val k', five_views_laid_out)
    /\ (k <= k')%Z.
Proof.
  apply (view_index_monotone 5 five_views five_views_laid_out
           (default [] (GridLayout._cols
                          (RecycleGridLayout.grid five_views_laid_out)))
           (default [] (GridLayout._rows
                          (RecycleGridLayout.grid five_views_laid_out))));
    by_run.
Defined.

(** ** The index under the corner of a view *)

(** Linear arithmetic on [Qc], through [Q]. *)
Ltac qc_lra :=
  unfold Qcle, Qclt, Qcminus, Qcplus, Qcopp, Q2Qc in *;
  cbn [this] in *;
  rewrite ?Qred_correct in *;
  lra.








(** ** Where a full pass puts the views *)

Lemma place_views_run (n : nat) (cells : list cell)
    (opts : list RecycleGridLayout.ViewOpt) :
  length opts = n -> (length cells <= n)%nat ->
  (forall j ce, cells !! j = Some ce ->
                fst (fst ce) = (Z.of_nat n - 1 - Z.of_nat j)%Z) ->
  exists opts',
    for_each cells (RecycleGridLayout.place_view n) opts = (Val tt, opts')
    /\ length opts' = n
    /\ forall j,
         opts' !! j
         = match cells !! j with
           | Some ce =>
               RecycleGridLayout.place_opt (snd (fst ce)) (fst (snd ce))
                 (snd (snd ce)) <$> opts !! j
           | None => opts !! j
           end.
Proof.
  intros Hn. induction cells as [|ce cells IH] using rev_ind;
    intros Hlen Hidx.
  - exists opts. done.
  - rewrite length_app in Hlen. simpl in Hlen. unfold cell in *.
    destruct IH as (opts1 & Hrun & Hlen1 & Hlook); [lia| |].
    { intros j c Hj. apply Hidx. by rewrite lookup_app_l
        by (by eapply lookup_lt_Some). }
    rewrite for_each_app, Hrun. cbn [for_each]. unfold bind.
    assert (fst (fst ce) = (Z.of_nat n - 1 - Z.of_nat (length cells))%Z)
      as Hce.
    { apply Hidx. by rewrite lookup_app_r, Nat.sub_diag by lia. }
    destruct ce as [[i p] [w h]]. simpl in Hce. subst i.
    unfold RecycleGridLayout.place_view. unfold bind at 1. unfold get.
    replace (Z.of_nat n - (Z.of_nat n - 1 - Z.of_nat (length cells)) - 1)%Z
      with (Z.of_nat (length cells)) by lia.
    unfold bind. rewrite lookup_item_nat.
    destruct (lookup_lt_is_Some_2 opts1 (length cells) ltac:(lia))
      as [opt Hopt].
    rewrite Hopt. unfold modify, ret.
    rewrite py_index_nat, bool_decide_true by lia.
    eexists. split; [done|]. split; [by rewrite length_insert|].
    intros j. destruct (decide (j = length cells)) as [->|Hne].
    + rewrite list_lookup_insert_eq by lia.
      rewrite lookup_app_r, Nat.sub_diag by lia. simpl.
      rewrite Hlook in Hopt.
      rewrite lookup_ge_None_2 in Hopt by lia. by rewrite Hopt.
    + rewrite list_lookup_insert_ne by done. rewrite Hlook.
      destruct (decide (j < length cells)%nat) as [Hlt|Hge].
      * by rewrite lookup_app_l by done.
      * rewrite (lookup_ge_None_2 (cells ++ _))
          by (rewrite length_app; simpl; lia).
        by rewrite (lookup_ge_None_2 cells) by lia.
Qed.

(** ** The fill phase of a recycle grid *)

(** [hist[k][v] += 1] where [k] is a slot of [hist]. *)
Definition hist_bump (k : nat) (v : Qc) (hs : list (gmap Qc Z))
  : list (gmap Qc Z) :=
  alter (fun d => <[v := (default 0%Z (d !! v) + 1)%Z]> d) k hs.

Lemma hist_add_run (k : nat) (v : Qc) (hs : list (gmap Qc Z)) :
  RecycleGridLayout.hist_add k v 1 (Some hs)
  = if bool_decide (k < length hs)%nat then (Val tt, Some (hist_bump k v hs))
    else (Exc IndexError, Some hs).
Proof.
  unfold RecycleGridLayout.hist_add. unfold bind. rewrite getitem_Some.
  case_bool_decide as Hk.
  - destruct (lookup_lt_is_Some_2 hs k Hk) as [d Hd]. rewrite Hd.
    rewrite setitem_nat by done. unfold hist_bump.
    by rewrite (insert_as_alter
                  (fun d => <[v := (default 0%Z (d !! v) + 1)%Z]> d)).
  - by rewrite lookup_ge_None_2 by lia.
Qed.

(** A recycle grid whose lists and histograms have [c] columns and [r]
    rows. *)
Definition rshaped (c r : nat) (s : RecycleGridLayout.t) : Prop :=
  shaped c r (RecycleGridLayout.grid s)
  /\ length <$> RecycleGridLayout._cols_count s = Some c
  /\ length <$> RecycleGridLayout._rows_count s = Some r.

(** The state after the body of the loop of
    [RecycleGridLayout._fill_rows_cols_sizes] ran for the cell
    [(row, col)]. *)
Definition rfill_spec (row col : nat) (size_hint : option Qc * option Qc)
    (size : Qc * Qc) (s : RecycleGridLayout.t) : RecycleGridLayout.t :=
  let s1 := match fst size_hint with
            | None => RecycleGridLayout.set__cols_count
                        (hist_bump col (fst size)
                           <$> RecycleGridLayout._cols_count s) s
            | Some _ => s
            end in
  let s2 := match snd size_hint with
            | None => RecycleGridLayout.set__rows_count
                        (hist_bump row (snd size)
                           <$> RecycleGridLayout._rows_count s1) s1
            | Some _ => s1
            end in
  RecycleGridLayout.set_grid
    (fill_spec row col size_hint size (RecycleGridLayout.grid s2)) s2.

(** The body of the loop of [RecycleGridLayout._fill_rows_cols_sizes]. *)
Definition rfill_body (n : nat) (item : nat * RecycleGridLayout.ViewOpt)
  : M RecycleGridLayout.t unit :=
  let '(i, opt) := item in
  let '(shw, shh) := RecycleGridLayout.opt_size_hint opt in
  let '(w, h) := RecycleGridLayout.opt_size opt in
  ' (row, col) <- py_divmod i n ;;
  _ <- match shw with
       | None => zoom RecycleGridLayout._cols_count
                   RecycleGridLayout.set__cols_count
                   (RecycleGridLayout.hist_add col w 1)
       | Some _ => ret tt
       end ;;
  _ <- match shh with
       | None => zoom RecycleGridLayout._rows_count
                   RecycleGridLayout.set__rows_count
                   (RecycleGridLayout.hist_add row h 1)
       | Some _ => ret tt
       end ;;
  RecycleGridLayout.super (GridLayout.fill_cell row col (shw, shh) (w, h)).

Lemma rfill_spec_rshaped (c r row col : nat) hint size
    (s : RecycleGridLayout.t) :
  rshaped c r s -> rshaped c r (rfill_spec row col hint size s).
Proof.
  unfold rshaped, rfill_spec, hist_bump. intros (H1 & H2 & H3).
  destruct hint as [[shw|] [shh|]]; simpl;
    (split; [by apply fill_spec_shaped|]);
    destruct (RecycleGridLayout._cols_count s),
      (RecycleGridLayout._rows_count s);
    simpl in *; rewrite ?length_alter; done.
Qed.

Lemma rfill_cell_run (c r i : nat) (opt : RecycleGridLayout.ViewOpt)
    (s : RecycleGridLayout.t) :
  rshaped c r s -> (1 <= c)%nat ->
  ((i / c < r)%nat ->
   rfill_body c (i, opt) s
   = (Val tt, rfill_spec (i / c) (i mod c)
                (RecycleGridLayout.opt_size_hint opt)
                (RecycleGridLayout.opt_size opt) s))
  /\ (~ (i / c < r)%nat -> fst (rfill_body c (i, opt) s) = Exc IndexError).
Proof.
  intros (Hs & H2 & H3) Hc.
  unfold rfill_body, rfill_spec.
  destruct (RecycleGridLayout.opt_size_hint opt) as [shw shh].
  destruct (RecycleGridLayout.opt_size opt) as [w h].
  unfold py_divmod. destruct c as [|c']; [lia|]. set (c := S c') in *.
  assert (i mod c < c)%nat as Hcol by (apply Nat.mod_upper_bound; lia).
  destruct (RecycleGridLayout._cols_count s) as [hc|] eqn:Ec; [|done].
  destruct (RecycleGridLayout._rows_count s) as [hr|] eqn:Er; [|done].
  simpl in H2, H3. injection H2 as H2. injection H3 as H3.
  unfold bind, ret, zoom, RecycleGridLayout.super.
  split; intros Hrow.
  - destruct shw as [shw|], shh as [shh|]; cbn [fst snd];
      rewrite ?Ec, ?hist_add_run, ?H2,
        ?(bool_decide_true (i mod c < c)%nat) by done;
      cbn [RecycleGridLayout._rows_count RecycleGridLayout.set__cols_count
           RecycleGridLayout.grid RecycleGridLayout._cols_count
           RecycleGridLayout.set__rows_count];
      rewrite ?Er, ?hist_add_run, ?H3, ?(bool_decide_true _ Hrow);
      cbn [RecycleGridLayout._rows_count RecycleGridLayout.set__cols_count
           RecycleGridLayout.grid RecycleGridLayout._cols_count
           RecycleGridLayout.set__rows_count];
      unfold zoom;
      cbn [RecycleGridLayout._rows_count RecycleGridLayout.set__cols_count
           RecycleGridLayout.grid RecycleGridLayout._cols_count
           RecycleGridLayout.set__rows_count];
      rewrite (fill_cell_run c r) by done;
      by rewrite (bool_decide_true _ Hrow).
  - destruct shw as [shw|], shh as [shh|]; cbn [fst snd];
      rewrite ?Ec, ?hist_add_run, ?H2,
        ?(bool_decide_true (i mod c < c)%nat) by done;
      cbn [RecycleGridLayout._rows_count RecycleGridLayout.set__cols_count
           RecycleGridLayout.grid RecycleGridLayout._cols_count
           RecycleGridLayout.set__rows_count];
      rewrite ?Er, ?hist_add_run, ?H3, ?(bool_decide_false _ Hrow);
      cbn [RecycleGridLayout._rows_count RecycleGridLayout.set__cols_count
           RecycleGridLayout.grid RecycleGridLayout._cols_count
           RecycleGridLayout.set__rows_count];
      try done;
      unfold zoom;
      cbn [RecycleGridLayout._rows_count RecycleGridLayout.set__cols_count
           RecycleGridLayout.grid RecycleGridLayout._cols_count
           RecycleGridLayout.set__rows_count];
      rewrite (fill_cell_run c r) by done;
      by rewrite (bool_decide_false _ Hrow).
Qed.

(** The state after the loop of
    [RecycleGridLayout._fill_rows_cols_sizes] ran for the views [l], the
    first of which has the index [k], in [n] columns. *)
Fixpoint rfill_all (n k : nat) (l : list RecycleGridLayout.ViewOpt)
    (s : RecycleGridLayout.t) : RecycleGridLayout.t :=
  match l with
  | [] => s
  | opt :: l' =>
      rfill_all n (S k) l'
        (rfill_spec (k / n) (k mod n) (RecycleGridLayout.opt_size_hint opt)
           (RecycleGridLayout.opt_size opt) s)
  end.

Lemma rfill_all_rshaped (c r k : nat) (l : list RecycleGridLayout.ViewOpt)
    (s : RecycleGridLayout.t) :
  rshaped c r s -> rshaped c r (rfill_all c k l s).
Proof.
  revert k s. induction l as [|opt l IH]; intros k s Hs; [done|].
  simpl. by apply IH, rfill_spec_rshaped.
Qed.

Lemma rfill_loop_run (c r k : nat) (l : list RecycleGridLayout.ViewOpt)
    (s : RecycleGridLayout.t) :
  rshaped c r s -> (1 <= c)%nat ->
  ((k + length l <= r * c)%nat ->
   for_each (enumerate_from k l) (rfill_body c) s
   = (Val tt, rfill_all c k l s))
  /\ (l <> [] -> (r * c < k + length l)%nat ->
      fst (for_each (enumerate_from k l) (rfill_body c) s) = Exc IndexError).
Proof.
  intros Hs Hc. revert k s Hs.
  induction l as [|opt l IH]; intros k s Hs; [done|].
  cbn [enumerate_from for_each rfill_all length]. unfold bind.
  destruct (rfill_cell_run c r k opt s Hs Hc) as [Hval Hexc].
  destruct (decide (k / c < r)%nat) as [Hrow|Hrow].
  - rewrite (Hval Hrow).
    destruct (IH (S k) _ (rfill_spec_rshaped c r (k / c) (k mod c)
                            (RecycleGridLayout.opt_size_hint opt)
                            (RecycleGridLayout.opt_size opt) s Hs))
      as [IH1 IH2].
    split.
    + intros Hk. apply IH1. lia.
    + intros _ Hk. destruct l as [|opt' l'].
      * exfalso. simpl in Hk.
        pose proof (Nat.mul_succ_div_gt k c ltac:(lia)). nia.
      * apply IH2; [done|simpl in *; lia].
  - split.
    + intros Hk. exfalso. apply Hrow.
      apply Nat.Div0.div_lt_upper_bound. simpl in Hk. lia.
    + intros _ _. specialize (Hexc Hrow).
      by destruct (rfill_body c (k, opt) s) as [[[]|e] s'];
        simpl in Hexc; simplify_eq.
Qed.

(** The state in which the loop of
    [RecycleGridLayout._fill_rows_cols_sizes] starts: a new histogram for
    every column and row. *)
Definition new_counts (c r : nat) (s : RecycleGridLayout.t)
  : RecycleGridLayout.t :=
  RecycleGridLayout.set__rows_count (Some (replicate r ∅))
    (RecycleGridLayout.set__cols_count (Some (replicate c ∅)) s).

Lemma rfill_run (c r : nat) (s : RecycleGridLayout.t) :
  shaped c r (RecycleGridLayout.grid s) ->
  RecycleGridLayout._fill_rows_cols_sizes s
  = for_each (enumerate (RecycleGridLayout.view_opts s)) (rfill_body c)
      (new_counts c r s)
  /\ rshaped c r (new_counts c r s).
Proof.
  intros Hs. pose proof Hs as (H1 & H2 & H3 & H4). split.
  - unfold RecycleGridLayout._fill_rows_cols_sizes. munfold.
    destruct (GridLayout._cols_sh (RecycleGridLayout.grid s)); [|done].
    destruct (GridLayout._rows_sh (RecycleGridLayout.grid s)); [|done].
    destruct (GridLayout._cols (RecycleGridLayout.grid s)) as [cs|]; [|done].
    destruct (GridLayout._rows (RecycleGridLayout.grid s)) as [rs|]; [|done].
    simpl in H1, H2. injection H1 as <-. injection H2 as <-.
    done.
  - unfold rshaped, new_counts. simpl. by rewrite !length_replicate.
Qed.

(** The slot of the view [k] on an axis, in [n] columns: its column
    ([axis] is [false]) or its row; and the part of a pair
    [(horizontal, vertical)] for the axis. *)
Definition axis_slot (axis : bool) (n k : nat) : nat :=
  if axis then (k / n)%nat else (k mod n)%nat.

Definition axis_part {A} (axis : bool) (p : A * A) : A :=
  if axis then snd p else fst p.

(** The number of views of [opts] (the first of which has the index [k])
    that claim the length [v] in the slot [slot] of an axis: the views of
    that column with no [size_hint_x] and the width [v], or of that row
    with no [size_hint_y] and the height [v]. *)
Fixpoint claims (axis : bool) (n k : nat)
    (opts : list RecycleGridLayout.ViewOpt) (slot : nat) (v : Qc) : Z :=
  match opts with
  | [] => 0
  | opt :: opts' =>
      ((if bool_decide
             (axis_slot axis n k = slot
              /\ axis_part axis (RecycleGridLayout.opt_size_hint opt) = None
              /\ axis_part axis (RecycleGridLayout.opt_size opt) = v)
        then 1 else 0)
       + claims axis n (S k) opts' slot v)%Z
  end.

Lemma claims_nonneg (axis : bool) (n k : nat)
    (opts : list RecycleGridLayout.ViewOpt) (slot : nat) (v : Qc) :
  (0 <= claims axis n k opts slot v)%Z.
Proof.
  revert k. induction opts as [|opt opts IH]; intros k; simpl; [lia|].
  specialize (IH (S k)). case_bool_decide; lia.
Qed.

(** A histogram holds no count that is not above 0. *)
Definition positive_counts (d : gmap Qc Z) : Prop :=
  forall v z, d !! v = Some z -> (0 < z)%Z.

Lemma slot_hist_bump (o : pylist (gmap Qc Z)) (k j : nat) (v : Qc) :
  slot (hist_bump k v <$> o) j
  = if decide (k = j)
    then (fun d => <[v := (default 0%Z (d !! v) + 1)%Z]> d) <$> slot o k
    else slot o j.
Proof.
  unfold slot, hist_bump. destruct o as [l|]; simpl; [|by case_decide].
  apply list_lookup_alter.
Qed.

Lemma positive_counts_bump (d : gmap Qc Z) (v : Qc) :
  positive_counts d ->
  positive_counts (<[v := (default 0%Z (d !! v) + 1)%Z]> d).
Proof.
  intros Hd w z. destruct (decide (v = w)) as [->|Hne].
  - rewrite lookup_insert_eq. intros [= <-].
    destruct (d !! w) as [z|] eqn:Hz; simpl; [|lia].
    apply Hd in Hz. lia.
  - rewrite lookup_insert_ne by done. apply Hd.
Qed.

(** What the loop adds to the histograms of the columns ([axis] is
    [false]) and of the rows. *)
Definition counts_of (axis : bool) (s : RecycleGridLayout.t)
  : pylist (gmap Qc Z) :=
  if axis then RecycleGridLayout._rows_count s
  else RecycleGridLayout._cols_count s.

Lemma rfill_spec_counts_of (axis : bool) (n k : nat)
    (hint : option Qc * option Qc) (size : Qc * Qc)
    (s : RecycleGridLayout.t) :
  counts_of axis (rfill_spec (k / n) (k mod n) hint size s)
  = match axis_part axis hint with
    | None => hist_bump (axis_slot axis n k) (axis_part axis size)
                <$> counts_of axis s
    | Some _ => counts_of axis s
    end.
Proof. by destruct axis, hint as [[shw|] [shh|]]. Qed.

Lemma rfill_spec_counts (axis : bool) (n k : nat)
    (opt : RecycleGridLayout.ViewOpt) (s : RecycleGridLayout.t) (j : nat)
    (d : gmap Qc Z) :
  slot (counts_of axis s) j = Some d -> positive_counts d ->
  exists d',
    slot (counts_of axis
            (rfill_spec (k / n) (k mod n)
               (RecycleGridLayout.opt_size_hint opt)
               (RecycleGridLayout.opt_size opt) s)) j = Some d'
    /\ positive_counts d'
    /\ forall v, count d' v = (count d v + claims axis n k [opt] j v)%Z.
Proof.
  intros Hd Hpos. rewrite rfill_spec_counts_of. cbn [claims].
  destruct (axis_part axis (RecycleGridLayout.opt_size_hint opt))
    as [sh|] eqn:Hsh.
  - exists d. split; [done|]. split; [done|]. intros v.
    rewrite bool_decide_false; [lia|]. intros (_ & ? & _). done.
  - rewrite slot_hist_bump. case_decide as Hj.
    + subst j. rewrite Hd. simpl. eexists. split; [done|].
      split; [by apply positive_counts_bump|]. intros v.
      rewrite count_insert. unfold count.
      destruct (decide (axis_part axis (RecycleGridLayout.opt_size opt) = v))
        as [Hv|Hv].
      * rewrite !bool_decide_true by done. subst v. lia.
      * rewrite !bool_decide_false; [lia| |done]. intros (_ & _ & ?). done.
    + exists d. split; [done|]. split; [done|]. intros v.
      rewrite bool_decide_false; [lia|]. intros (? & _ & _). done.
Qed.

Lemma rfill_all_counts (axis : bool) (n k : nat)
    (l : list RecycleGridLayout.ViewOpt) (s : RecycleGridLayout.t) (j : nat)
    (d : gmap Qc Z) :
  slot (counts_of axis s) j = Some d -> positive_counts d ->
  exists d',
    slot (counts_of axis (rfill_all n k l s)) j = Some d'
    /\ positive_counts d'
    /\ forall v, count d' v = (count d v + claims axis n k l j v)%Z.
Proof.
  revert k s d. induction l as [|opt l IH]; intros k s d Hd Hpos.
  - exists d. split; [done|]. split; [done|]. intros v. simpl. lia.
  - destruct (rfill_spec_counts axis n k opt s j d Hd Hpos)
      as (d1 & Hd1 & Hpos1 & Hc1).
    destruct (IH (S k) _ d1 Hd1 Hpos1) as (d' & Hd' & Hpos' & Hc').
    exists d'. split; [done|]. split; [done|]. intros v.
    rewrite Hc', Hc1. cbn [claims]. lia.
Qed.

Lemma counts_lookup (d : gmap Qc Z) (v : Qc) (z : Z) :
  positive_counts d -> count d v = z ->
  d !! v = if bool_decide (z = 0)%Z then None else Some z.
Proof.
  intros Hpos Hc. unfold count in Hc.
  destruct (d !! v) as [z'|] eqn:Hz; simpl in Hc; subst z.
  - apply Hpos in Hz. by rewrite bool_decide_false by lia.
  - by rewrite bool_decide_true.
Qed.

Lemma rfill_counts (self self' : RecycleGridLayout.t) (c r : nat)
    (axis : bool) (j : nat) :
  shaped c r (RecycleGridLayout.grid self) -> (1 <= c)%nat ->
  RecycleGridLayout._fill_rows_cols_sizes self = (Val tt, self') ->
  (j < if axis then r else c)%nat ->
  exists d,
    slot (counts_of axis self') j = Some d
    /\ forall v,
         d !! v
         = if bool_decide
                (claims axis c 0 (RecycleGridLayout.view_opts self) j v = 0)%Z
           then None
           else Some (claims axis c 0 (RecycleGridLayout.view_opts self) j v).
Proof.
  intros Hs Hc H Hj.
  destruct (rfill_run c r self Hs) as [Hrun Hrs]. rewrite Hrun in H.
  unfold enumerate in H.
  destruct (rfill_loop_run c r 0 (RecycleGridLayout.view_opts self)
              (new_counts c r self) Hrs Hc) as [Hval Hexc].
  assert (self' = rfill_all c 0 (RecycleGridLayout.view_opts self)
                    (new_counts c r self)) as ->.
  { destruct (decide (0 + length (RecycleGridLayout.view_opts self)
                      <= r * c)%nat) as [Hn|Hn].
    - rewrite (Hval Hn) in H. congruence.
    - rewrite (surjective_pairing (for_each _ _ _)) in H.
      rewrite Hexc in H; [done| |lia].
      intros Hnil. rewrite Hnil in Hn. simpl in Hn. lia. }
  destruct (rfill_all_counts axis c 0 (RecycleGridLayout.view_opts self)
              (new_counts c r self) j ∅) as (d & Hd & Hpos & Hcount).
  - unfold counts_of, new_counts. destruct axis; simpl;
      by apply lookup_replicate_2.
  - intros v z Hv. by rewrite lookup_empty in Hv.
  - exists d. split; [done|]. intros v. apply counts_lookup; [done|].
    rewrite Hcount. unfold count. by rewrite lookup_empty.
Qed.

(** A recycle grid as [_init_rows_cols_sizes] leaves it, with two columns
    and two rows, and three views: two of the fixed width 70 in the first
    column, one that stretches in the second. *)
Definition counted_views : RecycleGridLayout.t :=
  RecycleGridLayout.mk
    (GridLayout.mk (0, 0) (0, 0, 0, 0) (Some 2%nat) None 0 0 false false
       [] [] 0 0 0 0 (num 200) (num 100) []
       (Some [0; 0]) (Some [0; 0]) (Some [None; None]) (Some [None; None]))
    [RecycleGridLayout.mk_opt (None, Some (num 1)) (num 70, 0) None;
     RecycleGridLayout.mk_opt (Some (num 1), Some (num 1)) (0, 0) None;
     RecycleGridLayout.mk_opt (None, None) (num 70, num 20) None]
    (Some []) None None None None [].

(** X10: when [RecycleGridLayout._fill_rows_cols_sizes] returns, the
    histograms it leaves count the views exactly: [_cols_count[col][w]] is
    the number of views of the column [col] (the view [i] is in the column
    [i % cols] and the row [i // cols]) that have no [size_hint_x] and the
    width [w], and [_rows_count[row][h]] the number of views of the row
    [row] that have no [size_hint_y] and the height [h]; a length that no
    view claims has no entry. *)
Theorem fill_histograms (self self' : RecycleGridLayout.t) (c r : nat) :
  shaped c r (RecycleGridLayout.grid self) -> (1 <= c)%nat ->
  RecycleGridLayout._fill_rows_cols_sizes self = (Val tt, self') ->
  (forall col, (col < c)%nat ->
     exists d,
       slot (RecycleGridLayout._cols_count self') col = Some d
       /\ forall w,
            d !! w
            = if bool_decide
                   (claims false c 0 (RecycleGridLayout.view_opts self) col w
                    = 0)%Z
              then None
              else Some (claims false c 0 (RecycleGridLayout.view_opts self)
                           col w))
  /\ (forall row, (row < r)%nat ->
        exists d,
          slot (RecycleGridLayout._rows_count self') row = Some d
          /\ forall h,
               d !! h
               = if bool_decide
                      (claims true c 0 (RecycleGridLayout.view_opts self)
                         row h = 0)%Z
                 then None
                 else Some (claims true c 0
                              (RecycleGridLayout.view_opts self) row h)).
Proof.
  intros Hs Hc H. split.
  - intros col Hcol. by apply (rfill_counts self self' c r false col).
  - intros row Hrow. by apply (rfill_counts self self' c r true row).
Qed.

(** The first column of [counted_views]: the width 70 is claimed twice. *)
Lemma fill_histograms_witness :
  exists d,
    slot (RecycleGridLayout._cols_count
            (snd (RecycleGridLayout._fill_rows_cols_sizes counted_views)))
      0%nat = Some d
    /\ forall w,
         d !! w
         = if bool_decide
                (claims false 2 0 (RecycleGridLayout.view_opts counted_views)
                   0 w = 0)%Z
           then None
           else Some (claims false 2 0
                        (RecycleGridLayout.view_opts counted_views) 0 w).
Proof.
  destruct (fill_histograms counted_views
              (snd (RecycleGridLayout._fill_rows_cols_sizes counted_views))
              2 2) as [H _].
  - repeat split.
  - lia.
  - by_run.
  - apply H. lia.
Defined.

(** ** A full pass of [compute_layout] that returns *)

Lemma super_Val {A} (m : M GridLayout.t A) (s s' : RecycleGridLayout.t)
    (a : A) :
  RecycleGridLayout.super m s = (Val a, s') ->
  exists g',
    m (RecycleGridLayout.grid s) = (Val a, g')
    /\ s' = RecycleGridLayout.set_grid g' s.
Proof.
  unfold RecycleGridLayout.super, zoom.
  destruct (m (RecycleGridLayout.grid s)) as [res g'].
  intros [= -> <-]. eauto.
Qed.

Lemma rfill_all_frame (n k : nat) (l : list RecycleGridLayout.ViewOpt)
    (s : RecycleGridLayout.t) :
  RecycleGridLayout.view_opts (rfill_all n k l s)
  = RecycleGridLayout.view_opts s
  /\ config (RecycleGridLayout.grid (rfill_all n k l s))
     = config (RecycleGridLayout.grid s).
Proof.
  revert k s. induction l as [|opt l IH]; intros k s; [done|].
  simpl. destruct (IH (S k) (rfill_spec (k / n) (k mod n)
                               (RecycleGridLayout.opt_size_hint opt)
                               (RecycleGridLayout.opt_size opt) s))
    as (-> & ->).
  unfold rfill_spec, fill_spec.
  by destruct (RecycleGridLayout.opt_size_hint opt) as [[shw|] [shh|]].
Qed.

(** What a full pass that returns and leaves columns went through: a
    cell for each of the [n] views, lists of [c] columns and [r] rows, the
    cells of [_iterate_layout] and their views, and the boundaries. *)
Lemma full_pass_shape (n : nat) (self self' : RecycleGridLayout.t)
    (cols rows : list Qc) :
  RecycleGridLayout.full_pass n self = (Val tt, self') ->
  GridLayout._cols (RecycleGridLayout.grid self') = Some cols ->
  GridLayout._rows (RecycleGridLayout.grid self') = Some rows ->
  length (RecycleGridLayout.view_opts self) = n ->
  (n <= length rows * length cols)%nat
  /\ config (RecycleGridLayout.grid self')
     = config (RecycleGridLayout.grid self)
  /\ bounded self' cols rows
  /\ exists cells,
       GridLayout._iterate_layout n (RecycleGridLayout.grid self')
       = (Val cells, RecycleGridLayout.grid self')
       /\ for_each cells (RecycleGridLayout.place_view n)
            (RecycleGridLayout.view_opts self)
          = (Val tt, RecycleGridLayout.view_opts self').
Proof.
  unfold RecycleGridLayout.full_pass. intros H Hcols Hrows Hn.
  apply bind_Val in H as ([] & s0 & [= <-] & H).
  apply bind_Val in H as (ok & s1 & H1 & H).
  apply super_Val in H1 as (g1 & H1 & ->).
  cbn [RecycleGridLayout.grid RecycleGridLayout.log] in H1.
  destruct ok; simpl in H.
  2:{ apply bind_Val in H as ([] & s2 & H2 & H).
      apply bind_Val in H as (? & ? & [= <- <-] & H).
      destruct (GridLayout.padding _) as [[[l t] r] b].
      unfold RecycleGridLayout.super, zoom, modify in *.
      injection H2 as <-. injection H as <-. simpl in Hcols. done. }
  apply bind_Val in H as ([] & s3 & H3 & H).
  apply bind_Val in H as ([] & s4 & H4 & H).
  apply bind_Val in H as ([] & s5 & H5 & H).
  apply bind_Val in H as (cells & s6 & H6 & H).
  apply bind_Val in H as ([] & s7 & H7 & H8).
  destruct (init_Val_shaped _ _ _ H1)
    as (c & r & Hres & Hc1 & Hr1 & Hs1 & _ & _).
  pose proof (tame_state _ _ _ _ _ (init_tame _) H1) as K1. simpl in K1.
  (* fill *)
  set (s1 := RecycleGridLayout.set_grid g1
               (RecycleGridLayout.log RecycleGridLayout.clear_layout self))
    in *.
  destruct (rfill_run c r s1 Hs1) as [Hrun Hrs]. rewrite Hrun in H3.
  unfold enumerate in H3.
  destruct (rfill_loop_run c r 0 (RecycleGridLayout.view_opts s1)
              (new_counts c r s1) Hrs Hc1) as [Hval Hexc].
  change (RecycleGridLayout.view_opts s1)
    with (RecycleGridLayout.view_opts self) in *.
  assert (n <= r * c)%nat as Hcap.
  { destruct (decide (n <= r * c)%nat) as [Hle|Hgt]; [done|].
    rewrite (surjective_pairing (for_each _ _ _)) in H3.
    rewrite Hexc in H3; [done| |lia].
    intros Hnil. rewrite Hnil in Hn. simpl in Hn. lia. }
  rewrite Hval in H3 by lia.
  assert (s3 = rfill_all c 0 (RecycleGridLayout.view_opts self)
                 (new_counts c r s1)) as E3 by congruence.
  pose proof (rfill_all_rshaped c r 0 (RecycleGridLayout.view_opts self)
                (new_counts c r s1) Hrs) as [Hs3 _].
  destruct (rfill_all_frame c 0 (RecycleGridLayout.view_opts self)
              (new_counts c r s1)) as [Hv3 Hcf3].
  rewrite <- E3 in Hs3, Hv3, Hcf3.
  (* minimum size and finalize *)
  apply super_Val in H4 as (g4 & H4 & ->).
  pose proof (tame_state _ _ _ _ _ update_minimum_size_tame H4) as K4.
  simpl in K4.
  assert (shaped c r g4) as Hs4.
  { apply (shaped_arrays c r (RecycleGridLayout.grid s3)); [|done].
    unfold arrays. congruence. }
  apply super_Val in H5 as (g6 & H5 & ->).
  cbn [RecycleGridLayout.grid RecycleGridLayout.set_grid] in H5.
  unfold GridLayout._finalize_rows_cols_sizes in H5.
  apply bind_Val in H5 as ([] & g5 & H5 & H6').
  pose proof (finalize_cols_shaped c r _ _ Hs4 H5) as Hs5.
  pose proof (finalize_rows_shaped c r _ _ Hs5 H6') as Hs6.
  pose proof (tame_state _ _ _ _ _ finalize_cols_tame H5) as K5.
  pose proof (tame_state _ _ _ _ _ finalize_rows_tame H6') as K6.
  simpl in K5, K6.
  (* cells *)
  apply super_Val in H6 as (g7 & H6 & ->).
  cbn [RecycleGridLayout.grid RecycleGridLayout.set_grid] in H6.
  pose proof (tame_state (fun s => s) _ _ _ _ (iterate_layout_tame _) H6)
    as E7. simpl in E7. subst g7.
  unfold zoom in H7.
  cbn [RecycleGridLayout.view_opts RecycleGridLayout.set_grid] in H7.
  destruct (for_each cells _ _) as [res opts'] eqn:Hplace.
  injection H7 as -> <-.
  (* boundaries *)
  pose proof (tame_state _ _ _ _ _ set_boundaries_tame H8) as K8.
  simpl in K8. injection K8 as Kg Kv.
  rewrite Kg in Hcols, Hrows.
  lazymatch type of H8 with
  | RecycleGridLayout.set_boundaries ?s = _ =>
      destruct (set_boundaries_exact s self' cols rows Hcols Hrows H8)
        as (_ & _ & Hb)
  end.
  destruct Hs6 as (L1 & L2 & _ & _).
  rewrite Hcols in L1. rewrite Hrows in L2. simpl in L1, L2.
  injection L1 as L1. injection L2 as L2.
  split; [rewrite L1, L2; lia|]. split.
  { rewrite Kg. simpl. simpl in Hcf3. unfold s1 in Hcf3. simpl in Hcf3.
    congruence. }
  split; [done|].
  exists cells. rewrite Kg, Kv. simpl. split; [done|].
  rewrite Hv3 in Hplace. exact Hplace.
Qed.

Lemma full_pass_views (n : nat) (self self' : RecycleGridLayout.t)
    (cols rows : list Qc) :
  RecycleGridLayout.full_pass n self = (Val tt, self') ->
  GridLayout._cols (RecycleGridLayout.grid self') = Some cols ->
  GridLayout._rows (RecycleGridLayout.grid self') = Some rows ->
  length (RecycleGridLayout.view_opts self) = n ->
  (n <= length rows * length cols)%nat
  /\ bounded self' cols rows
  /\ forall j opt,
       RecycleGridLayout.view_opts self !! j = Some opt ->
       exists ce,
         grid_cell (RecycleGridLayout.grid self') cols rows n j = Some ce
         /\ RecycleGridLayout.view_opts self' !! j
            = Some (RecycleGridLayout.place_opt (snd (fst ce))
                      (fst (snd ce)) (snd (snd ce)) opt).
Proof.
  intros H Hcols Hrows Hn.
  destruct (full_pass_shape n self self' cols rows H Hcols Hrows Hn)
    as (Hcap & Hcf & Hb & cells & Hcells & Hplace).
  split; [done|]. split; [done|].
  destruct (iterate_layout_run (RecycleGridLayout.grid self') cols rows n
              Hcols Hrows) as (cells' & Hrun & Hlen & Hcl).
  rewrite Hcells in Hrun. injection Hrun as <-.
  rewrite Nat.min_l in Hlen by done.
  destruct (place_views_run n cells (RecycleGridLayout.view_opts self) Hn)
    as (opts' & Hrun & Hlen' & Hlook).
  { unfold cell in *. lia. }
  { intros j ce Hj.
    assert (j < length cells)%nat as Hlt by (by eapply lookup_lt_Some).
    unfold cell in *. rewrite (Hcl j Hlt) in Hj.
    by apply grid_cell_index in Hj. }
  rewrite Hplace in Hrun. injection Hrun as <-.
  intros j opt Hj.
  assert (j < n)%nat as Hjn by (apply lookup_lt_Some in Hj; lia).
  destruct (lookup_lt_is_Some_2 cells j ltac:(unfold cell in *; lia))
    as [ce Hce].
  exists ce. split.
  - unfold cell in *. rewrite <- Hcl by lia. done.
  - rewrite Hlook. unfold cell in *. by rewrite Hce, Hj.
Qed.

(** X11: a full pass of [compute_layout] that returns and leaves columns
    and rows, for as many data items as there are views, has a cell for
    every view, and gives the view [j] the cell of the row [j // cols]
    and the column [j % cols]: its ['pos'] is the bottom left corner of
    the cell, its width is the width of the column unless its
    [size_hint_x] is [None], and its height the height of the row unless
    its [size_hint_y] is [None]. *)
Theorem full_pass_places (n : nat) (self self' : RecycleGridLayout.t)
    (cols rows : list Qc) :
  RecycleGridLayout.full_pass n self = (Val tt, self') ->
  GridLayout._cols (RecycleGridLayout.grid self') = Some cols ->
  GridLayout._rows (RecycleGridLayout.grid self') = Some rows ->
  length (RecycleGridLayout.view_opts self) = n ->
  (n <= length rows * length cols)%nat
  /\ forall j opt,
       RecycleGridLayout.view_opts self !! j = Some opt ->
       exists i pos w h,
         grid_cell (RecycleGridLayout.grid self') cols rows n j
         = Some (i, pos, (w, h))
         /\ RecycleGridLayout.view_opts self' !! j
            = Some (RecycleGridLayout.place_opt pos w h opt).
Proof.
  intros H Hcols Hrows Hn.
  destruct (full_pass_views n self self' cols rows H Hcols Hrows Hn)
    as (Hcap & _ & Hviews).
  split; [done|]. intros j opt Hj.
  destruct (Hviews j opt Hj) as ([[i pos] [w h]] & Hce & Hopt).
  by exists i, pos, w, h.
Qed.

Lemma full_pass_places_witness :
  (5 <= length (default [] (GridLayout._rows
                              (RecycleGridLayout.grid five_views_laid_out)))
        * length (default [] (GridLayout._cols
                                (RecycleGridLayout.grid
                                   five_views_laid_out))))%nat
  /\ forall j opt,
       RecycleGridLayout.view_opts five_views !! j = Some opt ->
       exists i pos w h,
         grid_cell (RecycleGridLayout.grid five_views_laid_out)
           (default [] (GridLayout._cols
                          (RecycleGridLayout.grid five_views_laid_out)))
           (default [] (GridLayout._rows
                          (RecycleGridLayout.grid five_views_laid_out)))
           5 j
         = Some (i, pos, (w, h))
         /\ RecycleGridLayout.view_opts five_views_laid_out !! j
            = Some (RecycleGridLayout.place_opt pos w h opt).
Proof.
  apply (full_pass_places 5 five_views five_views_laid_out); by_run.
Defined.



(** ** The views that a viewport shows *)

Lemma seqZ_sorted (m n : Z) : StronglySorted Z.lt (seqZ m n).
Proof.
  destruct (decide (n <= 0)%Z) as [Hn|Hn].
  { rewrite seqZ_nil by done. constructor. }
  replace n with (Z.of_nat (Z.to_nat n)) by lia.
  generalize (Z.to_nat n). clear. intros k. revert m.
  induction k as [|k IH]; intros m.
  - simpl. constructor.
  - rewrite seqZ_cons by lia. constructor.
    + replace (Z.pred (Z.of_nat (S k))) with (Z.of_nat k) by lia. apply IH.
    + apply Forall_forall. intros x Hx. apply elem_of_seqZ in Hx. lia.
Qed.

(** The views of the rows that start at [starts], [x_slice] views from
    each start, of [n] views in all. *)
Definition slices (n x_slice : Z) (starts : list Z) : list Z :=
  concat ((fun s => py_range (Z.min s n) (Z.min n (s + x_slice)))
            <$> starts).

Lemma slices_sorted (n x_slice step : Z) (starts : list Z) :
  (0 <= n)%Z -> (x_slice <= step)%Z ->
  StronglySorted (fun a b => a + step <= b)%Z starts ->
  Forall (fun s => 0 <= s)%Z starts ->
  StronglySorted Z.lt (slices n x_slice starts)
  /\ forall k, k ∈ slices n x_slice starts ->
       (0 <= k < n)%Z /\ exists s, s ∈ starts /\ (Z.min s n <= k)%Z.
Proof.
  intros Hn Hx Hs Hpos. unfold slices.
  induction Hs as [|s starts Hs IH Hall]; simpl.
  - split; [constructor|]. intros k Hk. by apply elem_of_nil in Hk.
  - inversion Hpos as [|? ? Hs0 Hpos']; subst.
    destruct (IH Hpos') as [IH1 IH2]. clear IH.
    assert (forall k, k ∈ py_range (Z.min s n) (Z.min n (s + x_slice)) ->
                      (Z.min s n <= k < Z.min n (s + x_slice))%Z) as Hr.
    { intros k Hk. unfold py_range in Hk. apply elem_of_seqZ in Hk. lia. }
    split.
    + apply StronglySorted_app_2; [|apply seqZ_sorted|done].
      intros x1 x2 H1 H2. apply Hr in H1.
      destruct (IH2 x2 H2) as (Hb & s' & Hs' & Hle).
      rewrite Forall_forall in Hall. specialize (Hall s' Hs'). lia.
    + intros k Hk. apply elem_of_app in Hk as [Hk|Hk].
      * apply Hr in Hk. split; [lia|]. exists s.
        split; [apply list_elem_of_here|lia].
      * destruct (IH2 k Hk) as (Hb & s' & Hs' & Hle).
        split; [done|]. exists s'.
        split; [by apply list_elem_of_further|done].
Qed.

Lemma range_step_sorted (start stop step : Z) :
  (0 < step)%Z -> (0 <= start)%Z ->
  StronglySorted (fun a b => a + step <= b)%Z
    (py_range_step start stop step)
  /\ Forall (fun s => 0 <= s)%Z (py_range_step start stop step).
Proof.
  intros Hstep Hstart. unfold py_range_step. split.
  - apply (StronglySorted_fmap _ Z.lt); [|apply seqZ_sorted].
    intros x y Hxy. nia.
  - apply Forall_fmap, Forall_forall. intros i Hi.
    apply elem_of_seqZ in Hi. simpl. nia.
Qed.

Lemma visible_views_run {Data : Type} (self : RecycleGridLayout.t)
    (data : list Data) (viewport : Qc * Qc * Qc * Qc) :
  has_boundaries self ->
  exists indices,
    RecycleGridLayout.compute_visible_views data viewport self
    = (Val indices, self)
    /\ StronglySorted Z.lt indices
    /\ forall i, i ∈ indices -> (0 <= i < Z.of_nat (length data))%Z.
Proof.
  intros (cols & rows & cp & rp & Hc & Hr & Hcp & Hrp & Hlc & Hlr & H1c
          & H1r).
  destruct viewport as [[[x y] w] h].
  unfold RecycleGridLayout.compute_visible_views.
  unfold bind at 1. unfold get. rewrite Hcp.
  destruct (axis_index_bounds (St := RecycleGridLayout.t) x cp cols self
              Hlc ltac:(lia)) as (ixl & Hixl & Bl).
  destruct (axis_index_bounds (St := RecycleGridLayout.t) (x + w) cp cols
              self Hlc ltac:(lia)) as (ixr & Hixr & Br).
  destruct (axis_index_bounds (St := RecycleGridLayout.t) y rp rows self
              Hlr ltac:(lia)) as (iyb & Hiyb & Bb).
  destruct (axis_index_bounds (St := RecycleGridLayout.t) (y + h) rp rows
              self Hlr ltac:(lia)) as (iyt & Hiyt & Bt).
  unfold bind.
  rewrite (get_view_index_at_run self cols rows cp rp x y ixl iyb)
    by (done || lia).
  rewrite (get_view_index_at_run self cols rows cp rp (x + w) y ixr iyb)
    by (done || lia).
  rewrite (get_view_index_at_run self cols rows cp rp x (y + h) ixl iyt)
    by (done || lia).
  rewrite Hc. unfold as_list, ret.
  rewrite bool_decide_false by lia.
  set (nc := Z.of_nat (length cols)) in *.
  set (nr := Z.of_nat (length rows)) in *.
  set (bl := ((nr - iyb - 1) * nc + ixl)%Z).
  set (br := ((nr - iyb - 1) * nc + ixr)%Z).
  set (tl := ((nr - iyt - 1) * nc + ixl)%Z).
  destruct (range_step_sorted tl (bl + 1) nc) as [Hsorted Hpos];
    [lia|subst tl; nia|].
  destruct (slices_sorted (Z.of_nat (length data)) (br - bl + 1) nc
              (py_range_step tl (bl + 1) nc)) as [Hs Hb];
    [lia|subst bl br; lia|done|done|].
  eexists. split; [done|]. split; [exact Hs|].
  intros i Hi. by destruct (Hb i Hi).
Qed.

(** X13: after a full pass of [compute_layout] that left columns,
    [compute_visible_views] returns, for every viewport, indices of data
    items only (from 0 to [len(data) - 1]), in increasing order and each
    at most once. *)
Theorem visible_views_sorted {Data : Type} (n : nat)
    (self self' : RecycleGridLayout.t) (cols : list Qc) (data : list Data)
    (viewport : Qc * Qc * Qc * Qc) :
  RecycleGridLayout.full_pass n self = (Val tt, self') ->
  GridLayout._cols (RecycleGridLayout.grid self') = Some cols ->
  exists indices,
    RecycleGridLayout.compute_visible_views data viewport self'
    = (Val indices, self')
    /\ StronglySorted Z.lt indices
    /\ forall i, i ∈ indices -> (0 <= i < Z.of_nat (length data))%Z.
Proof.
  intros H Hc. apply visible_views_run.
  by eapply full_pass_boundaries.
Qed.

(** The viewport 400 wide and 30 high at (0, 60) on the five views: the
    views 2, 3 and 4. *)
Lemma visible_views_sorted_witness :
  exists indices,
    RecycleGridLayout.compute_visible_views (replicate 5 tt)
      (0, num 60, num 400, num 30) five_views_laid_out
    = (Val indices, five_views_laid_out)
    /\ StronglySorted Z.lt indices
    /\ forall i, i ∈ indices -> (0 <= i < Z.of_nat (length (replicate 5 tt)))%Z.
Proof.
  apply (visible_views_sorted 5 five_views five_views_laid_out
           (default [] (GridLayout._cols
                          (RecycleGridLayout.grid five_views_laid_out))));
    by_run.
Defined.

(** ** The outcome of [compute_layout] *)

Lemma bind_run {St A B} (m : M St A) (k : A -> M St B) (s s' : St) (a : A) :
  m s = (Val a, s') -> bind m k s = k a s'.
Proof. intros H. unfold bind. by rewrite H. Qed.

Lemma bind_Exc {St A B} (m : M St A) (k : A -> M St B) (s : St) e :
  fst (m s) = Exc e -> fst (bind m k s) = Exc e.
Proof.
  unfold bind. destruct (m s) as [[a|e'] s']; simpl; intros H;
    [discriminate|congruence].
Qed.

Lemma zoom_run {St L A} (getf : St -> L) (setf : L -> St -> St) (m : M L A)
    (s : St) (l' : L) (a : A) :
  m (getf s) = (Val a, l') -> zoom getf setf m s = (Val a, setf l' s).
Proof. intros H. unfold zoom. by rewrite H. Qed.

(** A view without a size hint below 0. *)
Definition nonneg_opt (opt : RecycleGridLayout.ViewOpt) : Prop :=
  nonneg_hint (fst (RecycleGridLayout.opt_size_hint opt))
  /\ nonneg_hint (snd (RecycleGridLayout.opt_size_hint opt)).

Lemma rfill_spec_grid (row col : nat) hint size (s : RecycleGridLayout.t) :
  RecycleGridLayout.grid (rfill_spec row col hint size s)
  = fill_spec row col hint size (RecycleGridLayout.grid s).
Proof. unfold rfill_spec. by destruct hint as [[?|] [?|]]. Qed.

Lemma rfill_all_nonneg (n k : nat) (l : list RecycleGridLayout.ViewOpt)
    (s : RecycleGridLayout.t) :
  Forall nonneg_opt l ->
  nonneg_hints (GridLayout._cols_sh (RecycleGridLayout.grid s)) ->
  nonneg_hints (GridLayout._rows_sh (RecycleGridLayout.grid s)) ->
  nonneg_hints (GridLayout._cols_sh
                  (RecycleGridLayout.grid (rfill_all n k l s)))
  /\ nonneg_hints (GridLayout._rows_sh
                     (RecycleGridLayout.grid (rfill_all n k l s))).
Proof.
  intros Hl. revert k s.
  induction Hl as [|opt l [Ho1 Ho2] Hl IH]; intros k s Hc Hr; [done|].
  simpl. apply IH; rewrite rfill_spec_grid; by apply fill_spec_nonneg.
Qed.

Lemma set_boundaries_returns (s : RecycleGridLayout.t) (cols rows : list Qc) :
  GridLayout._cols (RecycleGridLayout.grid s) = Some cols ->
  GridLayout._rows (RecycleGridLayout.grid s) = Some rows ->
  (1 <= length cols)%nat -> (1 <= length rows)%nat ->
  exists s', RecycleGridLayout.set_boundaries s = (Val tt, s').
Proof.
  intros Hc Hr Hlc Hlr.
  unfold RecycleGridLayout.set_boundaries.
  unfold bind at 1. unfold get.
  destruct (GridLayout.spacing (RecycleGridLayout.grid s))
    as [spacing_x spacing_y] eqn:Hsp.
  destruct (GridLayout.padding (RecycleGridLayout.grid s))
    as [[[padding_left padding_top] ?] ?] eqn:Hpad.
  rewrite Hc, Hr. munfold.
  cbn -[RecycleGridLayout.cols_pos_loop RecycleGridLayout.rows_pos_loop
        enumerate_from replicate Z.of_nat Z.sub setitem lookup_item drop
        length].
  destruct cols as [|c0 cols]; [simpl in Hlc; lia|].
  destruct rows as [|r0 rows]; [simpl in Hlr; lia|].
  cbn [length]. rewrite replicate_S, (replicate_S_end (length rows)).
  rewrite setitem_0, !lookup_item_0.
  cbn [RecycleGridLayout._cols_pos RecycleGridLayout.set__cols_pos
       RecycleGridLayout.set__rows_pos RecycleGridLayout._rows_pos drop].
  rewrite !drop_0.
  set (x0 := GridLayout.x (RecycleGridLayout.grid s)).
  set (lastc := x0 + padding_left + c0 + spacing_x / num 2).
  pose proof (cols_pos_loop_exact cols [x0] lastc spacing_x) as Hcp.
  change (RecycleGridLayout.cols_pos_loop (enumerate_from 1 cols)
            lastc spacing_x
            (Some (Some x0 :: replicate (length cols) None))
          = (Val (), Some (Some <$> x0 :: col_bounds lastc spacing_x cols)))
    in Hcp.
  rewrite Hcp.
  cbn [RecycleGridLayout._cols_pos RecycleGridLayout.set__cols_pos
       RecycleGridLayout.set__rows_pos RecycleGridLayout._rows_pos].
  rewrite lookup_item_0.
  cbn [RecycleGridLayout._cols_pos RecycleGridLayout.set__cols_pos
       RecycleGridLayout.set__rows_pos RecycleGridLayout._rows_pos].
  rewrite setitem_last.
  set (last := GridLayout.y (RecycleGridLayout.grid s)
               + GridLayout.height (RecycleGridLayout.grid s) - padding_top
               - r0 - spacing_y / num 2).
  pose proof (rows_pos_loop_exact (S (length rows)) rows [last] last
                spacing_y ltac:(simpl; lia)) as Hrp.
  cbn [RecycleGridLayout._cols_pos RecycleGridLayout.set__cols_pos
       RecycleGridLayout.set__rows_pos RecycleGridLayout._rows_pos].
  change (RecycleGridLayout.rows_pos_loop (S (length rows))
            (enumerate_from 1 rows) last spacing_y
            (Some (replicate (length rows) None ++ [Some last]))
          = (Val (), Some (Some <$> rev (row_bounds last spacing_y rows)
                                    ++ [last]))) in Hrp.
  rewrite Hrp. eauto.
Qed.

(** The full pass on a grid that has [cols] or [rows]: it returns when
    there is a cell for every view, and raises [IndexError] otherwise. *)
Lemma full_pass_run (n : nat) (self : RecycleGridLayout.t) (c r : nat) :
  GridLayout.resolve_counts n (RecycleGridLayout.grid self)
  = (Val (Some (c, r)), RecycleGridLayout.grid self) ->
  keys_in_range c (GridLayout.cols_minimum (RecycleGridLayout.grid self)) ->
  keys_in_range r (GridLayout.rows_minimum (RecycleGridLayout.grid self)) ->
  length (RecycleGridLayout.view_opts self) = n ->
  Forall nonneg_opt (RecycleGridLayout.view_opts self) ->
  ((n <= r * c)%nat ->
   exists self', RecycleGridLayout.full_pass n self = (Val tt, self'))
  /\ ((r * c < n)%nat ->
      fst (RecycleGridLayout.full_pass n self) = Exc IndexError).
Proof.
  intros Hres Hkc Hkr Hn Hhints.
  destruct (resolve_counts_floor _ _ _ _ _ Hres) as [Hc1 Hr1].
  unfold RecycleGridLayout.full_pass. unfold bind at 1. unfold modify at 1.
  set (s0 := RecycleGridLayout.log RecycleGridLayout.clear_layout self).
  destruct (init_shaped n (RecycleGridLayout.grid s0) c r Hres Hkc Hkr)
    as (g1 & H1 & Hs1 & Hcsh & Hrsh).
  pose proof (tame_state _ _ _ _ _ (init_tame _) H1) as Kcf1.
  apply (f_equal fst) in Kcf1. cbn [fst] in Kcf1.
  change (RecycleGridLayout.grid s0) with (RecycleGridLayout.grid self)
    in Kcf1.
  rewrite (bind_run _ _ s0 (RecycleGridLayout.set_grid g1 s0) true)
    by (by apply zoom_run).
  cbn [negb].
  set (s1 := RecycleGridLayout.set_grid g1 s0).
  destruct (rfill_run c r s1 Hs1) as [Hrun Hrs].
  destruct (rfill_loop_run c r 0 (RecycleGridLayout.view_opts s1)
              (new_counts c r s1) Hrs Hc1) as [Hval Hexc].
  change (RecycleGridLayout.view_opts s1)
    with (RecycleGridLayout.view_opts self) in *.
  rewrite Hn in Hval, Hexc. unfold enumerate in Hrun.
  split.
  - intros Hcap.
    set (s3 := rfill_all c 0 (RecycleGridLayout.view_opts self)
                 (new_counts c r s1)).
    rewrite (bind_run _ _ s1 s3 tt) by (rewrite Hrun; by apply Hval).
    pose proof (rfill_all_rshaped c r 0 (RecycleGridLayout.view_opts self)
                  (new_counts c r s1) Hrs) as [Hs3 _].
    destruct (rfill_all_frame c 0 (RecycleGridLayout.view_opts self)
                (new_counts c r s1)) as [Hv3 Hcf3].
    destruct (rfill_all_nonneg c 0 (RecycleGridLayout.view_opts self)
                (new_counts c r s1) Hhints) as [Hn3c Hn3r].
    { simpl. rewrite Hcsh. apply nonneg_hints_replicate. }
    { simpl. rewrite Hrsh. apply nonneg_hints_replicate. }
    fold s3 in Hs3, Hv3, Hcf3, Hn3c, Hn3r.
    assert (config (RecycleGridLayout.grid s3)
            = config (RecycleGridLayout.grid self)) as Hcfg3.
    { rewrite Hcf3. simpl. exact Kcf1. }
    (* minimum size *)
    pose proof Hs3 as (A1 & A2 & A3 & A4).
    destruct (GridLayout._cols (RecycleGridLayout.grid s3)) as [cs|] eqn:Ec;
      [|done].
    destruct (GridLayout._rows (RecycleGridLayout.grid s3)) as [rs|] eqn:Er;
      [|done].
    destruct (update_minimum_size_run (RecycleGridLayout.grid s3) cs rs Ec Er)
      as (v & H4 & _ & _).
    set (g4 := GridLayout.set_minimum_size v (RecycleGridLayout.grid s3)) in *.
    rewrite (bind_run _ _ s3 (RecycleGridLayout.set_grid g4 s3) tt)
      by (by apply zoom_run).
    assert (shaped c r g4) as Hs4.
    { apply (shaped_arrays c r (RecycleGridLayout.grid s3)); [done|].
      unfold shaped. by rewrite Ec, Er. }
    (* finalize *)
    destruct (finalize_cols_returns c r g4 Hs4) as [g5 H5].
    { replace (GridLayout.cols_minimum g4)
        with (GridLayout.cols_minimum (RecycleGridLayout.grid self)); [done|].
      unfold config in Hcfg3. simpl. congruence. }
    { done. }
    pose proof (finalize_cols_shaped c r _ _ Hs4 H5) as Hs5.
    pose proof (tame_state _ _ _ _ _ finalize_cols_tame H5) as K5.
    simpl in K5.
    destruct (finalize_rows_returns c r g5 Hs5) as [g6 H6].
    { replace (GridLayout.rows_minimum g5)
        with (GridLayout.rows_minimum (RecycleGridLayout.grid self)); [done|].
      unfold config in *. simpl in *. congruence. }
    { replace (GridLayout._rows_sh g5)
        with (GridLayout._rows_sh (RecycleGridLayout.grid s3)); [done|].
      simpl in *. congruence. }
    pose proof (finalize_rows_shaped c r _ _ Hs5 H6) as Hs6.
    rewrite (bind_run _ _ _ (RecycleGridLayout.set_grid g6
                               (RecycleGridLayout.set_grid g4 s3)) tt).
    2:{ apply zoom_run. unfold GridLayout._finalize_rows_cols_sizes.
        cbn [RecycleGridLayout.grid RecycleGridLayout.set_grid].
        by rewrite (bind_run _ _ _ _ _ H5). }
    (* cells and placement *)
    pose proof Hs6 as (B1 & B2 & _ & _).
    destruct (GridLayout._cols g6) as [cs6|] eqn:Ec6; [|done].
    destruct (GridLayout._rows g6) as [rs6|] eqn:Er6; [|done].
    simpl in B1, B2. injection B1 as B1. injection B2 as B2.
    destruct (iterate_layout_run g6 cs6 rs6 n Ec6 Er6)
      as (cells & H7 & Hlen & Hcl).
    set (s6 := RecycleGridLayout.set_grid g6
                 (RecycleGridLayout.set_grid g4 s3)).
    rewrite (bind_run _ _ s6 s6 cells).
    2:{ unfold RecycleGridLayout.super, zoom.
        cbn [RecycleGridLayout.grid RecycleGridLayout.set_grid s6].
        rewrite H7. by destruct s3. }
    destruct (place_views_run n cells (RecycleGridLayout.view_opts self) Hn)
      as (opts' & Hplace & _ & _).
    { unfold cell in *. lia. }
    { intros j ce Hj.
      assert (j < length cells)%nat as Hlt by (by eapply lookup_lt_Some).
      unfold cell in *. rewrite (Hcl j Hlt) in Hj.
      by apply grid_cell_index in Hj. }
    rewrite (bind_run _ _ s6 (RecycleGridLayout.set_view_opts opts' s6) tt).
    2:{ apply zoom_run.
        change (RecycleGridLayout.view_opts s6)
          with (RecycleGridLayout.view_opts s3).
        by rewrite Hv3. }
    apply (set_boundaries_returns _ cs6 rs6); [done|done|lia|lia].
  - intros Hover. unfold bind at 1. unfold modify at 1.
    rewrite (bind_run _ _ s0 (RecycleGridLayout.set_grid g1 s0) true)
      by (by apply zoom_run).
    cbn [negb]. apply bind_Exc.
    change (fst (RecycleGridLayout._fill_rows_cols_sizes s1) = Exc IndexError).
    rewrite Hrun. apply Hexc; [|lia].
    intros Hnil. rewrite Hnil in Hn. simpl in Hn. lia.
Qed.

Lemma max_widgets_counts (n : nat) (g : GridLayout.t) (c r m : nat) :
  GridLayout.resolve_counts n g = (Val (Some (c, r)), g) ->
  GridLayout.get_max_widgets g = Some m ->
  m = (r * c)%nat /\ truthy_count (Some m) = true.
Proof.
  unfold GridLayout.resolve_counts, GridLayout.get_max_widgets, ceil_div.
  munfold.
  destruct (GridLayout.cols g) as [[|c']|], (GridLayout.rows g) as [[|r']|];
    simpl; intros H1 H2; simplify_eq.
  split; [lia|done].
Qed.

(** X14: the outcome of [compute_layout] after a refresh ([_changed_views]
    is the empty list) on a grid that has [cols] or [rows], keys of
    [cols_minimum] and [rows_minimum] that are indices of the columns
    and rows, as many views as data items and no size hint below 0.  With
    a cell for every item ([rows * cols], as resolved, is not below
    their number) it returns.  With more items than cells it raises
    [GridLayoutException], and changes nothing, when [get_max_widgets]
    gives a capacity; when it gives [None] although the cells do not
    suffice ([rows] or [cols] is 0 and the other one is set), it raises
    [IndexError] from [_fill_rows_cols_sizes]. *)
Theorem compute_layout_outcome {Data Flags : Type} (data : list Data)
    (flags : Flags) (self : RecycleGridLayout.t) (c r : nat) :
  RecycleGridLayout._changed_views self = Some [] ->
  GridLayout.resolve_counts (length data) (RecycleGridLayout.grid self)
  = (Val (Some (c, r)), RecycleGridLayout.grid self) ->
  keys_in_range c (GridLayout.cols_minimum (RecycleGridLayout.grid self)) ->
  keys_in_range r (GridLayout.rows_minimum (RecycleGridLayout.grid self)) ->
  length (RecycleGridLayout.view_opts self) = length data ->
  Forall nonneg_opt (RecycleGridLayout.view_opts self) ->
  ((length data <= r * c)%nat ->
   exists self',
     RecycleGridLayout.compute_layout data flags self = (Val tt, self'))
  /\ ((r * c < length data)%nat ->
      is_Some (GridLayout.get_max_widgets (RecycleGridLayout.grid self)) ->
      RecycleGridLayout.compute_layout data flags self
      = (Exc GridLayoutException, self))
  /\ ((r * c < length data)%nat ->
      GridLayout.get_max_widgets (RecycleGridLayout.grid self) = None ->
      fst (RecycleGridLayout.compute_layout data flags self)
      = Exc IndexError).
Proof.
  intros Hch Hres Hkc Hkr Hn Hhints.
  destruct (full_pass_run (length data) self c r Hres Hkc Hkr Hn Hhints)
    as [Hval Hexc].
  assert (RecycleGridLayout.compute_layout data flags self
          = if truthy_count
                 (GridLayout.get_max_widgets (RecycleGridLayout.grid self))
               && bool_decide
                    (default 0%nat (GridLayout.get_max_widgets
                                      (RecycleGridLayout.grid self))
                     < length data)%nat
            then (Exc GridLayoutException, self)
            else RecycleGridLayout.full_pass (length data) self) as ->.
  { unfold RecycleGridLayout.compute_layout. unfold bind at 1. unfold get.
    rewrite Hch. by destruct (_ && _). }
  destruct (GridLayout.get_max_widgets (RecycleGridLayout.grid self))
    as [m|] eqn:Hmax.
  - destruct (max_widgets_counts _ _ _ _ _ Hres Hmax) as [-> Ht].
    rewrite Ht. cbn [andb default from_option id].
    split; [|split].
    + intros Hcap. rewrite bool_decide_false by lia. by apply Hval.
    + intros Hover _. by rewrite bool_decide_true by lia.
    + intros _ [=].
  - cbn [truthy_count andb]. split; [|split].
    + intros Hcap. by apply Hval.
    + intros _ [? [=]].
    + intros Hover _. by apply Hexc.
Qed.

(** Five views in two columns and no [rows]: three rows are resolved. *)
Lemma compute_layout_outcome_witness :
  ((length (replicate 5 tt) <= 3 * 2)%nat ->
   exists self',
     RecycleGridLayout.compute_layout (replicate 5 tt) tt five_views
     = (Val tt, self'))
  /\ ((3 * 2 < length (replicate 5 tt))%nat ->
      is_Some (GridLayout.get_max_widgets
                 (RecycleGridLayout.grid five_views)) ->
      RecycleGridLayout.compute_layout (replicate 5 tt) tt five_views
      = (Exc GridLayoutException, five_views))
  /\ ((3 * 2 < length (replicate 5 tt))%nat ->
      GridLayout.get_max_widgets (RecycleGridLayout.grid five_views) = None ->
      fst (RecycleGridLayout.compute_layout (replicate 5 tt) tt five_views)
      = Exc IndexError).
Proof.
  apply (compute_layout_outcome (replicate 5 tt) tt five_views 2 3).
  - reflexivity.
  - reflexivity.
  - constructor.
  - constructor.
  - reflexivity.
  - repeat constructor; intros v [= <-]; by_run.
Defined.

(** ** Cells hold the children that do not stretch *)

Lemma Qcinv_nonneg (w : Qc) : 0 <= w -> 0 <= / w.
Proof.
  unfold Qcle, Qcinv. cbn [this Q2Qc]. rewrite !Qred_correct.
  apply Qinv_le_0_compat.
Qed.

Lemma share_nonneg (slack weight v : Qc) :
  0 <= slack -> 0 <= weight -> 0 <= v -> 0 <= slack * v / weight.
Proof.
  intros Hs Hw Hv. unfold Qcdiv.
  apply Qcmult_nonneg_nonneg; [by apply Qcmult_nonneg_nonneg|].
  by apply Qcinv_nonneg.
Qed.

(** Stretching with hints that are not below 0 makes no slot smaller. *)
Lemma stretched_ge (slack weight : Qc) (sizes : list Qc)
    (sh : list (option Qc)) (k : nat) (v : Qc) :
  length sizes = length sh -> 0 <= slack -> 0 <= weight ->
  nonneg_hints (Some sh) -> sizes !! k = Some v ->
  exists v', stretched slack weight sizes sh !! k = Some v' /\ v <= v'.
Proof.
  intros Hlen Hs Hw Hn Hk.
  destruct (lookup_lt_is_Some_2 sh k) as [s Hsk].
  { apply lookup_lt_Some in Hk. lia. }
  rewrite (stretched_lookup slack weight sizes sh k v s Hk Hsk).
  eexists. split; [done|].
  destruct (truthy s) eqn:Ht; [|apply Qcle_refl].
  destruct s as [h|]; [|done]. simpl.
  pose proof (share_nonneg slack weight h Hs Hw (Hn k h Hsk)) as Hsh.
  revert Hsh. generalize (slack * h / weight). clear. intros a Ha. qc_lra.
Qed.

Lemma py_max_0_nonneg (a : Qc) : 0 <= py_max 0 a.
Proof. apply py_max_le. Qed.

Lemma pass_holds (self self' : GridLayout.t) (cols rows : list Qc) :
  GridLayout.children self <> [] ->
  truthy_count (GridLayout.cols self) || truthy_count (GridLayout.rows self)
  = true ->
  GridLayout.do_layout self = (Val tt, self') ->
  GridLayout._cols self' = Some cols ->
  GridLayout._rows self' = Some rows ->
  Forall nonneg_child (GridLayout.children self) ->
  forall j child,
    rev (GridLayout.children self) !! j = Some child ->
    (GridLayout.col_force_default self = false ->
     fst (Widget.size_hint child) = None ->
     exists w, cols !! (j mod length cols)%nat = Some w
               /\ fst (Widget.size child) <= w)
    /\ (GridLayout.row_force_default self = false ->
        snd (Widget.size_hint child) = None ->
        exists h, rows !! (j / length cols)%nat = Some h
                  /\ snd (Widget.size child) <= h).
Proof.
  intros Hch Hcfg H Hcols Hrows Hhints j child Hj.
  destruct (pass_shape self self' Hch Hcfg H)
    as (c & r & s1 & s3 & s4 & s5 & s6 & cells & ch' & Hsteps & -> & Hres
        & Hc1 & Hr1 & Hs1 & Hcap & E3 & Hs4 & Hs6).
  destruct Hsteps as (H1 & H3 & H4 & H5 & H6 & H7 & Hp).
  destruct (init_Val_shaped _ _ _ H1)
    as (c' & r' & Hres' & _ & _ & _ & Hcsh & Hrsh).
  assert (c' = c /\ r' = r) as [-> ->] by (split; congruence).
  pose proof (tame_state _ _ _ _ _ (init_tame _) H1) as K1.
  pose proof (tame_state _ _ _ _ _ update_minimum_size_tame H4) as K4.
  pose proof (tame_state _ _ _ _ _ finalize_cols_tame H5) as K5.
  pose proof (tame_state _ _ _ _ _ finalize_rows_tame H6) as K6.
  destruct (fill_all_frame c 0 (rev (GridLayout.children self)) s1)
    as (Hcf3 & _ & _).
  rewrite <- E3 in Hcf3.
  destruct (fill_all_nonneg c 0 (rev (GridLayout.children self)) s1)
    as [Hn3c Hn3r].
  { by apply Forall_rev. }
  { rewrite Hcsh. apply nonneg_hints_replicate. }
  { rewrite Hrsh. apply nonneg_hints_replicate. }
  rewrite <- E3 in Hn3c, Hn3r.
  pose proof (fill_all_fits c r 0 (rev (GridLayout.children self)) s1 Hs1 Hc1
                ltac:(rewrite length_rev; lia) j child Hj) as [Fc Fr].
  rewrite <- E3 in Fc, Fr. rewrite Nat.add_0_l in Fc, Fr.
  assert (config s4 = config self) as Hcf4.
  { simpl in K1, K4. congruence. }
  assert (config s5 = config self) as Hcf5.
  { simpl in K5. congruence. }
  simpl in Hcols, Hrows.
  pose proof Hs6 as (L1 & _ & _ & _).
  rewrite Hcols in L1. simpl in L1. injection L1 as L1. rewrite L1.
  split.
  - intros Hf Hnone. rewrite Hnone in Fc. destruct Fc as (v & Hv & Hle).
    pose proof Hs4 as (A1 & _ & A3 & _).
    destruct (GridLayout._cols s4) as [cs|] eqn:Ec; [|done].
    destruct (GridLayout._cols_sh s4) as [sh|] eqn:Esh; [|done].
    simpl in A1, A3. injection A1 as A1. injection A3 as A3.
    assert (nonneg_hints (Some sh)) as Hnn.
    { rewrite <- Esh. replace (GridLayout._cols_sh s4)
        with (GridLayout._cols_sh s3); [done|]. simpl in K4. congruence. }
    destruct (nonneg_weight sh Hnn) as [Hw0 Hw].
    rewrite (finalize_cols_stretch s4 cs sh) in H5; try done; try congruence.
    2:{ unfold config in Hcf4. simpl in Hcf4. congruence. }
    assert (GridLayout._cols s6 = Some (stretched
              (py_max 0 (GridLayout.width s4 - GridLayout.minimum_width s4))
              (GridLayout.stretch_weight sh) cs sh)) as E6.
    { replace (GridLayout._cols s6) with (GridLayout._cols s5)
        by (simpl in K6; congruence).
      injection H5 as <-. done. }
    rewrite Hcols in E6. injection E6 as ->.
    assert (cs !! (j mod c)%nat = Some v) as Hcs.
    { replace (GridLayout._cols s3) with (Some cs) in Hv; [done|].
      simpl in K4. congruence. }
    destruct (stretched_ge
                (py_max 0 (GridLayout.width s4 - GridLayout.minimum_width s4))
                (GridLayout.stretch_weight sh) cs sh (j mod c) v)
      as (v' & Hv' & Hle'); try done; try congruence.
    { apply py_max_0_nonneg. }
    exists v'. split; [done|]. by eapply Qcle_trans.
  - intros Hf Hnone. rewrite Hnone in Fr. destruct Fr as (v & Hv & Hle).
    pose proof (finalize_cols_shaped c r _ _ Hs4 H5) as Hs5.
    pose proof Hs5 as (_ & A2 & _ & A4).
    destruct (GridLayout._rows s5) as [rs|] eqn:Er; [|done].
    destruct (GridLayout._rows_sh s5) as [sh|] eqn:Esh; [|done].
    simpl in A2, A4. injection A2 as A2. injection A4 as A4.
    assert (nonneg_hints (Some sh)) as Hnn.
    { rewrite <- Esh. replace (GridLayout._rows_sh s5)
        with (GridLayout._rows_sh s3); [done|]. simpl in K4, K5. congruence. }
    destruct (nonneg_weight sh Hnn) as [Hw0 Hw].
    rewrite (finalize_rows_stretch s5 rs sh) in H6; try done; try congruence.
    2:{ unfold config in Hcf5. simpl in Hcf5. congruence. }
    assert (GridLayout._rows s6 = Some (stretched
              (py_max 0 (GridLayout.height s5 - GridLayout.minimum_height s5))
              (GridLayout.stretch_weight sh) rs sh)) as E6.
    { injection H6 as <-. done. }
    rewrite Hrows in E6. injection E6 as ->.
    assert (rs !! (j / c)%nat = Some v) as Hrs.
    { replace (GridLayout._rows s3) with (Some rs) in Hv; [done|].
      simpl in K4, K5. congruence. }
    destruct (stretched_ge
                (py_max 0 (GridLayout.height s5
                           - GridLayout.minimum_height s5))
                (GridLayout.stretch_weight sh) rs sh (j / c) v)
      as (v' & Hv' & Hle'); try done; try congruence.
    { apply py_max_0_nonneg. }
    exists v'. split; [done|]. by eapply Qcle_trans.
Qed.

(** X15: after a pass of [do_layout] that returns, on a grid with
    children, [cols] or [rows] and no size hint below 0, no child that
    keeps its own size sticks out of its cell: without
    [col_force_default] the final column of a child whose [size_hint_x]
    is [None] is at least as wide as the child, and without
    [row_force_default] the final row of a child whose [size_hint_y] is
    [None] is at least as high as the child. *)
Theorem do_layout_holds_children (self self' : GridLayout.t)
    (cols rows : list Qc) :
  GridLayout.children self <> [] ->
  truthy_count (GridLayout.cols self) || truthy_count (GridLayout.rows self)
  = true ->
  GridLayout.do_layout self = (Val tt, self') ->
  GridLayout._cols self' = Some cols ->
  GridLayout._rows self' = Some rows ->
  Forall nonneg_child (GridLayout.children self) ->
  forall j child,
    rev (GridLayout.children self) !! j = Some child ->
    (GridLayout.col_force_default self = false ->
     fst (Widget.size_hint child) = None ->
     exists w, cols !! (j mod length cols)%nat = Some w
               /\ fst (Widget.size child) <= w)
    /\ (GridLayout.row_force_default self = false ->
        snd (Widget.size_hint child) = None ->
        exists h, rows !! (j / length cols)%nat = Some h
                  /\ snd (Widget.size child) <= h).
Proof. apply pass_holds. Qed.

(** A child 70 wide and 20 high, added first, and a child that stretches,
    in two columns 200 wide and 100 high. *)
Definition two_kinds : GridLayout.t :=
  GridLayout.mk (0, 0) (0, 0, 0, 0) (Some 2%nat) None 0 0 false false [] []
    0 0 0 0 (num 200) (num 100)
    [stretchy (0, 0) (num 10, num 10);
     Widget.mk (0, 0) (num 70, num 20) (None, None)]
    None None None None.

Lemma do_layout_holds_children_witness :
  (GridLayout.col_force_default two_kinds = false ->
   fst (Widget.size_hint (Widget.mk (0, 0) (num 70, num 20) (None, None)))
   = None ->
   exists w, [num 70; num 130] !! (0 mod length [num 70; num 130])%nat
             = Some w
             /\ fst (Widget.size
                       (Widget.mk (0, 0) (num 70, num 20) (None, None)))
                <= w)
  /\ (GridLayout.row_force_default two_kinds = false ->
      snd (Widget.size_hint (Widget.mk (0, 0) (num 70, num 20) (None, None)))
      = None ->
      exists h, [num 100] !! (0 / length [num 70; num 130])%nat = Some h
                /\ snd (Widget.size
                          (Widget.mk (0, 0) (num 70, num 20) (None, None)))
                   <= h).
Proof.
  apply (do_layout_holds_children two_kinds
           (snd (GridLayout.do_layout two_kinds)) [num 70; num 130]
           [num 100]).
  - done.
  - reflexivity.
  - by_run.
  - by_run.
  - by_run.
  - constructor; [|constructor; [|constructor]];
      (split; intros v Hv; cbv in Hv; simplify_eq; by_run).
  - reflexivity.
Defined.

(** ** Boundaries that outlive their columns *)

(** One axis of [get_view_index_at] when the sizes are [None]. *)
Lemma axis_index_None {St} (x b : Qc) (p : list Qc) (s : St) :
  p !! (length p - 1)%nat = Some b ->
  RecycleGridLayout.axis_index x (Some <$> p) None s
  = if bool_decide (b <= x) then (Exc TypeError, s)
    else (Val (Z.of_nat (scan_count x (drop 1 p))), s).
Proof.
  intros Hb. unfold RecycleGridLayout.axis_index. unfold bind at 1.
  rewrite (last_lookup_item (Some <$> p) (Some b))
    by (by rewrite length_fmap, list_lookup_fmap, Hb).
  case_bool_decide.
  - done.
  - rewrite <- fmap_drop, scan_run. by rewrite Z.add_0_l.
Qed.

(** With boundaries and rows, but [_cols] being [None],
    [get_view_index_at] raises [TypeError] at every point. *)
Lemma view_index_without_cols (self : RecycleGridLayout.t)
    (rows cp rp : list Qc) (pos : Qc * Qc) :
  GridLayout._cols (RecycleGridLayout.grid self) = None ->
  GridLayout._rows (RecycleGridLayout.grid self) = Some rows ->
  RecycleGridLayout._cols_pos self = Some (Some <$> cp) ->
  RecycleGridLayout._rows_pos self = Some (Some <$> rp) ->
  (1 <= length cp)%nat -> (1 <= length rp)%nat ->
  RecycleGridLayout.get_view_index_at pos self = (Exc TypeError, self).
Proof.
  intros Hc Hr Hcp Hrp Hlc Hlr. destruct pos as [x y].
  unfold RecycleGridLayout.get_view_index_at. unfold bind at 1. unfold get.
  rewrite Hcp, Hrp, Hc, Hr.
  destruct (lookup_lt_is_Some_2 cp (length cp - 1)%nat ltac:(lia))
    as [bc Hbc].
  destruct (lookup_lt_is_Some_2 rp (length rp - 1)%nat ltac:(lia))
    as [br Hbr].
  destruct cp as [|c0 cp']; [simpl in Hlc; lia|].
  destruct rp as [|r0 rp']; [simpl in Hlr; lia|].
  rewrite !fmap_cons.
  rewrite <- (fmap_cons Some c0 cp'), <- (fmap_cons Some r0 rp').
  unfold bind.
  rewrite (axis_index_None x bc (c0 :: cp') self Hbc).
  case_bool_decide; [done|].
  rewrite (axis_index_run y br (r0 :: rp') rows self Hbr).
  done.
Qed.

(** X16: a full pass of [compute_layout] on a grid that has neither [cols]
    nor [rows] any more, but still has the boundaries of an earlier pass,
    returns, sets [_cols] to [None] and leaves the boundaries: from then
    on [get_view_index_at] raises [TypeError] at every point, and so does
    [compute_visible_views] for every viewport. *)
Theorem unconfigured_pass_keeps_boundaries {Data : Type} (n : nat)
    (self : RecycleGridLayout.t) :
  has_boundaries self ->
  truthy_count (GridLayout.cols (RecycleGridLayout.grid self))
  || truthy_count (GridLayout.rows (RecycleGridLayout.grid self)) = false ->
  exists self',
    RecycleGridLayout.full_pass n self = (Val tt, self')
    /\ GridLayout._cols (RecycleGridLayout.grid self') = None
    /\ RecycleGridLayout._cols_pos self' = RecycleGridLayout._cols_pos self
    /\ (forall pos,
          RecycleGridLayout.get_view_index_at pos self'
          = (Exc TypeError, self'))
    /\ (forall (data : list Data) viewport,
          RecycleGridLayout.compute_visible_views data viewport self'
          = (Exc TypeError, self')).
Proof.
  intros (cols & rows & cp & rp & Hc & Hr & Hcp & Hrp & Hlc & Hlr & H1c
          & H1r) Hcfg.
  rewrite (full_pass_unconfigured n self Hcfg).
  eexists. split; [done|]. split; [done|]. split; [done|].
  set (self' := RecycleGridLayout.set_grid _ _).
  assert (forall pos,
            RecycleGridLayout.get_view_index_at pos self'
            = (Exc TypeError, self')) as Hidx.
  { intros pos.
    apply (view_index_without_cols self' rows cp rp); try done; lia. }
  split; [done|].
  intros data [[[x y] w] h].
  unfold RecycleGridLayout.compute_visible_views. unfold bind at 1.
  unfold get.
  change (RecycleGridLayout._cols_pos self')
    with (RecycleGridLayout._cols_pos self).
  rewrite Hcp. unfold bind. by rewrite Hidx.
Qed.

(** [cols = None; rows = None], set from outside. *)
Definition without_counts (self : RecycleGridLayout.t)
  : RecycleGridLayout.t :=
  let g := RecycleGridLayout.grid self in
  RecycleGridLayout.set_grid
    (GridLayout.mk (GridLayout.spacing g) (GridLayout.padding g) None None
       (GridLayout.col_default_width g) (GridLayout.row_default_height g)
       (GridLayout.col_force_default g) (GridLayout.row_force_default g)
       (GridLayout.cols_minimum g) (GridLayout.rows_minimum g)
       (GridLayout.minimum_width g) (GridLayout.minimum_height g)
       (GridLayout.x g) (GridLayout.y g) (GridLayout.width g)
       (GridLayout.height g) (GridLayout.children g) (GridLayout._cols g)
       (GridLayout._rows g) (GridLayout._cols_sh g) (GridLayout._rows_sh g))
    self.

Lemma without_counts_boundaries (self : RecycleGridLayout.t) :
  has_boundaries self -> has_boundaries (without_counts self).
Proof.
  intros (cols & rows & cp & rp & H). by exists cols, rows, cp, rp.
Qed.

(** The five views laid out above, after [cols] was set to [None]. *)
Lemma unconfigured_pass_keeps_boundaries_witness :
  exists self',
    RecycleGridLayout.full_pass 5 (without_counts five_views_laid_out)
    = (Val tt, self')
    /\ GridLayout._cols (RecycleGridLayout.grid self') = None
    /\ RecycleGridLayout._cols_pos self'
       = RecycleGridLayout._cols_pos (without_counts five_views_laid_out)
    /\ (forall pos,
          RecycleGridLayout.get_view_index_at pos self'
          = (Exc TypeError, self'))
    /\ (forall (data : list unit) viewport,
          RecycleGridLayout.compute_visible_views data viewport self'
          = (Exc TypeError, self')).
Proof.
  apply (unconfigured_pass_keeps_boundaries (Data := unit) 5
           (without_counts five_views_laid_out)).
  - apply without_counts_boundaries.
    apply (full_pass_boundaries 5 five_views five_views_laid_out
             (default [] (GridLayout._cols
                            (RecycleGridLayout.grid five_views_laid_out))));
      by_run.
  - reflexivity.
Defined.

(** ** The rectangle of views that a viewport shows *)

Lemma elem_of_concat {A} (x : A) (ls : list (list A)) :
  x ∈ concat ls <-> exists l, l ∈ ls /\ x ∈ l.
Proof.
  induction ls as [|l ls IH]; simpl.
  - split; [by intros ?%elem_of_nil|]. by intros (l & ?%elem_of_nil & _).
  - rewrite elem_of_app, IH. split.
    + intros [H|(l' & H1 & H2)].
      * exists l. split; [apply list_elem_of_here|done].
      * exists l'. split; [by apply list_elem_of_further|done].
    + intros (l' & [->|H1]%elem_of_cons & H2); [by left|].
      right. by exists l'.
Qed.

Lemma div_mod_cell (nc R i : Z) :
  (0 <= i < nc)%Z ->
  ((R * nc + i) `div` nc = R /\ (R * nc + i) `mod` nc = i)%Z.
Proof.
  intros Hi. rewrite Z.div_add_l by lia. rewrite Z.div_small by lia.
  split; [lia|]. rewrite Z.add_comm, Z.mod_add by lia.
  apply Z.mod_small. lia.
Qed.

(** The slices between the corners [tl], [bl] and [br] of a grid of [nc]
    columns: the views of the rows from that of [tl] to that of [bl], in
    the columns from that of [bl] to that of [br]. *)
Lemma slices_rectangle (n nc Rt Rb il ir tl bl br k : Z) :
  (0 < nc)%Z -> (0 <= n)%Z -> (0 <= Rt <= Rb)%Z -> (0 <= il <= ir)%Z ->
  (ir < nc)%Z ->
  tl = (Rt * nc + il)%Z -> bl = (Rb * nc + il)%Z -> br = (Rb * nc + ir)%Z ->
  k ∈ slices n (br - bl + 1) (py_range_step tl (bl + 1) nc)
  <-> (0 <= k < n)%Z
      /\ (tl `div` nc <= k `div` nc <= bl `div` nc)%Z
      /\ (bl `mod` nc <= k `mod` nc <= br `mod` nc)%Z.
Proof.
  intros Hnc Hn HR Hi Hir -> -> ->.
  destruct (div_mod_cell nc Rt il ltac:(lia)) as [-> _].
  destruct (div_mod_cell nc Rb il ltac:(lia)) as [-> ->].
  destruct (div_mod_cell nc Rb ir ltac:(lia)) as [_ ->].
  unfold slices, py_range_step, py_range.
  replace ((Rb * nc + il + 1 - (Rt * nc + il) + nc - 1) `div` nc)%Z
    with (Rb - Rt + 1)%Z.
  2:{ replace (Rb * nc + il + 1 - (Rt * nc + il) + nc - 1)%Z
        with ((Rb - Rt + 1) * nc + 0)%Z by ring.
      by destruct (div_mod_cell nc (Rb - Rt + 1) 0 ltac:(lia)) as [-> _]. }
  rewrite elem_of_concat. split.
  - intros (l & Hl & Hk).
    apply list_elem_of_fmap in Hl as (s & -> & Hs).
    apply list_elem_of_fmap in Hs as (i & -> & Hi').
    apply elem_of_seqZ in Hi', Hk.
    assert (exists j, k = ((Rt + i) * nc + j)%Z /\ (il <= j <= ir)%Z)
      as (j & -> & Hj).
    { exists (k - (Rt + i) * nc)%Z. lia. }
    destruct (div_mod_cell nc (Rt + i) j ltac:(lia)) as [-> ->]. lia.
  - intros (Hk & HRk & Hik).
    pose proof (Z.div_mod k nc ltac:(lia)) as Hdm.
    exists (seqZ (Z.min (Rt * nc + il + (k `div` nc - Rt) * nc) n)
              (Z.min n (Rt * nc + il + (k `div` nc - Rt) * nc
                        + (Rb * nc + ir - (Rb * nc + il) + 1))
               - Z.min (Rt * nc + il + (k `div` nc - Rt) * nc) n)).
    split.
    + apply list_elem_of_fmap.
      exists (Rt * nc + il + (k `div` nc - Rt) * nc)%Z. split; [done|].
      apply list_elem_of_fmap. exists (k `div` nc - Rt)%Z. split; [done|].
      apply elem_of_seqZ. lia.
    + apply elem_of_seqZ. lia.
Qed.

Lemma visible_views_corners {Data : Type} (self : RecycleGridLayout.t)
    (cols : list Qc) (data : list Data) (x y w h : Qc) :
  has_boundaries self ->
  GridLayout._cols (RecycleGridLayout.grid self) = Some cols ->
  0 <= w -> 0 <= h ->
  exists bl br tl indices,
    RecycleGridLayout.get_view_index_at (x, y) self = (Val bl, self)
    /\ RecycleGridLayout.get_view_index_at (x + w, y) self = (Val br, self)
    /\ RecycleGridLayout.get_view_index_at (x, y + h) self = (Val tl, self)
    /\ RecycleGridLayout.compute_visible_views data (x, y, w, h) self
       = (Val indices, self)
    /\ forall k,
         k ∈ indices
         <-> (0 <= k < Z.of_nat (length data))%Z
             /\ (tl `div` Z.of_nat (length cols)
                 <= k `div` Z.of_nat (length cols)
                 <= bl `div` Z.of_nat (length cols))%Z
             /\ (bl `mod` Z.of_nat (length cols)
                 <= k `mod` Z.of_nat (length cols)
                 <= br `mod` Z.of_nat (length cols))%Z.
Proof.
  intros (cols' & rows & cp & rp & Hc & Hr & Hcp & Hrp & Hlc & Hlr & H1c
          & H1r) Hcols Hw Hh.
  assert (cols' = cols) as -> by congruence.
  destruct (axis_index_mono (St := RecycleGridLayout.t) x (x + w) cp cols
              self Hlc ltac:(lia)) as (ixl & ixr & Hixl & Hixr & Bx & Bx').
  { clear -Hw. qc_lra. }
  destruct (axis_index_mono (St := RecycleGridLayout.t) y (y + h) rp rows
              self Hlr ltac:(lia)) as (iyb & iyt & Hiyb & Hiyt & By & By').
  { clear -Hh. qc_lra. }
  set (nc := Z.of_nat (length cols)) in *.
  set (nr := Z.of_nat (length rows)) in *.
  exists ((nr - iyb - 1) * nc + ixl)%Z, ((nr - iyb - 1) * nc + ixr)%Z,
    ((nr - iyt - 1) * nc + ixl)%Z.
  pose proof (get_view_index_at_run self cols rows cp rp x y ixl iyb
                Hc Hr Hcp Hrp ltac:(lia) ltac:(lia) Hixl Hiyb) as Hbl.
  pose proof (get_view_index_at_run self cols rows cp rp (x + w) y ixr iyb
                Hc Hr Hcp Hrp ltac:(lia) ltac:(lia) Hixr Hiyb) as Hbr.
  pose proof (get_view_index_at_run self cols rows cp rp x (y + h) ixl iyt
                Hc Hr Hcp Hrp ltac:(lia) ltac:(lia) Hixl Hiyt) as Htl.
  fold nc nr in Hbl, Hbr, Htl.
  eexists. split; [done|]. split; [done|]. split; [done|]. split.
  - unfold RecycleGridLayout.compute_visible_views.
    unfold bind at 1. unfold get. rewrite Hcp. unfold bind.
    rewrite Hbl, Hbr, Htl, Hc. unfold as_list, ret.
    fold nc. rewrite bool_decide_false by lia. reflexivity.
  - intros k.
    apply (slices_rectangle (Z.of_nat (length data)) nc (nr - iyt - 1)
             (nr - iyb - 1) ixl ixr); lia.
Qed.

(** X17: after a full pass of [compute_layout] that left columns, for a
    viewport [(x, y, w, h)] with [w] and [h] not below 0,
    [compute_visible_views] returns exactly the data indices of a
    rectangle of cells: those below [len(data)] whose row is between the
    row of the view at the top left corner and the row of the view at
    the bottom left corner, and whose column is between the column of
    the view at the bottom left corner and the column of the view at the
    bottom right corner, the corners being looked up with
    [get_view_index_at]. *)
Theorem visible_views_rectangle {Data : Type} (n : nat)
    (self self' : RecycleGridLayout.t) (cols : list Qc) (data : list Data)
    (x y w h : Qc) :
  RecycleGridLayout.full_pass n self = (Val tt, self') ->
  GridLayout._cols (RecycleGridLayout.grid self') = Some cols ->
  0 <= w -> 0 <= h ->
  exists bl br tl indices,
    RecycleGridLayout.get_view_index_at (x, y) self' = (Val bl, self')
    /\ RecycleGridLayout.get_view_index_at (x + w, y) self' = (Val br, self')
    /\ RecycleGridLayout.get_view_index_at (x, y + h) self' = (Val tl, self')
    /\ RecycleGridLayout.compute_visible_views data (x, y, w, h) self'
       = (Val indices, self')
    /\ forall k,
         k ∈ indices
         <-> (0 <= k < Z.of_nat (length data))%Z
             /\ (tl `div` Z.of_nat (length cols)
                 <= k `div` Z.of_nat (length cols)
                 <= bl `div` Z.of_nat (length cols))%Z
             /\ (bl `mod` Z.of_nat (length cols)
                 <= k `mod` Z.of_nat (length cols)
                 <= br `mod` Z.of_nat (length cols))%Z.
Proof.
  intros H Hc Hw Hh. apply visible_views_corners; [|done..].
  by eapply full_pass_boundaries.
Qed.

(** The viewport 50 wide and 200 high at (200, 0) on the five views: the
    second column, the views 1 and 3. *)
Lemma visible_views_rectangle_witness :
  exists bl br tl indices,
    RecycleGridLayout.get_view_index_at (num 200, 0) five_views_laid_out
    = (Val bl, five_views_laid_out)
    /\ RecycleGridLayout.get_view_index_at (num 200 + num 50, 0)
         five_views_laid_out
       = (Val br, five_views_laid_out)
    /\ RecycleGridLayout.get_view_index_at (num 200, 0 + num 200)
         five_views_laid_out
       = (Val tl, five_views_laid_out)
    /\ RecycleGridLayout.compute_visible_views (replicate 5 tt)
         (num 200, 0, num 50, num 200) five_views_laid_out
       = (Val indices, five_views_laid_out)
    /\ forall k,
         k ∈ indices
         <-> (0 <= k < Z.of_nat (length (replicate 5 tt)))%Z
             /\ (tl `div` Z.of_nat (length [num 146; num 146])
                 <= k `div` Z.of_nat (length [num 146; num 146])
                 <= bl `div` Z.of_nat (length [num 146; num 146]))%Z
             /\ (bl `mod` Z.of_nat (length [num 146; num 146])
                 <= k `mod` Z.of_nat (length [num 146; num 146])
                 <= br `mod` Z.of_nat (length [num 146; num 146]))%Z.
Proof.
  apply (visible_views_rectangle 5 five_views five_views_laid_out
           [num 146; num 146]); by_run.
Defined.

(** ** Passes after a pass *)

(** [do_layout()], [times] times in a row. *)
Fixpoint do_layout_times (times : nat) : M GridLayout.t unit :=
  match times with
  | O => ret tt
  | S times' => _ <- GridLayout.do_layout ;; do_layout_times times'
  end.

(** X18: on a grid with children and with [cols] or [rows], a pass of
    [do_layout] that returns reaches a fixed point: any number of further
    passes return as well and change nothing, neither a position or size
    of a child nor a list or the minimum size of the grid. *)
Theorem do_layout_settles (self self' : GridLayout.t) (times : nat) :
  GridLayout.children self <> [] ->
  truthy_count (GridLayout.cols self) || truthy_count (GridLayout.rows self)
  = true ->
  GridLayout.do_layout self = (Val tt, self') ->
  do_layout_times times self' = (Val tt, self').
Proof.
  intros Hch Hcfg H.
  pose proof (do_layout_idempotent self self' Hch Hcfg H) as H2.
  induction times as [|times IH]; [done|].
  cbn [do_layout_times]. by rewrite (bind_run _ _ _ _ _ H2).
Qed.

Lemma do_layout_settles_witness :
  do_layout_times 3 (snd (GridLayout.do_layout two_kinds))
  = (Val tt, snd (GridLayout.do_layout two_kinds)).
Proof.
  apply (do_layout_settles two_kinds); [done|reflexivity|by_run].
Defined.

(** ** What an update without a full pass has checked *)

Lemma zoom_Val {St L A} (getf : St -> L) (setf : L -> St -> St) (m : M L A)
    (s s' : St) (a : A) :
  zoom getf setf m s = (Val a, s') ->
  exists l', m (getf s) = (Val a, l') /\ s' = setf l' s.
Proof.
  unfold zoom. destruct (m (getf s)) as [r l']. intros [= -> <-]. eauto.
Qed.

(** What [_update_rows_cols_sizes] has seen of an item of [changed] when it
    did not ask for the full pass, in [n_cols] columns: the size hints
    did not change, and either the view was removed (a stretched length
    changed) or every fixed length that changed still fits into the column
    or row of the item. *)
Definition item_fits (cols rows : list Qc) (n_cols : nat)
    (ch : RecycleGridLayout.Changed) : Prop :=
  let w := fst (RecycleGridLayout.ch_size ch) in
  let h := snd (RecycleGridLayout.ch_size ch) in
  let wn := fst (RecycleGridLayout.ch_new_size ch) in
  let hn := snd (RecycleGridLayout.ch_new_size ch) in
  let sh := RecycleGridLayout.ch_sh ch in
  sh = RecycleGridLayout.ch_shn ch
  /\ (is_Some (fst sh) /\ w <> wn \/ is_Some (snd sh) /\ h <> hn
      \/ (w <> wn ->
          exists col_w,
            cols !! (RecycleGridLayout.ch_index ch mod n_cols)%nat
            = Some col_w /\ wn <= col_w)
         /\ (h <> hn ->
             exists row_h,
               rows !! (RecycleGridLayout.ch_index ch / n_cols)%nat
               = Some row_h /\ hn <= row_h)).

Lemma update_axis_false (sizes : list Qc) (slot : nat) (old new : Qc)
    (hists hists' : pylist (gmap Qc Z)) :
  RecycleGridLayout.update_axis (Some sizes) slot old new hists
  = (Val false, hists') ->
  exists size, sizes !! slot = Some size /\ new <= size.
Proof.
  unfold RecycleGridLayout.update_axis. intros H.
  apply bind_Val in H as (l & s1 & [= <- <-] & H).
  apply bind_Val in H as (size & s2 & Hl & H).
  rewrite lookup_item_nat in Hl.
  destruct (sizes !! slot) as [size'|] eqn:Hs; [|done].
  injection Hl as -> <-.
  apply bind_Val in H as ([] & s3 & _ & H).
  apply bind_Val in H as ([] & s4 & _ & H).
  apply bind_Val in H as (c & s5 & _ & H).
  exists size. split; [done|].
  destruct (bool_decide (size < new)) eqn:E.
  - rewrite orb_true_r in H. done.
  - apply bool_decide_eq_false in E. by apply Qcnot_lt_le.
Qed.

Lemma update_item_tame (n_cols : nat) (ch : RecycleGridLayout.Changed) :
  tame RecycleGridLayout.grid (RecycleGridLayout.update_item n_cols ch).
Proof.
  unfold RecycleGridLayout.update_item.
  destruct (RecycleGridLayout.ch_size ch), (RecycleGridLayout.ch_new_size ch).
  unfold RecycleGridLayout.update_axis, RecycleGridLayout.hist_add,
    RecycleGridLayout.hist_get, RecycleGridLayout.hist_del.
  tame_all.
Qed.

Lemma update_item_false (n_cols : nat) (ch : RecycleGridLayout.Changed)
    (s s' : RecycleGridLayout.t) (cols rows : list Qc) :
  GridLayout._cols (RecycleGridLayout.grid s) = Some cols ->
  GridLayout._rows (RecycleGridLayout.grid s) = Some rows ->
  RecycleGridLayout.update_item n_cols ch s = (Val false, s') ->
  item_fits cols rows n_cols ch.
Proof.
  intros Hc Hr. unfold RecycleGridLayout.update_item, item_fits.
  destruct (RecycleGridLayout.ch_size ch) as [w h].
  destruct (RecycleGridLayout.ch_new_size ch) as [wn hn].
  cbn [fst snd].
  case_bool_decide as Hsh; cbn [negb]; [|done].
  intros H. split; [done|].
  destruct (bool_decide (is_Some (fst (RecycleGridLayout.ch_sh ch)))
            && negb (bool_decide (w = wn))
            || bool_decide (is_Some (snd (RecycleGridLayout.ch_sh ch)))
               && negb (bool_decide (h = hn))) eqn:Hrm.
  { apply orb_true_iff in Hrm as [Hrm|Hrm];
      apply andb_true_iff in Hrm as [H1 H2];
      apply bool_decide_eq_true in H1;
      apply negb_true_iff, bool_decide_eq_false in H2; auto. }
  right. right.
  apply bind_Val in H as ([row col] & s1 & Hdm & H).
  unfold py_divmod in Hdm. destruct n_cols as [|n']; [done|].
  injection Hdm as <- <- <-.
  apply bind_Val in H as (self & s2 & [= <- <-] & H).
  apply bind_Val in H as (stop & s3 & Hw & H).
  destruct stop; [done|]. rewrite Hc in Hw. rewrite Hr in H.
  split.
  - intros Hne. rewrite bool_decide_false in Hw by done. cbn [negb] in Hw.
    apply zoom_Val in Hw as (l' & Hw & _).
    by apply update_axis_false in Hw.
  - intros Hne. rewrite bool_decide_false in H by done. cbn [negb] in H.
    apply zoom_Val in H as (l' & H & _).
    by apply update_axis_false in H.
Qed.

Lemma update_loop_false (n_cols : nat)
    (changed : list RecycleGridLayout.Changed) (s s' : RecycleGridLayout.t)
    (cols rows : list Qc) :
  GridLayout._cols (RecycleGridLayout.grid s) = Some cols ->
  GridLayout._rows (RecycleGridLayout.grid s) = Some rows ->
  RecycleGridLayout.update_loop n_cols changed s = (Val false, s') ->
  Forall (item_fits cols rows n_cols) changed.
Proof.
  revert s. induction changed as [|ch changed IH]; intros s Hc Hr H;
    [constructor|].
  cbn [RecycleGridLayout.update_loop] in H.
  apply bind_Val in H as (stop & s1 & H1 & H).
  destruct stop; [done|].
  pose proof (tame_state _ _ _ _ _ (update_item_tame n_cols ch) H1) as Hg.
  constructor.
  - by apply (update_item_false n_cols ch s s1).
  - apply (IH s1); [by rewrite Hg..|done].
Qed.

(** X19: [_update_rows_cols_sizes] returns [False] only for a batch that
    needs no full pass: then no item of [changed] changed its size hints,
    and every item either had its view removed (a stretched length
    changed) or has, for each fixed length that changed, a column (for a
    width) or row (for a height) that is still at least as large as the
    new length. *)
Theorem update_false_fits (self s' : RecycleGridLayout.t)
    (changed : list RecycleGridLayout.Changed) (cols rows : list Qc)
    (cc : list (gmap Qc Z)) :
  GridLayout._cols (RecycleGridLayout.grid self) = Some cols ->
  GridLayout._rows (RecycleGridLayout.grid self) = Some rows ->
  RecycleGridLayout._cols_count self = Some cc ->
  RecycleGridLayout._update_rows_cols_sizes changed self = (Val false, s') ->
  Forall (item_fits cols rows (length cc)) changed.
Proof.
  intros Hc Hr Hcc H. unfold RecycleGridLayout._update_rows_cols_sizes in H.
  apply bind_Val in H as (self0 & s1 & [= <- <-] & H). rewrite Hcc in H.
  apply bind_Val in H as (cc0 & s1 & [= <- <-] & H).
  apply bind_Val in H as (rc0 & s1 & H0 & H).
  destruct (RecycleGridLayout._rows_count self); [|done].
  injection H0 as _ <-.
  by apply (update_loop_false (length cc) changed self s').
Qed.

(** Four views of fixed sizes in two columns; the first one, 30 wide,
    gets 40 wide. *)
Definition fixed_views : RecycleGridLayout.t :=
  RecycleGridLayout.mk
    (GridLayout.mk (0, 0) (0, 0, 0, 0) (Some 2%nat) None 0 0 false false
       [] [] 0 0 0 0 (num 90) (num 20) [] None None None None)
    [RecycleGridLayout.mk_opt (None, None) (num 30, num 10) None;
     RecycleGridLayout.mk_opt (None, None) (num 40, num 10) None;
     RecycleGridLayout.mk_opt (None, None) (num 50, num 10) None;
     RecycleGridLayout.mk_opt (None, None) (num 40, num 10) None]
    (Some []) None None None None [].

Definition fixed_views_laid_out : RecycleGridLayout.t :=
  Eval vm_compute in snd (RecycleGridLayout.full_pass 4 fixed_views).

Lemma update_false_fits_witness :
  Forall (item_fits [num 50; num 40] [num 10; num 10] 2)
    [RecycleGridLayout.mk_changed 0 0 (num 30, num 10) (num 40, num 10)
       (None, None) (None, None)].
Proof.
  apply (update_false_fits fixed_views_laid_out
           (snd (RecycleGridLayout._update_rows_cols_sizes
                   [RecycleGridLayout.mk_changed 0 0 (num 30, num 10)
                      (num 40, num 10) (None, None) (None, None)]
                   fixed_views_laid_out))
           _ [num 50; num 40] [num 10; num 10]
           (default [] (RecycleGridLayout._cols_count fixed_views_laid_out)));
    by_run.
Defined.

(** ** [RecycleGridLayout] lays out as [GridLayout] does *)

(** The steps of a full pass that returns and leaves columns. *)
Lemma full_pass_steps (n : nat) (self self' : RecycleGridLayout.t) :
  RecycleGridLayout.full_pass n self = (Val tt, self') ->
  fst (GridLayout._init_rows_cols_sizes n (RecycleGridLayout.grid self))
  = Val true ->
  length (RecycleGridLayout.view_opts self) = n ->
  exists c r g1 g4 g5,
    GridLayout._init_rows_cols_sizes n (RecycleGridLayout.grid self)
    = (Val true, g1)
    /\ GridLayout.resolve_counts n (RecycleGridLayout.grid self)
       = (Val (Some (c, r)), RecycleGridLayout.grid self)
    /\ GridLayout._update_minimum_size
         (RecycleGridLayout.grid
            (rfill_all c 0 (RecycleGridLayout.view_opts self)
               (new_counts c r
                  (RecycleGridLayout.set_grid g1
                     (RecycleGridLayout.log RecycleGridLayout.clear_layout
                        self)))))
       = (Val tt, g4)
    /\ GridLayout.finalize_cols g4 = (Val tt, g5)
    /\ GridLayout.finalize_rows g5 = (Val tt, RecycleGridLayout.grid self').
Proof.
  unfold RecycleGridLayout.full_pass. intros H Hinit Hn.
  apply bind_Val in H as ([] & s0 & [= <-] & H).
  apply bind_Val in H as (ok & s1 & H1 & H).
  apply super_Val in H1 as (g1 & H1 & ->).
  cbn [RecycleGridLayout.grid RecycleGridLayout.log] in H1.
  rewrite H1 in Hinit. cbn [fst] in Hinit. injection Hinit as ->.
  cbn [negb] in H.
  apply bind_Val in H as ([] & s3 & H3 & H).
  apply bind_Val in H as ([] & s4 & H4 & H).
  apply bind_Val in H as ([] & s5 & H5 & H).
  apply bind_Val in H as (cells & s6 & H6 & H).
  apply bind_Val in H as ([] & s7 & H7 & H8).
  destruct (init_Val_shaped _ _ _ H1)
    as (c & r & Hres & Hc1 & Hr1 & Hs1 & _ & _).
  set (s1 := RecycleGridLayout.set_grid g1
               (RecycleGridLayout.log RecycleGridLayout.clear_layout self))
    in *.
  destruct (rfill_run c r s1 Hs1) as [Hrun Hrs]. rewrite Hrun in H3.
  unfold enumerate in H3.
  destruct (rfill_loop_run c r 0 (RecycleGridLayout.view_opts s1)
              (new_counts c r s1) Hrs Hc1) as [Hval Hexc].
  change (RecycleGridLayout.view_opts s1)
    with (RecycleGridLayout.view_opts self) in *.
  assert (n <= r * c)%nat as Hcap.
  { destruct (decide (n <= r * c)%nat) as [Hle|Hgt]; [done|].
    rewrite (surjective_pairing (for_each _ _ _)) in H3.
    rewrite Hexc in H3; [done| |lia].
    intros Hnil. rewrite Hnil in Hn. simpl in Hn. lia. }
  rewrite Hval in H3 by lia.
  assert (s3 = rfill_all c 0 (RecycleGridLayout.view_opts self)
                 (new_counts c r s1)) as E3 by congruence.
  apply super_Val in H4 as (g4 & H4 & ->).
  apply super_Val in H5 as (g6 & H5 & ->).
  cbn [RecycleGridLayout.grid RecycleGridLayout.set_grid] in H5.
  unfold GridLayout._finalize_rows_cols_sizes in H5.
  apply bind_Val in H5 as ([] & g5 & H5 & H6').
  apply super_Val in H6 as (g7 & H6 & ->).
  cbn [RecycleGridLayout.grid RecycleGridLayout.set_grid] in H6.
  pose proof (tame_state (fun s => s) _ _ _ _ (iterate_layout_tame _) H6)
    as E7. simpl in E7. subst g7.
  unfold zoom in H7.
  destruct (for_each cells _ _) as [res opts'] eqn:Hplace.
  injection H7 as -> <-.
  pose proof (tame_state _ _ _ _ _ set_boundaries_tame H8) as K8.
  apply (f_equal fst) in K8. cbn [fst] in K8.
  cbn [RecycleGridLayout.grid RecycleGridLayout.set_grid
       RecycleGridLayout.set_view_opts] in K8.
  exists c, r, g1, g4, g5. fold s1. rewrite K8, <- E3. done.
Qed.

(** A child and the view of a data item that ask for the same layout. *)
Definition same_item (child : Widget.t) (opt : RecycleGridLayout.ViewOpt)
  : Prop :=
  RecycleGridLayout.opt_size_hint opt = Widget.size_hint child
  /\ RecycleGridLayout.opt_size opt = Widget.size child.

Lemma fill_spec_arrays (row col : nat) hint size (s t : GridLayout.t) :
  arrays s = arrays t ->
  arrays (fill_spec row col hint size s)
  = arrays (fill_spec row col hint size t).
Proof.
  unfold arrays, fill_spec. intros [= H1 H2 H3 H4].
  destruct hint as [[shw|] [shh|]]; simpl; by rewrite ?H1, ?H2, ?H3, ?H4.
Qed.

Lemma fill_all_arrays (n k : nat) (l : list Widget.t)
    (opts : list RecycleGridLayout.ViewOpt) (s : RecycleGridLayout.t)
    (t : GridLayout.t) :
  Forall2 same_item l opts ->
  arrays (RecycleGridLayout.grid s) = arrays t ->
  arrays (RecycleGridLayout.grid (rfill_all n k opts s))
  = arrays (fill_all n k l t).
Proof.
  intros Hl. revert k s t.
  induction Hl as [|child opt l opts [Hh Hz] Hl IH]; intros k s t Ha;
    [done|].
  simpl. apply IH. rewrite rfill_spec_grid, Hh, Hz.
  by apply fill_spec_arrays.
Qed.

Lemma place_result (pos : Qc * Qc) (w h : Qc) (c : Widget.t) :
  Widget.pos (GridLayout.place pos w h c) = pos
  /\ Widget.size_hint (GridLayout.place pos w h c) = Widget.size_hint c
  /\ Widget.size (GridLayout.place pos w h c)
     = (match fst (Widget.size_hint c) with
        | None => fst (Widget.size c)
        | Some _ => w
        end,
        match snd (Widget.size_hint c) with
        | None => snd (Widget.size c)
        | Some _ => h
        end).
Proof.
  unfold GridLayout.place. by destruct c as [p [wo ho] [[shw|] [shh|]]].
Qed.

Lemma passes_agree (g g' : GridLayout.t) (R R' : RecycleGridLayout.t) :
  GridLayout.children g <> [] ->
  truthy_count (GridLayout.cols g) || truthy_count (GridLayout.rows g)
  = true ->
  config (RecycleGridLayout.grid R) = config g ->
  Forall2 same_item (rev (GridLayout.children g))
    (RecycleGridLayout.view_opts R) ->
  GridLayout.do_layout g = (Val tt, g') ->
  RecycleGridLayout.full_pass (length (GridLayout.children g)) R
  = (Val tt, R') ->
  arrays (RecycleGridLayout.grid R') = arrays g'
  /\ minimum (RecycleGridLayout.grid R') = minimum g'
  /\ forall j child,
       rev (GridLayout.children g) !! j = Some child ->
       exists child' opt',
         rev (GridLayout.children g') !! j = Some child'
         /\ RecycleGridLayout.view_opts R' !! j = Some opt'
         /\ RecycleGridLayout.opt_pos opt' = Some (Widget.pos child')
         /\ RecycleGridLayout.opt_size opt' = Widget.size child'
         /\ RecycleGridLayout.opt_size_hint opt' = Widget.size_hint child'.
Proof.
  intros Hch Hcfg Hconf Hitems Hg HR.
  set (n := length (GridLayout.children g)) in *.
  assert (length (RecycleGridLayout.view_opts R) = n) as Hn.
  { apply Forall2_length in Hitems. rewrite length_rev in Hitems.
    by rewrite <- Hitems. }
  destruct (pass_shape g g' Hch Hcfg Hg)
    as (c & r & s1 & s3 & s4 & s5 & s6 & cells & ch' & Hsteps & -> & Hres
        & Hc1 & Hr1 & Hs1 & Hcap & E3 & Hs4 & Hs6).
  destruct Hsteps as (H1 & H3 & H4 & H5 & H6 & H7 & Hp).
  fold n in H1, H7, Hres, Hcap.
  destruct (init_agree n (RecycleGridLayout.grid R) g Hconf) as [Ef Ea].
  rewrite H1 in Ef, Ea. cbn [fst snd] in Ef, Ea.
  destruct (full_pass_steps n R R' HR Ef Hn)
    as (c' & r' & g1 & g4 & g5 & G1 & Gres & G4 & G5 & G6).
  assert (c' = c /\ r' = r) as [-> ->].
  { pose proof (resolve_counts_agree n _ _ Hconf) as E.
    rewrite Gres, Hres in E. cbn [fst] in E. split; congruence. }
  rewrite G1 in Ea. cbn [fst snd] in Ea. specialize (Ea eq_refl).
  set (R1 := new_counts c r _) in G4.
  set (g3 := RecycleGridLayout.grid
               (rfill_all c 0 (RecycleGridLayout.view_opts R) R1)) in *.
  assert (arrays g3 = arrays s3) as A3.
  { rewrite E3. by apply fill_all_arrays. }
  pose proof (tame_state _ _ _ _ _ (init_tame _) H1) as K1.
  pose proof (tame_state _ _ _ _ _ (init_tame _) G1) as L1.
  apply (f_equal fst) in K1, L1. cbn [fst] in K1, L1.
  destruct (fill_all_frame c 0 (rev (GridLayout.children g)) s1)
    as (Kf3 & _ & _). rewrite <- E3 in Kf3.
  destruct (rfill_all_frame c 0 (RecycleGridLayout.view_opts R) R1)
    as (_ & Lf3). fold g3 in Lf3.
  change (config (RecycleGridLayout.grid R1)) with (config g1) in Lf3.
  assert (config g3 = config s3) as C3 by congruence.
  destruct (update_agree g3 s3 C3 A3) as [_ Um].
  rewrite G4, H4 in Um. cbn [fst snd] in Um. specialize (Um eq_refl).
  pose proof (tame_state _ _ _ _ _ update_minimum_size_tame H4) as K4.
  pose proof (tame_state _ _ _ _ _ update_minimum_size_tame G4) as L4.
  assert (config g4 = config s4) as C4.
  { apply (f_equal (fun t => fst (fst (fst (fst (fst t)))))) in K4, L4.
    cbn [fst] in K4, L4. congruence. }
  assert (arrays g4 = arrays s4) as A4.
  { unfold arrays in *. simpl in K4, L4. congruence. }
  destruct (finalize_cols_agree g4 s4 C4 A4 Um) as [_ A5].
  rewrite G5, H5 in A5. cbn [snd] in A5.
  pose proof (tame_state _ _ _ _ _ finalize_cols_tame H5) as K5.
  pose proof (tame_state _ _ _ _ _ finalize_cols_tame G5) as L5.
  assert (config g5 = config s5) as C5.
  { apply (f_equal (fun t => fst (fst (fst (fst (fst (fst t))))))) in K5, L5.
    cbn [fst] in K5, L5. congruence. }
  assert (minimum g5 = minimum s5) as M5.
  { unfold minimum in *. simpl in K5, L5. congruence. }
  destruct (finalize_rows_agree g5 s5 C5 A5 M5) as [_ A6].
  rewrite G6, H6 in A6. cbn [snd] in A6.
  pose proof (tame_state _ _ _ _ _ finalize_rows_tame H6) as K6.
  pose proof (tame_state _ _ _ _ _ finalize_rows_tame G6) as L6.
  assert (config (RecycleGridLayout.grid R') = config s6) as C6.
  { apply (f_equal (fun t => fst (fst (fst (fst (fst (fst t))))))) in K6, L6.
    cbn [fst] in K6, L6. congruence. }
  assert (minimum (RecycleGridLayout.grid R') = minimum s6) as M6.
  { unfold minimum in *. simpl in K6, L6. congruence. }
  split; [exact A6|]. split; [exact M6|].
  intros j child Hj.
  pose proof Hs6 as (B1 & B2 & _ & _).
  destruct (GridLayout._cols s6) as [cols|] eqn:Ec6; [|done].
  destruct (GridLayout._rows s6) as [rows|] eqn:Er6; [|done].
  assert (GridLayout._cols (RecycleGridLayout.grid R') = Some cols
          /\ GridLayout._rows (RecycleGridLayout.grid R') = Some rows)
    as [Rc Rr].
  { unfold arrays in A6. rewrite Ec6, Er6 in A6. split; congruence. }
  destruct (pass_places g (GridLayout.set_children ch' s6) cols rows Hch
              Hcfg Hg Ec6 Er6) as [_ Hplace].
  destruct (Hplace j child Hj) as (ce & Hce & Hchild').
  destruct (Forall2_lookup_l _ _ _ _ _ Hitems Hj) as (opt & Hopt & Hh & Hz).
  destruct (full_pass_views n R R' cols rows HR Rc Rr Hn) as (_ & _ & Hviews).
  destruct (Hviews j opt Hopt) as (ce' & Hce' & Hopt').
  assert (ce' = ce) as ->.
  { rewrite (grid_cell_config _ g) in Hce' by congruence. fold n in Hce.
    congruence. }
  eexists _, _. split; [exact Hchild'|]. split; [exact Hopt'|].
  unfold place_at.
  destruct (place_result (snd (fst ce)) (fst (snd ce)) (snd (snd ce)) child)
    as (-> & -> & ->).
  unfold RecycleGridLayout.place_opt. rewrite Hh, Hz.
  by destruct (Widget.size_hint child) as [[?|] [?|]],
       (Widget.size child) as [wo ho].
Qed.

(** X20: [RecycleGridLayout] lays out its views as [GridLayout] lays out
    its children.  For a [GridLayout] with children and with [cols] or
    [rows], and a [RecycleGridLayout] with the same properties (spacing,
    padding, [cols], [rows], defaults, minimums, position and size) whose
    views have, in the order of addition of the children, the size hints
    and sizes of the children: when [do_layout] and the full pass of
    [compute_layout] both return, they leave the same columns, rows and
    minimum size, and the view [j] gets the ['pos'] and the size that the
    [j]-th child added gets. *)
Theorem recycle_lays_out_alike (g g' : GridLayout.t)
    (R R' : RecycleGridLayout.t) :
  GridLayout.children g <> [] ->
  truthy_count (GridLayout.cols g) || truthy_count (GridLayout.rows g)
  = true ->
  config (RecycleGridLayout.grid R) = config g ->
  Forall2 same_item (rev (GridLayout.children g))
    (RecycleGridLayout.view_opts R) ->
  GridLayout.do_layout g = (Val tt, g') ->
  RecycleGridLayout.full_pass (length (GridLayout.children g)) R
  = (Val tt, R') ->
  GridLayout._cols (RecycleGridLayout.grid R') = GridLayout._cols g'
  /\ GridLayout._rows (RecycleGridLayout.grid R') = GridLayout._rows g'
  /\ GridLayout.minimum_width (RecycleGridLayout.grid R')
     = GridLayout.minimum_width g'
  /\ GridLayout.minimum_height (RecycleGridLayout.grid R')
     = GridLayout.minimum_height g'
  /\ forall j child,
       rev (GridLayout.children g) !! j = Some child ->
       exists child' opt',
         rev (GridLayout.children g') !! j = Some child'
         /\ RecycleGridLayout.view_opts R' !! j = Some opt'
         /\ RecycleGridLayout.opt_pos opt' = Some (Widget.pos child')
         /\ RecycleGridLayout.opt_size opt' = Widget.size child'
         /\ RecycleGridLayout.opt_size_hint opt' = Widget.size_hint child'.
Proof.
  intros Hch Hcfg Hconf Hitems Hg HR.
  destruct (passes_agree g g' R R' Hch Hcfg Hconf Hitems Hg HR)
    as (Ha & Hm & Hplace).
  unfold arrays in Ha. unfold minimum in Hm.
  repeat split; try congruence. exact Hplace.
Qed.

(** The grid with two kinds of children above, as a recycle grid. *)
Definition two_kinds_views : RecycleGridLayout.t :=
  RecycleGridLayout.mk (GridLayout.set_children [] two_kinds)
    [RecycleGridLayout.mk_opt (None, None) (num 70, num 20) None;
     RecycleGridLayout.mk_opt (Some (num 1), Some (num 1)) (num 10, num 10)
       None]
    (Some []) None None None None [].

Lemma recycle_lays_out_alike_witness :
  GridLayout._cols (RecycleGridLayout.grid
                      (snd (RecycleGridLayout.full_pass 2 two_kinds_views)))
  = GridLayout._cols (snd (GridLayout.do_layout two_kinds))
  /\ GridLayout._rows (RecycleGridLayout.grid
                         (snd (RecycleGridLayout.full_pass 2
                                 two_kinds_views)))
     = GridLayout._rows (snd (GridLayout.do_layout two_kinds))
  /\ GridLayout.minimum_width
       (RecycleGridLayout.grid
          (snd (RecycleGridLayout.full_pass 2 two_kinds_views)))
     = GridLayout.minimum_width (snd (GridLayout.do_layout two_kinds))
  /\ GridLayout.minimum_height
       (RecycleGridLayout.grid
          (snd (RecycleGridLayout.full_pass 2 two_kinds_views)))
     = GridLayout.minimum_height (snd (GridLayout.do_layout two_kinds))
  /\ forall j child,
       rev (GridLayout.children two_kinds) !! j = Some child ->
       exists child' opt',
         rev (GridLayout.children (snd (GridLayout.do_layout two_kinds)))
           !! j = Some child'
         /\ RecycleGridLayout.view_opts
              (snd (RecycleGridLayout.full_pass 2 two_kinds_views)) !! j
            = Some opt'
         /\ RecycleGridLayout.opt_pos opt' = Some (Widget.pos child')
         /\ RecycleGridLayout.opt_size opt' = Widget.size child'
         /\ RecycleGridLayout.opt_size_hint opt' = Widget.size_hint child'.
Proof.
  apply (recycle_lays_out_alike two_kinds _ two_kinds_views).
  - done.
  - reflexivity.
  - reflexivity.
  - repeat constructor.
  - by_run.
  - by_run.
Defined.

(** ** Cells next to each other *)













(** ** A pass without children *)

(** [(l + r, t + b)] for the padding [(l, t, r, b)]. *)
Definition padding_sums (self : GridLayout.t) : Qc * Qc :=
  let '(l, t, r, b) := GridLayout.padding self in (l + r, t + b).

(** [do_layout] after its first [if]. *)
Definition rest_of_pass (count : nat) : M GridLayout.t unit :=
  _ <- GridLayout._fill_rows_cols_sizes ;;
  _ <- GridLayout._update_minimum_size ;;
  _ <- GridLayout._finalize_rows_cols_sizes ;;
  cells <- GridLayout._iterate_layout count ;;
  zoom GridLayout.children GridLayout.set_children
    (for_each cells GridLayout.place_cell).

Lemma do_layout_no_children (self : GridLayout.t) :
  GridLayout.children self = [] ->
  GridLayout.do_layout self
  = rest_of_pass 0 (GridLayout.set_minimum_size (padding_sums self) self).
Proof.
  intros Hch. unfold GridLayout.do_layout, rest_of_pass, padding_sums.
  unfold bind at 1. unfold get. rewrite Hch.
  unfold bind at 1. unfold ret at 1. unfold bind at 1.
  by destruct (GridLayout.padding self) as [[[l t] r] b].
Qed.

(** X22: [do_layout] on a grid without children sets [minimum_size] to the
    padding sums and goes on with the rest of the pass.  On a grid that
    was never laid out ([_cols_sh] does not exist) it raises
    [AttributeError].  On a grid that still has the lists of an earlier
    pass (with keys of the minimums in range and no stretch hint below
    0) it returns, and [minimum_size] is then not the padding sums but
    what [_update_minimum_size] makes of the old lists: the paddings, the
    spacings and the sizes of the old columns and rows. *)
Theorem do_layout_without_children (self : GridLayout.t) :
  GridLayout.children self = [] ->
  (GridLayout._cols_sh self = None ->
   GridLayout.do_layout self
   = (Exc AttributeError,
      GridLayout.set_minimum_size (padding_sums self) self))
  /\ (forall c r cols rows,
        shaped c r self ->
        GridLayout._cols self = Some cols ->
        GridLayout._rows self = Some rows ->
        keys_in_range c (GridLayout.cols_minimum self) ->
        keys_in_range r (GridLayout.rows_minimum self) ->
        nonneg_hints (GridLayout._cols_sh self) ->
        nonneg_hints (GridLayout._rows_sh self) ->
        exists self',
          GridLayout.do_layout self = (Val tt, self')
          /\ GridLayout.children self' = []
          /\ GridLayout.minimum_width self'
             = fst (fst (fst (GridLayout.padding self)))
               + snd (fst (GridLayout.padding self))
               + fst (GridLayout.spacing self)
                 * num (Z.of_nat (length cols) - 1)
               + py_sum cols
          /\ GridLayout.minimum_height self'
             = snd (fst (fst (GridLayout.padding self)))
               + snd (GridLayout.padding self)
               + snd (GridLayout.spacing self)
                 * num (Z.of_nat (length rows) - 1)
               + py_sum rows).
Proof.
  intros Hch. rewrite (do_layout_no_children self Hch).
  set (s0 := GridLayout.set_minimum_size (padding_sums self) self).
  split.
  - intros Hsh. unfold rest_of_pass, GridLayout._fill_rows_cols_sizes.
    unfold bind at 1. unfold bind at 1. unfold get.
    change (GridLayout._cols_sh s0) with (GridLayout._cols_sh self).
    by rewrite Hsh.
  - intros c r cols rows Hs Hc Hr Hkc Hkr Hnc Hnr.
    assert (shaped c r s0) as Hs0 by done.
    unfold rest_of_pass.
    rewrite (bind_run _ _ s0 s0 tt).
    2:{ rewrite (fill_run c r s0 Hs0).
        change (GridLayout.children s0) with (GridLayout.children self).
        by rewrite Hch. }
    destruct (update_minimum_size_run s0 cols rows Hc Hr)
      as (v & H4 & Hv1 & Hv2).
    rewrite (bind_run _ _ _ _ _ H4).
    set (s4 := GridLayout.set_minimum_size v s0).
    assert (shaped c r s4) as Hs4 by done.
    destruct (finalize_cols_returns c r s4 Hs4 Hkc Hnc) as [s5 H5].
    pose proof (finalize_cols_shaped c r _ _ Hs4 H5) as Hs5.
    pose proof (tame_state _ _ _ _ _ finalize_cols_tame H5) as K5.
    simpl in K5.
    destruct (finalize_rows_returns c r s5 Hs5) as [s6 H6].
    { replace (GridLayout.rows_minimum s5)
        with (GridLayout.rows_minimum self); [done|].
      unfold config in K5. simpl in K5. congruence. }
    { replace (GridLayout._rows_sh s5) with (GridLayout._rows_sh self);
        [done|]. congruence. }
    pose proof (finalize_rows_shaped c r _ _ Hs5 H6) as Hs6.
    pose proof (tame_state _ _ _ _ _ finalize_rows_tame H6) as K6.
    simpl in K6.
    rewrite (bind_run _ _ s4 s6 tt).
    2:{ unfold GridLayout._finalize_rows_cols_sizes.
        by rewrite (bind_run _ _ _ _ _ H5). }
    pose proof Hs6 as (B1 & B2 & _ & _).
    destruct (GridLayout._cols s6) as [cs6|] eqn:Ec6; [|done].
    destruct (GridLayout._rows s6) as [rs6|] eqn:Er6; [|done].
    destruct (iterate_layout_run s6 cs6 rs6 0 Ec6 Er6)
      as (cells & H7 & Hlen & _).
    rewrite (bind_run _ _ _ _ _ H7).
    destruct cells as [|ce cells]; [|simpl in Hlen; lia].
    assert (GridLayout.children s6 = []) as Hch6.
    { replace (GridLayout.children s6) with (GridLayout.children self);
        [done|]. congruence. }
    eexists. split; [reflexivity|]. cbn [for_each]. unfold ret.
    cbn [fst snd GridLayout.children GridLayout.set_children
         GridLayout.minimum_width GridLayout.minimum_height].
    split; [done|].
    replace (GridLayout.minimum_width s6) with (fst v) by congruence.
    replace (GridLayout.minimum_height s6) with (snd v) by congruence.
    done.
Qed.

(** The grid with two kinds of children after a pass, and with its
    children removed since. *)
Definition emptied_grid : GridLayout.t :=
  GridLayout.set_children [] (snd (GridLayout.do_layout two_kinds)).

Lemma do_layout_without_children_witness :
  (GridLayout._cols_sh emptied_grid = None ->
   GridLayout.do_layout emptied_grid
   = (Exc AttributeError,
      GridLayout.set_minimum_size (padding_sums emptied_grid) emptied_grid))
  /\ (forall c r cols rows,
        shaped c r emptied_grid ->
        GridLayout._cols emptied_grid = Some cols ->
        GridLayout._rows emptied_grid = Some rows ->
        keys_in_range c (GridLayout.cols_minimum emptied_grid) ->
        keys_in_range r (GridLayout.rows_minimum emptied_grid) ->
        nonneg_hints (GridLayout._cols_sh emptied_grid) ->
        nonneg_hints (GridLayout._rows_sh emptied_grid) ->
        exists self',
          GridLayout.do_layout emptied_grid = (Val tt, self')
          /\ GridLayout.children self' = []
          /\ GridLayout.minimum_width self'
             = fst (fst (fst (GridLayout.padding emptied_grid)))
               + snd (fst (GridLayout.padding emptied_grid))
               + fst (GridLayout.spacing emptied_grid)
                 * num (Z.of_nat (length cols) - 1)
               + py_sum cols
          /\ GridLayout.minimum_height self'
             = snd (fst (fst (GridLayout.padding emptied_grid)))
               + snd (GridLayout.padding emptied_grid)
               + snd (GridLayout.spacing emptied_grid)
                 * num (Z.of_nat (length rows) - 1)
               + py_sum rows).
Proof. apply (do_layout_without_children emptied_grid). reflexivity. Defined.
